(** * Termux Orchestrator: build polling, artifact retrieval and delivery

    A shallow embedding of the delivery pipeline of the repository:
    - [trigger_ci.js]        (class [CITrigger]: [pollGitHubActions], [pollEAS]),
    - [poll_and_deliver.sh]  ([poll_github], [download_artifact], [install_apk], [main]),
    - the two [download_artifact.js] scripts (class [ArtifactDownloader]:
      [downloadFile], [findFiles], [extractArtifact], [validateArtifact]),
    - [auto_install.sh]      ([install_via_termux_open], [install_via_adb],
      [manual_fallback], [main]).

    External programs (gh, eas, adb, unzip, node, the HTTP peer) are the
    environment: every call of one is answered by a field of a world record.
    Shell and JavaScript control flow (loops, try/catch, [die], [set -e],
    promise settlement) is written out. *)

From Stdlib Require Import ZArith List String Ascii Bool Lia DecimalString.
Import ListNotations.
Local Open Scope string_scope.
Local Open Scope Z_scope.

(** ** Strings as the scripts use them *)

Module Str.

(** [s.endsWith(suffix)] of JavaScript, also [grep -q "suffix$"] on one line. *)
Fixpoint endsWith (s suffix : string) : bool :=
  if String.eqb s suffix then true
  else match s with
       | EmptyString => false
       | String _ rest => endsWith rest suffix
       end.

(** [s.startsWith(p)]. *)
Definition startsWith (s p : string) : bool := String.prefix p s.

(** [s.includes(sub)] of JavaScript, [grep -q "sub"] on one line. *)
Fixpoint includes (s sub : string) : bool :=
  if String.prefix sub s then true
  else match s with
       | EmptyString => false
       | String _ rest => includes rest sub
       end.

(** [${v%%c*}]: the longest suffix matching [c*] is removed, which leaves
    what stands before the first [c] (the whole value when there is none). *)
Fixpoint before_first (c : ascii) (s : string) : string :=
  match s with
  | EmptyString => EmptyString
  | String a rest =>
      if Ascii.eqb a c then EmptyString else String a (before_first c rest)
  end.

(** [${v#*c}]: the shortest prefix matching [*c] is removed, which leaves
    what stands after the first [c] (the whole value when there is none). *)
Fixpoint after_first (c : ascii) (s : string) : string :=
  match s with
  | EmptyString => EmptyString
  | String a rest =>
      if Ascii.eqb a c then rest
      else if includes rest (String c EmptyString) then after_first c rest
           else s
  end.

(** [${v##*c}]: the longest prefix matching [*c] is removed, which leaves
    what stands after the last [c] (the whole value when there is none). *)
Fixpoint after_last (c : ascii) (s : string) : string :=
  match s with
  | EmptyString => EmptyString
  | String a rest =>
      if includes rest (String c EmptyString) then after_last c rest
      else if Ascii.eqb a c then rest
           else s
  end.

(** [${v%c*}]: the shortest suffix matching [c*] is removed, which leaves
    what stands before the last [c] (the whole value when there is none). *)
Fixpoint before_last (c : ascii) (s : string) : string :=
  match s with
  | EmptyString => EmptyString
  | String a rest =>
      if includes rest (String c EmptyString) then String a (before_last c rest)
      else if Ascii.eqb a c then EmptyString
           else s
  end.

Definition is_colon (c : ascii) : bool := Ascii.eqb c ":"%char.

(** [s.split(':')]. *)
Fixpoint split_colon (s : string) : list string :=
  match s with
  | EmptyString => [EmptyString]
  | String c rest =>
      if is_colon c then EmptyString :: split_colon rest
      else match split_colon rest with
           | [] => [String c EmptyString]
           | f :: fs => String c f :: fs
           end
  end.

(** White space of [String.prototype.trim] within ASCII. *)
Definition is_space (c : ascii) : bool :=
  let n := N_of_ascii c in
  (N.eqb n 32 || (N.leb 9 n && N.leb n 13))%bool.

Fixpoint trimStart (s : string) : string :=
  match s with
  | EmptyString => EmptyString
  | String c rest => if is_space c then trimStart rest else s
  end.

Fixpoint all_space (s : string) : bool :=
  match s with
  | EmptyString => true
  | String c rest => (is_space c && all_space rest)%bool
  end.

Fixpoint trimEnd (s : string) : string :=
  match s with
  | EmptyString => EmptyString
  | String c rest => if all_space s then EmptyString else String c (trimEnd rest)
  end.

(** [s.trim()]. *)
Definition trim (s : string) : string := trimEnd (trimStart s).

(** [c] lowered when it is an ASCII capital. *)
Definition lower_ascii (c : ascii) : ascii :=
  let n := N_of_ascii c in
  if (N.leb 65 n && N.leb n 90)%bool then ascii_of_N (n + 32) else c.

(** [s.toLowerCase()] on ASCII text: only the letters A to Z are lowered.
    (JavaScript lowers other letters too: the Kelvin sign becomes k.) *)
Fixpoint toLowerCase (s : string) : string :=
  match s with
  | EmptyString => EmptyString
  | String c rest => String (lower_ascii c) (toLowerCase rest)
  end.

End Str.



(** A double quote and a line feed, as one-character strings. *)
Definition dq : string := String "034"%char EmptyString.
Definition nl : string := String "010"%char EmptyString.

(** Decimal text of an integer, as [$n] and [${n}] print it. *)
Definition string_of_Z (z : Z) : string := NilZero.string_of_int (Z.to_int z).

(** ** What a script does to its host

    The observable actions of the shell scripts, in the order they happen.
    [Attempt] marks the entry of an installation method of [auto_install.sh],
    [Concluded] the line with which its [main] reports how the chain ended. *)

Inductive Method := SystemInstaller | DeviceBridge | ManualFallback.

Inductive DeliveryOutcome := InstalledViaPrimary | InstalledViaSecondary | ManualRequired.

Inductive Event :=
| Query (attempt : Z)                     (* one status read of the CI backend *)
| Sleep (seconds : Z)                     (* sleep "$POLL_INTERVAL" *)
| Fatal (msg : string)                    (* die: log "FATAL: msg" *)
| Notification (title content : string)   (* termux-notification *)
| NodeDownload (cmd : string)             (* eval "$download_cmd" *)
| Chmod644 (path : string)
| TermuxOpen (path : string)
| AdbVersion
| AdbDevices
| AdbInstall (path : string)              (* adb install -r *)
| Attempt (m : Method)
| Instructions (path : string)            (* the here-document of manual_fallback *)
| Concluded (o : DeliveryOutcome).        (* the concluding log line of main *)

(** A file-system entry as [test -f], [du], [fs.existsSync] and
    [fs.statSync] see it. *)
Inductive Node :=
| RegularFile (size : N)
| Directory (size : N).

Definition FileSystem := string -> option Node.

Definition is_regular_file (fs : FileSystem) (p : string) : bool :=
  match fs p with
  | Some (RegularFile _) => true
  | _ => false
  end.

(** The value bash gives to an integer written in a script or on the
    command line: its arithmetic is that of signed 64-bit integers, which
    wrap around. *)
Definition int64 (z : Z) : Z := (z + 2 ^ 63) mod 2 ^ 64 - 2 ^ 63.

(** ** A shell with a trace, a standard output and [exit] *)

Module Shell.

Record St := mkSt { trace : list Event; out : list string }.

Definition init : St := mkSt [] [].

(** A command ends ([Done], with what it yields) or ends the shell ([Exit]). *)
Inductive Res (A : Type) :=
| Done (a : A)
| Exit (code : Z).
Arguments Done {A} a.
Arguments Exit {A} code.

Definition M (A : Type) : Type := St -> Res A * St.

Definition ret {A} (a : A) : M A := fun st => (Done a, st).

Definition bind {A B} (m : M A) (k : A -> M B) : M B :=
  fun st =>
    match m st with
    | (Done a, st') => k a st'
    | (Exit c, st') => (Exit c, st')
    end.

Definition emit (e : Event) : M unit :=
  fun st => (Done tt, mkSt (trace st ++ [e]) (out st)).

(** [echo line] *)
Definition echo (line : string) : M unit :=
  fun st => (Done tt, mkSt (trace st) (out st ++ [line])).

Definition exit {A} (code : Z) : M A := fun st => (Exit code, st).

(** A simple command that ended with [status]. Under [set -e], outside the
    condition of an [if] ([errexit = true]), a non-zero status ends the shell. *)
Definition status_of (errexit : bool) (status : Z) : M Z :=
  if (errexit && negb (status =? 0))%bool then exit status else ret status.

(** The text a command substitution leaves in the variable: the lines
    written, joined by line feeds, trailing line feeds removed. *)
Fixpoint strip_trailing_empty (ls : list string) : list string :=
  match ls with
  | [] => []
  | l :: rest =>
      match strip_trailing_empty rest with
      | [] => if String.eqb l EmptyString then [] else [l]
      | rest' => l :: rest'
      end
  end.

Definition text_of (ls : list string) : string :=
  String.concat nl (strip_trailing_empty ls).

(** [$(m)]: [m] runs in a subshell whose standard output is collected; an
    [exit] inside ends the subshell only, and its code is the status of the
    substitution. What the subshell did to the host stays in the trace. *)
Definition capture (m : M Z) : M (Z * string) :=
  fun st =>
    match m (mkSt (trace st) []) with
    | (Done status, st') => (Done (status, text_of (out st')), mkSt (trace st') (out st))
    | (Exit code, st') => (Done (code, text_of (out st')), mkSt (trace st') (out st))
    end.

Definition run {A} (m : M A) : Res A * St := m init.

End Shell.

Declare Scope sh_scope.
Delimit Scope sh_scope with sh.
Notation "x <- m ;; k" := (Shell.bind m (fun x => k))
  (at level 61, m at next level, right associativity) : sh_scope.
Notation "m ;; k" := (Shell.bind m (fun _ => k))
  (at level 61, right associativity) : sh_scope.

(** ** poll_and_deliver.sh *)

Module PollAndDeliver.
Import Shell.
Local Open Scope sh_scope.

(** The variables a run starts from, as the argument loop of [main] leaves
    them (the loop itself is not modelled). [POLL_INTERVAL] is the constant
    30 in the script; it is a field here so that the poll bound can be stated
    for any interval. *)
Record Config := mkConfig {
  CI_PROVIDER : string;
  REPO : string;
  RUN_ID : string;
  BUILD_ID : string;
  OUTPUT_DIR : string;
  AUTO_INSTALL : bool;
  NO_NOTIFY : bool;
  TIMEOUT_SECONDS : Z;
  POLL_INTERVAL : positive
}.

(** The host and the network, as the script's commands see them. A field
    indexed by [nat] answers the k-th status read of the poll loop (k counted
    from 1); [None] stands for a non-zero exit status. *)
Record World := mkWorld {
  date : string;                                (* date '+%Y-%m-%d %H:%M:%S' *)
  SCRIPT_DIR : string;
  CODEMAGIC_ACCESS_TOKEN : string;              (* empty when unset *)
  has_gh : bool;                                (* command -v gh *)
  has_eas : bool;
  has_termux_notification : bool;
  has_termux_open : bool;
  has_adb : bool;
  gh_run_status : nat -> option string;         (* gh api repos/$repo/actions/runs/$run_id --jq ... *)
  codemagic_build : nat -> option string;       (* curl -s .../builds/$build_id *)
  eas_build_status : nat -> option string;      (* eas build:view --json | jq -r '.status' *)
  jq : string -> string -> option string;       (* jq -r filter, on the given input *)
  fs : FileSystem;                              (* after the download ran *)
  node : string -> Z * string;                  (* eval "$download_cmd" 2>&1: status, output *)
  find_apk : string -> string;                  (* find dir -name "*.apk" -type f | head -n1 *)
  du_h : string -> string;                      (* first field of du -h, for a path that exists *)
  termux_notification : Z;                      (* exit status of termux-notification *)
  termux_open : string -> bool;                 (* termux-open path succeeded *)
  adb_devices : option (list string);           (* lines of adb devices *)
  adb_install : string -> bool                  (* adb install -r path succeeded *)
}.

Section Script.
Variable w : World.
Variable cfg : Config.

(** [log]: one line on standard output (and, through tee, in the log file). *)
Definition log (msg : string) : M unit :=
  echo ("[" ++ date w ++ "] " ++ msg).

Definition die {A} (msg : string) : M A :=
  log ("FATAL: " ++ msg) ;; emit (Fatal msg) ;; exit 1.

Definition check_termux_api : M bool :=
  if has_termux_notification w then ret true
  else log "Warning: termux-notification not available. Install termux-api package." ;;
       ret false.

(** [notify title message [action]]; [errexit] tells whether the call
    stands where [set -e] is in force. *)
Definition notify (errexit : bool) (title message : string) : M Z :=
  if NO_NOTIFY cfg then
    log ("Notification disabled: " ++ title ++ " - " ++ message) ;; ret 0
  else
    available <- check_termux_api ;;
    if available then
      emit (Notification title message) ;;
      status_of errexit (termux_notification w) ;;
      log ("Notification sent: " ++ title ++ " - " ++ message) ;; ret 0
    else
      log ("Notification failed: " ++ title ++ " - " ++ message) ;; ret 0.

(** [$((TIMEOUT_SECONDS / POLL_INTERVAL))]: both numbers as bash holds
    them, in 64 bits, the quotient rounded towards zero (and wrapped, for
    the one quotient that does not fit). bash stops with an error when the
    divisor is 0, which the 30 of the script is not. *)
Definition max_attempts : Z :=
  int64 (Z.quot (int64 (TIMEOUT_SECONDS cfg)) (int64 (Zpos (POLL_INTERVAL cfg)))).

Definition sleep_interval : M unit := emit (Sleep (Zpos (POLL_INTERVAL cfg))).

Definition timed_out {A} : M A :=
  die ("Build did not complete within " ++ string_of_Z (TIMEOUT_SECONDS cfg) ++ " seconds").

Definition log_attempt (attempts : Z) : M unit :=
  log ("Poll attempt " ++ string_of_Z attempts ++ "/" ++ string_of_Z max_attempts).

(** The loop [while [ $attempts -lt $max_attempts ]] of [poll_github].
    [remaining] counts the iterations the test still lets through,
    [max_attempts - attempts]; the loop ends when none is left. *)
Fixpoint poll_github_loop (remaining : nat) (attempts : Z) : M Z :=
  match remaining with
  | O => timed_out
  | S remaining' =>
      let attempts := attempts + 1 in
      log_attempt attempts ;;
      emit (Query attempts) ;;
      match gh_run_status w (Z.to_nat attempts) with
      | None =>
          log "Failed to get run status, retrying..." ;;
          sleep_interval ;;
          poll_github_loop remaining' attempts
      | Some status_info =>
          let status := Str.before_first ":" status_info in
          let conclusion := Str.after_last ":" status_info in
          log ("Status: " ++ status ++ ", Conclusion: " ++ conclusion) ;;
          if String.eqb status "completed" then
            if String.eqb conclusion "success" then
              log "Build completed successfully!" ;; ret 0
            else die ("Build failed with conclusion: " ++ conclusion)
          else
            (if (String.eqb status "in_progress" || String.eqb status "queued")%bool
             then log "Build in progress, waiting..."
             else log ("Unknown status: " ++ status ++ ", continuing to poll...")) ;;
            sleep_interval ;;
            poll_github_loop remaining' attempts
      end
  end.

Definition poll_github (repo run_id : string) : M Z :=
  log ("Polling GitHub Actions: " ++ repo ++ " run " ++ run_id) ;;
  if negb (has_gh w) then die "GitHub CLI (gh) not found. Install with: pkg install gh"
  else poll_github_loop (Z.to_nat max_attempts) 0.

Fixpoint poll_codemagic_loop (remaining : nat) (attempts : Z) : M Z :=
  match remaining with
  | O => timed_out
  | S remaining' =>
      let attempts := attempts + 1 in
      log_attempt attempts ;;
      emit (Query attempts) ;;
      match codemagic_build w (Z.to_nat attempts) with
      | None =>
          log "Failed to get build status, retrying..." ;;
          sleep_interval ;;
          poll_codemagic_loop remaining' attempts
      | Some response =>
          match jq w ".status" response with
          | None =>
              log "Failed to parse build status, retrying..." ;;
              sleep_interval ;;
              poll_codemagic_loop remaining' attempts
          | Some status =>
              log ("Status: " ++ status) ;;
              if String.eqb status "finished" then
                match jq w ".success" response with
                | Some success =>
                    if String.eqb success "true" then
                      log "Build completed successfully!" ;; ret 0
                    else die "Build finished but failed"
                | None => die "Build finished but failed"
                end
              else if String.eqb status "failed" then die "Build failed"
              else
                (if (String.eqb status "building" || String.eqb status "preparing"
                     || String.eqb status "provisioning")%bool
                 then log "Build in progress, waiting..."
                 else log ("Unknown status: " ++ status ++ ", continuing to poll...")) ;;
                sleep_interval ;;
                poll_codemagic_loop remaining' attempts
          end
      end
  end.

Definition poll_codemagic (build_id : string) : M Z :=
  log ("Polling Codemagic: build " ++ build_id) ;;
  if String.eqb (CODEMAGIC_ACCESS_TOKEN w) "" then
    die "CODEMAGIC_ACCESS_TOKEN environment variable required"
  else poll_codemagic_loop (Z.to_nat max_attempts) 0.

Fixpoint poll_eas_loop (remaining : nat) (attempts : Z) : M Z :=
  match remaining with
  | O => timed_out
  | S remaining' =>
      let attempts := attempts + 1 in
      log_attempt attempts ;;
      emit (Query attempts) ;;
      match eas_build_status w (Z.to_nat attempts) with
      | None =>
          log "Failed to get build status, retrying..." ;;
          sleep_interval ;;
          poll_eas_loop remaining' attempts
      | Some status =>
          log ("Status: " ++ status) ;;
          if String.eqb status "finished" then
            log "Build completed successfully!" ;; ret 0
          else if (String.eqb status "errored" || String.eqb status "canceled")%bool then
            die ("Build " ++ status)
          else
            (if (String.eqb status "in-queue" || String.eqb status "in-progress")%bool
             then log "Build in progress, waiting..."
             else log ("Unknown status: " ++ status ++ ", continuing to poll...")) ;;
            sleep_interval ;;
            poll_eas_loop remaining' attempts
      end
  end.

Definition poll_eas (build_id : string) : M Z :=
  log ("Polling EAS: build " ++ build_id) ;;
  if negb (has_eas w) then die "EAS CLI not found. Install with: npm install -g eas-cli"
  else poll_eas_loop (Z.to_nat max_attempts) 0.


(** [download_artifact ci_provider identifier]. [main] calls it inside
    [$(...)]: what it writes on standard output, the lines of [log]
    included, is what the caller receives. *)
Definition download_artifact (ci_provider identifier : string) : M Z :=
  log ("Downloading artifact from " ++ ci_provider) ;;
  let download_script := SCRIPT_DIR w ++ "/../ci/download_artifact.js" in
  let download_script :=
    if negb (is_regular_file (fs w) download_script)
    then "../termux-orchestrator-ci/ci/download_artifact.js"
    else download_script in
  if negb (is_regular_file (fs w) download_script) then
    die ("Download script not found: " ++ download_script)
  else
    let download_cmd :=
      "node " ++ dq ++ download_script ++ dq ++ " --provider " ++ dq ++ ci_provider ++ dq
      ++ " --out " ++ dq ++ OUTPUT_DIR cfg ++ dq in
    download_cmd <-
      (if String.eqb ci_provider "github" then
         let repo := Str.before_last "/" identifier in
         let run_id := Str.after_first "/" identifier in
         ret (download_cmd ++ " --repo " ++ dq ++ repo ++ dq
              ++ " --run-id " ++ dq ++ run_id ++ dq)
       else if (String.eqb ci_provider "codemagic" || String.eqb ci_provider "eas")%bool then
         ret (download_cmd ++ " --build-id " ++ dq ++ identifier ++ dq)
       else die ("Unknown CI provider: " ++ ci_provider)) ;;
    log ("Running: " ++ download_cmd) ;;
    emit (NodeDownload download_cmd) ;;
    let (status, result) := node w download_cmd in
    if negb (status =? 0) then die ("Download failed: " ++ result)
    else
      downloaded_file <-
        match jq w ".file" (Str.after_last "010" result) with
        | Some file => ret file
        | None =>
            log "Failed to parse download result, searching for APK files..." ;;
            let found := find_apk w (OUTPUT_DIR cfg) in
            if String.eqb found "" then die "No APK files found after download"
            else ret found
        end ;;
      if negb (is_regular_file (fs w) downloaded_file) then
        die ("Downloaded file not found: " ++ downloaded_file)
      else
        log ("Downloaded: " ++ downloaded_file) ;;
        echo downloaded_file ;;
        ret 0.

(** [install_apk apk_file]. [main] calls it as the condition of an [if],
    so no command inside ends the shell by failing. *)
Definition install_apk (apk_file : string) : M Z :=
  log ("Installing APK: " ++ apk_file) ;;
  emit (Chmod644 apk_file) ;;
  opened <-
    (if has_termux_open w then
       log "Installing via termux-open..." ;;
       emit (TermuxOpen apk_file) ;;
       if termux_open w apk_file then log "APK opened for installation" ;; ret true
       else log "termux-open failed, trying adb..." ;; ret false
     else ret false) ;;
  if opened : bool then ret 0
  else
    installed <-
      (if has_adb w then
         emit AdbDevices ;;
         if match adb_devices w with
            | Some lines => existsb (fun l => Str.endsWith l "device") lines
            | None => false
            end
         then
           log "Installing via ADB..." ;;
           emit (AdbInstall apk_file) ;;
           if adb_install w apk_file then log "APK installed via ADB" ;; ret true
           else log "ADB install failed" ;; ret false
         else log "No ADB devices connected" ;; ret false
       else ret false) ;;
    if installed : bool then ret 0
    else
      log ("Automatic installation failed. APK saved to: " ++ apk_file) ;;
      notify false "APK Ready" ("Manual installation required: " ++ apk_file) ;;
      ret 1.

(** The [case "$CI_PROVIDER"] of [main]: the poll, then [IDENTIFIER]. *)
Definition poll_for_completion : M string :=
  let provider := CI_PROVIDER cfg in
  if String.eqb provider "github" then
    if (String.eqb (REPO cfg) "" || String.eqb (RUN_ID cfg) "")%bool then
      die "GitHub requires --repo and --run-id"
    else
      status <- poll_github (REPO cfg) (RUN_ID cfg) ;;
      status_of true status ;;
      ret (REPO cfg ++ "/" ++ RUN_ID cfg)
  else if String.eqb provider "codemagic" then
    if String.eqb (BUILD_ID cfg) "" then die "Codemagic requires --build-id"
    else
      status <- poll_codemagic (BUILD_ID cfg) ;;
      status_of true status ;;
      ret (BUILD_ID cfg)
  else if String.eqb provider "eas" then
    if String.eqb (BUILD_ID cfg) "" then die "EAS requires --build-id"
    else
      status <- poll_eas (BUILD_ID cfg) ;;
      status_of true status ;;
      ret (BUILD_ID cfg)
  else die ("Unknown CI provider: " ++ provider).

(** The end of [main], from [# Get file info] on: the size of the file, then
    the installation if it was asked for. *)
Definition deliver_downloaded (apk_file : string) : M Z :=
  (* file_size=$(du -h "$apk_file" | cut -f1), under pipefail *)
  file_size <-
    match fs w apk_file with
    | Some _ => ret (du_h w apk_file)
    | None => exit 1
    end ;;
  log ("APK downloaded: " ++ apk_file ++ " (" ++ file_size ++ ")") ;;
  (if AUTO_INSTALL cfg then
     notify true "Installing" ("Installing APK (" ++ file_size ++ ")...") ;;
     installed <- install_apk apk_file ;;
     if installed =? 0 then
       notify true "Installation Complete" "App installed successfully!" ;;
       log "Delivery completed successfully"
     else
       notify true "Installation Failed" ("Manual installation required: " ++ apk_file) ;;
       log "Automatic installation failed, but APK is available"
   else
     notify true "Download Complete"
       ("APK ready: " ++ apk_file ++ " (" ++ file_size ++ ")") ;;
     log "Download completed, auto-install disabled") ;;
  log "Delivery process finished" ;;
  ret 0.

(** [main], from the check of [CI_PROVIDER] on ([mkdir -p] is taken to
    succeed). The value is the exit status of the script when [main] returns. *)
Definition main : M Z :=
  if String.eqb (CI_PROVIDER cfg) "" then
    die "CI provider required. Use --ci github|codemagic|eas"
  else
    log "Starting delivery process..." ;;
    log ("CI Provider: " ++ CI_PROVIDER cfg) ;;
    log ("Output Directory: " ++ OUTPUT_DIR cfg) ;;
    log ("Auto Install: " ++ (if AUTO_INSTALL cfg then "true" else "false")) ;;
    notify true "Build Polling"
      ("Waiting for " ++ CI_PROVIDER cfg ++ " build to complete...") ;;
    IDENTIFIER <- poll_for_completion ;;
    notify true "Build Complete" "Downloading APK..." ;;
    (* apk_file=$(download_artifact "$CI_PROVIDER" "$IDENTIFIER") *)
    captured <- capture (download_artifact (CI_PROVIDER cfg) IDENTIFIER) ;;
    let (status, apk_file) := captured : Z * string in
    status_of true status ;;
    deliver_downloaded apk_file.

(** The exit code of the script for a run from [cfg] in [w]. *)
Definition exit_code : Z :=
  match run main with
  | (Done status, _) => status
  | (Exit code, _) => code
  end.

End Script.
End PollAndDeliver.

(** ** JavaScript: what a call of an external command or a function body does *)

(** [execSync(cmd)]: the command's standard output, or the exception it
    throws (non-zero exit, missing tool; for a reply that is parsed with
    [JSON.parse] right away, also a reply that is not JSON). *)
Inductive Exec (A : Type) :=
| Throws (message : string)
| Output (a : A).
Arguments Throws {A} message.
Arguments Output {A} a.

(** How a block of statements ends. *)
Inductive Completion (A : Type) :=
| Normal
| Return (a : A)
| Throw (message : string).
Arguments Normal {A}.
Arguments Return {A} a.
Arguments Throw {A} message.

(** How the promise of an [async] function settles. *)
Inductive Settled (A : Type) :=
| Fulfilled (a : A)
| Rejected (message : string).
Arguments Fulfilled {A} a.
Arguments Rejected {A} message.

(** [`${v}`] for a value that may be [undefined]. *)
Definition template (v : option string) : string :=
  match v with
  | Some s => s
  | None => "undefined"
  end.

(** A string in a condition: [undefined] and the empty string are false. *)
Definition truthy (v : option string) : bool :=
  match v with
  | Some s => negb (String.eqb s "")
  | None => false
  end.

(** ** trigger_ci.js: the poll loops of class CITrigger *)

Module CITrigger.

Inductive JsEvent :=
| StatusQuery (attempt : Z)      (* execSync of the status command *)
| ArtifactsQuery (attempt : Z)   (* execSync of the artifacts command *)
| Log (msg : string)             (* this.log *)
| Wait (ms : Z).                 (* await new Promise(r => setTimeout(r, ms)) *)

Record PollResult := mkPollResult {
  success : bool;
  artifactUrl : string;
  id : string                    (* runId or buildId *)
}.

(** The reply of [eas build:view --json], parsed. *)
Record EasBuild := mkEasBuild {
  eas_status : string;
  buildUrl : option string;      (* result.artifacts?.buildUrl *)
  eas_error : option string      (* result.error *)
}.

(** The backends, by attempt number (from 1). *)
Record Backend := mkBackend {
  gh_run : nat -> Exec string;         (* gh api repos/R/actions/runs/ID --jq '.status + ":" + ...' *)
  gh_artifacts : nat -> Exec string;   (* gh api .../artifacts --jq '.artifacts[0].archive_download_url' *)
  eas_view : nat -> Exec EasBuild      (* JSON.parse(execSync(`eas build:view ID --json`)) *)
}.

Section Poll.
Variable b : Backend.

Definition attempt_line (attempt maxAttempts : Z) : string :=
  "Attempt " ++ string_of_Z attempt ++ "/" ++ string_of_Z maxAttempts ++ ": ".

(** The [try] block of one iteration of [pollGitHubActions]. *)
Definition github_try (runId : string) (attempt maxAttempts : Z)
  : Completion PollResult * list JsEvent :=
  match gh_run b (Z.to_nat attempt) with
  | Throws m => (Throw m, [StatusQuery attempt])
  | Output out =>
      let status := Str.trim out in
      let parts := Str.split_colon status in
      let runStatus := nth_error parts 0 in
      let conclusion := nth_error parts 1 in
      let tr := [StatusQuery attempt;
                 Log (attempt_line attempt maxAttempts ++ template runStatus
                      ++ " (" ++ template conclusion ++ ")")] in
      if String.eqb (template runStatus) "completed" then
        if match conclusion with
           | Some c => String.eqb c "success"
           | None => false
           end
        then
          match gh_artifacts b (Z.to_nat attempt) with
          | Throws m => (Throw m, (tr ++ [ArtifactsQuery attempt])%list)
          | Output url =>
              let artifactUrl := Str.trim url in
              (Return (mkPollResult true artifactUrl runId),
               (tr ++ [ArtifactsQuery attempt;
                       Log ("Build completed successfully. Artifact: " ++ artifactUrl)])%list)
          end
        else (Throw ("Build failed with conclusion: " ++ template conclusion), tr)
      else (Normal, (tr ++ [Wait 30000])%list)
  end.

(** The [catch] block: the last attempt rethrows, any other logs, waits
    and lets the loop go on. *)
Definition catch_attempt (attempt maxAttempts : Z) (message : string)
  : Completion PollResult * list JsEvent :=
  if attempt =? maxAttempts then (Throw message, [])
  else (Normal, [Log ("Polling attempt " ++ string_of_Z attempt ++ " failed: " ++ message);
                 Wait 30000]).

Definition did_not_complete (maxWaitMinutes : Z) : string :=
  "Build did not complete within " ++ string_of_Z maxWaitMinutes ++ " minutes".

(** [for (let attempt = 1; attempt <= maxAttempts; attempt++)] with the
    body [try_body]; [remaining] counts the iterations the test still lets
    through, [maxAttempts - attempt + 1]. After the loop the function
    throws the timeout error. *)
Fixpoint poll_loop
    (try_body : Z -> Completion PollResult * list JsEvent)
    (maxWaitMinutes maxAttempts : Z) (remaining : nat) (attempt : Z)
  : Settled PollResult * list JsEvent :=
  match remaining with
  | O => (Rejected (did_not_complete maxWaitMinutes), [])
  | S remaining' =>
      let (c, tr) := try_body attempt in
      let (c, tr) :=
        match c with
        | Throw m => let (c', tr') := catch_attempt attempt maxAttempts m in (c', (tr ++ tr')%list)
        | _ => (c, tr)
        end in
      match c with
      | Return v => (Fulfilled v, tr)
      | Throw m => (Rejected m, tr)
      | Normal =>
          let (r, tr') :=
            poll_loop try_body maxWaitMinutes maxAttempts remaining' (attempt + 1) in
          (r, (tr ++ tr')%list)
      end
  end.

(** [async pollGitHubActions(repo, runId, maxWaitMinutes = 30)] *)
Definition pollGitHubActions (repo runId : string) (maxWaitMinutes : Z)
  : Settled PollResult * list JsEvent :=
  let maxAttempts := maxWaitMinutes * 2 in
  let (r, tr) :=
    poll_loop (fun attempt => github_try runId attempt maxAttempts)
              maxWaitMinutes maxAttempts (Z.to_nat maxAttempts) 1 in
  (r, Log ("Polling GitHub Actions run " ++ runId ++ " (max "
           ++ string_of_Z maxWaitMinutes ++ " minutes)") :: tr).

(** The [try] block of one iteration of [pollEAS]. *)
Definition eas_try (buildId : string) (attempt maxAttempts : Z)
  : Completion PollResult * list JsEvent :=
  match eas_view b (Z.to_nat attempt) with
  | Throws m => (Throw m, [StatusQuery attempt])
  | Output result =>
      let tr := [StatusQuery attempt;
                 Log (attempt_line attempt maxAttempts ++ eas_status result)] in
      if String.eqb (eas_status result) "finished" then
        if truthy (buildUrl result) then
          (Return (mkPollResult true (template (buildUrl result)) buildId),
           (tr ++ [Log ("Build completed successfully. Artifact: "
                        ++ template (buildUrl result))])%list)
        else (Throw "EAS build finished but no artifact URL found", tr)
      else if (String.eqb (eas_status result) "errored"
               || String.eqb (eas_status result) "canceled")%bool then
        (Throw ("EAS build " ++ eas_status result ++ ": "
                ++ (if truthy (eas_error result) then template (eas_error result)
                    else "Unknown error")), tr)
      else (Normal, (tr ++ [Wait 30000])%list)
  end.

(** [async pollEAS(buildId, maxWaitMinutes = 45)] *)
Definition pollEAS (buildId : string) (maxWaitMinutes : Z)
  : Settled PollResult * list JsEvent :=
  let maxAttempts := maxWaitMinutes * 2 in
  let (r, tr) :=
    poll_loop (fun attempt => eas_try buildId attempt maxAttempts)
              maxWaitMinutes maxAttempts (Z.to_nat maxAttempts) 1 in
  (r, Log ("Polling EAS build " ++ buildId ++ " (max "
           ++ string_of_Z maxWaitMinutes ++ " minutes)") :: tr).

Definition is_status_query (e : JsEvent) : bool :=
  match e with
  | StatusQuery _ => true
  | _ => false
  end.

(** The number of status queries in a trace. *)
Definition status_queries (tr : list JsEvent) : nat :=
  List.length (filter is_status_query tr).

End Poll.
End CITrigger.

(** ** Node's [path] module

    [path] is a library of the platform, not of the repository: the scripts
    are stated over any implementation of the four functions they call.
    [posix_path] is a plain implementation for absolute POSIX paths without
    [.], [..], doubled or trailing slashes, used to run examples. *)

Class NodePath := {
  path_join : string -> string -> string;
  path_dirname : string -> string;
  path_basename : string -> string -> string;   (* path.basename(p, ext) *)
  path_extname : string -> string
}.

Module Posix.

Definition join (a b : string) : string := a ++ "/" ++ b.

Definition dirname (p : string) : string :=
  if Str.includes p "/" then
    let d := Str.before_last "/" p in
    if String.eqb d "" then "/" else d
  else ".".

(** [s] without its last [n] characters. *)
Definition drop_end (n : nat) (s : string) : string :=
  String.substring 0 (String.length s - n) s.

Definition basename (p ext : string) : string :=
  let base := Str.after_last "/" p in
  if (Str.endsWith base ext && negb (String.eqb base ext))%bool
  then drop_end (String.length ext) base
  else base.

Definition extname (p : string) : string :=
  let base := Str.after_last "/" p in
  match base with
  | EmptyString => ""
  | String first rest =>
      if Str.includes rest "." then "." ++ Str.after_last "." rest else ""
  end.

End Posix.

#[export] Instance posix_path : NodePath := {
  path_join := Posix.join;
  path_dirname := Posix.dirname;
  path_basename := Posix.basename;
  path_extname := Posix.extname
}.

(** A directory as [fs.readdirSync] lists it: the entries, in order, each
    directory with its own entries. *)
#[warnings="-register-all"]
Inductive Tree :=
| File (name : string)
| Dir (name : string) (entries : list Tree).

Definition entry_name (t : Tree) : string :=
  match t with
  | File n => n
  | Dir n _ => n
  end.

(** ** Synchronous JavaScript with exceptions and a record of its effects *)

Module Js.

Inductive Effect :=
| Log (msg : string)                    (* this.log *)
| Console (msg : string)                (* console.log *)
| Progress (downloadedSize totalSize : N)
    (* process.stdout.write of the progress line, which JavaScript derives
       from the two numbers: a carriage return, Downloading:, the percentage
       Math.round((downloadedSize / totalSize) * 100) and (downloadedSize/totalSize bytes) *)
| Mkdir (dir : string)                  (* fs.mkdirSync(dir, { recursive: true }) *)
| Unzip (zipPath extractDir : string)   (* execSync of unzip -o *)
| Readdir (dir : string)                (* fs.readdirSync *)
| Gh (args : string)                    (* execSync of gh *)
| Request (secure : bool) (url : string) (headers : list (string * string)).
                                        (* https.get or http.get *)

Definition M (A : Type) : Type := Exec A * list Effect.

Definition ret {A} (a : A) : M A := (Output a, []).

Definition bind {A B} (m : M A) (k : A -> M B) : M B :=
  match m with
  | (Throws e, tr) => (Throws e, tr)
  | (Output a, tr) => let (r, tr') := k a in (r, (tr ++ tr')%list)
  end.

Definition throw {A} (message : string) : M A := (Throws message, []).

(** [try { m } catch (error) { handler error.message }] *)
Definition try_catch {A} (m : M A) (handler : string -> M A) : M A :=
  match m with
  | (Throws e, tr) => let (r, tr') := handler e in (r, (tr ++ tr')%list)
  | (Output a, tr) => (Output a, tr)
  end.

(** [this.log(message)] with a log file that is written without error: the
    entry is printed and appended. [ArtifactDownloaderLog] has the methods
    with a log file on which [fs.appendFileSync] may throw. *)
Definition log (msg : string) : M unit := (Output tt, [Log msg]).

(** An effect and what the host answers to it. *)
Definition perform {A} (e : Effect) (answer : Exec A) : M A := (answer, [e]).

End Js.

Declare Scope js_scope.
Delimit Scope js_scope with js.
Notation "x <- m ;; k" := (Js.bind m (fun x => k))
  (at level 61, m at next level, right associativity) : js_scope.
Notation "m ;; k" := (Js.bind m (fun _ => k))
  (at level 61, right associativity) : js_scope.

(** The mobile-app payload extensions the scripts look for. *)
Definition payload_extensions : list string := [".apk"; ".ipa"; ".aab"].

(** ** download_artifact.js (gh, curl): extractArtifact and validateArtifact *)

Module ArtifactDownloader.
Import Js.
Local Open Scope js_scope.

Record Host := mkHost {
  fs : FileSystem;                            (* as it is when the method is called *)
  mkdirSync : string -> Exec unit;
  unzip : string -> string -> Exec unit;      (* execSync(`cd "extractDir" && unzip -o "zipPath"`) *)
  readdirSync : string -> Exec (list Tree)    (* the directory, once extracted *)
}.

Section Methods.
Context {P : NodePath}.
Variable h : Host.

Definition existsSync (p : string) : bool :=
  match fs h p with
  | Some _ => true
  | None => false
  end.

(** [fs.statSync(p).size] *)
Definition statSync_size (p : string) : Exec N :=
  match fs h p with
  | Some (RegularFile size) => Output size
  | Some (Directory size) => Output size
  | None => Throws ("ENOENT: no such file or directory, stat '" ++ p ++ "'")
  end.

(** [f.endsWith('.apk') || f.endsWith('.ipa') || f.endsWith('.aab')] *)
Definition is_mobile_artifact (f : string) : bool :=
  (Str.endsWith f ".apk" || Str.endsWith f ".ipa" || Str.endsWith f ".aab")%bool.

(** The body of the [try] block of [extractArtifact]. *)
Definition extract_body (zipPath : string) : M string :=
  let extractDir :=
    path_join (path_dirname zipPath) (path_basename zipPath ".zip") in
  (if negb (existsSync extractDir)
   then perform (Mkdir extractDir) (mkdirSync h extractDir)
   else ret tt) ;;
  perform (Unzip zipPath extractDir) (unzip h extractDir zipPath) ;;
  entries <- perform (Readdir extractDir) (readdirSync h extractDir) ;;
  let files := map entry_name entries in
  match find is_mobile_artifact files with
  | Some artifactFile =>
      let artifactPath := path_join extractDir artifactFile in
      log ("Extracted artifact: " ++ artifactPath) ;;
      ret artifactPath
  | None =>
      log ("No mobile artifact found in extracted files: " ++ String.concat ", " files) ;;
      ret extractDir
  end.

(** [async extractArtifact(zipPath)] *)
Definition extractArtifact (zipPath : string) : M string :=
  if negb (Str.endsWith zipPath ".zip") then ret zipPath
  else
    try_catch (extract_body zipPath)
      (fun message =>
         log ("Failed to extract " ++ zipPath ++ ": " ++ message) ;;
         ret zipPath).

Definition not_found (filePath : string) : string :=
  "Artifact file not found: " ++ filePath.

Definition is_empty (filePath : string) : string :=
  "Artifact file is empty: " ++ filePath.

Definition unexpected_type (ext : string) : Effect :=
  Log ("Warning: Unexpected file type: " ++ ext).

Definition string_of_N (n : N) : string := string_of_Z (Z.of_N n).

(** [validateArtifact(filePath)] *)
Definition validateArtifact (filePath : string) : M bool :=
  if negb (existsSync filePath) then throw (not_found filePath)
  else
    size <- (statSync_size filePath, []) ;;
    if N.eqb size 0 then throw (is_empty filePath)
    else
      let ext := Str.toLowerCase (path_extname filePath) in
      (if negb (existsb (String.eqb ext) payload_extensions)
       then (Output tt, [unexpected_type ext])
       else ret tt) ;;
      log ("Artifact validation passed: " ++ filePath
           ++ " (" ++ string_of_N size ++ " bytes)") ;;
      ret true.

End Methods.
End ArtifactDownloader.

(** ** download_artifact.js (https): downloadFile, findFiles, downloadGitHubArtifact *)

Module Downloader.
Import Js.

Definition Headers := list (string * string).

(** What one request reports to the listeners [downloadFile] installs, in
    the order it happens. *)
Inductive NetEvent :=
| Response (statusCode : Z) (statusMessage : string)
           (location : option string)       (* response.headers.location *)
           (contentLength : option N)       (* parseInt(response.headers['content-length'], 10); None for NaN *)
| Data (chunk : string)                     (* response 'data' *)
| End                                       (* the response ends; the piped file stream emits 'finish' *)
| RequestError (message : string)           (* request 'error' *)
| Idle                                      (* 300000 ms without activity: the setTimeout callback *)
| FileError (message : string).             (* fileStream 'error' *)

(** The peer: what a GET of a URL with the given headers reports. *)
Definition Network := string -> Headers -> list NetEvent.

(** A promise while its executor's listeners run. *)
Inductive Promise :=
| Pending
| Settle (s : Settled string).

(** [resolve] and [reject] act on a pending promise only. *)
Definition settle (p : Promise) (s : Settled string) : Promise :=
  match p with
  | Pending => Settle s
  | Settle _ => p
  end.

(** One call of [downloadFile]: its promise, the bytes at [outputPath]
    ([None] while no write stream was opened), and the listeners' variables. *)
Record Download := mkDownload {
  promise : Promise;
  written : option string;
  answered : bool;              (* the response callback has run *)
  piping : bool;                (* response.pipe(fileStream) is in place *)
  destroyed : bool;             (* request.destroy() was called *)
  totalSize : option N;
  downloadedSize : N;
  effects : list Effect
}.

Definition start (url : string) (outputPath : string) (headers : Headers) : Download :=
  mkDownload Pending None false false false None 0
    [Log ("Downloading " ++ url ++ " to " ++ outputPath);
     Request (Str.startsWith url "https:") url headers].

Definition with_promise (d : Download) (p : Promise) : Download :=
  mkDownload p (written d) (answered d) (piping d) (destroyed d)
             (totalSize d) (downloadedSize d) (effects d).

Definition with_effects (d : Download) (es : list Effect) : Download :=
  mkDownload (promise d) (written d) (answered d) (piping d) (destroyed d)
             (totalSize d) (downloadedSize d) (effects d ++ es).

Definition cannot_read_startsWith : string :=
  "Cannot read properties of undefined (reading 'startsWith')".

Definition http_error (statusCode : Z) (statusMessage : string) : string :=
  "HTTP " ++ string_of_Z statusCode ++ ": " ++ statusMessage.

(** The listeners of one request, applied to one event. [follow] is the
    recursive call [this.downloadFile(response.headers.location, outputPath,
    headers)] of the redirect branch: the redirected download starts, and
    what it does and writes is recorded here, but its outcome reaches the
    promise only when it settles ([adopt], in [on_events]). Until then the
    error listener and the timer of the redirecting request stay armed. *)
Definition on_event (follow : option string -> option Download) (outputPath : string)
                    (d : Download) (e : NetEvent) : option Download :=
  if destroyed d then Some d
  else
    match e with
    | Response statusCode statusMessage location contentLength =>
        if answered d then Some d
        else
          let d := mkDownload (promise d) (written d) true false false None 0 (effects d) in
          if ((statusCode =? 302) || (statusCode =? 301))%bool then
            let d := with_effects d [Log ("Redirected to: " ++ template location)] in
            match follow location with
            | None => None
            | Some inner =>
                Some (mkDownload
                        (promise d)
                        (match written inner with
                         | Some bytes => Some bytes
                         | None => written d
                         end)
                        true false false None 0
                        (effects d ++ effects inner))
            end
          else if negb (statusCode =? 200) then
            Some (with_promise d
                    (settle (promise d) (Rejected (http_error statusCode statusMessage))))
          else
            (* fs.createWriteStream(outputPath); response.pipe(fileStream) *)
            Some (mkDownload (promise d) (Some "") true true false contentLength 0 (effects d))
    | Data chunk =>
        if piping d then
          let downloaded := (downloadedSize d + N.of_nat (String.length chunk))%N in
          let progress :=
            match totalSize d with
            | Some total =>
                if N.eqb total 0 then []
                else [Progress downloaded total]
            | None => []
            end in
          Some (mkDownload (promise d)
                           (match written d with
                            | Some bytes => Some (bytes ++ chunk)
                            | None => Some chunk
                            end)
                           true true false (totalSize d) downloaded
                           (effects d ++ progress))
        else Some d
    | End =>
        if piping d then
          Some (mkDownload (settle (promise d) (Fulfilled outputPath)) (written d)
                           true false false (totalSize d) (downloadedSize d)
                           (effects d ++ [Console (nl ++ "Download completed")]))
        else Some d
    | RequestError message =>
        Some (with_promise d (settle (promise d) (Rejected message)))
    | Idle =>
        Some (mkDownload (settle (promise d) (Rejected "Download timeout"))
                         (written d) (answered d) false true
                         (totalSize d) (downloadedSize d) (effects d))
    | FileError message =>
        if piping d then Some (with_promise d (settle (promise d) (Rejected message)))
        else Some d
    end.

(** The [Location] the response callback follows: that of the first
    response of a live request, when its status is 301 or 302. *)
Definition redirect_of (d : Download) (e : NetEvent) : option (option string) :=
  match e with
  | Response statusCode _ location _ =>
      if (negb (destroyed d) && negb (answered d)
          && ((statusCode =? 302) || (statusCode =? 301)))%bool
      then Some location else None
  | _ => None
  end.

(** [.then(resolve).catch(reject)] on the redirected download, run when
    that download settles; a promise settled in the meantime stays as it is. *)
Definition adopt (inner d : Download) : Download :=
  match promise inner with
  | Settle s => with_promise d (settle (promise d) s)
  | Pending => d
  end.

(** The events of one request, in order. After a redirect the rest of the
    transcript is what the redirecting request reports while the redirected
    download runs: its error and its idle timer reject the promise then.
    The outcome of the redirected download is adopted after that; what the
    redirecting request reports later still finds the promise settled and
    changes nothing, so it needs no place in a transcript. *)
Fixpoint on_events (follow : option string -> option Download) (outputPath : string)
                   (d : Download) (es : list NetEvent) : option Download :=
  match es with
  | [] => Some d
  | e :: es' =>
      match on_event follow outputPath d e with
      | None => None
      | Some d' =>
          match on_events follow outputPath d' es' with
          | None => None
          | Some d'' =>
              match redirect_of d e with
              | None => Some d''
              | Some location =>
                  match follow location with
                  | None => None
                  | Some inner => Some (adopt inner d'')
                  end
              end
          end
      end
  end.

(** [async downloadFile(url, outputPath, headers = {})]. A redirect calls
    the method again, so a chain of redirects needs one unit of [fuel] per
    request; [None] is a chain longer than the fuel. [url] is [None] for
    [undefined], on which [url.startsWith] throws inside the executor. *)
Fixpoint downloadFile (fuel : nat) (net : Network)
                      (url : option string) (outputPath : string) (headers : Headers)
  : option Download :=
  match fuel with
  | O => None
  | S fuel' =>
      match url with
      | None =>
          Some (mkDownload (Settle (Rejected cannot_read_startsWith))
                           None false false false None 0 [])
      | Some u =>
          on_events (fun location => downloadFile fuel' net location outputPath headers)
                    outputPath (start u outputPath headers) (net u headers)
      end
  end.

(** The size of what the download left at [outputPath]. *)
Definition byte_size (d : Download) : option N :=
  option_map (fun bytes => N.of_nat (String.length bytes)) (written d).

(** The requests a call issued, in order. *)
Definition requests (d : Download) : list (string * Headers) :=
  flat_map (fun e => match e with
                     | Request _ url headers => [(url, headers)]
                     | _ => []
                     end) (effects d).

(** The first artifact of a run, as [gh api] reports it. *)
Record ArtifactInfo := mkArtifactInfo {
  name : string;
  archive_download_url : option string;
  size_in_bytes : Z
}.

Record Host := mkHost {
  gh_artifact : Exec (option ArtifactInfo);   (* JSON.parse(execSync(artifactCmd)); None for null *)
  gh_auth_token : Exec string;                (* execSync('gh auth token') *)
  network : Network;
  mkdirSync : string -> Exec unit;
  unzip : string -> string -> Exec unit;      (* execSync(`unzip -o "zip" -d "dir"`) *)
  readdirSync : string -> Exec (list Tree)    (* { withFileTypes: true }, once extracted *)
}.

Section Methods.
Context {P : NodePath}.
Variable h : Host.
Local Open Scope js_scope.

(** [searchDir] of [findFiles], on an entry of the directory [dir]. *)
Fixpoint search_entry (extension dir : string) (entry : Tree) : list string :=
  let fullPath := path_join dir (entry_name entry) in
  match entry with
  | Dir _ entries => flat_map (search_entry extension fullPath) entries
  | File name => if Str.endsWith name extension then [fullPath] else []
  end.

(** [findFiles(directory, extension)] *)
Definition findFiles (directory extension : string) : M (list string) :=
  entries <- perform (Readdir directory) (readdirSync h directory) ;;
  ret (flat_map (search_entry extension directory) entries).

Definition github_failed (message : string) : string :=
  "GitHub artifact download failed: " ++ message.

(** The part of [downloadGitHubArtifact] after [await this.downloadFile]:
    extraction and the search for an APK. *)
Definition extract_downloaded (outputDir artifactName outputPath : string) : M string :=
  if Str.endsWith outputPath ".zip" then
    let extractDir := path_join outputDir artifactName in
    perform (Mkdir extractDir) (mkdirSync h extractDir) ;;
    found <-
      try_catch
        (perform (Unzip outputPath extractDir) (unzip h outputPath extractDir) ;;
         log ("Extracted to: " ++ extractDir) ;;
         apkFiles <- findFiles extractDir ".apk" ;;
         match apkFiles with
         | first :: _ =>
             log ("Found APK files: " ++ String.concat ", " apkFiles) ;;
             ret (Some first)
         | [] => ret None
         end)
        (fun message => log ("Extraction failed: " ++ message) ;; ret None) ;;
    match found with
    | Some apk => ret apk
    | None => ret outputPath
    end
  else ret outputPath.

(** [async downloadGitHubArtifact(repo, runId, outputDir)]: [None] when
    the redirect chain outruns [fuel]; a promise that stays pending when
    the download never settles. *)
Definition downloadGitHubArtifact (fuel : nat) (repo runId outputDir : string)
  : option (Promise * list Effect) :=
  let started := Log ("Downloading GitHub Actions artifact for " ++ repo ++ ":" ++ runId) in
  let before : M (ArtifactInfo * string * string * string) :=
    info <- perform (Gh ("api repos/" ++ repo ++ "/actions/runs/" ++ runId ++ "/artifacts"))
                    (gh_artifact h) ;;
    match info with
    | None => throw "No artifacts found for this run"
    | Some artifactInfo =>
        match archive_download_url artifactInfo with
        | None => throw "No artifacts found for this run"
        | Some downloadUrl =>
            log ("Artifact: " ++ name artifactInfo ++ " ("
                 ++ string_of_Z (size_in_bytes artifactInfo) ++ " bytes)") ;;
            token <- perform (Gh "auth token") (gh_auth_token h) ;;
            let token := Str.trim token in
            let outputPath := path_join outputDir (name artifactInfo ++ ".zip") in
            ret (artifactInfo, downloadUrl, token, outputPath)
        end
    end in
  match before with
  | (Throws message, tr) => Some (Settle (Rejected (github_failed message)), started :: tr)
  | (Output (artifactInfo, downloadUrl, token, outputPath), tr) =>
      match downloadFile fuel (network h) (Some downloadUrl) outputPath
              [("Authorization", "token " ++ token); ("User-Agent", "termux-orchestrator")] with
      | None => None
      | Some d =>
          let tr := (started :: tr ++ effects d)%list in
          match promise d with
          | Pending => Some (Pending, tr)
          | Settle (Rejected message) => Some (Settle (Rejected (github_failed message)), tr)
          | Settle (Fulfilled _) =>
              match extract_downloaded outputDir (name artifactInfo) outputPath with
              | (Throws message, tr') =>
                  Some (Settle (Rejected (github_failed message)), (tr ++ tr')%list)
              | (Output file, tr') => Some (Settle (Fulfilled file), (tr ++ tr')%list)
              end
          end
      end
  end.

End Methods.

End Downloader.

(** ** auto_install.sh *)

Module AutoInstall.
Import Shell.
Local Open Scope sh_scope.

(** The variables the argument loop of [main] leaves. *)
Record Options := mkOptions {
  APK_FILE : string;
  FORCE_ADB : bool;
  NO_PERMISSIONS : bool
}.

Record Host := mkHost {
  date : string;
  fs : FileSystem;
  readable : string -> bool;                (* [ -r path ] *)
  file_says_android : string -> bool;       (* file path | grep -q "Android" *)
  du_h : string -> string;                  (* du -h path | cut -f1 *)
  dirname : string -> string;
  basename : string -> string;
  chmod_644 : string -> bool;               (* chmod 644 path succeeded *)
  has_termux_open : bool;                   (* command -v termux-open *)
  termux_open : string -> bool;             (* termux-open path succeeded *)
  has_adb : bool;
  adb_version : option string;              (* adb version; None when it fails *)
  adb_devices : option (list string);       (* lines of adb devices; None when it fails *)
  adb_install : string -> bool;             (* adb install -r path succeeded *)
  has_termux_notification : bool;
  termux_notification : Z;                  (* exit status of termux-notification *)
  script : string                           (* $0 *)
}.

Section Script.
Variable h : Host.
Variable opts : Options.

Definition log (msg : string) : M unit :=
  echo ("[" ++ date h ++ "] " ++ msg).

Definition die {A} (msg : string) : M A :=
  log ("FATAL: " ++ msg) ;; emit (Fatal msg) ;; exit 1.

Definition check_apk_file (apk_file : string) : M Z :=
  if negb (is_regular_file (fs h) apk_file) then die ("APK file not found: " ++ apk_file)
  else if negb (readable h apk_file) then die ("APK file not readable: " ++ apk_file)
  else
    (if negb (file_says_android h apk_file)
     then log ("Warning: File may not be a valid APK: " ++ apk_file)
     else ret tt) ;;
    log ("APK file: " ++ apk_file ++ " (" ++ du_h h apk_file ++ ")") ;;
    ret 0.

Definition set_permissions (apk_file : string) : M Z :=
  if NO_PERMISSIONS opts then log "Skipping permission setup" ;; ret 0
  else
    log "Setting file permissions..." ;;
    emit (Chmod644 apk_file) ;;
    (if chmod_644 h apk_file then log ("Set permissions 644 on " ++ apk_file)
     else log ("Warning: Failed to set permissions on " ++ apk_file)) ;;
    ret 0.

Definition install_via_termux_open (apk_file : string) : M Z :=
  emit (Attempt SystemInstaller) ;;
  if negb (has_termux_open h) then log "termux-open not available" ;; ret 1
  else
    log "Installing via termux-open..." ;;
    emit (TermuxOpen apk_file) ;;
    if termux_open h apk_file then log "APK opened with system installer" ;; ret 0
    else log "termux-open failed" ;; ret 1.

Fixpoint log_lines (lines : list string) : M unit :=
  match lines with
  | [] => ret tt
  | line :: rest => log ("  " ++ line) ;; log_lines rest
  end.

Definition check_adb_status : M Z :=
  if negb (has_adb h) then log "ADB not available" ;; ret 1
  else
    emit AdbVersion ;;
    match adb_version h with
    | None => log "ADB command failed" ;; ret 1
    | Some version =>
        log ("ADB available: " ++ version) ;;
        emit AdbDevices ;;
        match adb_devices h with
        | None => log "Failed to get ADB device list" ;; ret 1
        | Some lines =>
            log "ADB devices output:" ;;
            log_lines lines ;;
            if existsb (fun l => Str.endsWith l "device") lines then
              log "Found authorized ADB device" ;; ret 0
            else if existsb (fun l => Str.includes l "unauthorized") lines then
              log "Device found but unauthorized - check phone for ADB authorization dialog" ;;
              ret 1
            else log "No ADB devices connected" ;; ret 1
        end
    end.

Definition install_via_adb (apk_file : string) : M Z :=
  emit (Attempt DeviceBridge) ;;
  status <- check_adb_status ;;
  if negb (status =? 0) then ret 1
  else
    log "Installing via ADB..." ;;
    emit (AdbInstall apk_file) ;;
    if adb_install h apk_file then log "APK installed successfully via ADB" ;; ret 0
    else log "ADB install failed" ;; ret 1.

(** [manual_fallback]; [main] calls it as a plain command, with [set -e]
    in force. *)
Definition manual_fallback (apk_file : string) : M Z :=
  emit (Attempt ManualFallback) ;;
  log "Attempting manual fallback..." ;;
  let apk_dir := dirname h apk_file in
  (if has_termux_open h then
     log "Opening file manager..." ;;
     emit (TermuxOpen apk_dir) ;;
     if termux_open h apk_dir then log ("Opened file manager to: " ++ apk_dir)
     else log "Failed to open file manager"
   else ret tt) ;;
  (if has_termux_notification h then
     emit (Notification "Manual Installation Required" ("APK: " ++ basename h apk_file)) ;;
     status_of true (termux_notification h) ;; ret tt
   else ret tt) ;;
  emit (Instructions apk_file) ;;
  ret 1.

(** The notification after a method succeeded, a plain command of [main]. *)
Definition notify_success (title content : string) : M unit :=
  if has_termux_notification h then
    emit (Notification title content) ;;
    status_of true (termux_notification h) ;; ret tt
  else ret tt.

(** [main], from the check of [APK_FILE] on. Every path ends in [exit]. *)
Definition main : M Z :=
  let APK := APK_FILE opts in
  if String.eqb APK "" then die ("APK file required. Use: " ++ script h ++ " <apk_file>")
  else
    log "Starting APK installation process..." ;;
    log ("APK: " ++ APK) ;;
    log ("Force ADB: " ++ (if FORCE_ADB opts then "true" else "false")) ;;
    check_apk_file APK ;;
    set_permissions APK ;;
    forced <-
      (if FORCE_ADB opts then
         log "Forcing ADB installation..." ;;
         status <- install_via_adb APK ;;
         if status =? 0 then
           log "Installation completed successfully via ADB" ;;
           emit (Concluded InstalledViaSecondary) ;;
           exit 0
         else log "Forced ADB installation failed, trying other methods..." ;; ret tt
       else ret tt) ;;
    status <- install_via_termux_open APK ;;
    if status =? 0 then
      log "Installation initiated successfully via termux-open" ;;
      emit (Concluded InstalledViaPrimary) ;;
      notify_success "APK Installation Started"
        (basename h APK ++ " - Follow system prompts to complete") ;;
      exit 0
    else
      status <- install_via_adb APK ;;
      if status =? 0 then
        log "Installation completed successfully via ADB" ;;
        emit (Concluded InstalledViaSecondary) ;;
        notify_success "APK Installed" (basename h APK ++ " - Installed via ADB") ;;
        exit 0
      else
        log "All automatic installation methods failed" ;;
        emit (Concluded ManualRequired) ;;
        status <- manual_fallback APK ;;
        status_of true status ;;
        exit 1.

Definition run_main : Res Z * St := run main.

(** The exit code of the script. *)
Definition exit_code : Z :=
  match run_main with
  | (Done status, _) => status
  | (Exit code, _) => code
  end.

(** The installation methods entered, in order. *)
Definition attempts (tr : list Event) : list Method :=
  flat_map (fun e => match e with
                     | Attempt m => [m]
                     | _ => []
                     end) tr.

(** How the chain ended, when [main] got to say so. *)
Definition outcome (tr : list Event) : option DeliveryOutcome :=
  List.last (map Some (flat_map (fun e => match e with
                                          | Concluded o => [o]
                                          | _ => []
                                          end) tr)) None.

End Script.
End AutoInstall.

(** ** auto_install.sh: the argument loop and the whole script *)

Module AutoInstallCli.
Import Shell.
Local Open Scope sh_scope.

Section Script.
Variable h : AutoInstall.Host.
Variable script : string.                   (* $0 in the usage text; in a run it is AutoInstall.script h *)

(** [usage]: the here-document, one [echo] per line. *)
Definition usage_lines : list string :=
  ["Termux Orchestrator Auto Install Script";
   "";
   "Attempts to install APK using available methods:";
   "1. termux-open (preferred - uses Android's package installer)";
   "2. ADB install (requires USB debugging and authorized device)";
   "3. Manual fallback (opens file manager)";
   "";
   "Usage: " ++ script ++ " <apk_file> [options]";
   "";
   "Options:";
   "  --force-adb      Force ADB installation even if termux-open is available";
   "  --no-permissions Don't attempt to set file permissions";
   "  --help          Show this help";
   "";
   "Examples:";
   "  " ++ script ++ " /path/to/app.apk";
   "  " ++ script ++ " /path/to/app.apk --force-adb";
   "  ";
   "Requirements:";
   "  - termux-api package for termux-open";
   "  - adb for USB installation (optional)";
   "  - Proper file permissions on APK"].

Fixpoint echo_lines (lines : list string) : M unit :=
  match lines with
  | [] => ret tt
  | line :: rest => echo line ;; echo_lines rest
  end.

Definition usage : M unit := echo_lines usage_lines.

(** The loop [while [ $# -gt 0 ]] of [main] with its [case "$1"]: the
    patterns are tried in order, [-*] matches every word that starts with a
    dash and the last pattern every other word, the empty one included. *)
Fixpoint parse_args (args : list string) (opts : AutoInstall.Options)
  : M AutoInstall.Options :=
  match args with
  | [] => ret opts
  | arg :: rest =>
      if String.eqb arg "--force-adb" then
        parse_args rest (AutoInstall.mkOptions (AutoInstall.APK_FILE opts) true
                                               (AutoInstall.NO_PERMISSIONS opts))
      else if String.eqb arg "--no-permissions" then
        parse_args rest (AutoInstall.mkOptions (AutoInstall.APK_FILE opts)
                                               (AutoInstall.FORCE_ADB opts) true)
      else if (String.eqb arg "--help" || String.eqb arg "-h")%bool then
        usage ;; exit 0
      else if Str.startsWith arg "-" then
        AutoInstall.die h ("Unknown option: " ++ arg)
      else if String.eqb (AutoInstall.APK_FILE opts) "" then
        parse_args rest (AutoInstall.mkOptions arg (AutoInstall.FORCE_ADB opts)
                                               (AutoInstall.NO_PERMISSIONS opts))
      else AutoInstall.die h "Multiple APK files specified"
  end.

(** [main "$@"]: the variables start empty and false; the rest of [main]
    is [AutoInstall.main]. *)
Definition main (args : list string) : M Z :=
  opts <- parse_args args (AutoInstall.mkOptions "" false false) ;;
  AutoInstall.main h opts.

Definition exit_code (args : list string) : Z :=
  match run (main args) with
  | (Done status, _) => status
  | (Exit code, _) => code
  end.

End Script.
End AutoInstallCli.

(** ** poll_and_deliver.sh: the argument loop *)

Module PollAndDeliverCli.
Import Shell.
Local Open Scope sh_scope.

(** The variables the loop sets, as text: the shell keeps [--timeout] as
    the word it was given. *)
Record Variables := mkVariables {
  CI_PROVIDER : string;
  REPO : string;
  RUN_ID : string;
  BUILD_ID : string;
  OUTPUT_DIR : string;
  AUTO_INSTALL : bool;
  NO_NOTIFY : bool;
  TIMEOUT_SECONDS : string
}.

Section Script.
Variable w : PollAndDeliver.World.
Variable script : string.               (* $0 *)
Variable DOWNLOAD_DIR : string.         (* "$HOME/Downloads/orchestrator" *)
Variable unbound_status : Z.            (* the status of a shell that [set -u] stops
                                           at an unset [$2] *)

(** The variables before the loop. *)
Definition initial : Variables :=
  mkVariables "" "" "" "" DOWNLOAD_DIR false false "1800".

(** [usage]: the here-document with the values its variables have when it
    is printed. *)
Definition usage_lines (v : Variables) : list string :=
  ["Termux Orchestrator Delivery Script";
   "";
   "Usage: " ++ script ++ " --ci <provider> [options]";
   "";
   "Options:";
   "  --ci <provider>       CI provider: github, codemagic, eas";
   "  --repo <repo>         Repository (format: owner/repo) [GitHub]";
   "  --run-id <id>         GitHub Actions run ID";
   "  --build-id <id>       Codemagic/EAS build ID";
   "  --out <dir>           Download directory (default: " ++ DOWNLOAD_DIR ++ ")";
   "  --auto-install        Automatically install APK after download";
   "  --no-notify           Skip termux-notification";
   "  --timeout <seconds>   Max polling time (default: " ++ TIMEOUT_SECONDS v ++ ")";
   "  --help               Show this help";
   "";
   "Examples:";
   "  " ++ script ++ " --ci github --repo user/app --run-id 123456 --auto-install";
   "  " ++ script ++ " --ci codemagic --build-id abc123 --out ./downloads";
   "  " ++ script ++ " --ci eas --build-id def456 --auto-install";
   "";
   "Environment Variables:";
   "  CODEMAGIC_ACCESS_TOKEN - Required for Codemagic";
   "  EXPO_TOKEN            - Required for EAS"].

Fixpoint echo_lines (lines : list string) : M unit :=
  match lines with
  | [] => ret tt
  | line :: rest => echo line ;; echo_lines rest
  end.

Definition usage (v : Variables) : M unit := echo_lines (usage_lines v).

(** [VAR="$2"; shift 2]: without a second word [set -u] stops the shell. *)
Definition shift_2 (rest : list string) (k : string -> list string -> M Variables)
  : M Variables :=
  match rest with
  | value :: rest' => k value rest'
  | [] => exit unbound_status
  end.

(** The loop [while [ $# -gt 0 ]] of [main] with its [case "$1"]; [fuel]
    bounds the number of iterations, and the number of words is enough. *)
Fixpoint parse_loop (fuel : nat) (args : list string) (v : Variables) : M Variables :=
  match fuel with
  | O => ret v
  | S fuel' =>
      match args with
      | [] => ret v
      | arg :: rest =>
          if String.eqb arg "--ci" then
            shift_2 rest (fun value rest' =>
              parse_loop fuel' rest'
                (mkVariables value (REPO v) (RUN_ID v) (BUILD_ID v) (OUTPUT_DIR v)
                             (AUTO_INSTALL v) (NO_NOTIFY v) (TIMEOUT_SECONDS v)))
          else if String.eqb arg "--repo" then
            shift_2 rest (fun value rest' =>
              parse_loop fuel' rest'
                (mkVariables (CI_PROVIDER v) value (RUN_ID v) (BUILD_ID v) (OUTPUT_DIR v)
                             (AUTO_INSTALL v) (NO_NOTIFY v) (TIMEOUT_SECONDS v)))
          else if String.eqb arg "--run-id" then
            shift_2 rest (fun value rest' =>
              parse_loop fuel' rest'
                (mkVariables (CI_PROVIDER v) (REPO v) value (BUILD_ID v) (OUTPUT_DIR v)
                             (AUTO_INSTALL v) (NO_NOTIFY v) (TIMEOUT_SECONDS v)))
          else if String.eqb arg "--build-id" then
            shift_2 rest (fun value rest' =>
              parse_loop fuel' rest'
                (mkVariables (CI_PROVIDER v) (REPO v) (RUN_ID v) value (OUTPUT_DIR v)
                             (AUTO_INSTALL v) (NO_NOTIFY v) (TIMEOUT_SECONDS v)))
          else if String.eqb arg "--out" then
            shift_2 rest (fun value rest' =>
              parse_loop fuel' rest'
                (mkVariables (CI_PROVIDER v) (REPO v) (RUN_ID v) (BUILD_ID v) value
                             (AUTO_INSTALL v) (NO_NOTIFY v) (TIMEOUT_SECONDS v)))
          else if String.eqb arg "--auto-install" then
            parse_loop fuel' rest
              (mkVariables (CI_PROVIDER v) (REPO v) (RUN_ID v) (BUILD_ID v) (OUTPUT_DIR v)
                           true (NO_NOTIFY v) (TIMEOUT_SECONDS v))
          else if String.eqb arg "--no-notify" then
            parse_loop fuel' rest
              (mkVariables (CI_PROVIDER v) (REPO v) (RUN_ID v) (BUILD_ID v) (OUTPUT_DIR v)
                           (AUTO_INSTALL v) true (TIMEOUT_SECONDS v))
          else if String.eqb arg "--timeout" then
            shift_2 rest (fun value rest' =>
              parse_loop fuel' rest'
                (mkVariables (CI_PROVIDER v) (REPO v) (RUN_ID v) (BUILD_ID v) (OUTPUT_DIR v)
                             (AUTO_INSTALL v) (NO_NOTIFY v) value))
          else if (String.eqb arg "--help" || String.eqb arg "-h")%bool then
            usage v ;; exit 0
          else PollAndDeliver.die w ("Unknown option: " ++ arg)
      end
  end.

Definition parse_args (args : list string) : M Variables :=
  parse_loop (List.length args) args initial.

End Script.
End PollAndDeliverCli.

(** ** download_artifact.js (https): the other download methods and the command line *)

Module DownloaderCli.
Import Js.

(** [args.indexOf(word)], counted from [i]. *)
Fixpoint indexOf_from (i : Z) (args : list string) (word : string) : Z :=
  match args with
  | [] => -1
  | a :: rest => if String.eqb a word then i else indexOf_from (i + 1) rest word
  end.

Definition indexOf (args : list string) (word : string) : Z := indexOf_from 0 args word.

(** [args[i]]; [None] is [undefined]. *)
Definition at_index (args : list string) (i : Z) : option string :=
  if i <? 0 then None else nth_error args (Z.to_nat i).

(** [args.includes(word)] *)
Definition includes (args : list string) (word : string) : bool :=
  existsb (String.eqb word) args.

(** [args[args.indexOf(name) + 1]] *)
Definition word_after (args : list string) (name : string) : option string :=
  at_index args (indexOf args name + 1).

(** [args.includes(name) ? args[args.indexOf(name) + 1] : null]. Both
    [null] and [undefined] are [None]: the code tests the value with [!] only. *)
Definition option_value (args : list string) (name : string) : option string :=
  if includes args name then word_after args name else None.

(** [args[args.indexOf('--provider') + 1] || 'github'] *)
Definition provider_of (args : list string) : string :=
  if truthy (word_after args "--provider") then template (word_after args "--provider")
  else "github".

(** [args.includes('--out') ? args[args.indexOf('--out') + 1] : './artifacts'] *)
Definition outputDir_of (args : list string) : option string :=
  if includes args "--out" then word_after args "--out" else Some "./artifacts".

(** An element of [buildInfo.artefacts], an object with a string [name];
    [size] as the template literal prints it. *)
Record Artefact := mkArtefact {
  artefact_name : string;
  artefact_size : string;
  artefact_url : option string
}.

Record Platform := mkPlatform {
  host : Downloader.Host;
  invalid_path : string;          (* the message of the TypeError of fs.mkdirSync(undefined) *)
  construct : Exec unit;          (* new ArtifactDownloader(): the log directory *)
  CODEMAGIC_ACCESS_TOKEN : option string;
  (* JSON.parse(execSync(curlCmd)).artefacts: [] when missing or empty;
     Throws when curl fails, the reply is not JSON or has no properties *)
  codemagic_artefacts : string -> Exec (list Artefact);
  (* JSON.parse(execSync(cmd)).artifacts.buildUrl: None when one of them is missing *)
  eas_buildUrl : string -> Exec (option string);
  now : Z;                        (* Date.now() *)
  chmodSync : string -> Exec unit;
  statSync_size : string -> Exec N
}.

Inductive Event :=
| Did (e : Effect)                                      (* an effect of the class *)
| Execs (cmd : string)                                  (* execSync of curl or eas *)
| Chmod (filePath : string)                             (* fs.chmodSync(filePath, 0o644) *)
| ConsoleError (msg : string)                           (* console.error *)
| Succeeded (file provider : string) (size : N)         (* console.log(JSON.stringify(result)) *)
| Failed (error provider : string).

(** How the process ends. *)
Inductive Ending :=
| ProcessExit (code : Z)        (* process.exit(code) *)
| Returned                      (* main's promise is fulfilled *)
| Uncaught (message : string)   (* main's promise is rejected; console.error prints the error *)
| Unsettled.                    (* an awaited promise never settles *)

Definition usage : string :=
  String.concat nl
    [""; "Usage: node download_artifact.js [options]"; "";
     "Options:";
     "  --provider <provider>  CI provider: github, codemagic, eas, url";
     "  --repo <repo>         Repository for GitHub (format: owner/repo)";
     "  --run-id <id>         Run ID for GitHub Actions";
     "  --build-id <id>       Build ID for Codemagic or EAS";
     "  --url <url>           Direct download URL";
     "  --out <dir>           Output directory (default: ./artifacts)";
     "  --filename <name>     Custom filename for URL downloads"; "";
     "Examples:";
     "  node download_artifact.js --provider github --repo user/app --run-id 123456 --out ./downloads";
     "  node download_artifact.js --provider codemagic --build-id abc123 --out ./artifacts";
     "  node download_artifact.js --provider eas --build-id def456";
     "  node download_artifact.js --provider url --url https://example.com/app.apk --filename app.apk";
     "";
     "Environment Variables:";
     "  CODEMAGIC_ACCESS_TOKEN - Required for Codemagic downloads"; ""].

Definition completed_successfully : Event :=
  Did (Console (nl ++ "Download completed successfully!")).

Definition invalid_provider : string :=
  "Invalid provider. Use: github, codemagic, eas, or url".

Section Cli.
Context {P : NodePath}.
Variable p : Platform.

Definition did (es : list Effect) : list Event := map Did es.

Definition rejected (message : string) (tr : list Event)
  : option (Downloader.Promise * list Event) :=
  Some (Downloader.Settle (Rejected message), tr).

(** [await this.downloadFile(url, outputPath); return outputPath;] inside
    a [try] whose [catch] throws a new error with the message [failed message]. *)
Definition awaited (failed : string -> string) (before : list Event)
                   (download : option Downloader.Download) (outputPath : string)
  : option (Downloader.Promise * list Event) :=
  match download with
  | None => None
  | Some d =>
      let tr := (before ++ did (Downloader.effects d))%list in
      match Downloader.promise d with
      | Downloader.Pending => Some (Downloader.Pending, tr)
      | Downloader.Settle (Rejected message) => rejected (failed message) tr
      | Downloader.Settle (Fulfilled _) => Some (Downloader.Settle (Fulfilled outputPath), tr)
      end
  end.

Definition codemagic_failed (message : string) : string :=
  "Codemagic artifact download failed: " ++ message.

(** [async downloadCodemagicArtifact(buildId, outputDir)] *)
Definition downloadCodemagicArtifact (fuel : nat) (buildId outputDir : string)
  : option (Downloader.Promise * list Event) :=
  let started := Did (Log ("Downloading Codemagic artifact for build " ++ buildId)) in
  if negb (truthy (CODEMAGIC_ACCESS_TOKEN p)) then
    rejected (codemagic_failed "CODEMAGIC_ACCESS_TOKEN environment variable required")
             [started]
  else
    let accessToken := template (CODEMAGIC_ACCESS_TOKEN p) in
    let curlCmd := "curl -s -H " ++ dq ++ "x-auth-token: " ++ accessToken ++ dq
                   ++ " https://api.codemagic.io/builds/" ++ buildId in
    match codemagic_artefacts p curlCmd with
    | Throws message => rejected (codemagic_failed message) [started; Execs curlCmd]
    | Output [] =>
        rejected (codemagic_failed "No artifacts found for this build")
                 [started; Execs curlCmd]
    | Output (artifact :: _) =>
        let outputPath := path_join outputDir (artefact_name artifact) in
        awaited codemagic_failed
          [started; Execs curlCmd;
           Did (Log ("Artifact: " ++ artefact_name artifact
                     ++ " (" ++ artefact_size artifact ++ " bytes)"))]
          (Downloader.downloadFile fuel (Downloader.network (host p))
             (artefact_url artifact) outputPath [])
          outputPath
    end.

Definition eas_failed (message : string) : string :=
  "EAS artifact download failed: " ++ message.

(** [async downloadEASArtifact(buildId, outputDir)] *)
Definition downloadEASArtifact (fuel : nat) (buildId outputDir : string)
  : option (Downloader.Promise * list Event) :=
  let started := Did (Log ("Downloading EAS artifact for build " ++ buildId)) in
  let cmd := "eas build:view " ++ buildId ++ " --json" in
  match eas_buildUrl p cmd with
  | Throws message => rejected (eas_failed message) [started; Execs cmd]
  | Output buildUrl =>
      if negb (truthy buildUrl) then
        rejected (eas_failed "No build URL found for this build") [started; Execs cmd]
      else
        let outputPath := path_join outputDir ("eas-build-" ++ buildId ++ ".apk") in
        awaited eas_failed
          [started; Execs cmd; Did (Log ("Build URL: " ++ template buildUrl))]
          (Downloader.downloadFile fuel (Downloader.network (host p))
             buildUrl outputPath [])
          outputPath
  end.

Definition url_failed (message : string) : string :=
  "URL download failed: " ++ message.

(** [async downloadFromUrl(url, outputDir, fileName = null)];
    [path.basename(url)] is [path.basename(url, '')]. *)
Definition downloadFromUrl (fuel : nat) (url outputDir : string) (fileName : option string)
  : option (Downloader.Promise * list Event) :=
  let started := Did (Log ("Downloading from URL: " ++ url)) in
  let fileName :=
    if truthy fileName then template fileName
    else if negb (String.eqb (path_basename url "") "") then path_basename url ""
         else "download-" ++ string_of_Z (now p) in
  let outputPath := path_join outputDir fileName in
  awaited url_failed [started]
    (Downloader.downloadFile fuel (Downloader.network (host p)) (Some url) outputPath [])
    outputPath.

(** [setFilePermissions(filePath, mode = 0o644)] *)
Definition setFilePermissions (filePath : string) : list Event :=
  match chmodSync p filePath with
  | Output _ => [Chmod filePath; Did (Log ("Set permissions 644 on " ++ filePath))]
  | Throws message => [Chmod filePath; Did (Log ("Failed to set permissions: " ++ message))]
  end.

(** The [switch] of [main]; a [throw] in it is a rejection as well. *)
Definition download (fuel : nat) (args : list string) (outputDir : string)
  : option (Downloader.Promise * list Event) :=
  let provider := provider_of args in
  let repo := option_value args "--repo" in
  let runId := option_value args "--run-id" in
  let buildId := option_value args "--build-id" in
  let url := option_value args "--url" in
  let fileName := option_value args "--filename" in
  if String.eqb provider "github" then
    if (negb (truthy repo) || negb (truthy runId))%bool then
      rejected "--repo and --run-id required for GitHub downloads" []
    else
      match Downloader.downloadGitHubArtifact (host p) fuel
              (template repo) (template runId) outputDir with
      | None => None
      | Some (promise, tr) => Some (promise, did tr)
      end
  else if String.eqb provider "codemagic" then
    if negb (truthy buildId) then rejected "--build-id required for Codemagic downloads" []
    else downloadCodemagicArtifact fuel (template buildId) outputDir
  else if String.eqb provider "eas" then
    if negb (truthy buildId) then rejected "--build-id required for EAS downloads" []
    else downloadEASArtifact fuel (template buildId) outputDir
  else if String.eqb provider "url" then
    if negb (truthy url) then rejected "--url required for URL downloads" []
    else downloadFromUrl fuel (template url) outputDir fileName
  else rejected invalid_provider [].

(** The [catch] block of [main]. *)
Definition download_failed (args : list string) (message : string) : list Event :=
  [ConsoleError ("Download failed: " ++ message); Failed message (provider_of args)].

(** [async function main()], on [process.argv.slice(2)]; [None] when a
    chain of redirects outruns [fuel]. *)
Definition main (fuel : nat) (args : list string) : option (Ending * list Event) :=
  if (includes args "--help" || includes args "-h")%bool then
    Some (ProcessExit 0, [Did (Console usage)])
  else
    match outputDir_of args with
    | None => Some (Uncaught (invalid_path p), [])
    | Some outputDir =>
        match Downloader.mkdirSync (host p) outputDir with
        | Throws message => Some (Uncaught message, [Did (Mkdir outputDir)])
        | Output _ =>
            match construct p with
            | Throws message => Some (Uncaught message, [Did (Mkdir outputDir)])
            | Output _ =>
                match download fuel args outputDir with
                | None => None
                | Some (Downloader.Pending, tr) => Some (Unsettled, Did (Mkdir outputDir) :: tr)
                | Some (Downloader.Settle (Rejected message), tr) =>
                    Some (ProcessExit 1,
                          Did (Mkdir outputDir) :: (tr ++ download_failed args message)%list)
                | Some (Downloader.Settle (Fulfilled downloadedFile), tr) =>
                    let tr := (Did (Mkdir outputDir) :: tr
                               ++ setFilePermissions downloadedFile
                               ++ [completed_successfully;
                                   Did (Console ("File: " ++ downloadedFile))])%list in
                    match statSync_size p downloadedFile with
                    | Throws message =>
                        Some (ProcessExit 1, (tr ++ download_failed args message)%list)
                    | Output size =>
                        Some (Returned,
                              (tr ++ [Succeeded downloadedFile (provider_of args) size])%list)
                    end
                end
            end
        end
    end.

End Cli.
End DownloaderCli.

(** ** download_artifact.js (gh, curl): the download methods and the command line *)

Module ArtifactDownloaderCli.

Inductive Event :=
| Did (e : Js.Effect)                          (* an effect of extractArtifact or validateArtifact, this.log *)
| Execs (cmd : string)                         (* execSync *)
| Remove (filePath : string) (recursive : bool)   (* fs.rmSync (recursive) or fs.unlinkSync *)
| Completed (artifactPath provider : string)   (* the three console.log lines of a success *)
| ResultJson (artifactPath : string)           (* console.log(JSON.stringify(result, null, 2)) *)
| Failed (message : string).                   (* console.error of the catch block *)

Definition M (A : Type) : Type := Exec A * list Event.

Definition ret {A} (a : A) : M A := (Output a, []).

Definition bind {A B} (m : M A) (k : A -> M B) : M B :=
  match m with
  | (Throws e, tr) => (Throws e, tr)
  | (Output a, tr) => let (r, tr') := k a in (r, (tr ++ tr')%list)
  end.

Definition throw {A} (message : string) : M A := (Throws message, []).

(** [try { m } catch (error) { handler error.message }] *)
Definition try_catch {A} (m : M A) (handler : string -> M A) : M A :=
  match m with
  | (Throws e, tr) => let (r, tr') := handler e in (r, (tr ++ tr')%list)
  | (Output a, tr) => (Output a, tr)
  end.

(** [this.log(message)], the log file written without error, as [Js.log]. *)
Definition log (msg : string) : M unit := (Output tt, [Did (Js.Log msg)]).

(** [execSync(cmd)] and what it gives. *)
Definition execSync {A} (cmd : string) (answer : Exec A) : M A := (answer, [Execs cmd]).

(** A method of the class, run here. *)
Definition lift {A} (m : Js.M A) : M A := (fst m, map Did (snd m)).

End ArtifactDownloaderCli.

Declare Scope cli_scope.
Delimit Scope cli_scope with cli.
Notation "x <- m ;; k" := (ArtifactDownloaderCli.bind m (fun x => k))
  (at level 61, m at next level, right associativity) : cli_scope.
Notation "m ;; k" := (ArtifactDownloaderCli.bind m (fun _ => k))
  (at level 61, right associativity) : cli_scope.

Module ArtifactDownloaderMain.
Import ArtifactDownloaderCli.
Local Open Scope cli_scope.

(** An element of [.artifacts[]] of a run; [size_in_bytes] and [id] as the
    template literals print them. *)
Record Artifact := mkArtifact {
  name : string;
  size_in_bytes : string;
  id : string
}.

(** An element of [build.artefacts] of Codemagic. *)
Record Artefact := mkArtefact {
  artefact_name : string;
  artefact_type : option string;
  artefact_size : option string;     (* None when falsy *)
  artefact_url : option string
}.

Record CodemagicBuild := mkCodemagicBuild {
  cm_status : option string;
  artefacts : list Artefact          (* build.artefacts || [] *)
}.

Record EasBuild := mkEasBuild {
  eas_status : option string;
  buildUrl : option string;          (* buildDetails.artifacts?.buildUrl *)
  platform : option string;
  appId : option string;
  buildVersion : option string
}.

(** [fs.statSync(filePath)], as [cleanupOldDownloads] reads it. *)
Record Stats := mkStats {
  mtime : Z;                         (* stats.mtime.getTime() *)
  isDirectory : bool
}.

Record Platform := mkPlatform {
  default_downloadDir : string;      (* path.join(process.env.HOME, 'Downloads', 'orchestrator') *)
  construct : Exec unit;             (* new ArtifactDownloader() *)
  at_start : ArtifactDownloader.Host;      (* the disk when main starts *)
  at_extract : ArtifactDownloader.Host;    (* the disk once the archive is downloaded *)
  at_validate : ArtifactDownloader.Host;   (* the disk when validateArtifact is called *)
  run : string -> Exec unit;         (* execSync of a command whose output is not read *)
  (* JSON.parse of the lines of execSync(listCmd) *)
  gh_artifacts : string -> Exec (list Artifact);
  CODEMAGIC_ACCESS_TOKEN : option string;
  (* JSON.parse(execSync(buildDetailsCmd)).build; None when it is missing *)
  codemagic_build : string -> Exec (option CodemagicBuild);
  (* JSON.parse(execSync(buildCmd)); None for null *)
  eas_build : string -> Exec (option EasBuild);
  now : Z;                           (* Date.now() *)
  statSync : string -> Exec Stats;
  rmSync : string -> Exec unit;      (* fs.rmSync(filePath, { recursive: true, force: true }) *)
  unlinkSync : string -> Exec unit
}.

(** How the process ends. *)
Inductive Ending :=
| ProcessExit (code : Z)        (* process.exit(code) *)
| Returned                      (* main's promise is fulfilled *)
| Uncaught (message : string).  (* main's promise is rejected; console.error prints the error *)

Definition usage : string :=
  String.concat nl
    ["Usage: node download_artifact.js <provider> <build-id> [options]"; "";
     "Providers:";
     "  github <repo> <run-id> [artifact-name]";
     "  codemagic <build-id>";
     "  eas <build-id>"; "";
     "Options:";
     "  --output <dir>     Download directory (default: ~/Downloads/orchestrator)";
     "  --cleanup          Clean old downloads before starting"; "";
     "Examples:";
     "  node download_artifact.js github user/repo 123456";
     "  node download_artifact.js github user/repo 123456 android-apk";
     "  node download_artifact.js codemagic abc123def456";
     "  node download_artifact.js eas build_12345678";
     "  node download_artifact.js --cleanup github user/repo 123456"].

Section Methods.
Context {P : NodePath}.
Variable p : Platform.

(** [ensureDownloadDir()], with [this.downloadDir] as [downloadDir]. *)
Definition ensureDownloadDir (downloadDir : string) : M unit :=
  if negb (ArtifactDownloader.existsSync (at_start p) downloadDir)
  then lift (Js.perform (Js.Mkdir downloadDir)
               (ArtifactDownloader.mkdirSync (at_start p) downloadDir))
  else ret tt.

(** The artifact [downloadFromGitHub] takes. *)
Definition named (artifactName : string) (a : Artifact) : bool :=
  String.eqb (name a) artifactName.

Definition looks_like_apk (a : Artifact) : bool :=
  (Str.includes (Str.toLowerCase (name a)) "apk"
   || Str.includes (Str.toLowerCase (name a)) "android"
   || Str.includes (Str.toLowerCase (name a)) "app")%bool.

Definition targetArtifact (artifacts : list Artifact) (artifactName : option string)
  : option Artifact :=
  if truthy artifactName then find (named (template artifactName)) artifacts
  else match find looks_like_apk artifacts with
       | Some a => Some a
       | None => List.hd_error artifacts
       end.

Definition artifact_not_found (artifactName : option string) : string :=
  "Artifact not found: " ++ (if truthy artifactName then template artifactName
                             else "auto-select").

(** [async downloadFromGitHub(repo, runId, artifactName = null)]; the
    result is [result.artifactPath]. *)
Definition downloadFromGitHub (downloadDir repo runId : string) (artifactName : option string)
  : M string :=
  log ("Downloading GitHub Actions artifact: " ++ repo ++ ":" ++ runId) ;;
  try_catch
    (execSync "gh --version" (run p "gh --version") ;;
     let listCmd := "gh api repos/" ++ repo ++ "/actions/runs/" ++ runId
                    ++ "/artifacts --jq '.artifacts[]'" in
     artifacts <- execSync listCmd (gh_artifacts p listCmd) ;;
     match artifacts with
     | [] => throw "No artifacts found for this run"
     | _ :: _ =>
         match targetArtifact artifacts artifactName with
         | None => throw (artifact_not_found artifactName)
         | Some target =>
             log ("Found artifact: " ++ name target
                  ++ " (" ++ size_in_bytes target ++ " bytes)") ;;
             let outputPath := path_join downloadDir (name target ++ ".zip") in
             let downloadCmd := "gh api repos/" ++ repo ++ "/actions/artifacts/" ++ id target
                                ++ "/zip > " ++ dq ++ outputPath ++ dq in
             execSync downloadCmd (run p downloadCmd) ;;
             extractedPath <- lift (ArtifactDownloader.extractArtifact (at_extract p)
                                      outputPath) ;;
             log ("Artifact downloaded successfully: " ++ extractedPath) ;;
             ret extractedPath
         end
     end)
    (fun message =>
       log ("GitHub artifact download failed: " ++ message) ;;
       throw message).

(** [a.name.endsWith('.apk') || a.type === 'apk' || a.name.toLowerCase().includes('apk')] *)
Definition is_apk (a : Artefact) : bool :=
  (Str.endsWith (artefact_name a) ".apk"
   || match artefact_type a with
      | Some t => String.eqb t "apk"
      | None => false
      end
   || Str.includes (Str.toLowerCase (artefact_name a)) "apk")%bool.

(** [async downloadFromCodemagic(buildId)] *)
Definition downloadFromCodemagic (downloadDir buildId : string) : M string :=
  log ("Downloading Codemagic artifact: " ++ buildId) ;;
  try_catch
    (if negb (truthy (CODEMAGIC_ACCESS_TOKEN p)) then throw "CODEMAGIC_ACCESS_TOKEN not set"
     else
       let accessToken := template (CODEMAGIC_ACCESS_TOKEN p) in
       let buildDetailsCmd := "curl -s -H " ++ dq ++ "x-auth-token: " ++ accessToken ++ dq
                              ++ " " ++ dq ++ "https://api.codemagic.io/builds/" ++ buildId
                              ++ dq in
       details <- execSync buildDetailsCmd (codemagic_build p buildDetailsCmd) ;;
       match details with
       | None => throw "Build not found or access denied"
       | Some build =>
           log ("Build status: " ++ template (cm_status build)) ;;
           if negb match cm_status build with
                   | Some s => String.eqb s "finished"
                   | None => false
                   end
           then throw ("Build not finished. Status: " ++ template (cm_status build))
           else
             match find is_apk (artefacts build) with
             | None => throw "No APK artifact found in build"
             | Some apkArtifact =>
                 log ("Found APK: " ++ artefact_name apkArtifact ++ " ("
                      ++ match artefact_size apkArtifact with
                         | Some size => size
                         | None => "unknown size"
                         end ++ ")") ;;
                 let outputPath := path_join downloadDir (artefact_name apkArtifact) in
                 let downloadCmd := "curl -L -H " ++ dq ++ "x-auth-token: " ++ accessToken
                                    ++ dq ++ " " ++ dq ++ template (artefact_url apkArtifact)
                                    ++ dq ++ " -o " ++ dq ++ outputPath ++ dq in
                 execSync downloadCmd (run p downloadCmd) ;;
                 log ("APK downloaded successfully: " ++ outputPath) ;;
                 ret outputPath
             end
       end)
    (fun message =>
       log ("Codemagic artifact download failed: " ++ message) ;;
       throw message).

(** [async downloadFromEAS(buildId)] *)
Definition downloadFromEAS (downloadDir buildId : string) : M string :=
  log ("Downloading EAS artifact: " ++ buildId) ;;
  try_catch
    (execSync "eas --version" (run p "eas --version") ;;
     let buildCmd := "eas build:view " ++ buildId ++ " --json" in
     details <- execSync buildCmd (eas_build p buildCmd) ;;
     match details with
     | None => throw "Build not found"
     | Some buildDetails =>
         log ("Build status: " ++ template (eas_status buildDetails)) ;;
         if negb match eas_status buildDetails with
                 | Some s => String.eqb s "finished"
                 | None => false
                 end
         then throw ("Build not finished. Status: " ++ template (eas_status buildDetails))
         else if negb (truthy (buildUrl buildDetails))
         then throw "No build artifact URL found"
         else
           let artifactUrl := template (buildUrl buildDetails) in
           log ("Found artifact URL: " ++ artifactUrl) ;;
           let extension := match platform buildDetails with
                            | Some "ios" => ".ipa"
                            | _ => ".apk"
                            end in
           let filename := template (appId buildDetails) ++ "-"
                           ++ template (buildVersion buildDetails) ++ extension in
           let outputPath := path_join downloadDir filename in
           let downloadCmd := "curl -L " ++ dq ++ artifactUrl ++ dq
                              ++ " -o " ++ dq ++ outputPath ++ dq in
           execSync downloadCmd (run p downloadCmd) ;;
           log ("EAS artifact downloaded successfully: " ++ outputPath) ;;
           ret outputPath
     end)
    (fun message =>
       log ("EAS artifact download failed: " ++ message) ;;
       throw message).

(** [maxAge = 7 * 24 * 60 * 60 * 1000] *)
Definition maxAge : Z := 7 * 24 * 60 * 60 * 1000.

(** The [for] loop of [cleanupOldDownloads]; the result is [cleaned]. *)
Fixpoint clean (downloadDir : string) (files : list string) (cleaned : Z) : M Z :=
  match files with
  | [] => ret cleaned
  | file :: others =>
      let filePath := path_join downloadDir file in
      stats <- (statSync p filePath, []) ;;
      cleaned <-
        (if now p - mtime stats >? maxAge then
           (if isDirectory stats
            then (rmSync p filePath, [Remove filePath true])
            else (unlinkSync p filePath, [Remove filePath false])) ;;
           log ("Removed old file: " ++ file) ;;
           ret (cleaned + 1)
         else ret cleaned) ;;
      clean downloadDir others cleaned
  end.

(** [cleanupOldDownloads(maxAge = 7 * 24 * 60 * 60 * 1000)] *)
Definition cleanupOldDownloads (downloadDir : string) : M unit :=
  log "Cleaning up old downloads..." ;;
  try_catch
    (entries <- lift (Js.perform (Js.Readdir downloadDir)
                        (ArtifactDownloader.readdirSync (at_start p) downloadDir)) ;;
     cleaned <- clean downloadDir (map entry_name entries) 0 ;;
     log ("Cleanup complete: " ++ string_of_Z cleaned ++ " files removed"))
    (fun message => log ("Cleanup failed: " ++ message)).

Definition unknown_provider (provider : string) : string :=
  "Unknown provider: " ++ provider ++ ". Use: github, codemagic, or eas".

(** The [try] block of [main]. *)
Definition main_body (args : list string) : M unit :=
  let provider := template (nth_error args 0) in
  (if DownloaderCli.includes args "--cleanup"
   then cleanupOldDownloads (default_downloadDir p)
   else ret tt) ;;
  let outputIndex := DownloaderCli.indexOf args "--output" in
  downloadDir <-
    (if (negb (outputIndex =? -1) && truthy (DownloaderCli.at_index args (outputIndex + 1)))%bool
     then
       let downloadDir := template (DownloaderCli.at_index args (outputIndex + 1)) in
       ensureDownloadDir downloadDir ;; ret downloadDir
     else ret (default_downloadDir p)) ;;
  artifactPath <-
    (if String.eqb provider "github" then
       if (Z.of_nat (List.length args) <? 3) then
         throw "GitHub provider requires: <repo> <run-id> [artifact-name]"
       else
         downloadFromGitHub downloadDir (template (nth_error args 1))
                            (template (nth_error args 2)) (nth_error args 3)
     else if String.eqb provider "codemagic" then
       if (Z.of_nat (List.length args) <? 2) then
         throw "Codemagic provider requires: <build-id>"
       else downloadFromCodemagic downloadDir (template (nth_error args 1))
     else if String.eqb provider "eas" then
       if (Z.of_nat (List.length args) <? 2) then
         throw "EAS provider requires: <build-id>"
       else downloadFromEAS downloadDir (template (nth_error args 1))
     else throw (unknown_provider provider)) ;;
  lift (ArtifactDownloader.validateArtifact (at_validate p) artifactPath) ;;
  (Output tt, [Completed artifactPath provider]) ;;
  (if DownloaderCli.includes args "--json"
   then (Output tt, [ResultJson artifactPath])
   else ret tt).

(** [async function main()], on [process.argv.slice(2)]. *)
Definition main (args : list string) : Ending * list Event :=
  if Z.of_nat (List.length args) <? 2 then
    (ProcessExit 1, [Did (Js.Console usage)])
  else
    match construct p with
    | Throws message => (Uncaught message, [])
    | Output _ =>
        match main_body args with
        | (Output _, tr) => (Returned, tr)
        | (Throws message, tr) => (ProcessExit 1, (tr ++ [Failed message])%list)
        end
    end.

End Methods.
End ArtifactDownloaderMain.

(** ** download_artifact.js (gh, curl): the log file

    [log(message)] prints the entry and then appends it to the log file
    with [fs.appendFileSync], which throws when the file cannot be written.
    The modules above take the log file to be writable. Here it is a part of
    the host, and [toLowerCase], which JavaScript defines on Unicode text, is
    a function of the platform as [path] is. *)

Class JsText := {
  toLowerCase : string -> string
}.

(** [toLowerCase] on ASCII text, to run examples. *)
#[export] Instance ascii_text : JsText := {
  toLowerCase := Str.toLowerCase
}.

(** The log file of the JavaScript tools. Their [log(message)] prints the
    entry with [console.log] and then appends it to the file, which throws
    when the file cannot be written. *)
Record LogFile := mkLogFile {
  appendFileSync : string -> Exec unit   (* fs.appendFileSync(this.logFile, entry), by the message of the entry *)
}.

Module ArtifactDownloaderLog.
Import Js.
Local Open Scope js_scope.

Section Methods.
Context {P : NodePath} {T : JsText}.
Variable l : LogFile.
Variable h : ArtifactDownloader.Host.

(** [log(message)]: [console.log], then [fs.appendFileSync]. *)
Definition log (msg : string) : M unit := perform (Log msg) (appendFileSync l msg).

(** The body of the [try] block of [extractArtifact]. *)
Definition extract_body (zipPath : string) : M string :=
  let extractDir :=
    path_join (path_dirname zipPath) (path_basename zipPath ".zip") in
  (if negb (ArtifactDownloader.existsSync h extractDir)
   then perform (Mkdir extractDir) (ArtifactDownloader.mkdirSync h extractDir)
   else ret tt) ;;
  perform (Unzip zipPath extractDir) (ArtifactDownloader.unzip h extractDir zipPath) ;;
  entries <- perform (Readdir extractDir) (ArtifactDownloader.readdirSync h extractDir) ;;
  let files := map entry_name entries in
  match find ArtifactDownloader.is_mobile_artifact files with
  | Some artifactFile =>
      let artifactPath := path_join extractDir artifactFile in
      log ("Extracted artifact: " ++ artifactPath) ;;
      ret artifactPath
  | None =>
      log ("No mobile artifact found in extracted files: " ++ String.concat ", " files) ;;
      ret extractDir
  end.

(** [async extractArtifact(zipPath)] *)
Definition extractArtifact (zipPath : string) : M string :=
  if negb (Str.endsWith zipPath ".zip") then ret zipPath
  else
    try_catch (extract_body zipPath)
      (fun message =>
         log ("Failed to extract " ++ zipPath ++ ": " ++ message) ;;
         ret zipPath).

(** [validateArtifact(filePath)] *)
Definition validateArtifact (filePath : string) : M bool :=
  if negb (ArtifactDownloader.existsSync h filePath)
  then throw (ArtifactDownloader.not_found filePath)
  else
    size <- (ArtifactDownloader.statSync_size h filePath, []) ;;
    if N.eqb size 0 then throw (ArtifactDownloader.is_empty filePath)
    else
      let ext := toLowerCase (path_extname filePath) in
      (if negb (existsb (String.eqb ext) payload_extensions)
       then log ("Warning: Unexpected file type: " ++ ext)
       else ret tt) ;;
      log ("Artifact validation passed: " ++ filePath
           ++ " (" ++ ArtifactDownloader.string_of_N size ++ " bytes)") ;;
      ret true.

End Methods.

Section Cleanup.
Import ArtifactDownloaderCli.
Local Open Scope cli_scope.
Context {P : NodePath}.
Variable l : LogFile.
Variable p : ArtifactDownloaderMain.Platform.

Definition cli_log (msg : string) : ArtifactDownloaderCli.M unit :=
  (appendFileSync l msg, [Did (Log msg)]).

(** The [for] loop of [cleanupOldDownloads]; the result is [cleaned]. *)
Fixpoint clean (downloadDir : string) (files : list string) (cleaned : Z)
  : ArtifactDownloaderCli.M Z :=
  match files with
  | [] => ArtifactDownloaderCli.ret cleaned
  | file :: others =>
      let filePath := path_join downloadDir file in
      stats <- (ArtifactDownloaderMain.statSync p filePath, []) ;;
      cleaned <-
        (if ArtifactDownloaderMain.now p - ArtifactDownloaderMain.mtime stats
            >? ArtifactDownloaderMain.maxAge then
           (if ArtifactDownloaderMain.isDirectory stats
            then (ArtifactDownloaderMain.rmSync p filePath, [Remove filePath true])
            else (ArtifactDownloaderMain.unlinkSync p filePath, [Remove filePath false])) ;;
           cli_log ("Removed old file: " ++ file) ;;
           ArtifactDownloaderCli.ret (cleaned + 1)
         else ArtifactDownloaderCli.ret cleaned) ;;
      clean downloadDir others cleaned
  end.

(** [cleanupOldDownloads(maxAge = 7 * 24 * 60 * 60 * 1000)] *)
Definition cleanupOldDownloads (downloadDir : string) : ArtifactDownloaderCli.M unit :=
  cli_log "Cleaning up old downloads..." ;;
  ArtifactDownloaderCli.try_catch
    (entries <- lift (perform (Readdir downloadDir)
                        (ArtifactDownloader.readdirSync
                           (ArtifactDownloaderMain.at_start p) downloadDir)) ;;
     cleaned <- clean downloadDir (map entry_name entries) 0 ;;
     cli_log ("Cleanup complete: " ++ string_of_Z cleaned ++ " files removed"))
    (fun message => cli_log ("Cleanup failed: " ++ message)).

End Cleanup.
End ArtifactDownloaderLog.

(** ** trigger_ci.js: the polls with their log file

    [log] is called before the loop, inside the [try] block of an attempt
    and inside its [catch] block. An error of [fs.appendFileSync] inside
    the [try] is caught like a failed read; in the [catch] block and before
    the loop it leaves the function. *)
Module CITriggerLog.
Import CITrigger.

Section Poll.
Variable l : LogFile.
Variable b : Backend.

(** [this.log(msg)] followed by [rest], inside a block. *)
Definition log (msg : string) (rest : Completion PollResult * list JsEvent)
  : Completion PollResult * list JsEvent :=
  match appendFileSync l msg with
  | Throws m => (Throw m, [Log msg])
  | Output _ => let (c, tr) := rest in (c, Log msg :: tr)
  end.

(** The [try] block of one iteration of [pollGitHubActions]. *)
Definition github_try (runId : string) (attempt maxAttempts : Z)
  : Completion PollResult * list JsEvent :=
  match gh_run b (Z.to_nat attempt) with
  | Throws m => (Throw m, [StatusQuery attempt])
  | Output out =>
      let status := Str.trim out in
      let parts := Str.split_colon status in
      let runStatus := nth_error parts 0 in
      let conclusion := nth_error parts 1 in
      let (c, tr) :=
        log (attempt_line attempt maxAttempts ++ template runStatus
             ++ " (" ++ template conclusion ++ ")")
          (if String.eqb (template runStatus) "completed" then
             if match conclusion with
                | Some c => String.eqb c "success"
                | None => false
                end
             then
               match gh_artifacts b (Z.to_nat attempt) with
               | Throws m => (Throw m, [ArtifactsQuery attempt])
               | Output url =>
                   let artifactUrl := Str.trim url in
                   let (c, tr) :=
                     log ("Build completed successfully. Artifact: " ++ artifactUrl)
                       (Return (mkPollResult true artifactUrl runId), []) in
                   (c, ArtifactsQuery attempt :: tr)
               end
             else (Throw ("Build failed with conclusion: " ++ template conclusion), [])
           else (Normal, [Wait 30000])) in
      (c, StatusQuery attempt :: tr)
  end.

(** The [catch] block: the last attempt rethrows, any other logs, waits
    and lets the loop go on. *)
Definition catch_attempt (attempt maxAttempts : Z) (message : string)
  : Completion PollResult * list JsEvent :=
  if attempt =? maxAttempts then (Throw message, [])
  else log ("Polling attempt " ++ string_of_Z attempt ++ " failed: " ++ message)
         (Normal, [Wait 30000]).

(** The [for] loop, as [CITrigger.poll_loop] with this [catch] block. *)
Fixpoint poll_loop
    (try_body : Z -> Completion PollResult * list JsEvent)
    (maxWaitMinutes maxAttempts : Z) (remaining : nat) (attempt : Z)
  : Settled PollResult * list JsEvent :=
  match remaining with
  | O => (Rejected (did_not_complete maxWaitMinutes), [])
  | S remaining' =>
      let (c, tr) := try_body attempt in
      let (c, tr) :=
        match c with
        | Throw m => let (c', tr') := catch_attempt attempt maxAttempts m in (c', (tr ++ tr')%list)
        | _ => (c, tr)
        end in
      match c with
      | Return v => (Fulfilled v, tr)
      | Throw m => (Rejected m, tr)
      | Normal =>
          let (r, tr') :=
            poll_loop try_body maxWaitMinutes maxAttempts remaining' (attempt + 1) in
          (r, (tr ++ tr')%list)
      end
  end.

(** [async pollGitHubActions(repo, runId, maxWaitMinutes = 30)] *)
Definition pollGitHubActions (repo runId : string) (maxWaitMinutes : Z)
  : Settled PollResult * list JsEvent :=
  let line := "Polling GitHub Actions run " ++ runId ++ " (max "
              ++ string_of_Z maxWaitMinutes ++ " minutes)" in
  match appendFileSync l line with
  | Throws m => (Rejected m, [Log line])
  | Output _ =>
      let maxAttempts := maxWaitMinutes * 2 in
      let (r, tr) :=
        poll_loop (fun attempt => github_try runId attempt maxAttempts)
                  maxWaitMinutes maxAttempts (Z.to_nat maxAttempts) 1 in
      (r, Log line :: tr)
  end.

End Poll.
End CITriggerLog.

(** * Vocabulary of the statements *)

(** The number of status reads in a trace of a shell script. *)
Definition is_query (e : Event) : bool :=
  match e with
  | Query _ => true
  | _ => false
  end.

Definition queries (tr : list Event) : nat := List.length (filter is_query tr).

(** The least integer not below [T / I], for a positive [I]. *)
Definition ceil_div (T I : Z) : Z := (T + I - 1) / I.

(** A status read of [poll_github] that is not terminal: the command failed,
    or the status it printed is not [completed]. *)
Definition gh_non_terminal (r : option string) : Prop :=
  match r with
  | None => True
  | Some status_info => Str.before_first ":" status_info <> "completed"
  end.

(** The same for [pollGitHubActions]: a reply whose status is not [completed]. *)
Definition js_non_terminal (r : Exec string) : Prop :=
  match r with
  | Throws _ => False
  | Output out => nth_error (Str.split_colon (Str.trim out)) 0 <> Some "completed"
  end.

(** A reply of the status query of [pollGitHubActions] that reports no
    completed run: the query failed, or the status is not [completed]. *)
Definition js_not_completed (r : Exec string) : Prop :=
  match r with
  | Throws _ => True
  | Output out => nth_error (Str.split_colon (Str.trim out)) 0 <> Some "completed"
  end.

(** A log file every entry can be appended to. *)
Definition writable (l : LogFile) : Prop := forall msg, appendFileSync l msg = Output tt.

(** An event other than a pause of another length: every pause of a poll
    lasts one interval. *)
Definition sleeps_for (seconds : Z) (e : Event) : Prop :=
  match e with
  | Sleep s => s = seconds
  | _ => True
  end.

Definition waits_for (ms : Z) (e : CITrigger.JsEvent) : Prop :=
  match e with
  | CITrigger.Wait t => t = ms
  | _ => True
  end.

Definition timeout_message (cfg : PollAndDeliver.Config) : string :=
  "Build did not complete within "
  ++ string_of_Z (PollAndDeliver.TIMEOUT_SECONDS cfg) ++ " seconds".

(** The size [fs.statSync] reports for an entry. *)
Definition node_size (n : Node) : N :=
  match n with
  | RegularFile size => size
  | Directory size => size
  end.

Definition is_throws {A} (r : Exec A) : Prop :=
  match r with
  | Throws _ => True
  | Output _ => False
  end.

(** Whether a name carries one of the payload extensions. *)
Definition has_payload_extension (name : string) : bool :=
  existsb (Str.endsWith name) payload_extensions.

(** The retriever as claim C5 words it: the unpacked directory is scanned
    recursively, directories entered in listing order, for the first file
    whose name carries a payload extension. *)
Fixpoint scan_entry_recursively (dir : string) (entry : Tree) {P : NodePath} : option string :=
  let fullPath := path_join dir (entry_name entry) in
  match entry with
  | File name => if has_payload_extension name then Some fullPath else None
  | Dir _ entries =>
      fold_right (fun e later =>
                    match scan_entry_recursively fullPath e with
                    | Some found => Some found
                    | None => later
                    end) None entries
  end.

Definition scan_recursively {P : NodePath} (dir : string) (entries : list Tree) : option string :=
  fold_right (fun e later =>
                match scan_entry_recursively dir e with
                | Some found => Some found
                | None => later
                end) None entries.

(** What claim C5 says the retriever returns for an unpacked archive. *)
Definition claimed_artifact {P : NodePath} (extractDir : string) (entries : list Tree) : string :=
  match scan_recursively extractDir entries with
  | Some file => file
  | None => extractDir
  end.

(** Events and states of a download, for the statements on [downloadFile]. *)
Definition is_redirect (e : Downloader.NetEvent) : bool :=
  match e with
  | Downloader.Response statusCode _ _ _ => ((statusCode =? 302) || (statusCode =? 301))%bool
  | _ => false
  end.

Definition is_end (e : Downloader.NetEvent) : bool :=
  match e with
  | Downloader.End => true
  | _ => false
  end.

(** What the error listener and the idle timer of a request report first:
    the message of its first [error] event, or [Download timeout] when the
    300000 ms of its timer pass before. *)
Fixpoint first_failure (es : list Downloader.NetEvent) : option string :=
  match es with
  | [] => None
  | Downloader.RequestError message :: _ => Some message
  | Downloader.Idle :: _ => Some "Download timeout"
  | _ :: es' => first_failure es'
  end.

Definition rejected (d : Downloader.Download) : Prop :=
  exists message, Downloader.promise d = Downloader.Settle (Rejected message).

(** The promise can still be rejected: it is pending on a live request, or
    it was rejected already. *)
Definition unfulfilled (d : Downloader.Download) : Prop :=
  (Downloader.promise d = Downloader.Pending /\ Downloader.destroyed d = false) \/ rejected d.

(** ** Runs of a shell script *)

(** One state after another: the traces and the outputs, each in order. *)
Definition after (s1 s2 : Shell.St) : Shell.St :=
  Shell.mkSt (Shell.trace s1 ++ Shell.trace s2) (Shell.out s1 ++ Shell.out s2).

(** A command is regular when what it yields, emits and prints does not
    depend on what was emitted and printed before it. *)
Definition regular {A} (m : Shell.M A) : Prop :=
  forall st, m st = (fst (m Shell.init), after st (snd (m Shell.init))).

(** [l1] is an initial segment of [l2]. *)
Definition is_prefix {A} (l1 l2 : list A) : Prop := exists rest, l2 = (l1 ++ rest)%list.

(** The concluding lines of a trace. *)
Definition conclusions (tr : list Event) : list DeliveryOutcome :=
  flat_map (fun e => match e with
                     | Concluded o => [o]
                     | _ => []
                     end) tr.

(** [check_adb_status] succeeds: adb is installed, answers, and lists an
    authorized device. *)
Definition adb_ready (h : AutoInstall.Host) : bool :=
  (AutoInstall.has_adb h &&
   match AutoInstall.adb_version h, AutoInstall.adb_devices h with
   | Some _, Some lines => existsb (fun l => Str.endsWith l "device") lines
   | _, _ => false
   end)%bool.

(** Method 1 and method 2 succeed on the APK of the run. *)
Definition termux_ok (h : AutoInstall.Host) (opts : AutoInstall.Options) : bool :=
  (AutoInstall.has_termux_open h
   && AutoInstall.termux_open h (AutoInstall.APK_FILE opts))%bool.

Definition adb_ok (h : AutoInstall.Host) (opts : AutoInstall.Options) : bool :=
  (adb_ready h && AutoInstall.adb_install h (AutoInstall.APK_FILE opts))%bool.

(** The notifier lets the script go on: it is absent or it succeeds. *)
Definition notifier_ok (h : AutoInstall.Host) : bool :=
  (negb (AutoInstall.has_termux_notification h)
   || (AutoInstall.termux_notification h =? 0))%bool.

(** [check_apk_file] lets the file through. *)
Definition apk_checked (h : AutoInstall.Host) (opts : AutoInstall.Options) : bool :=
  (is_regular_file (AutoInstall.fs h) (AutoInstall.APK_FILE opts)
   && AutoInstall.readable h (AutoInstall.APK_FILE opts))%bool.

(** How a run of [auto_install.sh] ends after the notification of a result:
    with [code], unless the notification fails under [set -e]. *)
Definition after_notice (h : AutoInstall.Host) (code : Z) : Shell.Res Z :=
  if notifier_ok h then Shell.Exit code else Shell.Exit (AutoInstall.termux_notification h).

(** The chain from [install_via_termux_open] on: how the script ends, the
    methods entered, the concluding line. *)
Definition chain_summary (h : AutoInstall.Host) (opts : AutoInstall.Options)
  : Shell.Res Z * list Method * list DeliveryOutcome :=
  if termux_ok h opts then (after_notice h 0, [SystemInstaller], [InstalledViaPrimary])
  else if adb_ok h opts then
    (after_notice h 0, [SystemInstaller; DeviceBridge], [InstalledViaSecondary])
  else (after_notice h 1, [SystemInstaller; DeviceBridge; ManualFallback], [ManualRequired]).

Definition main_summary (h : AutoInstall.Host) (opts : AutoInstall.Options)
  : Shell.Res Z * list Method * list DeliveryOutcome :=
  if apk_checked h opts then
    if AutoInstall.FORCE_ADB opts then
      if adb_ok h opts then (Shell.Exit 0, [DeviceBridge], [InstalledViaSecondary])
      else let '(r, a, c) := chain_summary h opts in (r, DeviceBridge :: a, c)
    else chain_summary h opts
  else (Shell.Exit 1, [], []).

(** ** Runs of poll_and_deliver.sh *)

(** The events of a poll loop. *)
Definition is_poll_event (e : Event) : bool :=
  match e with
  | Query _ | Sleep _ | Fatal _ => true
  | _ => false
  end.

Definition is_download (e : Event) : bool :=
  match e with
  | NodeDownload _ => true
  | _ => false
  end.

(** The events with which an installation is attempted. *)
Definition is_install (e : Event) : bool :=
  match e with
  | Chmod644 _ | TermuxOpen _ | AdbDevices | AdbInstall _ => true
  | _ => false
  end.

Definition is_fatal (e : Event) : bool :=
  match e with
  | Fatal _ => true
  | _ => false
  end.

(** The k-th status read reports a build that succeeded, for each backend. *)
Definition github_succeeded (w : PollAndDeliver.World) (k : nat) : Prop :=
  exists status_info,
    PollAndDeliver.gh_run_status w k = Some status_info /\
    Str.before_first ":" status_info = "completed" /\
    Str.after_last ":" status_info = "success".

Definition codemagic_succeeded (w : PollAndDeliver.World) (k : nat) : Prop :=
  exists response,
    PollAndDeliver.codemagic_build w k = Some response /\
    PollAndDeliver.jq w ".status" response = Some "finished" /\
    PollAndDeliver.jq w ".success" response = Some "true".

Definition eas_succeeded (w : PollAndDeliver.World) (k : nat) : Prop :=
  PollAndDeliver.eas_build_status w k = Some "finished".

Definition succeeded_read (w : PollAndDeliver.World) (cfg : PollAndDeliver.Config) (k : nat)
  : Prop :=
  if String.eqb (PollAndDeliver.CI_PROVIDER cfg) "github" then github_succeeded w k
  else if String.eqb (PollAndDeliver.CI_PROVIDER cfg) "codemagic" then codemagic_succeeded w k
  else eas_succeeded w k.

Definition is_read_or_sleep (e : Event) : bool :=
  match e with
  | Query _ | Sleep _ => true
  | _ => false
  end.

Definition is_notification (e : Event) : bool :=
  match e with
  | Notification _ _ => true
  | _ => false
  end.

(** An installation event, when it names a path, names [apk]. *)
Definition installs_only (apk : string) (e : Event) : Prop :=
  match e with
  | Chmod644 p | TermuxOpen p | AdbInstall p => p = apk
  | _ => True
  end.

(** How a poll ends: it returns (a [good] value) right after a read that
    reported success, or it dies; before that it only reads and sleeps. *)
Definition poll_ends {A} (good : A -> Prop) (ok : nat -> Prop) (r : Shell.Res A * Shell.St)
  : Prop :=
  match fst r with
  | Shell.Done a =>
      good a /\
      exists pre k, Shell.trace (snd r) = (pre ++ [Query k])%list /\ ok (Z.to_nat k) /\
                    Forall (fun e => is_read_or_sleep e = true) pre
  | Shell.Exit c =>
      c = 1 /\
      exists pre m, Shell.trace (snd r) = (pre ++ [Fatal m])%list /\
                    Forall (fun e => is_read_or_sleep e = true) pre
  end.

(** Notifications do not stop [poll_and_deliver.sh]: they are disabled, the
    notifier is absent, or it succeeds. *)
Definition notices_pass (w : PollAndDeliver.World) (cfg : PollAndDeliver.Config) : bool :=
  (PollAndDeliver.NO_NOTIFY cfg
   || negb (PollAndDeliver.has_termux_notification w)
   || (PollAndDeliver.termux_notification w =? 0))%bool.

(** What holds of every run of [main] of [poll_and_deliver.sh]:
    - the download script runs only after a read that reported success, and
      no read follows it;
    - an installation is attempted only after the download script was
      started, and only on one path, which exists;
    - a run that logged a fatal error exits with 1;
    - a run that got to attempt an installation exits with 0, provided the
      notifications do not stop it. *)
Definition delivery_facts (w : PollAndDeliver.World) (cfg : PollAndDeliver.Config)
           (r : Shell.Res Z * Shell.St) : Prop :=
  let tr := Shell.trace (snd r) in
  (existsb is_download tr = true ->
   exists pre k post,
     tr = (pre ++ Query k :: post)%list /\ succeeded_read w cfg (Z.to_nat k) /\
     existsb is_download pre = false /\ existsb is_query post = false) /\
  (existsb is_install tr = true ->
   existsb is_download tr = true /\
   (exists before cmd later,
      tr = (before ++ NodeDownload cmd :: later)%list /\ existsb is_install before = false) /\
   exists apk_file, PollAndDeliver.fs w apk_file <> None /\ Forall (installs_only apk_file) tr) /\
  (existsb is_fatal tr = true -> fst r = Shell.Exit 1) /\
  (existsb is_install tr = true -> notices_pass w cfg = true -> fst r = Shell.Done 0).

(** A reply to [pollGitHubActions] that reports a run completed with success. *)
Definition js_succeeded (r : Exec string) : Prop :=
  exists out,
    r = Output out /\
    nth_error (Str.split_colon (Str.trim out)) 0 = Some "completed" /\
    nth_error (Str.split_colon (Str.trim out)) 1 = Some "success".

(** ** Traces of auto_install.sh, method by method *)

(** What [install_via_termux_open], [install_via_adb], [manual_fallback] and
    [notify_success] do to the host, and how [main] strings them together
    for a file that passed [check_apk_file]. *)
Definition termux_open_events (h : AutoInstall.Host) (apk : string) : list Event :=
  Attempt SystemInstaller :: (if AutoInstall.has_termux_open h then [TermuxOpen apk] else []).

Definition adb_events (h : AutoInstall.Host) (apk : string) : list Event :=
  Attempt DeviceBridge
    :: (if AutoInstall.has_adb h then
          AdbVersion
            :: match AutoInstall.adb_version h with
               | Some _ => AdbDevices :: (if adb_ready h then [AdbInstall apk] else [])
               | None => []
               end
        else []).

Definition notice_events (h : AutoInstall.Host) (title content : string) : list Event :=
  if AutoInstall.has_termux_notification h then [Notification title content] else [].

Definition manual_events (h : AutoInstall.Host) (apk : string) : list Event :=
  (Attempt ManualFallback
     :: (if AutoInstall.has_termux_open h then [TermuxOpen (AutoInstall.dirname h apk)] else [])
     ++ notice_events h "Manual Installation Required" ("APK: " ++ AutoInstall.basename h apk)
     ++ (if notifier_ok h then [Instructions apk] else []))%list.

Definition chain_events (h : AutoInstall.Host) (opts : AutoInstall.Options) : list Event :=
  let apk := AutoInstall.APK_FILE opts in
  (termux_open_events h apk
   ++ if termux_ok h opts then
        Concluded InstalledViaPrimary
          :: notice_events h "APK Installation Started"
               (AutoInstall.basename h apk ++ " - Follow system prompts to complete")
      else
        adb_events h apk
        ++ if adb_ok h opts then
             Concluded InstalledViaSecondary
               :: notice_events h "APK Installed"
                    (AutoInstall.basename h apk ++ " - Installed via ADB")
           else Concluded ManualRequired :: manual_events h apk)%list.

Definition main_events (h : AutoInstall.Host) (opts : AutoInstall.Options) : list Event :=
  let apk := AutoInstall.APK_FILE opts in
  if is_regular_file (AutoInstall.fs h) apk then
    if AutoInstall.readable h apk then
      ((if AutoInstall.NO_PERMISSIONS opts then [] else [Chmod644 apk])
       ++ if AutoInstall.FORCE_ADB opts then
            adb_events h apk
            ++ (if adb_ok h opts then [Concluded InstalledViaSecondary]
                else chain_events h opts)
          else chain_events h opts)%list
    else [Fatal ("APK file not readable: " ++ apk)]
  else [Fatal ("APK file not found: " ++ apk)].

(** The two flags of [auto_install.sh]. *)
Definition is_flag (arg : string) : bool :=
  (String.eqb arg "--force-adb" || String.eqb arg "--no-permissions")%bool.

(** A word that the argument loop takes for the file. *)
Definition is_file_word (arg : string) : bool :=
  (negb (String.eqb arg "") && negb (Str.startsWith arg "-"))%bool.

Definition is_chmod_or_attempt (e : Event) : bool :=
  match e with
  | Chmod644 _ | Attempt _ => true
  | _ => false
  end.

(** The tool an event calls is installed ([command -v] finds it). *)
Definition tool_present (h : AutoInstall.Host) (e : Event) : bool :=
  match e with
  | TermuxOpen _ => AutoInstall.has_termux_open h
  | AdbVersion | AdbDevices | AdbInstall _ => AutoInstall.has_adb h
  | Notification _ _ => AutoInstall.has_termux_notification h
  | _ => true
  end.

(** ** What a run emits, yields and exits with *)

(** Every event of the run of [m] satisfies [P]; when the run ends, what it
    yields satisfies [V], and when it ends the shell, the code satisfies [X]. *)
Definition run_spec {A} (P : Event -> Prop) (V : A -> Prop) (X : Z -> Prop) (m : Shell.M A)
  : Prop :=
  Forall P (Shell.trace (snd (Shell.run m))) /\
  match fst (Shell.run m) with
  | Shell.Done a => V a
  | Shell.Exit c => X c
  end.

Definition nonzero (c : Z) : Prop := c <> 0.

Definition never {A} (a : A) : Prop := False.

Definition anything {A} (a : A) : Prop := True.

Definition no_install (e : Event) : Prop := is_install e = false.

Definition no_notification (e : Event) : Prop := is_notification e = false.

Definition no_read_no_download (e : Event) : Prop :=
  is_query e = false /\ is_download e = false.

(** The reads of a poll whose first [n] answers are not terminal, each
    followed by the sleep; [attempt] is the number of the read before. *)
Fixpoint pending_reads (interval : Z) (n : nat) (attempt : Z) : list Event :=
  match n with
  | O => []
  | S n' => Query (attempt + 1) :: Sleep interval :: pending_reads interval n' (attempt + 1)
  end.

(** Status reads of [poll_codemagic] and [poll_eas] that are not terminal. *)
Definition codemagic_non_terminal (w : PollAndDeliver.World) (r : option string) : Prop :=
  match r with
  | None => True
  | Some response =>
      match PollAndDeliver.jq w ".status" response with
      | None => True
      | Some status => status <> "finished" /\ status <> "failed"
      end
  end.

Definition eas_non_terminal (r : option string) : Prop :=
  match r with
  | None => True
  | Some status => status <> "finished" /\ status <> "errored" /\ status <> "canceled"
  end.

(** The command line [download_artifact] builds for GitHub. *)
Definition github_download_command (script out repo run_id : string) : string :=
  "node " ++ dq ++ script ++ dq ++ " --provider " ++ dq ++ "github" ++ dq
  ++ " --out " ++ dq ++ out ++ dq
  ++ " --repo " ++ dq ++ repo ++ dq ++ " --run-id " ++ dq ++ run_id ++ dq.

(** The command of a download event is [cmd]. *)
Definition downloads_with (cmd : string) (e : Event) : Prop :=
  match e with
  | NodeDownload c => c = cmd
  | _ => True
  end.

(** The events of a run and how it ended. *)
Definition run_trace_and_end {A} (m : Shell.M A) : list Event * Shell.Res A :=
  (Shell.trace (snd (Shell.run m)), fst (Shell.run m)).

(** A command line that sets every variable of [poll_and_deliver.sh]. *)
Definition delivery_command_line (v : PollAndDeliverCli.Variables) : list string :=
  (["--ci"; PollAndDeliverCli.CI_PROVIDER v;
    "--repo"; PollAndDeliverCli.REPO v;
    "--run-id"; PollAndDeliverCli.RUN_ID v;
    "--build-id"; PollAndDeliverCli.BUILD_ID v;
    "--out"; PollAndDeliverCli.OUTPUT_DIR v]
   ++ (if PollAndDeliverCli.AUTO_INSTALL v then ["--auto-install"] else [])
   ++ (if PollAndDeliverCli.NO_NOTIFY v then ["--no-notify"] else [])
   ++ ["--timeout"; PollAndDeliverCli.TIMEOUT_SECONDS v])%list.

(** ** Redirects, for the statements on [downloadFile] *)

(** A GET of [url] is answered by a 301 or 302 whose [Location] is [next]. *)
Definition redirects_to (net : Downloader.Network) (headers : Downloader.Headers)
           (url next : string) : Prop :=
  exists statusCode msg cl rest,
    (statusCode = 301 \/ statusCode = 302) /\
    net url headers = Downloader.Response statusCode msg (Some next) cl :: rest.

(** From [url] the redirects lead through [hops], one after the other. *)
Fixpoint redirect_chain (net : Downloader.Network) (headers : Downloader.Headers)
         (url : string) (hops : list string) : Prop :=
  match hops with
  | [] => True
  | next :: later => redirects_to net headers url next /\ redirect_chain net headers next later
  end.

(** The first failure among requests that were redirected, in the order
    of the chain: each of them can reject the promise while the download it
    started runs. *)
Fixpoint chain_failure (net : Downloader.Network) (headers : Downloader.Headers)
         (urls : list string) : option string :=
  match urls with
  | [] => None
  | url :: later =>
      match first_failure (net url headers) with
      | Some message => Some message
      | None => chain_failure net headers later
      end
  end.

(** ** Trees, for the statements on [findFiles] *)

(** The first file of a tree, directories entered in the order of their
    listing, whose name ends in [extension]: its path below [dir]. *)
Fixpoint first_file (extension dir : string) (entry : Tree) {P : NodePath} : option string :=
  let fullPath := path_join dir (entry_name entry) in
  match entry with
  | File name => if Str.endsWith name extension then Some fullPath else None
  | Dir _ entries =>
      fold_right (fun e later =>
                    match first_file extension fullPath e with
                    | Some found => Some found
                    | None => later
                    end) None entries
  end.

Definition first_file_in {P : NodePath} (extension dir : string) (entries : list Tree)
  : option string :=
  fold_right (fun e later =>
                match first_file extension dir e with
                | Some found => Some found
                | None => later
                end) None entries.


(** The files of a tree, at any depth, whose name ends in [extension]. *)
Fixpoint count_files (extension : string) (t : Tree) : nat :=
  match t with
  | File name => if Str.endsWith name extension then 1 else 0
  | Dir _ entries => list_sum (map (count_files extension) entries)
  end.

(** ** Traces of the JavaScript polls *)

(** The milliseconds a poll has waited. *)
Definition waited (tr : list CITrigger.JsEvent) : Z :=
  fold_right (fun e total => match e with
                             | CITrigger.Wait ms => ms + total
                             | _ => total
                             end) 0 tr.

(** A reply to [pollGitHubActions] that reports a run completed with the
    conclusion [conclusion], which is not [success]. *)
Definition js_failed_read (r : Exec string) (conclusion : option string) : Prop :=
  exists out,
    r = Output out /\
    nth_error (Str.split_colon (Str.trim out)) 0 = Some "completed" /\
    nth_error (Str.split_colon (Str.trim out)) 1 = conclusion /\
    conclusion <> Some "success".

(** ** Runs of the download command line *)

(** [console.log('\nDownload completed')]: a response with status 200 has
    ended and is in the file. *)
Definition completed_line : Js.Effect := Js.Console (nl ++ "Download completed").

Definition response_completed : DownloaderCli.Event := DownloaderCli.Did completed_line.

(** What the download methods do: effects of the class and commands, but
    no [chmod], nothing on [stderr], no result. *)
Definition plain (e : DownloaderCli.Event) : Prop :=
  match e with
  | DownloaderCli.Did _ | DownloaderCli.Execs _ => True
  | _ => False
  end.

(** The providers the [switch] of the download command line knows. *)
Definition download_providers : list string := ["github"; "codemagic"; "eas"; "url"].

(** ** Runs of the other download command line *)

(** What the methods of the class do: nothing is reported to the user. *)
Definition silent (e : ArtifactDownloaderCli.Event) : Prop :=
  match e with
  | ArtifactDownloaderCli.Completed _ _
  | ArtifactDownloaderCli.ResultJson _
  | ArtifactDownloaderCli.Failed _ => False
  | _ => True
  end.

(** A run of the [try] block of the command line that reports a success:
    after what the methods did, the artifact is named, which exists with a
    size that is not zero. *)
Definition reported (p : ArtifactDownloaderMain.Platform) (args : list string)
           (tr : list ArtifactDownloaderCli.Event) : Prop :=
  exists pre artifactPath node,
    Forall silent pre /\
    tr = (pre ++ ArtifactDownloaderCli.Completed artifactPath (template (nth_error args 0))
              :: (if DownloaderCli.includes args "--json"
                  then [ArtifactDownloaderCli.ResultJson artifactPath] else []))%list /\
    ArtifactDownloader.fs (ArtifactDownloaderMain.at_validate p) artifactPath = Some node /\
    node_size node <> 0%N.

(** The words the other command line looks for anywhere among its arguments. *)
Definition artifact_cli_options : list string := ["--cleanup"; "--output"; "--json"].

(** ** Hosts and runs used as examples *)

Module Examples.

(** A build that stays in progress for ever. *)
Definition never_done : nat -> option string := fun _ => Some "in_progress:null".

(** A device with the download script in place and nothing else. *)
Definition bare_world (status : nat -> option string) : PollAndDeliver.World :=
  PollAndDeliver.mkWorld
    "2024-01-15 10:30:00" "/opt/delivery" "" true false false false false
    status (fun _ => None) (fun _ => None) (fun _ _ => None)
    (fun p => if String.eqb p "/opt/delivery/../ci/download_artifact.js"
              then Some (RegularFile 9000) else None)
    (fun _ => (1, "")) (fun _ => "") (fun _ => "4.0K") 0
    (fun _ => false) None (fun _ => false).

Definition one_minute : PollAndDeliver.Config :=
  PollAndDeliver.mkConfig "github" "u/r" "42" "" "/sdcard/out" true true 60 30.

(** A log file that can be written, and one on a full disk. *)
Definition working_log : LogFile := mkLogFile (fun _ => Output tt).

Definition full_disk_log : LogFile :=
  mkLogFile (fun _ => Throws "ENOSPC: no space left on device, write").

(** A backend that cannot be reached. *)
Definition js_unreachable : CITrigger.Backend :=
  CITrigger.mkBackend (fun _ => Throws "gh: connection refused")
                      (fun _ => Throws "gh: connection refused")
                      (fun _ => Throws "eas: connection refused").

Definition js_never_done : CITrigger.Backend :=
  CITrigger.mkBackend (fun _ => Output "in_progress:null")
                      (fun _ => Throws "no artifacts")
                      (fun _ => Throws "not an EAS build").

(** A run that has failed, and an EAS build that was canceled. *)
Definition js_failed : CITrigger.Backend :=
  CITrigger.mkBackend (fun _ => Output "completed:failure")
                      (fun _ => Throws "no artifacts")
                      (fun _ => Output (CITrigger.mkEasBuild "canceled" None None)).

(** An archive [/dl/app.zip] that unpacks to [entries]. *)
Definition unpacking (entries : list Tree) : ArtifactDownloader.Host :=
  ArtifactDownloader.mkHost
    (fun p => if String.eqb p "/dl/app.zip" then Some (RegularFile 2048) else None)
    (fun _ => Output tt) (fun _ _ => Output tt) (fun _ => Output entries).

(** The payload sits one directory down, as a Gradle build leaves it. *)
Definition nested_apk : list Tree :=
  [File "output-metadata.json"; Dir "release" [File "app-release.apk"]].

(** A disk with one file of the given size. *)
Definition disk_with (path : string) (size : N) : ArtifactDownloader.Host :=
  ArtifactDownloader.mkHost
    (fun p => if String.eqb p path then Some (RegularFile size) else None)
    (fun _ => Throws "EACCES") (fun _ _ => Throws "unzip: not found")
    (fun _ => Throws "ENOENT").

(** A CDN that answers the API URL with a 302 to a signed URL, and the
    signed URL with a 200 and twelve bytes in two chunks. *)
Definition redirecting : Downloader.Network :=
  fun url _ =>
    if String.eqb url "https://api.github.com/artifacts/7/zip" then
      [Downloader.Response 302 "Found" (Some "https://cdn.example/signed/7.zip") None]
    else if String.eqb url "https://cdn.example/signed/7.zip" then
      [Downloader.Response 200 "OK" None (Some 12%N);
       Downloader.Data "PK-hello"; Downloader.Data "-zip"; Downloader.End]
    else [Downloader.RequestError "getaddrinfo ENOTFOUND"].

Definition auth : Downloader.Headers :=
  [("Authorization", "token gho_x"); ("User-Agent", "termux-orchestrator")].

(** A server that answers 404, and one that sends five bytes and goes silent. *)
Definition missing : Downloader.Network :=
  fun _ _ => [Downloader.Response 404 "Not Found" None None].

Definition stalling : Downloader.Network :=
  fun _ _ => [Downloader.Response 200 "OK" None (Some 4096%N);
              Downloader.Data "PK-he"; Downloader.Idle].

(** A phone without termux-api, with adb and one authorized device. *)
Definition tab : string := String "009"%char EmptyString.

Definition phone (install_succeeds : bool) : AutoInstall.Host :=
  AutoInstall.mkHost
    "2024-01-15 10:30:00"
    (fun p => if String.eqb p "/sdcard/app.apk" then Some (RegularFile 12000000) else None)
    (fun _ => true) (fun _ => true) (fun _ => "12M")
    (fun _ => "/sdcard") (fun _ => "app.apk") (fun _ => true)
    false (fun _ => false)
    true (Some "Android Debug Bridge version 1.0.41")
    (Some ["List of devices attached"; "R58M12ABCDE" ++ tab ++ "device"])
    (fun _ => install_succeeds)
    false 0 "./auto_install.sh".

(** A phone with neither termux-open nor adb, whose termux-notification
    fails with status 3. *)
Definition mute_phone : AutoInstall.Host :=
  AutoInstall.mkHost
    "2024-01-15 10:30:00"
    (fun p => if String.eqb p "/sdcard/app.apk" then Some (RegularFile 12000000) else None)
    (fun _ => true) (fun _ => true) (fun _ => "12M")
    (fun _ => "/sdcard") (fun _ => "app.apk") (fun _ => true)
    false (fun _ => false)
    false None None
    (fun _ => false)
    true 3 "./auto_install.sh".

Definition plain : AutoInstall.Options := AutoInstall.mkOptions "/sdcard/app.apk" false false.
Definition forced : AutoInstall.Options := AutoInstall.mkOptions "/sdcard/app.apk" true false.

(** The package that the download script reports, and the text that [main]
    of [poll_and_deliver.sh] receives from [$(download_artifact ...)]: the
    log lines of [download_artifact], then the path. On [odd_disk] that text
    names a file, and an empty one. [opens] tells whether termux-open is
    installed (it then succeeds); there is no adb. *)
Definition downloaded_apk : string := "/sdcard/out/app.apk".

Definition captured_text : string :=
  String.concat nl
    ["[2024-01-15 10:30:00] Downloading artifact from eas";
     "[2024-01-15 10:30:00] Running: node " ++ dq ++ "/opt/delivery/../ci/download_artifact.js"
       ++ dq ++ " --provider " ++ dq ++ "eas" ++ dq ++ " --out " ++ dq ++ "/sdcard/out" ++ dq
       ++ " --build-id " ++ dq ++ "b7" ++ dq;
     "[2024-01-15 10:30:00] Downloaded: " ++ downloaded_apk;
     downloaded_apk].

Definition odd_disk : FileSystem :=
  fun p =>
    if String.eqb p "/opt/delivery/../ci/download_artifact.js" then Some (RegularFile 9000)
    else if String.eqb p downloaded_apk then Some (RegularFile 0)
    else if String.eqb p captured_text then Some (RegularFile 0)
    else None.

(** A device after an EAS build that finished: the download script reports
    [downloaded_apk]. *)
Definition device (disk : FileSystem) (opens : bool) : PollAndDeliver.World :=
  PollAndDeliver.mkWorld
    "2024-01-15 10:30:00" "/opt/delivery" "" false true true opens false
    (fun _ => None) (fun _ => None) (fun _ => Some "finished")
    (fun filter _ => if String.eqb filter ".file" then Some downloaded_apk else None)
    disk
    (fun _ => (0, "{" ++ dq ++ "success" ++ dq ++ ":true," ++ dq ++ "file" ++ dq ++ ":"
                  ++ dq ++ downloaded_apk ++ dq ++ "}"))
    (fun _ => "") (fun _ => "0") 0
    (fun _ => opens) None (fun _ => false).

Definition odd_world (opens : bool) : PollAndDeliver.World := device odd_disk opens.

(** The same device with an ordinary disk: the download script and the
    downloaded package, 2048 bytes long. *)
Definition usual_disk : FileSystem :=
  fun p =>
    if String.eqb p "/opt/delivery/../ci/download_artifact.js" then Some (RegularFile 9000)
    else if String.eqb p downloaded_apk then Some (RegularFile 2048)
    else None.

Definition usual_world : PollAndDeliver.World := device usual_disk true.

Definition auto_install : PollAndDeliver.Config :=
  PollAndDeliver.mkConfig "eas" "" "" "b7" "/sdcard/out" true false 1800 30.

(** The validator of the other download script, looking at a disk. *)
Definition validator_on (disk : FileSystem) : ArtifactDownloader.Host :=
  ArtifactDownloader.mkHost disk (fun _ => Throws "EACCES")
    (fun _ _ => Throws "unzip: not found") (fun _ => Throws "ENOENT").

(** A device for the download command line: the CDN above, no Codemagic
    token, and a disk on which the download is 12 bytes long. *)
Definition download_platform : DownloaderCli.Platform :=
  DownloaderCli.mkPlatform
    (Downloader.mkHost (Throws "gh: command not found") (Throws "gh: command not found")
       redirecting (fun _ => Output tt) (fun _ _ => Output tt) (fun _ => Output []))
    "The path argument must be of type string. Received undefined"
    (Output tt) None
    (fun _ => Throws "curl: (6) Could not resolve host")
    (fun _ => Throws "eas: command not found") 1700000000000
    (fun _ => Output tt)
    (fun path => if String.eqb path "/sdcard/artifacts/app.apk" then Output 12%N
                 else Throws "ENOENT: no such file or directory").

(** A run with one artifact, [app-release], whose archive unpacks to
    [nested_apk]: the payload is one directory down. *)
Definition release_artifact : ArtifactDownloaderMain.Artifact :=
  ArtifactDownloaderMain.mkArtifact "app-release" "2048" "7".

Definition release_platform : ArtifactDownloaderMain.Platform :=
  ArtifactDownloaderMain.mkPlatform
    "/home/Downloads/orchestrator" (Output tt)
    (ArtifactDownloader.mkHost
       (fun path => if String.eqb path "/home/Downloads/orchestrator"
                    then Some (Directory 4096) else None)
       (fun _ => Output tt) (fun _ _ => Throws "unzip: cannot find archive")
       (fun _ => Output []))
    (ArtifactDownloader.mkHost
       (fun path => if String.eqb path "/home/Downloads/orchestrator/app-release.zip"
                    then Some (RegularFile 2048) else None)
       (fun _ => Output tt) (fun _ _ => Output tt) (fun _ => Output nested_apk))
    (ArtifactDownloader.mkHost
       (fun path => if String.eqb path "/home/Downloads/orchestrator/app-release"
                    then Some (Directory 4096) else None)
       (fun _ => Output tt) (fun _ _ => Output tt) (fun _ => Output nested_apk))
    (fun _ => Output tt)
    (fun _ => Output [release_artifact])
    None
    (fun _ => Throws "curl: (6) Could not resolve host")
    (fun _ => Throws "eas: command not found")
    1700000000000
    (fun _ => Throws "ENOENT: no such file or directory")
    (fun _ => Output tt) (fun _ => Output tt).

End Examples.

(** * Properties *)

Import Shell.

Lemma queries_app tr1 tr2 : queries (tr1 ++ tr2) = (queries tr1 + queries tr2)%nat.
Proof. unfold queries. rewrite filter_app, length_app. reflexivity. Qed.

(** ** poll_and_deliver.sh: the poll loop *)

Section PollLoop.
Import PollAndDeliver.
Variable w : World.
Variable cfg : Config.

Lemma die_run {A} msg st :
  @die w A msg st
  = (Exit 1, mkSt (trace st ++ [Fatal msg])
                  (out st ++ ["[" ++ date w ++ "] FATAL: " ++ msg])).
Proof. reflexivity. Qed.

Lemma log_bind {A} msg (k : M A) st :
  (log w msg ;; k)%sh st
  = k (mkSt (trace st) (out st ++ ["[" ++ date w ++ "] " ++ msg])).
Proof. reflexivity. Qed.

Lemma emit_bind {A} e (k : M A) st :
  (emit e ;; k)%sh st = k (mkSt (trace st ++ [e]) (out st)).
Proof. reflexivity. Qed.

(** While no read is terminal, the loop reads once per remaining
    iteration and then dies with the timeout message. *)
Lemma poll_github_loop_times_out :
  (forall k, gh_non_terminal (gh_run_status w k)) ->
  forall remaining attempts st,
  exists st',
    poll_github_loop w cfg remaining attempts st = (Exit 1, st') /\
    queries (trace st') = (queries (trace st) + remaining)%nat /\
    List.last (trace st') (Sleep 0) = Fatal (timeout_message cfg).
Proof.
  intros Hnt. induction remaining as [|n IH]; intros attempts st.
  - cbn [poll_github_loop]. unfold timed_out. rewrite die_run.
    eexists. split; [reflexivity|]. cbn [trace]. rewrite queries_app, last_last.
    cbn. split; [lia|reflexivity].
  - cbn [poll_github_loop]. unfold log_attempt, sleep_interval.
    rewrite log_bind, emit_bind.
    specialize (Hnt (Z.to_nat (attempts + 1))).
    destruct (gh_run_status w (Z.to_nat (attempts + 1))) as [info|] eqn:E.
    + cbn in Hnt. apply String.eqb_neq in Hnt.
      rewrite log_bind, Hnt.
      match goal with |- context [ (if ?c then _ else _) ] => destruct c end;
      rewrite log_bind, emit_bind;
      match goal with |- context [poll_github_loop w cfg n ?a ?s] =>
        destruct (IH a s) as (st' & H1 & H2 & H3) end;
      exists st'; rewrite H1; (split; [reflexivity|]); split; auto;
      rewrite H2; cbn [trace]; rewrite !queries_app; cbn; lia.
    + rewrite log_bind, emit_bind.
      match goal with |- context [poll_github_loop w cfg n ?a ?s] =>
        destruct (IH a s) as (st' & H1 & H2 & H3) end;
      exists st'; rewrite H1; (split; [reflexivity|]); split; auto;
      rewrite H2; cbn [trace]; rewrite !queries_app; cbn; lia.
Qed.

(** Between two reads the loop sleeps for one poll interval, never for
    another time. *)
Lemma poll_github_loop_sleeps :
  (forall k, gh_non_terminal (gh_run_status w k)) ->
  forall remaining attempts st,
  Forall (sleeps_for (Zpos (POLL_INTERVAL cfg))) (trace st) ->
  Forall (sleeps_for (Zpos (POLL_INTERVAL cfg)))
         (trace (snd (poll_github_loop w cfg remaining attempts st))).
Proof.
  intros Hnt. induction remaining as [|n IH]; intros attempts st Hst.
  - cbn [poll_github_loop]. unfold timed_out. rewrite die_run. cbn [snd trace].
    apply Forall_app. split; [exact Hst|repeat constructor].
  - cbn [poll_github_loop]. unfold log_attempt, sleep_interval.
    rewrite log_bind, emit_bind.
    specialize (Hnt (Z.to_nat (attempts + 1))).
    destruct (gh_run_status w (Z.to_nat (attempts + 1))) as [info|] eqn:E.
    + cbn in Hnt. apply String.eqb_neq in Hnt.
      rewrite log_bind, Hnt.
      match goal with |- context [ (if ?c then _ else _) ] => destruct c end;
        rewrite log_bind, emit_bind; apply IH; cbn [trace];
        repeat (apply Forall_app; split); try exact Hst; repeat constructor.
    + rewrite log_bind, emit_bind. apply IH. cbn [trace].
      repeat (apply Forall_app; split); try exact Hst; repeat constructor.
Qed.

End PollLoop.

(** ** The integers of bash *)

Lemma int64_range z : - 2 ^ 63 <= int64 z < 2 ^ 63.
Proof.
  unfold int64.
  pose proof (Z.mod_pos_bound (z + 2 ^ 63) (2 ^ 64) ltac:(lia)). lia.
Qed.

Lemma int64_small z : - 2 ^ 63 <= z < 2 ^ 63 -> int64 z = z.
Proof.
  intros H. unfold int64. rewrite Z.mod_small by lia. lia.
Qed.

Lemma int64_le z : 0 <= z -> int64 z <= z.
Proof.
  intros H. unfold int64.
  pose proof (Z.mod_le (z + 2 ^ 63) (2 ^ 64) ltac:(lia) ltac:(lia)). lia.
Qed.

(** A quotient rounded towards zero lies between its dividend and 0. *)
Lemma quot_between a b : 0 < b -> Z.min a 0 <= Z.quot a b <= Z.max a 0.
Proof.
  intros Hb. destruct (Z_le_gt_dec 0 a) as [Ha|Ha].
  - pose proof (Z.quot_pos a b Ha Hb).
    pose proof (Z.quot_le_compat_l a 1 b Ha ltac:(lia)) as H1.
    rewrite Z.quot_1_r in H1. lia.
  - replace a with (- (- a)) by lia. rewrite Z.quot_opp_l by lia.
    pose proof (Z.quot_pos (- a) b ltac:(lia) Hb).
    pose proof (Z.quot_le_compat_l (- a) 1 b ltac:(lia) ltac:(lia)) as H1.
    rewrite Z.quot_1_r in H1. lia.
Qed.

(** With both numbers in the range of bash, [max_attempts] is the quotient
    rounded towards zero. *)
Lemma max_attempts_in_range cfg :
  Zpos (PollAndDeliver.POLL_INTERVAL cfg) < 2 ^ 63 ->
  - 2 ^ 63 <= PollAndDeliver.TIMEOUT_SECONDS cfg < 2 ^ 63 ->
  PollAndDeliver.max_attempts cfg
  = Z.quot (PollAndDeliver.TIMEOUT_SECONDS cfg) (Zpos (PollAndDeliver.POLL_INTERVAL cfg)).
Proof.
  intros HI HT. unfold PollAndDeliver.max_attempts.
  rewrite (int64_small (PollAndDeliver.TIMEOUT_SECONDS cfg)) by lia.
  rewrite (int64_small (Zpos _)) by lia.
  apply int64_small.
  pose proof (quot_between (PollAndDeliver.TIMEOUT_SECONDS cfg)
                (Zpos (PollAndDeliver.POLL_INTERVAL cfg)) ltac:(lia)).
  lia.
Qed.

(** A budget beyond the range of bash wraps around, and never to more
    attempts than the quotient. *)
Lemma max_attempts_le cfg :
  Zpos (PollAndDeliver.POLL_INTERVAL cfg) < 2 ^ 63 ->
  0 <= PollAndDeliver.TIMEOUT_SECONDS cfg ->
  PollAndDeliver.max_attempts cfg
  <= Z.quot (PollAndDeliver.TIMEOUT_SECONDS cfg) (Zpos (PollAndDeliver.POLL_INTERVAL cfg)).
Proof.
  intros HI HT. unfold PollAndDeliver.max_attempts.
  rewrite (int64_small (Zpos _)) by lia.
  pose proof (int64_range (PollAndDeliver.TIMEOUT_SECONDS cfg)) as Hr.
  pose proof (int64_le _ HT) as Hle.
  pose proof (quot_between (int64 (PollAndDeliver.TIMEOUT_SECONDS cfg))
                (Zpos (PollAndDeliver.POLL_INTERVAL cfg)) ltac:(lia)) as Hq.
  rewrite int64_small by lia.
  apply Z.quot_le_mono; lia.
Qed.

Lemma quot_le_ceil_div T I : 0 <= T -> 0 < I -> Z.quot T I <= ceil_div T I.
Proof.
  intros HT HI. unfold ceil_div. rewrite Z.quot_div_nonneg by lia.
  apply Z.div_le_mono; lia.
Qed.

(** ** trigger_ci.js: the poll loop *)

Section JsPollLoop.
Import CITrigger.
Variable b : Backend.

Lemma status_queries_app tr1 tr2 :
  status_queries (tr1 ++ tr2) = (status_queries tr1 + status_queries tr2)%nat.
Proof. unfold status_queries. rewrite filter_app, length_app. reflexivity. Qed.

Lemma not_completed_status out :
  nth_error (Str.split_colon (Str.trim out)) 0 <> Some "completed" ->
  String.eqb (template (nth_error (Str.split_colon (Str.trim out)) 0)) "completed" = false.
Proof.
  intros Hnt. apply String.eqb_neq. intros Heq. apply Hnt.
  destruct (Str.split_colon (Str.trim out)) as [|f fs] eqn:E.
  - destruct (Str.trim out); cbn in E; [discriminate|].
    destruct (Str.is_colon a); [discriminate|].
    destruct (Str.split_colon s); discriminate.
  - cbn in *. congruence.
Qed.

Lemma github_try_non_terminal runId attempt maxAttempts :
  js_non_terminal (gh_run b (Z.to_nat attempt)) ->
  exists tr, github_try b runId attempt maxAttempts = (Normal, tr) /\
             status_queries tr = 1%nat.
Proof.
  unfold github_try, js_non_terminal.
  destruct (gh_run b (Z.to_nat attempt)) as [m|out]; [tauto|].
  intros Hnt. cbv zeta. rewrite (not_completed_status out Hnt).
  eexists. split; reflexivity.
Qed.

(** An attempt whose read reports no completed run reads once; it goes on
    to the next attempt, or throws the error of the read. *)
Lemma github_try_not_completed runId attempt maxAttempts :
  js_not_completed (gh_run b (Z.to_nat attempt)) ->
  exists tr,
    github_try b runId attempt maxAttempts
    = (match gh_run b (Z.to_nat attempt) with
       | Throws message => Throw message
       | Output _ => Normal
       end, tr) /\
    status_queries tr = 1%nat.
Proof.
  unfold github_try, js_not_completed.
  destruct (gh_run b (Z.to_nat attempt)) as [m|out].
  - intros _. eexists. split; reflexivity.
  - intros Hnt. cbv zeta. rewrite (not_completed_status out Hnt).
    eexists. split; reflexivity.
Qed.

(** While no read reports a completed run, the loop reads once per
    remaining attempt. It ends with the timeout error, unless the read of
    the last attempt throws: that error is thrown again. *)
Lemma poll_loop_not_completed runId m maxAttempts :
  (forall k, js_not_completed (gh_run b k)) ->
  forall remaining attempt,
  attempt + Z.of_nat remaining = maxAttempts + 1 ->
  exists tr,
    poll_loop (fun a => github_try b runId a maxAttempts) m maxAttempts remaining attempt
    = (Rejected (match remaining, gh_run b (Z.to_nat maxAttempts) with
                 | S _, Throws message => message
                 | _, _ => did_not_complete m
                 end), tr) /\
    status_queries tr = remaining.
Proof.
  intros Hnt. induction remaining as [|n IH]; intros attempt Ha.
  - eexists. split; reflexivity.
  - cbn [poll_loop].
    destruct (github_try_not_completed runId attempt maxAttempts (Hnt _)) as (tr & E & Q).
    rewrite E.
    destruct (IH (attempt + 1) ltac:(lia)) as (tr' & E' & Q').
    destruct (gh_run b (Z.to_nat attempt)) as [message|out] eqn:Er.
    + unfold catch_attempt. destruct (Z.eqb_spec attempt maxAttempts) as [->|Hne].
      * rewrite Er. eexists. split; [reflexivity|].
        rewrite status_queries_app, Q. cbn. lia.
      * rewrite E'. destruct n as [|n']; [lia|].
        eexists. split; [reflexivity|].
        rewrite !status_queries_app, Q, Q'. cbn. lia.
    + rewrite E'. destruct n as [|n'].
      * replace maxAttempts with attempt by lia. rewrite Er.
        eexists. split; [reflexivity|]. rewrite status_queries_app. lia.
      * eexists. split; [reflexivity|]. rewrite status_queries_app. lia.
Qed.

(** With a log file that can be written, the polls are those of
    [CITrigger]. *)
Section Writable.
Variable l : LogFile.
Hypothesis Hl : writable l.

Lemma github_try_writable runId attempt maxAttempts :
  CITriggerLog.github_try l b runId attempt maxAttempts
  = github_try b runId attempt maxAttempts.
Proof.
  unfold CITriggerLog.github_try, github_try, CITriggerLog.log.
  destruct (gh_run b (Z.to_nat attempt)) as [m|out]; [reflexivity|].
  cbv zeta. rewrite Hl.
  destruct (String.eqb _ "completed"); [|reflexivity].
  destruct (nth_error (Str.split_colon (Str.trim out)) 1) as [c|]; [|reflexivity].
  destruct (String.eqb c "success"); [|reflexivity].
  destruct (gh_artifacts b (Z.to_nat attempt)); [reflexivity|].
  rewrite Hl. reflexivity.
Qed.

Lemma catch_attempt_writable attempt maxAttempts message :
  CITriggerLog.catch_attempt l attempt maxAttempts message
  = catch_attempt attempt maxAttempts message.
Proof.
  unfold CITriggerLog.catch_attempt, catch_attempt, CITriggerLog.log.
  rewrite Hl. reflexivity.
Qed.

Lemma poll_loop_writable try_body try_body' m maxAttempts remaining :
  (forall attempt, try_body attempt = try_body' attempt) ->
  forall attempt,
  CITriggerLog.poll_loop l try_body m maxAttempts remaining attempt
  = poll_loop try_body' m maxAttempts remaining attempt.
Proof.
  intros Htry. induction remaining as [|n IH]; intros attempt; [reflexivity|].
  cbn [CITriggerLog.poll_loop poll_loop].
  rewrite Htry. destruct (try_body' attempt) as [c tr].
  rewrite IH. destruct c; try reflexivity.
  rewrite catch_attempt_writable. reflexivity.
Qed.

Lemma pollGitHubActions_writable repo runId m :
  CITriggerLog.pollGitHubActions l b repo runId m = pollGitHubActions b repo runId m.
Proof.
  unfold CITriggerLog.pollGitHubActions, pollGitHubActions.
  cbv zeta. rewrite Hl.
  rewrite (poll_loop_writable _ (fun attempt => github_try b runId attempt (m * 2)))
    by (intros attempt; apply github_try_writable).
  reflexivity.
Qed.

End Writable.

(** Whatever the log file does, a poll on which no read reports a completed
    run is rejected, after at most one read per attempt. *)
Lemma logged_poll_loop_rejected l runId m maxAttempts :
  (forall k, js_not_completed (gh_run b k)) ->
  forall remaining attempt,
  exists message tr,
    CITriggerLog.poll_loop l (fun a => CITriggerLog.github_try l b runId a maxAttempts)
      m maxAttempts remaining attempt
    = (Rejected message, tr) /\
    (status_queries tr <= remaining)%nat.
Proof.
  intros Hnt. induction remaining as [|n IH]; intros attempt.
  - do 2 eexists. split; [reflexivity|]. cbn. lia.
  - cbn [CITriggerLog.poll_loop].
    destruct (IH (attempt + 1)) as (message' & tr' & E' & Q').
    assert (Htry : exists c tr,
               CITriggerLog.github_try l b runId attempt maxAttempts = (c, tr) /\
               status_queries tr = 1%nat /\
               (c = Normal \/ exists message, c = Throw message)).
    { unfold CITriggerLog.github_try, CITriggerLog.log.
      specialize (Hnt (Z.to_nat attempt)). unfold js_not_completed in Hnt.
      destruct (gh_run b (Z.to_nat attempt)) as [message|out].
      - do 2 eexists. split; [reflexivity|]. split; [reflexivity|]. right. eauto.
      - cbv zeta. rewrite (not_completed_status out Hnt).
        destruct (appendFileSync l _) as [message|[]].
        + do 2 eexists. split; [reflexivity|]. split; [reflexivity|]. right. eauto.
        + do 2 eexists. split; [reflexivity|]. split; [reflexivity|]. left. reflexivity. }
    destruct Htry as (c & tr & E & Q & [->|[message ->]]); rewrite E.
    + rewrite E'. do 2 eexists. split; [reflexivity|].
      rewrite status_queries_app. lia.
    + unfold CITriggerLog.catch_attempt, CITriggerLog.log.
      destruct (attempt =? maxAttempts).
      * do 2 eexists. split; [reflexivity|]. rewrite status_queries_app, Q. cbn. lia.
      * destruct (appendFileSync l _) as [message''|[]].
        -- do 2 eexists. split; [reflexivity|]. rewrite status_queries_app, Q. cbn. lia.
        -- rewrite E'. do 2 eexists. split; [reflexivity|].
           rewrite !status_queries_app, Q. cbn. lia.
Qed.

(** The only pauses of a poll are those of 30000 ms, whatever the backend
    and the log file do. *)
Lemma logged_poll_loop_waits l runId m maxAttempts : forall remaining attempt,
  Forall (waits_for 30000)
         (snd (CITriggerLog.poll_loop l
                 (fun a => CITriggerLog.github_try l b runId a maxAttempts)
                 m maxAttempts remaining attempt)).
Proof.
  induction remaining as [|n IH]; intros attempt; [constructor|].
  cbn [CITriggerLog.poll_loop].
  assert (Htry : Forall (waits_for 30000)
                   (snd (CITriggerLog.github_try l b runId attempt maxAttempts))).
  { unfold CITriggerLog.github_try, CITriggerLog.log.
    destruct (gh_run b (Z.to_nat attempt)) as [message|out]; [repeat constructor|].
    cbv zeta. destruct (appendFileSync l _) as [message|[]]; [repeat constructor|].
    destruct (String.eqb _ "completed"); [|repeat constructor].
    destruct (nth_error (Str.split_colon (Str.trim out)) 1) as [c|]; [|repeat constructor].
    destruct (String.eqb c "success"); [|repeat constructor].
    destruct (gh_artifacts b (Z.to_nat attempt)); [repeat constructor|].
    destruct (appendFileSync l _) as [message|[]]; repeat constructor. }
  assert (Hcatch : forall message,
             Forall (waits_for 30000)
                    (snd (CITriggerLog.catch_attempt l attempt maxAttempts message))).
  { intros message. unfold CITriggerLog.catch_attempt, CITriggerLog.log.
    destruct (attempt =? maxAttempts); [constructor|].
    destruct (appendFileSync l _) as [message'|[]]; repeat constructor. }
  specialize (IH (attempt + 1)).
  destruct (CITriggerLog.github_try l b runId attempt maxAttempts) as [c tr].
  cbn [snd] in Htry.
  destruct (CITriggerLog.poll_loop l _ m maxAttempts n (attempt + 1)) as [r tr'].
  cbn [snd] in IH.
  destruct c as [|v|message]; cbn [snd].
  - apply Forall_app. split; assumption.
  - exact Htry.
  - specialize (Hcatch message).
    destruct (CITriggerLog.catch_attempt l attempt maxAttempts message) as [c' tr''].
    cbn [snd] in Hcatch.
    destruct c' as [|v|message']; cbn [snd];
      repeat (apply Forall_app; split); assumption.
Qed.

End JsPollLoop.




(** ** Failed and canceled builds *)

(** [poll_github] stops at the first read that reports a completed run
    without success: it dies with the conclusion, and the failing read is
    the last event but for the [Fatal] line. *)
Lemma poll_github_loop_dies_on_failure w cfg remaining attempts st status_info :
  PollAndDeliver.gh_run_status w (Z.to_nat (attempts + 1)) = Some status_info ->
  Str.before_first ":" status_info = "completed" ->
  Str.after_last ":" status_info <> "success" ->
  exists st',
    PollAndDeliver.poll_github_loop w cfg (S remaining) attempts st = (Exit 1, st') /\
    trace st' = (trace st ++ [Query (attempts + 1);
                              Fatal ("Build failed with conclusion: "
                                     ++ Str.after_last ":" status_info)])%list.
Proof.
  intros E Hc Hs. cbn [PollAndDeliver.poll_github_loop].
  unfold PollAndDeliver.log_attempt. rewrite log_bind, emit_bind, E, log_bind, Hc.
  cbn [String.eqb Ascii.eqb Bool.eqb].
  apply String.eqb_neq in Hs. rewrite Hs, die_run.
  eexists. split; [reflexivity|]. cbn [trace]. rewrite <- app_assoc. reflexivity.
Qed.

(** C2, at the code: with a run that has failed, [pollGitHubActions] given
    one minute reads the status a second time, 30 seconds after the read that
    reported the failure, and only the last attempt passes the failure on;
    [pollEAS] does the same with a canceled build. The claim asks for no read
    after the failing one. *)
Theorem C2_js_poll_reads_again_after_failure :
  CITrigger.pollGitHubActions Examples.js_failed "u/r" "42" 1
  = (Rejected "Build failed with conclusion: failure",
     [CITrigger.Log "Polling GitHub Actions run 42 (max 1 minutes)";
      CITrigger.StatusQuery 1;
      CITrigger.Log "Attempt 1/2: completed (failure)";
      CITrigger.Log "Polling attempt 1 failed: Build failed with conclusion: failure";
      CITrigger.Wait 30000;
      CITrigger.StatusQuery 2;
      CITrigger.Log "Attempt 2/2: completed (failure)"])
  /\
  CITrigger.pollEAS Examples.js_failed "b7" 1
  = (Rejected "EAS build canceled: Unknown error",
     [CITrigger.Log "Polling EAS build b7 (max 1 minutes)";
      CITrigger.StatusQuery 1;
      CITrigger.Log "Attempt 1/2: canceled";
      CITrigger.Log "Polling attempt 1 failed: EAS build canceled: Unknown error";
      CITrigger.Wait 30000;
      CITrigger.StatusQuery 2;
      CITrigger.Log "Attempt 2/2: canceled"]).
Proof. split; reflexivity. Qed.

(** ** download_artifact.js: validateArtifact and extractArtifact *)

(** With a log file that can be written and ASCII extensions, the methods
    with their log file are those of [ArtifactDownloader]. *)
Section WritableLog.
Context {P : NodePath}.
Variable l : LogFile.
Variable h : ArtifactDownloader.Host.
Hypothesis Hl : writable l.

Lemma log_writable msg : ArtifactDownloaderLog.log l msg = Js.log msg.
Proof. unfold ArtifactDownloaderLog.log, Js.perform, Js.log. rewrite Hl. reflexivity. Qed.

Lemma extractArtifact_writable zipPath :
  ArtifactDownloaderLog.extractArtifact l h zipPath
  = ArtifactDownloader.extractArtifact h zipPath.
Proof.
  unfold ArtifactDownloaderLog.extractArtifact, ArtifactDownloader.extractArtifact.
  destruct (negb (Str.endsWith zipPath ".zip")); [reflexivity|].
  assert (Hbody : ArtifactDownloaderLog.extract_body l h zipPath
                  = ArtifactDownloader.extract_body h zipPath).
  { unfold ArtifactDownloaderLog.extract_body, ArtifactDownloader.extract_body.
    cbv zeta.
    destruct (if negb (ArtifactDownloader.existsSync h _) then _ else _) as [[m|[]] tr];
      [reflexivity|].
    unfold Js.perform. cbn [Js.bind].
    destruct (ArtifactDownloader.unzip h _ zipPath) as [m|[]]; [reflexivity|].
    destruct (ArtifactDownloader.readdirSync h _) as [m|entries]; [reflexivity|].
    destruct (find ArtifactDownloader.is_mobile_artifact (map entry_name entries));
      rewrite log_writable; reflexivity. }
  rewrite Hbody.
  destruct (ArtifactDownloader.extract_body h zipPath) as [[message|p] tr];
    cbn [Js.try_catch]; [|reflexivity].
  rewrite log_writable. reflexivity.
Qed.

Lemma validateArtifact_writable filePath :
  @ArtifactDownloaderLog.validateArtifact P ascii_text l h filePath
  = ArtifactDownloader.validateArtifact h filePath.
Proof.
  unfold ArtifactDownloaderLog.validateArtifact, ArtifactDownloader.validateArtifact.
  destruct (negb (ArtifactDownloader.existsSync h filePath)); [reflexivity|].
  destruct (ArtifactDownloader.statSync_size h filePath) as [m|size]; [reflexivity|].
  cbn [Js.bind]. destruct (N.eqb size 0); [reflexivity|].
  cbv zeta. cbn [toLowerCase ascii_text].
  destruct (negb (existsb _ payload_extensions)); rewrite !log_writable; reflexivity.
Qed.

End WritableLog.

(** C6. [validateArtifact] throws the not-found error when the path does
    not exist and the empty error when its size is zero. An existing,
    non-empty file passes, with an unexpected extension after one warning in
    the log and with an expected extension without any, provided the entries
    can be appended to the log file: an error of [fs.appendFileSync] is
    thrown on. So with a log file that can be written, [validateArtifact]
    throws exactly for a missing or an empty file. *)
Theorem C6_validateArtifact_fails_iff_missing_or_empty :
  forall (P : NodePath) (T : JsText) (l : LogFile) (h : ArtifactDownloader.Host)
         (filePath : string),
    let r := ArtifactDownloaderLog.validateArtifact l h filePath in
    let ext := toLowerCase (path_extname filePath) in
    let warning := "Warning: Unexpected file type: " ++ ext in
    let passed size :=
      "Artifact validation passed: " ++ filePath ++ " ("
      ++ ArtifactDownloader.string_of_N size ++ " bytes)" in
    (ArtifactDownloader.fs h filePath = None ->
       r = (Throws ("Artifact file not found: " ++ filePath), [])) /\
    (forall node, ArtifactDownloader.fs h filePath = Some node ->
       (node_size node = 0%N ->
          r = (Throws ("Artifact file is empty: " ++ filePath), [])) /\
       (node_size node <> 0%N ->
          (In ext payload_extensions ->
             r = (match appendFileSync l (passed (node_size node)) with
                  | Throws message => Throws message
                  | Output _ => Output true
                  end, [Js.Log (passed (node_size node))])) /\
          (~ In ext payload_extensions ->
             r = match appendFileSync l warning with
                 | Throws message => (Throws message, [Js.Log warning])
                 | Output _ =>
                     (match appendFileSync l (passed (node_size node)) with
                      | Throws message => Throws message
                      | Output _ => Output true
                      end, [Js.Log warning; Js.Log (passed (node_size node))])
                 end))) /\
    (writable l ->
       (is_throws (fst r) <->
          ArtifactDownloader.fs h filePath = None \/
          exists node, ArtifactDownloader.fs h filePath = Some node /\ node_size node = 0%N)).
Proof.
  intros P T l h filePath r ext warning passed.
  assert (Hmem : forall exts, existsb (String.eqb ext) exts = true <-> In ext exts).
  { intros exts. rewrite existsb_exists. split.
    - intros (x & Hin & Hx). apply String.eqb_eq in Hx. subst x. exact Hin.
    - intros Hin. exists ext. split; [exact Hin|apply String.eqb_refl]. }
  assert (Hnone : ArtifactDownloader.fs h filePath = None ->
                  r = (Throws ("Artifact file not found: " ++ filePath), [])).
  { intros E. subst r. unfold ArtifactDownloaderLog.validateArtifact,
      ArtifactDownloader.existsSync. rewrite E. reflexivity. }
  assert (Hsome : forall node, ArtifactDownloader.fs h filePath = Some node ->
       (node_size node = 0%N ->
          r = (Throws ("Artifact file is empty: " ++ filePath), [])) /\
       (node_size node <> 0%N ->
          (In ext payload_extensions ->
             r = (match appendFileSync l (passed (node_size node)) with
                  | Throws message => Throws message
                  | Output _ => Output true
                  end, [Js.Log (passed (node_size node))])) /\
          (~ In ext payload_extensions ->
             r = match appendFileSync l warning with
                 | Throws message => (Throws message, [Js.Log warning])
                 | Output _ =>
                     (match appendFileSync l (passed (node_size node)) with
                      | Throws message => Throws message
                      | Output _ => Output true
                      end, [Js.Log warning; Js.Log (passed (node_size node))])
                 end))).
  { intros node E. subst r. unfold ArtifactDownloaderLog.validateArtifact,
      ArtifactDownloader.existsSync, ArtifactDownloader.statSync_size. rewrite E.
    cbn [negb]. fold ext.
    assert (Hs : (match node with
                  | RegularFile size => Output size
                  | Directory size => Output size
                  end : Exec N) = Output (node_size node)) by (destruct node; reflexivity).
    rewrite Hs. cbn [Js.bind app]. split.
    - intros H0. rewrite H0. reflexivity.
    - intros Hnz. apply N.eqb_neq in Hnz. rewrite Hnz.
      unfold ArtifactDownloaderLog.log, Js.perform. fold warning.
      fold (passed (node_size node)). split; intros Hin.
      + apply Hmem in Hin. rewrite Hin. cbn [negb Js.ret Js.bind app].
        destruct (appendFileSync l (passed (node_size node))) as [m|[]]; reflexivity.
      + destruct (existsb (String.eqb ext) payload_extensions) eqn:Ex;
          [exfalso; apply Hin, Hmem, Ex|].
        cbn [negb Js.bind]. destruct (appendFileSync l warning) as [m|[]]; [reflexivity|].
        destruct (appendFileSync l (passed (node_size node))) as [m|[]]; reflexivity. }
  split; [exact Hnone|]. split; [exact Hsome|].
  intros Hl. destruct (ArtifactDownloader.fs h filePath) as [node|] eqn:E.
  - destruct (Hsome node eq_refl) as [H0 Hn]. split.
    + intros Ht. right. exists node. split; [reflexivity|].
      destruct (N.eq_dec (node_size node) 0) as [Hz|Hz]; [exact Hz|].
      exfalso. destruct (Hn Hz) as [Ha Hb].
      destruct (in_dec string_dec ext payload_extensions) as [Hin|Hin].
      * rewrite (Ha Hin), Hl in Ht. exact Ht.
      * rewrite (Hb Hin), !Hl in Ht. exact Ht.
    + intros [Hc|(node' & E' & Hz)]; [discriminate|].
      injection E' as <-. rewrite (H0 Hz). exact I.
  - rewrite (Hnone eq_refl). split; [intros _; left; reflexivity|intros _; exact I].
Qed.

(** C6 on a zero-byte APK, on a 2048-byte APK and on a 2048-byte text
    file, with a log file that can be written. *)
Lemma C6_witness :
  ArtifactDownloaderLog.validateArtifact Examples.working_log
    (Examples.disk_with "/dl/app.apk" 0) "/dl/app.apk"
  = (Throws "Artifact file is empty: /dl/app.apk", []) /\
  ArtifactDownloaderLog.validateArtifact Examples.working_log
    (Examples.disk_with "/dl/app.apk" 2048) "/dl/app.apk"
  = (Output true, [Js.Log "Artifact validation passed: /dl/app.apk (2048 bytes)"]) /\
  ArtifactDownloaderLog.validateArtifact Examples.working_log
    (Examples.disk_with "/dl/notes.TXT" 2048) "/dl/notes.TXT"
  = (Output true, [Js.Log "Warning: Unexpected file type: .txt";
                   Js.Log "Artifact validation passed: /dl/notes.TXT (2048 bytes)"]).
Proof.
  split; [|split].
  - apply (proj1 (proj1 (proj2 (C6_validateArtifact_fails_iff_missing_or_empty
             posix_path ascii_text Examples.working_log
             (Examples.disk_with "/dl/app.apk" 0) "/dl/app.apk"))
             (RegularFile 0) eq_refl)).
    reflexivity.
  - apply (proj1 (proj2 (proj1 (proj2 (C6_validateArtifact_fails_iff_missing_or_empty
             posix_path ascii_text Examples.working_log
             (Examples.disk_with "/dl/app.apk" 2048) "/dl/app.apk"))
             (RegularFile 2048) eq_refl) ltac:(discriminate))).
    cbn. auto.
  - apply (proj2 (proj2 (proj1 (proj2 (C6_validateArtifact_fails_iff_missing_or_empty
             posix_path ascii_text Examples.working_log
             (Examples.disk_with "/dl/notes.TXT" 2048) "/dl/notes.TXT"))
             (RegularFile 2048) eq_refl) ltac:(discriminate))).
    cbn. intros [E|[E|[E|[]]]]; discriminate.
Defined.

(** C6 fails as stated: a file that exists and holds 2048 bytes does not
    pass when the log file cannot be written; [validateArtifact] throws the
    error of [fs.appendFileSync]. *)
Lemma C6_counterexample :
  ArtifactDownloader.fs (Examples.disk_with "/dl/app.apk" 2048) "/dl/app.apk"
  = Some (RegularFile 2048) /\
  ArtifactDownloaderLog.validateArtifact Examples.full_disk_log
    (Examples.disk_with "/dl/app.apk" 2048) "/dl/app.apk"
  = (Throws "ENOSPC: no space left on device, write",
     [Js.Log "Artifact validation passed: /dl/app.apk (2048 bytes)"]).
Proof. split; reflexivity. Qed.

Section Extract.
Context {P : NodePath}.
Variable h : ArtifactDownloader.Host.
Import ArtifactDownloader.

(** A [try] block whose handler returns never throws. *)
Lemma try_catch_returns {A} (m : Js.M A) (handler : string -> Js.M A) :
  (forall message, exists a tr, handler message = (Output a, tr)) ->
  exists a tr, Js.try_catch m handler = (Output a, tr).
Proof.
  intros Hh. destruct m as [[message|a] tr]; cbn.
  - destruct (Hh message) as (a & tr' & E). rewrite E. eauto.
  - eauto.
Qed.

Lemma extract_handler_returns zipPath message :
  exists a tr,
    (Js.log ("Failed to extract " ++ zipPath ++ ": " ++ message) ;; Js.ret zipPath)%js
    = (Output a, tr).
Proof. eexists. eexists. reflexivity. Qed.

(** What the [try] block of [extractArtifact] yields when a step throws. *)
Lemma extract_body_throws zipPath :
  let extractDir := path_join (path_dirname zipPath) (path_basename zipPath ".zip") in
  (existsSync h extractDir = false /\ is_throws (mkdirSync h extractDir)) \/
  is_throws (unzip h extractDir zipPath) \/
  is_throws (readdirSync h extractDir) ->
  is_throws (fst (extract_body h zipPath)).
Proof.
  intros extractDir H. unfold extract_body. fold extractDir.
  destruct (existsSync h extractDir) eqn:Eex; cbn [negb].
  - destruct H as [[Hc _]|H]; [discriminate|].
    cbn [Js.ret Js.bind Js.perform].
    destruct (unzip h extractDir zipPath) as [m|[]]; [exact I|].
    destruct H as [H|H]; [destruct H|].
    destruct (readdirSync h extractDir) as [m|entries]; [exact I|destruct H].
  - cbn [Js.bind Js.perform].
    destruct (mkdirSync h extractDir) as [m|[]]; [exact I|].
    destruct H as [[_ H]|H]; [destruct H|].
    destruct (unzip h extractDir zipPath) as [m|[]]; [exact I|].
    destruct H as [H|H]; [destruct H|].
    destruct (readdirSync h extractDir) as [m|entries]; [exact I|destruct H].
Qed.

(** What it yields when every step succeeds. *)
Lemma extract_body_succeeds zipPath entries :
  let extractDir := path_join (path_dirname zipPath) (path_basename zipPath ".zip") in
  (existsSync h extractDir = true \/ mkdirSync h extractDir = Output tt) ->
  unzip h extractDir zipPath = Output tt ->
  readdirSync h extractDir = Output entries ->
  fst (extract_body h zipPath)
  = Output (match find is_mobile_artifact (map entry_name entries) with
            | Some artifactFile => path_join extractDir artifactFile
            | None => extractDir
            end).
Proof.
  intros extractDir Hdir Hun Hrd. unfold extract_body. fold extractDir.
  assert (Hpre : exists tr,
             (if negb (existsSync h extractDir)
              then Js.perform (Js.Mkdir extractDir) (mkdirSync h extractDir)
              else Js.ret tt) = (Output tt, tr)).
  { destruct (existsSync h extractDir); cbn [negb].
    - eexists; reflexivity.
    - destruct Hdir as [Hc|Hmk]; [discriminate|]. unfold Js.perform. rewrite Hmk.
      eexists; reflexivity. }
  destruct Hpre as (tr & ->). unfold Js.perform. rewrite Hun, Hrd.
  cbn [Js.bind]. destruct (find is_mobile_artifact (map entry_name entries)); reflexivity.
Qed.

End Extract.

(** With a log file that can be written, [extractArtifact] returns for
    every path. *)
Lemma extractArtifact_returns {P : NodePath} (h : ArtifactDownloader.Host) zipPath :
  exists p tr, ArtifactDownloader.extractArtifact h zipPath = (Output p, tr).
Proof.
  unfold ArtifactDownloader.extractArtifact.
  destruct (Str.endsWith zipPath ".zip"); cbn [negb].
  - apply try_catch_returns. intros message. apply extract_handler_returns.
  - eexists. eexists. reflexivity.
Qed.

Lemma extractArtifact_keeps_archive {P : NodePath} (h : ArtifactDownloader.Host) zipPath :
  let extractDir := path_join (path_dirname zipPath) (path_basename zipPath ".zip") in
  Str.endsWith zipPath ".zip" = true ->
  (ArtifactDownloader.existsSync h extractDir = false /\
   is_throws (ArtifactDownloader.mkdirSync h extractDir)) \/
  is_throws (ArtifactDownloader.unzip h extractDir zipPath) \/
  is_throws (ArtifactDownloader.readdirSync h extractDir) ->
  fst (ArtifactDownloader.extractArtifact h zipPath) = Output zipPath.
Proof.
  intros extractDir Hzip Hfail. unfold ArtifactDownloader.extractArtifact.
  rewrite Hzip. cbn [negb].
  pose proof (extract_body_throws h zipPath Hfail) as Ht.
  destruct (ArtifactDownloader.extract_body h zipPath) as [[message|p] tr];
    [reflexivity|destruct Ht].
Qed.

(** C10. [extractArtifact] gives back unchanged, without any effect, a
    path that does not end in [.zip]. On an archive, when creating the
    directory, unzipping or listing it throws, the [catch] block logs the
    failure and the zip path itself comes back. The only error that leaves
    [extractArtifact] is that of [fs.appendFileSync] on this log entry: with
    a log file that can be written it returns for every path. *)
Theorem C10_extractArtifact_never_throws :
  forall (P : NodePath) (l : LogFile) (h : ArtifactDownloader.Host) (zipPath : string),
    let extractDir := path_join (path_dirname zipPath) (path_basename zipPath ".zip") in
    let r := ArtifactDownloaderLog.extractArtifact l h zipPath in
    (Str.endsWith zipPath ".zip" = false -> r = (Output zipPath, [])) /\
    (forall message, fst r = Throws message ->
       exists cause,
         appendFileSync l ("Failed to extract " ++ zipPath ++ ": " ++ cause)
         = Throws message) /\
    (writable l ->
       (exists p tr, r = (Output p, tr)) /\
       (Str.endsWith zipPath ".zip" = true ->
        (ArtifactDownloader.existsSync h extractDir = false /\
         is_throws (ArtifactDownloader.mkdirSync h extractDir)) \/
        is_throws (ArtifactDownloader.unzip h extractDir zipPath) \/
        is_throws (ArtifactDownloader.readdirSync h extractDir) ->
        fst r = Output zipPath)).
Proof.
  intros P l h zipPath extractDir r. split; [|split].
  - intros Hzip. subst r. unfold ArtifactDownloaderLog.extractArtifact.
    rewrite Hzip. reflexivity.
  - intros message. subst r. unfold ArtifactDownloaderLog.extractArtifact.
    destruct (negb (Str.endsWith zipPath ".zip")); [discriminate|].
    destruct (ArtifactDownloaderLog.extract_body l h zipPath) as [[cause|p] tr];
      cbn [Js.try_catch fst]; [|discriminate].
    unfold ArtifactDownloaderLog.log, Js.perform. cbn [Js.bind].
    destruct (appendFileSync l ("Failed to extract " ++ zipPath ++ ": " ++ cause))
      as [m|[]] eqn:E; cbn [fst Js.ret]; [|discriminate].
    intros [= ->]. exists cause. exact E.
  - intros Hl. subst r. rewrite (extractArtifact_writable l h Hl). split.
    + apply extractArtifact_returns.
    + apply extractArtifact_keeps_archive.
Qed.

(** C10 on a path that is no archive, and on an archive that cannot be
    unpacked, with a log file that can be written. *)
Lemma C10_witness :
  ArtifactDownloaderLog.extractArtifact Examples.working_log
    (Examples.disk_with "/dl/app.apk" 2048) "/dl/app.apk"
  = (Output "/dl/app.apk", []) /\
  fst (ArtifactDownloaderLog.extractArtifact Examples.working_log
         (Examples.disk_with "/dl/app.zip" 2048) "/dl/app.zip")
  = Output "/dl/app.zip".
Proof.
  split.
  - apply (proj1 (C10_extractArtifact_never_throws
             posix_path Examples.working_log
             (Examples.disk_with "/dl/app.apk" 2048) "/dl/app.apk")).
    reflexivity.
  - apply (proj2 (proj2 (proj2 (C10_extractArtifact_never_throws
             posix_path Examples.working_log
             (Examples.disk_with "/dl/app.zip" 2048) "/dl/app.zip"))
             ltac:(intros msg; reflexivity))).
    + reflexivity.
    + left. split; [reflexivity|exact I].
Defined.

(** C10 fails as stated: on an archive that cannot be unpacked, with a log
    file that cannot be written, [extractArtifact] throws: the error of
    [fs.appendFileSync] leaves the [catch] block. *)
Lemma C10_counterexample :
  ArtifactDownloaderLog.extractArtifact Examples.full_disk_log
    (Examples.disk_with "/dl/app.zip" 2048) "/dl/app.zip"
  = (Throws "ENOSPC: no space left on device, write",
     [Js.Mkdir "/dl/app"; Js.Log "Failed to extract /dl/app.zip: EACCES"]).
Proof. reflexivity. Qed.

Lemma find_first_match {A} (f : A -> bool) (pre : list A) (x : A) (post : list A) :
  Forall (fun y => f y = false) pre -> f x = true ->
  find f (pre ++ x :: post)%list = Some x.
Proof.
  intros Hpre Hx. induction Hpre as [|y pre Hy _ IH]; cbn.
  - rewrite Hx. reflexivity.
  - rewrite Hy. exact IH.
Qed.

Lemma find_no_match {A} (f : A -> bool) (l : list A) :
  Forall (fun y => f y = false) l -> find f l = None.
Proof.
  intros H. induction H as [|y l Hy _ IH]; cbn; [reflexivity|].
  rewrite Hy. exact IH.
Qed.




(** ** download_artifact.js: downloadFile *)

Section DownloadFile.
Import Downloader.
Variable follow : option string -> option Download.
Variable outputPath : string.

Lemma settle_rejected p s : (exists m, p = Settle (Rejected m)) ->
  exists m, settle p s = Settle (Rejected m).
Proof. intros (m & ->). exists m. reflexivity. Qed.

(** Only the first response of a live request can start a redirect. *)
Lemma redirect_of_none d e :
  destroyed d = true \/ answered d = true \/ is_redirect e = false ->
  redirect_of d e = None.
Proof.
  intros H. destruct e as [sc msg loc cl|chunk| |m| |m]; try reflexivity.
  cbn [redirect_of is_redirect] in *.
  destruct H as [-> | [-> | ->]]; cbn [negb andb];
    rewrite ?andb_false_r; reflexivity.
Qed.

(** Without a redirect the events are handled one after the other. *)
Lemma on_events_cons d e es :
  redirect_of d e = None ->
  on_events follow outputPath d (e :: es)
  = match on_event follow outputPath d e with
    | None => None
    | Some d' => on_events follow outputPath d' es
    end.
Proof.
  intros H. cbn [on_events]. rewrite H.
  destruct (on_event follow outputPath d e) as [d'|]; [|reflexivity].
  destruct (on_events follow outputPath d' es); reflexivity.
Qed.

Lemma on_event_answered d e d' :
  on_event follow outputPath d e = Some d' -> answered d = true -> answered d' = true.
Proof.
  unfold on_event. intros E Ha.
  destruct (destroyed d); [congruence|].
  destruct e as [sc msg loc cl|chunk| |m| |m]; rewrite ?Ha in E;
    try destruct (piping d); injection E as <-; cbn; assumption || reflexivity.
Qed.

(** A rejected promise stays rejected, whatever the request reports next. *)
Lemma on_event_rejected d e :
  rejected d -> answered d = true \/ is_redirect e = false ->
  exists d', on_event follow outputPath d e = Some d' /\ rejected d' /\
             (answered d = true -> answered d' = true).
Proof.
  intros Hr Hsafe. unfold on_event.
  destruct (destroyed d) eqn:Ed; [eauto|].
  destruct e as [sc msg loc cl|chunk| |m| |m]; cbn [is_redirect] in Hsafe.
  - destruct (answered d) eqn:Ea; [eauto|].
    destruct Hsafe as [Hc|Hsafe]; [discriminate|]. rewrite Hsafe.
    destruct (negb (sc =? 200)); eexists; (split; [reflexivity|]);
      (split; [|reflexivity]); unfold rejected; cbn [promise with_promise].
    + apply settle_rejected, Hr.
    + exact Hr.
  - destruct (piping d); eexists; (split; [reflexivity|]); split; auto.
  - destruct (piping d); eexists; (split; [reflexivity|]); split; auto.
    unfold rejected; cbn [promise]. apply settle_rejected, Hr.
  - eexists; split; [reflexivity|]. split; [|intros Ha; exact Ha].
    unfold rejected; cbn [promise with_promise]. apply settle_rejected, Hr.
  - eexists; split; [reflexivity|]. split; [|intros Ha; exact Ha].
    unfold rejected; cbn [promise]. apply settle_rejected, Hr.
  - destruct (piping d); eexists; (split; [reflexivity|]); split; auto.
    unfold rejected; cbn [promise with_promise]. apply settle_rejected, Hr.
Qed.

Lemma on_events_rejected es : forall d,
  rejected d -> answered d = true \/ Forall (fun e => is_redirect e = false) es ->
  exists d', on_events follow outputPath d es = Some d' /\ rejected d'.
Proof.
  induction es as [|e es IH]; intros d Hr Hsafe; [cbn [on_events]; eauto|].
  assert (Hstep : answered d = true \/ is_redirect e = false).
  { destruct Hsafe as [Ha|Hall]; [left; exact Ha|right].
    inversion Hall; assumption. }
  rewrite on_events_cons by (apply redirect_of_none; tauto).
  destruct (on_event_rejected d e Hr Hstep) as (d1 & E1 & Hr1 & Ha1).
  rewrite E1. apply IH; [exact Hr1|].
  destruct Hsafe as [Ha|Hall]; [left; auto|right; inversion Hall; assumption].
Qed.

(** Before the response ends, and without a redirect, nothing fulfils the
    promise. *)
Lemma on_event_unfulfilled d e :
  unfulfilled d -> is_redirect e = false -> is_end e = false ->
  exists d', on_event follow outputPath d e = Some d' /\ unfulfilled d'.
Proof.
  intros [[Hp Hd]|Hr] Hred Hend.
  - unfold on_event. rewrite Hd.
    destruct e as [sc msg loc cl|chunk| |m| |m]; cbn [is_redirect is_end] in Hred, Hend;
      try discriminate.
    + destruct (answered d); [eexists; split; [reflexivity|left; auto]|].
      rewrite Hred.
      destruct (negb (sc =? 200)); eexists; (split; [reflexivity|]).
      * right. unfold rejected; cbn [promise with_promise]. rewrite Hp. eexists; reflexivity.
      * left. cbn [promise destroyed]. auto.
    + destruct (piping d); eexists; (split; [reflexivity|]); left; cbn [promise destroyed]; auto.
    + eexists; split; [reflexivity|]. right.
      unfold rejected; cbn [promise with_promise]. rewrite Hp. eexists; reflexivity.
    + eexists; split; [reflexivity|]. right.
      unfold rejected; cbn [promise]. rewrite Hp. eexists; reflexivity.
    + destruct (piping d); eexists; (split; [reflexivity|]).
      * right. unfold rejected; cbn [promise with_promise]. rewrite Hp. eexists; reflexivity.
      * left; auto.
  - destruct (on_event_rejected d e Hr (or_intror Hred)) as (d' & E & Hr' & _).
    exists d'. split; [exact E|right; exact Hr'].
Qed.

Lemma on_events_unfulfilled es : forall d,
  unfulfilled d ->
  Forall (fun e => is_redirect e = false) es ->
  Forall (fun e => is_end e = false) es ->
  exists d', on_events follow outputPath d es = Some d' /\ unfulfilled d'.
Proof.
  induction es as [|e es IH]; intros d Hu Hred Hend; [cbn [on_events]; eauto|].
  inversion Hred; inversion Hend; subst.
  rewrite on_events_cons by (apply redirect_of_none; tauto).
  destruct (on_event_unfulfilled d e Hu) as (d1 & E1 & Hu1); try assumption.
  rewrite E1. apply IH; assumption.
Qed.

(** The idle timer and a transport error reject what is not yet settled. *)
Lemma on_event_stops d e :
  unfulfilled d -> (e = Idle \/ exists message, e = RequestError message) ->
  exists d', on_event follow outputPath d e = Some d' /\ rejected d'.
Proof.
  intros [[Hp Hd]|Hr] He.
  - unfold on_event. rewrite Hd.
    destruct He as [->|(m & ->)]; eexists; (split; [reflexivity|]);
      unfold rejected; cbn [promise with_promise]; rewrite Hp; eexists; reflexivity.
  - destruct (on_event_rejected d e Hr) as (d' & E & Hr' & _).
    + right. destruct He as [->|(m & ->)]; reflexivity.
    + eauto.
Qed.

Lemma on_events_app es1 es2 : forall d d1,
  answered d = true \/ Forall (fun e => is_redirect e = false) es1 ->
  on_events follow outputPath d es1 = Some d1 ->
  on_events follow outputPath d (es1 ++ es2) = on_events follow outputPath d1 es2.
Proof.
  induction es1 as [|e es1 IH]; intros d d1 Hsafe E.
  - cbn [on_events app] in *. injection E as ->. reflexivity.
  - assert (Hnone : redirect_of d e = None).
    { apply redirect_of_none. destruct Hsafe as [Ha|Hall]; [tauto|].
      inversion Hall; tauto. }
    cbn [app]. rewrite on_events_cons in * by exact Hnone.
    destruct (on_event follow outputPath d e) as [d'|] eqn:E1; [|discriminate].
    apply IH; [|exact E].
    destruct Hsafe as [Ha|Hall]; [left; eapply on_event_answered; eassumption|].
    right. inversion Hall; assumption.
Qed.

End DownloadFile.

Lemma string_append_assoc (a b c : string) : ((a ++ b) ++ c)%string = (a ++ (b ++ c))%string.
Proof. induction a as [|x a IH]; cbn; [reflexivity|]. rewrite IH. reflexivity. Qed.

Lemma string_append_empty (a : string) : (a ++ "")%string = a.
Proof. induction a as [|x a IH]; cbn; [reflexivity|]. rewrite IH. reflexivity. Qed.

Section Streaming.
Import Downloader.
Variable follow : option string -> option Download.
Variable outputPath : string.

(** The requests among some effects. *)
Lemma requests_effects d1 d2 extra :
  effects d2 = (effects d1 ++ extra)%list ->
  Forall (fun e => match e with Js.Request _ _ _ => False | _ => True end) extra ->
  requests d2 = requests d1.
Proof.
  intros E Hextra. unfold requests. rewrite E, flat_map_app. clear E.
  assert (Hnil : flat_map (fun e => match e with
                                    | Js.Request _ url headers => [(url, headers)]
                                    | _ => []
                                    end) extra = []).
  { induction Hextra as [|e extra He _ IH]; cbn; [reflexivity|].
    rewrite IH. destruct e; try reflexivity. destruct He. }
  rewrite Hnil, app_nil_r. reflexivity.
Qed.

(** The chunks of a 200 response go to the file, in order. *)
Lemma on_events_data chunks : forall d bytes,
  piping d = true -> destroyed d = false -> answered d = true ->
  written d = Some bytes ->
  exists d',
    on_events follow outputPath d (map Data chunks) = Some d' /\
    piping d' = true /\ destroyed d' = false /\ answered d' = true /\
    written d' = Some (bytes ++ String.concat "" chunks)%string /\
    promise d' = promise d /\ requests d' = requests d.
Proof.
  induction chunks as [|chunk chunks IH]; intros d bytes Hp Hd Ha Hw.
  - exists d. cbn. rewrite string_append_empty. repeat split; assumption.
  - cbn [map]. rewrite on_events_cons by reflexivity.
    unfold on_event. rewrite Hd, Hp, Hw.
    match goal with |- context [on_events follow outputPath ?d1 _] =>
      destruct (IH d1 (bytes ++ chunk)%string) as (d' & E & Hp' & Hd' & Ha' & Hw' & Hpr & Hrq);
        try reflexivity
    end.
    exists d'. rewrite E. split; [reflexivity|]. split; [exact Hp'|].
    split; [exact Hd'|]. split; [exact Ha'|]. split; [|split; [exact Hpr|]].
    + rewrite Hw'. f_equal. rewrite string_append_assoc. f_equal.
      destruct chunks as [|c cs]; [cbn; apply string_append_empty|].
      cbn. reflexivity.
    + rewrite Hrq.
      eapply requests_effects; [cbn [effects]; reflexivity|].
      destruct (totalSize d) as [total|]; [destruct (N.eqb total 0)|]; repeat constructor.
Qed.

(** Once the promise is settled and nothing is piped, the request can
    report what it likes. *)
Lemma on_events_settled es : forall d s,
  promise d = Settle s -> answered d = true -> piping d = false ->
  exists d',
    on_events follow outputPath d es = Some d' /\
    promise d' = Settle s /\ written d' = written d /\ effects d' = effects d.
Proof.
  induction es as [|e es IH]; intros d s Hs Ha Hp; [cbn [on_events]; eauto|].
  rewrite on_events_cons by (apply redirect_of_none; tauto).
  assert (Hstep : exists d1, on_event follow outputPath d e = Some d1 /\
                    promise d1 = Settle s /\ answered d1 = true /\ piping d1 = false /\
                    written d1 = written d /\ effects d1 = effects d).
  { unfold on_event. destruct (destroyed d); [exists d; auto 10|].
    destruct e; rewrite ?Ha, ?Hp; try (exists d; auto 10; fail);
      eexists; (split; [reflexivity|]); cbn; rewrite Hs; auto 10. }
  destruct Hstep as (d1 & E1 & Hs1 & Ha1 & Hp1 & Hw1 & He1). rewrite E1.
  destruct (IH d1 s Hs1 Ha1 Hp1) as (d' & E & Hs' & Hw' & He').
  exists d'. split; [exact E|]. split; [exact Hs'|]. split; congruence.
Qed.

(** A request that was redirected pipes nothing; while its promise is
    pending only its error listener and its idle timer act on it. *)
Lemma on_events_redirected es : forall d,
  promise d = Pending -> answered d = true -> piping d = false -> destroyed d = false ->
  exists d',
    on_events follow outputPath d es = Some d' /\
    promise d' = match first_failure es with
                 | Some message => Settle (Rejected message)
                 | None => Pending
                 end /\
    written d' = written d /\ effects d' = effects d.
Proof.
  induction es as [|e es IH]; intros d Hs Ha Hp Hd; [cbn; eauto|].
  rewrite on_events_cons by (apply redirect_of_none; tauto).
  unfold on_event. rewrite Hd.
  destruct e as [sc msg loc cl|chunk| |m| |m]; rewrite ?Ha, ?Hp; cbn [first_failure];
    try (apply IH; assumption).
  - match goal with |- context [on_events follow outputPath ?d1 es] =>
      destruct (on_events_settled es d1 (Rejected m)) as (d' & E & Hs' & Hw' & He')
    end; try (cbn; rewrite ?Hs; reflexivity || assumption).
    exists d'. split; [exact E|]. split; [exact Hs'|]. split; [exact Hw'|exact He'].
  - match goal with |- context [on_events follow outputPath ?d1 es] =>
      destruct (on_events_settled es d1 (Rejected "Download timeout"))
        as (d' & E & Hs' & Hw' & He')
    end; try (cbn; rewrite ?Hs; reflexivity || assumption).
    exists d'. split; [exact E|]. split; [exact Hs'|]. split; [exact Hw'|exact He'].
Qed.

End Streaming.

(** A 200 response that runs to its end is written to [outputPath] whole,
    and the promise resolves with [outputPath]. *)
Lemma downloadFile_200 net fuel url outputPath headers msg loc cl chunks rest :
  net url headers
  = (Downloader.Response 200 msg loc cl :: map Downloader.Data chunks
       ++ Downloader.End :: rest)%list ->
  exists d,
    Downloader.downloadFile (S fuel) net (Some url) outputPath headers = Some d /\
    Downloader.promise d = Downloader.Settle (Fulfilled outputPath) /\
    Downloader.written d = Some (String.concat "" chunks) /\
    Downloader.requests d = [(url, headers)].
Proof.
  intros Hnet. cbn [Downloader.downloadFile]. rewrite Hnet.
  set (follow := fun location => Downloader.downloadFile fuel net location outputPath headers).
  rewrite on_events_cons by reflexivity. unfold Downloader.on_event at 1.
  cbn [Downloader.start Downloader.destroyed Downloader.answered Z.eqb Pos.eqb orb negb
       Downloader.promise Downloader.written Downloader.effects].
  match goal with |- context [Downloader.on_events follow outputPath ?d0 _] =>
    destruct (on_events_data follow outputPath chunks d0 "" eq_refl eq_refl eq_refl eq_refl)
      as (d1 & E1 & Hp1 & Hd1 & Ha1 & Hw1 & Hpr1 & Hrq1);
    rewrite (on_events_app follow outputPath _ _ d0 d1 (or_introl eq_refl) E1)
  end.
  rewrite on_events_cons by reflexivity. unfold Downloader.on_event at 1. rewrite Hd1, Hp1.
  match goal with |- context [Downloader.on_events follow outputPath ?d2 rest] =>
    destruct (on_events_settled follow outputPath rest d2 (Fulfilled outputPath))
      as (d3 & E3 & Hs3 & Hw3 & He3)
  end.
  { cbn [Downloader.promise]. rewrite Hpr1. reflexivity. }
  { reflexivity. }
  { reflexivity. }
  exists d3. split; [exact E3|]. split; [exact Hs3|]. split.
  - rewrite Hw3. cbn [Downloader.written]. exact Hw1.
  - unfold Downloader.requests. rewrite He3. cbn [Downloader.effects].
    rewrite flat_map_app. cbn [flat_map app]. rewrite app_nil_r.
    fold (Downloader.requests d1). rewrite Hrq1. reflexivity.
Qed.

(** A 301 or 302 response starts a second call of [downloadFile], on the
    [Location] header, with the same output path and the same headers. The
    promise takes the outcome of that call, unless the redirecting request
    fails or stays idle for 300000 ms before that call settles: its error
    listener and its timer then reject the promise first. *)
Lemma downloadFile_follows net fuel url outputPath headers statusCode msg location cl rest
      inner :
  statusCode = 301 \/ statusCode = 302 ->
  net url headers = Downloader.Response statusCode msg location cl :: rest ->
  Downloader.downloadFile fuel net location outputPath headers = Some inner ->
  exists d,
    Downloader.downloadFile (S fuel) net (Some url) outputPath headers = Some d /\
    Downloader.promise d
    = match first_failure rest with
      | Some message => Downloader.Settle (Rejected message)
      | None => Downloader.promise inner
      end /\
    Downloader.written d = Downloader.written inner /\
    Downloader.requests d = (url, headers) :: Downloader.requests inner.
Proof.
  intros Hsc Hnet Hinner. cbn [Downloader.downloadFile]. rewrite Hnet.
  set (follow := fun location => Downloader.downloadFile fuel net location outputPath headers).
  assert (Hred : ((statusCode =? 302) || (statusCode =? 301))%bool = true)
    by (destruct Hsc as [-> | ->]; reflexivity).
  cbn [Downloader.on_events]. unfold Downloader.on_event at 1.
  cbn [Downloader.start Downloader.destroyed Downloader.answered Downloader.redirect_of
       negb andb].
  rewrite Hred. unfold follow at 1 3. rewrite Hinner.
  match goal with |- context [Downloader.on_events follow outputPath ?d2 rest] =>
    destruct (on_events_redirected follow outputPath rest d2)
      as (d3 & E3 & Hs3 & Hw3 & He3); try reflexivity
  end.
  rewrite E3. eexists. split; [reflexivity|].
  unfold Downloader.adopt. split; [|split].
  - destruct (Downloader.promise inner) as [|s];
      [|cbn [Downloader.promise Downloader.with_promise]]; rewrite Hs3;
      destruct (first_failure rest); reflexivity.
  - destruct (Downloader.promise inner) as [|s];
      [|cbn [Downloader.written Downloader.with_promise]]; rewrite Hw3;
      cbn; destruct (Downloader.written inner); reflexivity.
  - assert (Hq : Downloader.requests d3 = (url, headers) :: Downloader.requests inner).
    { unfold Downloader.requests. rewrite He3.
      cbn [Downloader.effects Downloader.with_effects].
      rewrite !flat_map_app. cbn. reflexivity. }
    destruct (Downloader.promise inner) as [|s]; exact Hq.
Qed.





(** ** Regular commands: runs can be taken apart *)

Lemma after_init_r s : after s init = s.
Proof. destruct s; unfold after; cbn. rewrite !app_nil_r. reflexivity. Qed.

Lemma after_assoc s1 s2 s3 : after (after s1 s2) s3 = after s1 (after s2 s3).
Proof. unfold after; cbn. rewrite !app_assoc. reflexivity. Qed.

Lemma regular_ret {A} (a : A) : regular (ret a).
Proof. intros st. cbn. rewrite after_init_r. reflexivity. Qed.

Lemma regular_exit {A} c : regular (@exit A c).
Proof. intros st. cbn. rewrite after_init_r. reflexivity. Qed.

Lemma regular_emit e : regular (emit e).
Proof. intros st. unfold emit, after; cbn. rewrite app_nil_r. reflexivity. Qed.

Lemma regular_echo l : regular (echo l).
Proof. intros st. unfold echo, after; cbn. rewrite app_nil_r. reflexivity. Qed.

Lemma regular_bind {A B} (m : M A) (k : A -> M B) :
  regular m -> (forall a, regular (k a)) -> regular (bind m k).
Proof.
  intros Hm Hk st. unfold bind. rewrite (Hm st).
  destruct (m init) as [[a|c] s1] eqn:E; cbn [fst snd].
  - rewrite (Hk a (after st s1)), (Hk a s1), after_assoc. reflexivity.
  - reflexivity.
Qed.

Lemma regular_status_of errexit status : regular (status_of errexit status).
Proof.
  unfold status_of. destruct (errexit && negb (status =? 0))%bool;
    [apply regular_exit|apply regular_ret].
Qed.

Lemma regular_capture (m : M Z) : regular m -> regular (capture m).
Proof.
  intros Hm st. unfold capture. rewrite (Hm (mkSt (trace st) [])).
  change (mkSt (trace init) []) with init.
  destruct (m init) as [[a|c] s1] eqn:E; cbn [fst snd after trace out app];
    unfold after; cbn; rewrite app_nil_r; reflexivity.
Qed.

Lemma run_bind {A B} (m : M A) (k : A -> M B) :
  (forall a, regular (k a)) ->
  run (bind m k)
  = match run m with
    | (Done a, s1) => (fst (run (k a)), after s1 (snd (run (k a))))
    | (Exit c, s1) => (Exit c, s1)
    end.
Proof.
  intros Hk. unfold run, bind. destruct (m init) as [[a|c] s1]; [|reflexivity].
  apply Hk.
Qed.

Lemma fst_run_bind {A B} (m : M A) (k : A -> M B) :
  (forall a, regular (k a)) ->
  fst (run (bind m k))
  = match fst (run m) with
    | Done a => fst (run (k a))
    | Exit c => Exit c
    end.
Proof. intros Hk. rewrite run_bind by exact Hk. destruct (run m) as [[a|c] s1]; reflexivity. Qed.

Lemma trace_run_bind {A B} (m : M A) (k : A -> M B) :
  (forall a, regular (k a)) ->
  trace (snd (run (bind m k)))
  = (trace (snd (run m))
     ++ match fst (run m) with
        | Done a => trace (snd (run (k a)))
        | Exit c => []
        end)%list.
Proof.
  intros Hk. rewrite run_bind by exact Hk.
  destruct (run m) as [[a|c] s1]; cbn; [reflexivity|rewrite app_nil_r; reflexivity].
Qed.

Lemma fst_run_ret {A} (a : A) : fst (run (ret a)) = Done a.
Proof. reflexivity. Qed.

Lemma trace_run_ret {A} (a : A) : trace (snd (run (ret a))) = [].
Proof. reflexivity. Qed.

Lemma fst_run_exit {A} c : fst (run (@exit A c)) = Exit c.
Proof. reflexivity. Qed.

Lemma trace_run_exit {A} c : trace (snd (run (@exit A c))) = [].
Proof. reflexivity. Qed.

Lemma fst_run_emit e : fst (run (emit e)) = Done tt.
Proof. reflexivity. Qed.

Lemma trace_run_emit e : trace (snd (run (emit e))) = [e].
Proof. reflexivity. Qed.

Lemma fst_run_echo l : fst (run (echo l)) = Done tt.
Proof. reflexivity. Qed.

Lemma trace_run_echo l : trace (snd (run (echo l))) = [].
Proof. reflexivity. Qed.

Lemma fst_run_status_of errexit status :
  fst (run (status_of errexit status))
  = if (errexit && negb (status =? 0))%bool then Exit status else Done status.
Proof. unfold status_of. destruct (errexit && negb (status =? 0))%bool; reflexivity. Qed.

Lemma trace_run_status_of errexit status : trace (snd (run (status_of errexit status))) = [].
Proof. unfold status_of. destruct (errexit && negb (status =? 0))%bool; reflexivity. Qed.

Create HintDb regular.
#[local] Hint Resolve regular_ret regular_exit regular_emit regular_echo
  regular_status_of regular_capture : regular.

Ltac regular_step :=
  match goal with
  | |- regular (bind _ _) => apply regular_bind; [|intro]
  | |- regular (if ?c then _ else _) => destruct c
  | |- regular (match ?x with _ => _ end) => destruct x
  | |- regular _ => solve [auto with regular]
  end.

Ltac regular_tac := intros; repeat regular_step.

Create Rewrite HintDb run.
#[local] Hint Rewrite @fst_run_bind @trace_run_bind using (solve [regular_tac]) : run.
#[local] Hint Rewrite @fst_run_ret @trace_run_ret @fst_run_exit @trace_run_exit
  fst_run_emit trace_run_emit fst_run_echo trace_run_echo
  fst_run_status_of trace_run_status_of : run.

Lemma attempts_app t1 t2 :
  AutoInstall.attempts (t1 ++ t2) = (AutoInstall.attempts t1 ++ AutoInstall.attempts t2)%list.
Proof. apply flat_map_app. Qed.

Lemma conclusions_app t1 t2 : conclusions (t1 ++ t2) = (conclusions t1 ++ conclusions t2)%list.
Proof. apply flat_map_app. Qed.

(** ** auto_install.sh: the delivery chain *)

Section AutoInstallRegular.
Import AutoInstall.
Variable h : Host.
Variable opts : Options.

Lemma regular_log msg : regular (log h msg).
Proof. apply regular_echo. Qed.

Lemma regular_die {A} msg : regular (@die h A msg).
Proof. unfold die. pose proof regular_log. regular_tac. Qed.

Hint Resolve regular_log regular_die : regular.

Lemma regular_check_apk_file apk : regular (check_apk_file h apk).
Proof. unfold check_apk_file. regular_tac. Qed.

Lemma regular_set_permissions apk : regular (set_permissions h opts apk).
Proof. unfold set_permissions. regular_tac. Qed.

Lemma regular_install_via_termux_open apk : regular (install_via_termux_open h apk).
Proof. unfold install_via_termux_open. regular_tac. Qed.

Lemma regular_log_lines lines : regular (log_lines h lines).
Proof. induction lines; cbn [log_lines]; regular_tac. Qed.

Hint Resolve regular_log_lines : regular.

Lemma regular_check_adb_status : regular (check_adb_status h).
Proof. unfold check_adb_status. regular_tac. Qed.

Hint Resolve regular_check_adb_status : regular.

Lemma regular_install_via_adb apk : regular (install_via_adb h apk).
Proof. unfold install_via_adb. regular_tac. Qed.

Lemma regular_manual_fallback apk : regular (manual_fallback h apk).
Proof. unfold manual_fallback. regular_tac. Qed.

Lemma regular_notify_success t c : regular (notify_success h t c).
Proof. unfold notify_success. regular_tac. Qed.

End AutoInstallRegular.

#[local] Hint Resolve regular_log regular_die regular_log_lines regular_check_adb_status
  regular_check_apk_file regular_set_permissions regular_install_via_termux_open
  regular_install_via_adb regular_manual_fallback regular_notify_success : regular.

Section AutoInstallRuns.
Import AutoInstall.
Variable h : Host.
Variable opts : Options.

Lemma fst_run_log msg : fst (run (log h msg)) = Done tt.
Proof. reflexivity. Qed.

Lemma trace_run_log msg : trace (snd (run (log h msg))) = [].
Proof. reflexivity. Qed.

Lemma log_lines_run lines : forall st,
  exists o, log_lines h lines st = (Done tt, mkSt (trace st) o).
Proof.
  induction lines as [|l lines IH]; intros st; cbn [log_lines].
  - exists (out st). destruct st; reflexivity.
  - unfold bind, log, echo.
    match goal with |- context [log_lines h lines ?s] =>
      destruct (IH s) as (o & E); exists o; exact E end.
Qed.

Lemma log_lines_summary lines :
  fst (run (log_lines h lines)) = Done tt /\ trace (snd (run (log_lines h lines))) = [].
Proof.
  unfold run. destruct (log_lines_run lines init) as (o & ->). split; reflexivity.
Qed.

Lemma check_adb_status_run :
  fst (run (check_adb_status h)) = Done (if adb_ready h then 0 else 1) /\
  attempts (trace (snd (run (check_adb_status h)))) = [] /\
  conclusions (trace (snd (run (check_adb_status h)))) = [].
Proof.
  unfold check_adb_status, adb_ready.
  destruct (has_adb h); [|repeat split; reflexivity].
  destruct (adb_version h) as [v|]; [|repeat split; reflexivity].
  destruct (adb_devices h) as [lines|]; [|repeat split; reflexivity].
  cbn [negb andb].
  rewrite !fst_run_bind, !trace_run_bind by regular_tac.
  destruct (log_lines_summary lines) as (Hf & Ht). rewrite Hf, Ht.
  destruct (existsb (fun l => Str.endsWith l "device") lines);
    [repeat split; reflexivity|].
  destruct (existsb (fun l => Str.includes l "unauthorized") lines);
    repeat split; reflexivity.
Qed.

(** The adb branch: one attempt, and success only on a ready device. *)
Lemma install_via_adb_run apk :
  fst (run (install_via_adb h apk))
  = Done (if (adb_ready h && adb_install h apk)%bool then 0 else 1) /\
  attempts (trace (snd (run (install_via_adb h apk)))) = [DeviceBridge] /\
  conclusions (trace (snd (run (install_via_adb h apk)))) = [].
Proof.
  unfold install_via_adb. autorewrite with run.
  destruct check_adb_status_run as (Hf & Ha & Hc).
  rewrite Hf, !attempts_app, !conclusions_app, Ha, Hc.
  destruct (adb_ready h); cbn; [|repeat split; reflexivity].
  destruct (adb_install h apk); cbn; repeat split; reflexivity.
Qed.

Lemma install_via_termux_open_run apk :
  fst (run (install_via_termux_open h apk))
  = Done (if (has_termux_open h && termux_open h apk)%bool then 0 else 1) /\
  attempts (trace (snd (run (install_via_termux_open h apk)))) = [SystemInstaller] /\
  conclusions (trace (snd (run (install_via_termux_open h apk)))) = [].
Proof.
  unfold install_via_termux_open, run.
  destruct (has_termux_open h); cbn; [|repeat split; reflexivity].
  destruct (termux_open h apk); cbn; repeat split; reflexivity.
Qed.

Lemma check_apk_file_run apk :
  fst (run (check_apk_file h apk))
  = (if (is_regular_file (fs h) apk && readable h apk)%bool then Done 0 else Exit 1) /\
  attempts (trace (snd (run (check_apk_file h apk)))) = [] /\
  conclusions (trace (snd (run (check_apk_file h apk)))) = [].
Proof.
  unfold check_apk_file, run.
  destruct (is_regular_file (fs h) apk); cbn; [|repeat split; auto].
  destruct (readable h apk); cbn; [|repeat split; auto].
  destruct (file_says_android h apk); cbn; repeat split; auto.
Qed.

Lemma set_permissions_run apk :
  fst (run (set_permissions h opts apk)) = Done 0 /\
  attempts (trace (snd (run (set_permissions h opts apk)))) = [] /\
  conclusions (trace (snd (run (set_permissions h opts apk)))) = [].
Proof.
  unfold set_permissions, run.
  destruct (NO_PERMISSIONS opts); cbn; [repeat split; reflexivity|].
  destruct (chmod_644 h apk); cbn; repeat split; reflexivity.
Qed.

Lemma notify_success_run t c :
  fst (run (notify_success h t c))
  = (if notifier_ok h then Done tt else Exit (termux_notification h)) /\
  attempts (trace (snd (run (notify_success h t c)))) = [] /\
  conclusions (trace (snd (run (notify_success h t c)))) = [].
Proof.
  unfold notify_success, run, notifier_ok.
  destruct (has_termux_notification h); cbn; [|repeat split; reflexivity].
  unfold status_of, bind. cbn.
  destruct (termux_notification h =? 0); cbn; repeat split; reflexivity.
Qed.

Lemma manual_fallback_run apk :
  fst (run (manual_fallback h apk))
  = (if notifier_ok h then Done 1 else Exit (termux_notification h)) /\
  attempts (trace (snd (run (manual_fallback h apk)))) = [ManualFallback] /\
  conclusions (trace (snd (run (manual_fallback h apk)))) = [].
Proof.
  unfold manual_fallback, run, notifier_ok.
  destruct (has_termux_open h); cbn.
  - destruct (termux_open h (dirname h apk)); cbn;
      (destruct (has_termux_notification h); cbn; [|repeat split; reflexivity]);
      unfold status_of, bind; cbn;
      destruct (termux_notification h =? 0); cbn; repeat split; reflexivity.
  - destruct (has_termux_notification h); cbn; [|repeat split; reflexivity].
    unfold status_of, bind; cbn.
    destruct (termux_notification h =? 0); cbn; repeat split; reflexivity.
Qed.

Ltac simp_run :=
  repeat (progress (autorewrite with run;
                    rewrite ?fst_run_log, ?trace_run_log, ?attempts_app, ?conclusions_app;
                    repeat match goal with
                           | H : _ = _ |- _ => rewrite H
                           | H : forall t c : string, _ = _ |- _ => rewrite H
                           end;
                    cbn [Z.eqb app andb negb])).

(** How [main] ends, which methods it enters and what it concludes. *)
Lemma main_run :
  APK_FILE opts <> "" ->
  (fst (run (main h opts)),
   attempts (trace (snd (run (main h opts)))),
   conclusions (trace (snd (run (main h opts))))) = main_summary h opts.
Proof.
  intros Hapk. apply String.eqb_neq in Hapk.
  unfold main, main_summary, chain_summary, after_notice, termux_ok, adb_ok, apk_checked.
  rewrite Hapk. clear Hapk.
  set (APK := APK_FILE opts).
  destruct (check_apk_file_run APK) as (Hcf & Hca & Hcc).
  destruct (set_permissions_run APK) as (Hsf & Hsa & Hsc).
  destruct (install_via_termux_open_run APK) as (Htf & Hta & Htc).
  destruct (install_via_adb_run APK) as (Haf & Haa & Hac).
  destruct (manual_fallback_run APK) as (Hmf & Hma & Hmc).
  pose proof (fun t c => proj1 (notify_success_run t c)) as Hnf.
  pose proof (fun t c => proj1 (proj2 (notify_success_run t c))) as Hna.
  pose proof (fun t c => proj2 (proj2 (notify_success_run t c))) as Hnc.
  destruct (is_regular_file (fs h) APK && readable h APK)%bool;
    [|simp_run; reflexivity].
  destruct (FORCE_ADB opts); simp_run.
  - destruct (adb_ready h && adb_install h APK)%bool; simp_run; [reflexivity|].
    destruct (has_termux_open h && termux_open h APK)%bool; simp_run;
      [destruct (notifier_ok h); reflexivity|].
    destruct (notifier_ok h); simp_run; reflexivity.
  - destruct (has_termux_open h && termux_open h APK)%bool; simp_run;
      [destruct (notifier_ok h); reflexivity|].
    destruct (adb_ready h && adb_install h APK)%bool; simp_run;
      destruct (notifier_ok h); simp_run; reflexivity.
Qed.

End AutoInstallRuns.




(** ** poll_and_deliver.sh: the whole run *)

Section DeliverRegular.
Import PollAndDeliver.
Variable w : World.
Variable cfg : Config.

Lemma regular_pd_log msg : regular (log w msg).
Proof. apply regular_echo. Qed.

Lemma regular_pd_die {A} msg : regular (@die w A msg).
Proof. unfold die. pose proof regular_pd_log. regular_tac. Qed.

Hint Resolve regular_pd_log regular_pd_die : regular.

Lemma regular_notify errexit title message : regular (notify w cfg errexit title message).
Proof. unfold notify, check_termux_api. regular_tac. Qed.

Lemma regular_timed_out {A} : regular (@timed_out w cfg A).
Proof. unfold timed_out. regular_tac. Qed.

Hint Resolve regular_notify regular_timed_out : regular.

Lemma regular_poll_github_loop remaining : forall attempts,
  regular (poll_github_loop w cfg remaining attempts).
Proof.
  induction remaining as [|n IH]; intros attempts; cbn [poll_github_loop];
    unfold log_attempt, sleep_interval; regular_tac.
Qed.

Lemma regular_poll_codemagic_loop remaining : forall attempts,
  regular (poll_codemagic_loop w cfg remaining attempts).
Proof.
  induction remaining as [|n IH]; intros attempts; cbn [poll_codemagic_loop];
    unfold log_attempt, sleep_interval; regular_tac.
Qed.

Lemma regular_poll_eas_loop remaining : forall attempts,
  regular (poll_eas_loop w cfg remaining attempts).
Proof.
  induction remaining as [|n IH]; intros attempts; cbn [poll_eas_loop];
    unfold log_attempt, sleep_interval; regular_tac.
Qed.

Hint Resolve regular_poll_github_loop regular_poll_codemagic_loop regular_poll_eas_loop
  : regular.

Lemma regular_poll_for_completion : regular (poll_for_completion w cfg).
Proof.
  unfold poll_for_completion, poll_github, poll_codemagic, poll_eas. regular_tac.
Qed.

Lemma regular_download_artifact ci identifier : regular (download_artifact w cfg ci identifier).
Proof. unfold download_artifact. regular_tac. Qed.

Lemma regular_install_apk apk : regular (install_apk w cfg apk).
Proof. unfold install_apk. regular_tac. Qed.

Hint Resolve regular_install_apk : regular.

Lemma regular_deliver_downloaded apk : regular (deliver_downloaded w cfg apk).
Proof. unfold deliver_downloaded. regular_tac. Qed.

End DeliverRegular.

#[local] Hint Resolve regular_pd_log regular_pd_die regular_notify regular_timed_out
  regular_poll_github_loop regular_poll_codemagic_loop regular_poll_eas_loop
  regular_poll_for_completion regular_download_artifact regular_install_apk
  regular_deliver_downloaded : regular.

Section DeliverRuns.
Import PollAndDeliver.
Variable w : World.
Variable cfg : Config.

Lemma fst_run_pd_log msg : fst (run (log w msg)) = Done tt.
Proof. reflexivity. Qed.

Lemma trace_run_pd_log msg : trace (snd (run (log w msg))) = [].
Proof. reflexivity. Qed.

Lemma fst_run_pd_die {A} msg : fst (run (@die w A msg)) = Exit 1.
Proof. reflexivity. Qed.

Lemma trace_run_pd_die {A} msg : trace (snd (run (@die w A msg))) = [Fatal msg].
Proof. reflexivity. Qed.

Hint Rewrite fst_run_pd_log trace_run_pd_log @fst_run_pd_die @trace_run_pd_die : run.

(** A run that dies ends a poll as a poll may end. *)
Lemma poll_ends_die {A} good ok msg : poll_ends good ok (run (@die w A msg)).
Proof.
  unfold poll_ends. rewrite fst_run_pd_die, trace_run_pd_die. split; [reflexivity|].
  exists [], msg. split; [reflexivity|constructor].
Qed.

(** One more read and a sleep in front of a poll that ends well. *)
Lemma poll_ends_retry {A} (good : A -> Prop) ok k seconds (r : Res A * St) :
  poll_ends good ok r ->
  match fst r with
  | Done a =>
      good a /\
      exists pre k', (Query k :: Sleep seconds :: trace (snd r)) = (pre ++ [Query k'])%list
                     /\ ok (Z.to_nat k') /\ Forall (fun e => is_read_or_sleep e = true) pre
  | Exit c =>
      c = 1 /\
      exists pre m, (Query k :: Sleep seconds :: trace (snd r)) = (pre ++ [Fatal m])%list
                    /\ Forall (fun e => is_read_or_sleep e = true) pre
  end.
Proof.
  unfold poll_ends. destruct (fst r) as [s|c].
  - intros (Hs & pre & k' & E & Hok & Hpre). split; [exact Hs|].
    exists (Query k :: Sleep seconds :: pre), k'. rewrite E.
    split; [reflexivity|]. split; [exact Hok|repeat constructor; exact Hpre].
  - intros (Hc & pre & m & E & Hpre). split; [exact Hc|].
    exists (Query k :: Sleep seconds :: pre), m. rewrite E.
    split; [reflexivity|repeat constructor; exact Hpre].
Qed.

Ltac poll_retry IH :=
  match goal with
  | |- context [run (?loop w cfg ?n ?a)] =>
      exact (poll_ends_retry _ _ a (Zpos (POLL_INTERVAL cfg)) _ (IH a))
  end.

Ltac poll_stop := split; [reflexivity|].

Lemma poll_github_loop_ends remaining : forall attempts,
  poll_ends (fun s => s = 0) (github_succeeded w)
            (run (poll_github_loop w cfg remaining attempts)).
Proof.
  induction remaining as [|n IH]; intros attempts; cbn [poll_github_loop].
  - apply poll_ends_die.
  - unfold poll_ends, log_attempt, sleep_interval.
    destruct (gh_run_status w (Z.to_nat (attempts + 1))) as [status_info|] eqn:E.
    + destruct (String.eqb_spec (Str.before_first ":" status_info) "completed") as [Hc|Hc].
      * destruct (String.eqb_spec (Str.after_last ":" status_info) "success") as [Hs|Hs];
          autorewrite with run; cbn [app]; poll_stop.
        -- exists [], (attempts + 1). split; [reflexivity|]. split; [|constructor].
           exists status_info. auto.
        -- eexists [_], _. split; [reflexivity|repeat constructor].
      * destruct (String.eqb (Str.before_first ":" status_info) "in_progress"
                  || String.eqb (Str.before_first ":" status_info) "queued")%bool;
          autorewrite with run; cbn [app]; poll_retry IH.
    + autorewrite with run; cbn [app]. poll_retry IH.
Qed.

Lemma poll_codemagic_loop_ends remaining : forall attempts,
  poll_ends (fun s => s = 0) (codemagic_succeeded w)
            (run (poll_codemagic_loop w cfg remaining attempts)).
Proof.
  induction remaining as [|n IH]; intros attempts; cbn [poll_codemagic_loop].
  - apply poll_ends_die.
  - unfold poll_ends, log_attempt, sleep_interval.
    destruct (codemagic_build w (Z.to_nat (attempts + 1))) as [response|] eqn:E;
      [|autorewrite with run; cbn [app]; poll_retry IH].
    destruct (jq w ".status" response) as [status|] eqn:Est;
      [|autorewrite with run; cbn [app]; poll_retry IH].
    destruct (String.eqb_spec status "finished") as [Hf|Hf].
    + destruct (jq w ".success" response) as [success|] eqn:Esu.
      * destruct (String.eqb_spec success "true") as [Ht|Ht];
          autorewrite with run; cbn [app]; poll_stop.
        -- exists [], (attempts + 1). split; [reflexivity|]. split; [|constructor].
           exists response. subst. auto.
        -- eexists [_], _. split; [reflexivity|repeat constructor].
      * autorewrite with run; cbn [app]; poll_stop.
        eexists [_], _. split; [reflexivity|repeat constructor].
    + destruct (String.eqb status "failed").
      * autorewrite with run; cbn [app]; poll_stop.
        eexists [_], _. split; [reflexivity|repeat constructor].
      * destruct (String.eqb status "building" || String.eqb status "preparing"
                  || String.eqb status "provisioning")%bool;
          autorewrite with run; cbn [app]; poll_retry IH.
Qed.

Lemma poll_eas_loop_ends remaining : forall attempts,
  poll_ends (fun s => s = 0) (eas_succeeded w)
            (run (poll_eas_loop w cfg remaining attempts)).
Proof.
  induction remaining as [|n IH]; intros attempts; cbn [poll_eas_loop].
  - apply poll_ends_die.
  - unfold poll_ends, log_attempt, sleep_interval.
    destruct (eas_build_status w (Z.to_nat (attempts + 1))) as [status|] eqn:E;
      [|autorewrite with run; cbn [app]; poll_retry IH].
    destruct (String.eqb_spec status "finished") as [Hf|Hf].
    + autorewrite with run; cbn [app]; poll_stop.
      exists [], (attempts + 1). split; [reflexivity|]. split; [|constructor].
      unfold eas_succeeded. subst. exact E.
    + destruct (String.eqb status "errored" || String.eqb status "canceled")%bool.
      * autorewrite with run; cbn [app]; poll_stop.
        eexists [_], _. split; [reflexivity|repeat constructor].
      * destruct (String.eqb status "in-queue" || String.eqb status "in-progress")%bool;
          autorewrite with run; cbn [app]; poll_retry IH.
Qed.

(** A log line in front changes nothing. *)
Lemma poll_ends_log {A} (good : A -> Prop) ok msg (m : M A) :
  regular m -> poll_ends good ok (run m) -> poll_ends good ok (run (log w msg;; m)%sh).
Proof.
  intros Hm Hends. unfold poll_ends in *. autorewrite with run. cbn [app]. exact Hends.
Qed.

(** A poll that returned 0 lets [main] go on, under [set -e] too. *)
Lemma poll_ends_then {A} ok (m : M Z) (a : A) :
  poll_ends (fun s => s = 0) ok (run m) ->
  poll_ends (fun _ => True) ok (run (status <- m;; status_of true status;; ret a)%sh).
Proof.
  unfold poll_ends. intros Hend. autorewrite with run.
  destruct (fst (run m)) as [s|c].
  - destruct Hend as (-> & Hend). autorewrite with run. cbn [andb negb Z.eqb app].
    rewrite app_nil_r. split; [exact I|exact Hend].
  - rewrite app_nil_r. exact Hend.
Qed.

(** The poll of [main], for any provider. *)
Lemma poll_for_completion_ends :
  poll_ends (fun _ => True) (succeeded_read w cfg) (run (poll_for_completion w cfg)).
Proof.
  unfold poll_for_completion, succeeded_read, poll_github, poll_codemagic, poll_eas.
  destruct (String.eqb (CI_PROVIDER cfg) "github").
  { destruct (String.eqb (REPO cfg) "" || String.eqb (RUN_ID cfg) "")%bool;
      [apply poll_ends_die|].
    apply poll_ends_then. apply poll_ends_log; [regular_tac|].
    destruct (has_gh w); [apply poll_github_loop_ends|apply poll_ends_die]. }
  destruct (String.eqb (CI_PROVIDER cfg) "codemagic").
  { destruct (String.eqb (BUILD_ID cfg) ""); [apply poll_ends_die|].
    apply poll_ends_then. apply poll_ends_log; [regular_tac|].
    destruct (String.eqb (CODEMAGIC_ACCESS_TOKEN w) "");
      [apply poll_ends_die|apply poll_codemagic_loop_ends]. }
  destruct (String.eqb (CI_PROVIDER cfg) "eas"); [|apply poll_ends_die].
  destruct (String.eqb (BUILD_ID cfg) ""); [apply poll_ends_die|].
  apply poll_ends_then. apply poll_ends_log; [regular_tac|].
  destruct (has_eas w); [apply poll_eas_loop_ends|apply poll_ends_die].
Qed.

Lemma notify_run errexit title message :
  fst (run (notify w cfg errexit title message))
  = (if (errexit && negb (notices_pass w cfg))%bool
     then Exit (termux_notification w) else Done 0) /\
  Forall (fun e => is_notification e = true)
         (trace (snd (run (notify w cfg errexit title message)))).
Proof.
  unfold notify, check_termux_api, notices_pass, run.
  destruct (NO_NOTIFY cfg); cbn; [rewrite andb_false_r; split; [reflexivity|constructor]|].
  destruct (has_termux_notification w); cbn;
    [|rewrite andb_false_r; split; [reflexivity|constructor]].
  unfold status_of, bind. cbn.
  destruct errexit; cbn;
    destruct (termux_notification w =? 0); cbn; split; try reflexivity; repeat constructor.
Qed.

Lemma install_apk_run apk :
  (fst (run (install_apk w cfg apk)) = Done 0 \/ fst (run (install_apk w cfg apk)) = Done 1) /\
  Forall (fun e => (is_install e || is_notification e)%bool = true /\ installs_only apk e)
         (trace (snd (run (install_apk w cfg apk)))) /\
  exists rest, trace (snd (run (install_apk w cfg apk))) = Chmod644 apk :: rest.
Proof.
  unfold install_apk.
  destruct (notify_run false "APK Ready" ("Manual installation required: " ++ apk))
    as (Hnf & Hnt).
  cbn [andb] in Hnf.
  assert (Hn : Forall (fun e => (is_install e || is_notification e)%bool = true
                                /\ installs_only apk e)
                 (trace (snd (run (notify w cfg false "APK Ready"
                                     ("Manual installation required: " ++ apk)))))).
  { eapply Forall_impl; [|exact Hnt]. intros e He. destruct e; try discriminate.
    split; reflexivity. }
  destruct (has_termux_open w); [destruct (termux_open w apk)|];
    (destruct (has_adb w);
     [destruct (match adb_devices w with
                | Some lines => existsb (fun l => Str.endsWith l "device") lines
                | None => false
                end); [destruct (adb_install w apk)|]|]);
    autorewrite with run; rewrite ?Hnf; cbn [app];
    (split; [auto|split; [|eexists; reflexivity]]);
    repeat (apply Forall_cons; [split; reflexivity|]);
    rewrite ?app_nil_r; try exact Hn; try constructor.
Qed.

Lemma fst_run_capture (m : M Z) :
  fst (run (capture m))
  = Done (match fst (run m) with
          | Done status => status
          | Exit code => code
          end, text_of (out (snd (run m)))).
Proof. unfold run, capture. change (mkSt (trace init) []) with init.
       destruct (m init) as [[s|c] st]; reflexivity. Qed.

Lemma trace_run_capture (m : M Z) : trace (snd (run (capture m))) = trace (snd (run m)).
Proof. unfold run, capture. change (mkSt (trace init) []) with init.
       destruct (m init) as [[s|c] st]; reflexivity. Qed.

Ltac dies :=
  autorewrite with run; cbn [app]; right; split; [reflexivity|];
  first [ eexists [], _; split; [reflexivity|constructor]
        | eexists [_], _; split; [reflexivity|repeat constructor] ].

(** [download_artifact] returns 0 after one run of the download script, or
    dies. *)
Lemma download_artifact_run ci identifier :
  let r := run (download_artifact w cfg ci identifier) in
  (fst r = Done 0 /\ exists cmd, trace (snd r) = [NodeDownload cmd]) \/
  (fst r = Exit 1 /\
   exists pre m, trace (snd r) = (pre ++ [Fatal m])%list /\
                 Forall (fun e => is_download e = true) pre).
Proof.
  unfold download_artifact. cbv zeta.
  match goal with
  | |- context [is_regular_file (fs w) (if ?c then ?a else ?b)] =>
      set (script := if c then a else b)
  end.
  destruct (is_regular_file (fs w) script); cbn [negb]; [|dies].
  assert (Hrest : forall cmd,
            let r := run (log w ("Running: " ++ cmd);;
                          emit (NodeDownload cmd);;
                          (let (status, result) := node w cmd in
                           if negb (status =? 0) then die w ("Download failed: " ++ result)
                           else
                             downloaded_file <-
                               match jq w ".file" (Str.after_last "010" result) with
                               | Some file => ret file
                               | None =>
                                   log w "Failed to parse download result, searching for APK files...";;
                                   (let found := find_apk w (OUTPUT_DIR cfg) in
                                    if String.eqb found "" then die w "No APK files found after download"
                                    else ret found)
                               end;;
                             (if negb (is_regular_file (fs w) downloaded_file)
                              then die w ("Downloaded file not found: " ++ downloaded_file)
                              else
                                log w ("Downloaded: " ++ downloaded_file);;
                                echo downloaded_file;; ret 0)))%sh in
            (fst r = Done 0 /\ exists cmd, trace (snd r) = [NodeDownload cmd]) \/
            (fst r = Exit 1 /\
             exists pre m, trace (snd r) = (pre ++ [Fatal m])%list /\
                           Forall (fun e => is_download e = true) pre)).
  { intros cmd. cbv zeta. destruct (node w cmd) as [status result].
    destruct (status =? 0); cbn [negb]; [|dies].
    destruct (jq w ".file" (Str.after_last "010" result)) as [file|].
    - destruct (is_regular_file (fs w) file) eqn:Ef; autorewrite with run; cbn [app];
        rewrite Ef; cbn [negb]; [|dies].
      autorewrite with run; cbn [app]. left. split; [reflexivity|eexists; reflexivity].
    - destruct (String.eqb (find_apk w (OUTPUT_DIR cfg)) ""); [dies|].
      destruct (is_regular_file (fs w) (find_apk w (OUTPUT_DIR cfg))) eqn:Ef;
        autorewrite with run; cbn [app]; rewrite Ef; cbn [negb]; [|dies].
      autorewrite with run; cbn [app]. left. split; [reflexivity|eexists; reflexivity]. }
  destruct (String.eqb ci "github");
    [|destruct (String.eqb ci "codemagic" || String.eqb ci "eas")%bool; [|dies]];
    rewrite fst_run_bind, trace_run_bind by regular_tac;
    rewrite fst_run_pd_log, trace_run_pd_log; cbn [app];
    rewrite fst_run_bind, trace_run_bind by regular_tac;
    rewrite fst_run_ret, trace_run_ret; cbn [app];
    apply Hrest.
Qed.

Hint Rewrite fst_run_capture trace_run_capture : run.

(** Events of one kind hold none of another. *)
Lemma existsb_none (c p : Event -> bool) (l : list Event) :
  (forall e, c e = true -> p e = false) ->
  Forall (fun e => c e = true) l -> existsb p l = false.
Proof.
  intros Hcp Hall. induction Hall as [|e l He _ IH]; cbn; [reflexivity|].
  rewrite (Hcp e He), IH. reflexivity.
Qed.

Lemma installs_only_others apk (c : Event -> bool) (l : list Event) :
  (forall e, c e = true -> is_install e = false) ->
  Forall (fun e => c e = true) l -> Forall (installs_only apk) l.
Proof.
  intros Hc Hall. eapply Forall_impl; [|exact Hall].
  intros e He. specialize (Hc e He). destruct e; try discriminate; exact I.
Qed.

Ltac kinds := let e := fresh in intros e; destruct e; cbn; congruence.

Lemma notify_events errexit title message (p : Event -> bool) :
  (forall e, is_notification e = true -> p e = false) ->
  existsb p (trace (snd (run (notify w cfg errexit title message)))) = false.
Proof.
  intros Hp. apply (existsb_none is_notification); [exact Hp|apply notify_run].
Qed.

Lemma notify_installs_only apk errexit title message :
  Forall (installs_only apk) (trace (snd (run (notify w cfg errexit title message)))).
Proof. apply (installs_only_others apk is_notification); [kinds|apply notify_run]. Qed.

Lemma notify_passes title message :
  notices_pass w cfg = true ->
  fst (run (notify w cfg true title message)) = Done 0.
Proof. intros Hpass. rewrite (proj1 (notify_run _ _ _)), Hpass. reflexivity. Qed.

Lemma notify_stops title message :
  notices_pass w cfg = false ->
  fst (run (notify w cfg true title message)) = Exit (termux_notification w).
Proof. intros Hpass. rewrite (proj1 (notify_run _ _ _)), Hpass. reflexivity. Qed.

Lemma install_apk_events apk (p : Event -> bool) :
  (forall e, (is_install e || is_notification e)%bool = true -> p e = false) ->
  existsb p (trace (snd (run (install_apk w cfg apk)))) = false.
Proof.
  intros Hp. apply (existsb_none (fun e => (is_install e || is_notification e)%bool));
    [exact Hp|].
  eapply Forall_impl; [|apply install_apk_run]. intros e [He _]. exact He.
Qed.

Lemma install_apk_installs_only apk :
  Forall (installs_only apk) (trace (snd (run (install_apk w cfg apk)))).
Proof. eapply Forall_impl; [|apply install_apk_run]. intros e [_ He]. exact He. Qed.

(** The end of [main]: no read, no download, no fatal error; an
    installation only on [apk_file], which then exists; and once an
    installation was attempted, exit status 0 whatever came of it. *)
Lemma deliver_downloaded_run apk :
  let r := run (deliver_downloaded w cfg apk) in
  let tr := trace (snd r) in
  existsb is_download tr = false /\ existsb is_query tr = false /\
  existsb is_fatal tr = false /\ Forall (installs_only apk) tr /\
  (existsb is_install tr = true -> fs w apk <> None) /\
  (existsb is_install tr = true -> notices_pass w cfg = true -> fst r = Done 0) /\
  (fs w apk = None -> fst r = Exit 1 /\ tr = []).
Proof.
  cbv zeta. unfold deliver_downloaded.
  assert (Hnd := fun e t m => notify_events e t m is_download ltac:(kinds)).
  assert (Hni := fun e t m => notify_events e t m is_install ltac:(kinds)).
  assert (Hnx := fun e t m => notify_events e t m is_fatal ltac:(kinds)).
  assert (Hnq := fun e t m => notify_events e t m is_query ltac:(kinds)).
  assert (Hno := notify_installs_only apk).
  assert (Hid := install_apk_events apk is_download ltac:(kinds)).
  assert (Hix := install_apk_events apk is_fatal ltac:(kinds)).
  assert (Hiq := install_apk_events apk is_query ltac:(kinds)).
  assert (Hio := install_apk_installs_only apk).
  destruct (fs w apk) as [node|] eqn:Efs.
  2:{ autorewrite with run. cbn. repeat split; try discriminate; constructor. }
  destruct (AUTO_INSTALL cfg).
  - destruct (notices_pass w cfg) eqn:Hpass.
    + destruct (install_apk_run apk) as ([Hi|Hi] & _ & _);
        autorewrite with run; rewrite ?notify_passes, ?Hi by exact Hpass; cbn [app Z.eqb];
        autorewrite with run; rewrite ?notify_passes by exact Hpass; cbn [app];
        rewrite ?app_nil_r, ?existsb_app, ?Hnd, ?Hni, ?Hnx, ?Hnq, ?Hid, ?Hix, ?Hiq;
        cbn [orb];
        (repeat split; try reflexivity; try discriminate;
         repeat (apply Forall_app; split); auto).
    + autorewrite with run. rewrite !notify_stops by exact Hpass. cbn [app].
      rewrite ?app_nil_r, ?existsb_app, ?Hnd, ?Hni, ?Hnx, ?Hnq.
      repeat split; try reflexivity; try discriminate; auto.
  - autorewrite with run. cbn [app].
    destruct (fst (run (notify w cfg true "Download Complete"
                          ("APK ready: " ++ apk ++ " (" ++ du_h w apk ++ ")"))));
      autorewrite with run; cbn [app];
      rewrite ?app_nil_r, ?existsb_app, ?Hnd, ?Hni, ?Hnx, ?Hnq;
      repeat split; try reflexivity; try discriminate; auto.
Qed.

(** Without [--auto-install] the end of [main] attempts no installation. *)
Lemma deliver_downloaded_asked apk :
  existsb is_install (trace (snd (run (deliver_downloaded w cfg apk)))) = true ->
  AUTO_INSTALL cfg = true.
Proof.
  unfold deliver_downloaded.
  assert (Hni := fun e t m => notify_events e t m is_install ltac:(kinds)).
  destruct (AUTO_INSTALL cfg); [reflexivity|].
  destruct (fs w apk) as [node|]; [|autorewrite with run; cbn; discriminate].
  autorewrite with run. cbn [app].
  destruct (fst (run (notify w cfg true "Download Complete"
                        ("APK ready: " ++ apk ++ " (" ++ du_h w apk ++ ")"))));
    autorewrite with run; cbn [app];
    rewrite ?app_nil_r, ?existsb_app, ?Hni; discriminate.
Qed.

(** Given a file that exists, the end of [main] returns 0, whatever came of
    the installation, provided the notifications do not stop it; and with
    [--auto-install] it attempts an installation. *)
Lemma deliver_downloaded_done apk :
  fs w apk <> None -> notices_pass w cfg = true ->
  fst (run (deliver_downloaded w cfg apk)) = Done 0 /\
  (AUTO_INSTALL cfg = true ->
   In (Chmod644 apk) (trace (snd (run (deliver_downloaded w cfg apk))))).
Proof.
  intros Hfs Hpass. unfold deliver_downloaded.
  destruct (fs w apk) as [node|]; [clear Hfs|elim Hfs; reflexivity].
  destruct (AUTO_INSTALL cfg).
  - destruct (install_apk_run apk) as ([Hi|Hi] & _ & rest & Hrest);
      autorewrite with run; rewrite ?notify_passes, ?Hi by exact Hpass; cbn [app Z.eqb];
      autorewrite with run; rewrite ?notify_passes by exact Hpass; cbn [app];
      (split; [reflexivity|]); intros _; rewrite Hrest;
      rewrite !in_app_iff; cbn [In]; auto 10.
  - autorewrite with run. rewrite notify_passes by exact Hpass.
    autorewrite with run. split; [reflexivity|discriminate].
Qed.

(** [download_artifact] returns 0 only after it has found a regular file
    under the path it prints last. *)
Lemma download_artifact_prints_file ci identifier :
  let r := run (download_artifact w cfg ci identifier) in
  fst r = Done 0 -> is_regular_file (fs w) (List.last (out (snd r)) "") = true.
Proof.
  unfold download_artifact. cbv zeta.
  match goal with
  | |- context [is_regular_file (fs w) (if ?c then ?a else ?b)] =>
      set (script := if c then a else b)
  end.
  clearbody script.
  assert (Hrest : forall cmd st,
            let r := (log w ("Running: " ++ cmd);;
                      emit (NodeDownload cmd);;
                      (let (status, result) := node w cmd in
                       if negb (status =? 0) then die w ("Download failed: " ++ result)
                       else
                         downloaded_file <-
                           match jq w ".file" (Str.after_last "010" result) with
                           | Some file => ret file
                           | None =>
                               log w "Failed to parse download result, searching for APK files...";;
                               (let found := find_apk w (OUTPUT_DIR cfg) in
                                if String.eqb found "" then die w "No APK files found after download"
                                else ret found)
                           end;;
                         (if negb (is_regular_file (fs w) downloaded_file)
                          then die w ("Downloaded file not found: " ++ downloaded_file)
                          else
                            log w ("Downloaded: " ++ downloaded_file);;
                            echo downloaded_file;; ret 0)))%sh st in
            fst r = Done 0 -> is_regular_file (fs w) (List.last (out (snd r)) "") = true).
  { intros cmd st. cbv zeta. unfold bind, log, emit, echo, die, exit, ret.
    destruct (node w cmd) as [status result].
    destruct (status =? 0); cbn [negb]; [|discriminate].
    destruct (jq w ".file" (Str.after_last "010" result)) as [file|].
    - destruct (is_regular_file (fs w) file) eqn:Ef; cbn [negb]; [|discriminate].
      intros _. cbn [snd out]. rewrite last_last. exact Ef.
    - destruct (String.eqb (find_apk w (OUTPUT_DIR cfg)) ""); [discriminate|].
      destruct (is_regular_file (fs w) (find_apk w (OUTPUT_DIR cfg))) eqn:Ef;
        cbn [negb]; [|discriminate].
      intros _. cbn [snd out]. rewrite last_last. exact Ef. }
  unfold run.
  destruct (is_regular_file (fs w) script); cbn [negb]; [|discriminate].
  destruct (String.eqb ci "github");
    [|destruct (String.eqb ci "codemagic" || String.eqb ci "eas")%bool; [|discriminate]];
    apply Hrest.
Qed.

Lemma delivery_facts_main :
  CI_PROVIDER cfg <> "" -> delivery_facts w cfg (run (main w cfg)).
Proof.
  intros Hci. apply String.eqb_neq in Hci. unfold delivery_facts, main. rewrite Hci. cbv zeta.
  assert (Hnd := fun e t m => notify_events e t m is_download ltac:(kinds)).
  assert (Hni := fun e t m => notify_events e t m is_install ltac:(kinds)).
  assert (Hnx := fun e t m => notify_events e t m is_fatal ltac:(kinds)).
  assert (Hnq := fun e t m => notify_events e t m is_query ltac:(kinds)).
  autorewrite with run. cbn [app].
  rewrite (proj1 (notify_run _ _ _)). cbn [andb].
  destruct (notices_pass w cfg) eqn:Hpass; cbn [negb].
  2:{ rewrite app_nil_r, Hnd, Hni, Hnx. repeat split; discriminate. }
  pose proof poll_for_completion_ends as Hpoll. unfold poll_ends in Hpoll.
  destruct (fst (run (poll_for_completion w cfg))) as [IDENTIFIER|c].
  2:{ destruct Hpoll as (-> & pre & m & -> & Hpre).
      assert (Hpd := existsb_none is_read_or_sleep is_download pre ltac:(kinds) Hpre).
      assert (Hpi := existsb_none is_read_or_sleep is_install pre ltac:(kinds) Hpre).
      rewrite app_nil_r, !existsb_app, Hnd, Hni, Hpd, Hpi. cbn.
      repeat split; try discriminate. }
  destruct Hpoll as (_ & pre & k & -> & Hok & Hpre).
  assert (Hpd := existsb_none is_read_or_sleep is_download pre ltac:(kinds) Hpre).
  assert (Hpi := existsb_none is_read_or_sleep is_install pre ltac:(kinds) Hpre).
  assert (Hpx := existsb_none is_read_or_sleep is_fatal pre ltac:(kinds) Hpre).
  autorewrite with run. rewrite notify_passes by exact Hpass.
  pose proof (download_artifact_run (CI_PROVIDER cfg) IDENTIFIER) as Hd. cbv zeta in Hd.
  set (d := run (download_artifact w cfg (CI_PROVIDER cfg) IDENTIFIER)) in *.
  set (n1 := trace (snd (run (notify w cfg true "Build Polling"
                                 ("Waiting for " ++ CI_PROVIDER cfg
                                  ++ " build to complete..."))))) in *.
  set (n2 := trace (snd (run (notify w cfg true "Build Complete" "Downloading APK...")))) in *.
  assert (Hn1d : existsb is_download n1 = false) by apply Hnd.
  assert (Hn1i : existsb is_install n1 = false) by apply Hni.
  assert (Hn1x : existsb is_fatal n1 = false) by apply Hnx.
  assert (Hn2d : existsb is_download n2 = false) by apply Hnd.
  assert (Hn2i : existsb is_install n2 = false) by apply Hni.
  assert (Hn2x : existsb is_fatal n2 = false) by apply Hnx.
  assert (Hn2q : existsb is_query n2 = false) by apply Hnq.
  assert (Hn1o : forall apk, Forall (installs_only apk) n1)
    by (intros apk; apply notify_installs_only).
  assert (Hn2o : forall apk, Forall (installs_only apk) n2)
    by (intros apk; apply notify_installs_only).
  assert (Hpo : forall apk, Forall (installs_only apk) pre)
    by (intros apk; apply (installs_only_others apk is_read_or_sleep); [kinds|exact Hpre]).
  clearbody n1 n2. clear Hnd Hni Hnx Hnq.
  assert (Hsplit : forall rest,
            (n1 ++ (pre ++ [Query k]) ++ n2 ++ rest)%list
            = ((n1 ++ pre) ++ Query k :: (n2 ++ rest))%list).
  { intros rest. rewrite <- !app_assoc. reflexivity. }
  cbn [app].
  destruct Hd as [(Hdf & cmd & Hdt)|(Hdf & pre' & m & Hdt & Hpre')]; rewrite Hdf, Hdt.
  - (* the download script ran and its file was found *)
    cbn [andb negb Z.eqb app]. 
    set (apk := text_of (out (snd d))).
    destruct (deliver_downloaded_run apk) as (Htd & Htq & Htx & Hto & Hti & Ht0 & _).
    set (t := trace (snd (run (deliver_downloaded w cfg apk)))) in *.
    set (rt := fst (run (deliver_downloaded w cfg apk))) in *.
    clearbody t rt.
    rewrite !existsb_app. cbn [existsb is_download is_install is_fatal orb].
    rewrite ?Hn1d, ?Hn1i, ?Hn1x, ?Hpd, ?Hpi, ?Hpx, ?Hn2d, ?Hn2i, ?Hn2x, ?Htd, ?Htx.
    cbn [orb].
    split; [|split; [|split]].
    + intros _. exists (n1 ++ pre)%list, k, (n2 ++ NodeDownload cmd :: t)%list.
      split; [rewrite <- !app_assoc; reflexivity|]. split; [exact Hok|].
      rewrite !existsb_app, Hn1d, Hpd, Hn2q. cbn. rewrite Htq. split; reflexivity.
    + intros Hi. split; [reflexivity|]. split.
      * exists (n1 ++ (pre ++ [Query k]) ++ n2)%list, cmd, t.
        split; [rewrite <- !app_assoc; reflexivity|].
        rewrite !existsb_app, Hn1i, Hpi, Hn2i. reflexivity.
      * exists apk. split; [apply Hti; exact Hi|].
        repeat (apply Forall_app; split); auto; repeat constructor; exact Hto.
    + discriminate.
    + intros Hi _. apply Ht0; [exact Hi|exact Hpass].
  - (* download_artifact died *)
    cbn [andb negb Z.eqb app]. rewrite app_nil_r.
    assert (Hdi := existsb_none is_download is_install pre' ltac:(kinds) Hpre').
    assert (Hdq := existsb_none is_download is_query pre' ltac:(kinds) Hpre').
    rewrite !existsb_app. cbn [existsb is_download is_install is_fatal orb].
    rewrite ?Hn1d, ?Hn1i, ?Hn1x, ?Hpd, ?Hpi, ?Hpx, ?Hn2d, ?Hn2i, ?Hn2x, ?Hdi.
    cbn [orb].
    split; [|split; [|split]]; try discriminate; try reflexivity.
    intros _. exists (n1 ++ pre)%list, k, (n2 ++ pre' ++ [Fatal m])%list.
    split; [rewrite <- !app_assoc; reflexivity|]. split; [exact Hok|].
    rewrite !existsb_app, Hn1d, Hpd, Hn2q, Hdq. split; reflexivity.
Qed.

End DeliverRuns.

(** [main] of [poll_and_deliver.sh], with or without a provider. *)
Lemma delivery_facts_every_run w cfg :
  delivery_facts w cfg (run (PollAndDeliver.main w cfg)).
Proof.
  destruct (String.eqb_spec (PollAndDeliver.CI_PROVIDER cfg) "") as [Hci|Hci].
  - unfold delivery_facts, PollAndDeliver.main. rewrite Hci. cbn.
    repeat split; discriminate.
  - apply delivery_facts_main. exact Hci.
Qed.

Lemma existsb_In (p : Event -> bool) (e : Event) (l : list Event) :
  In e l -> p e = true -> existsb p l = true.
Proof. intros Hin Hp. apply existsb_exists. exists e. split; assumption. Qed.

(** ** trigger_ci.js: the artifact URL *)

Section JsArtifacts.
Import CITrigger.
Variable b : Backend.

Lemma github_try_artifacts runId attempt maxAttempts a :
  In (ArtifactsQuery a) (snd (github_try b runId attempt maxAttempts)) ->
  a = attempt /\ js_succeeded (gh_run b (Z.to_nat attempt)).
Proof.
  unfold github_try, js_succeeded.
  destruct (gh_run b (Z.to_nat attempt)) as [m|out]; cbn [snd].
  - intros [H|[]]; discriminate.
  - destruct (String.eqb_spec (template (nth_error (Str.split_colon (Str.trim out)) 0))
                              "completed") as [Hc|Hc].
    + destruct (nth_error (Str.split_colon (Str.trim out)) 1) as [c|] eqn:E1.
      * destruct (String.eqb_spec c "success") as [Hs|Hs].
        -- intros Hin. assert (Ha : a = attempt).
           { destruct (gh_artifacts b (Z.to_nat attempt)); cbn in Hin;
               intuition (try discriminate); congruence. }
           split; [exact Ha|]. exists out. split; [reflexivity|]. split; [|congruence].
           destruct (nth_error (Str.split_colon (Str.trim out)) 0) as [s0|] eqn:E0;
             cbn in Hc; [congruence|discriminate].
        -- cbn. intuition discriminate.
      * cbn. intuition discriminate.
    + cbn. intuition discriminate.
Qed.

Lemma poll_loop_artifacts runId m maxAttempts a : forall remaining attempt,
  In (ArtifactsQuery a)
     (snd (poll_loop (fun n => github_try b runId n maxAttempts) m maxAttempts
                     remaining attempt)) ->
  js_succeeded (gh_run b (Z.to_nat a)).
Proof.
  induction remaining as [|n IH]; intros attempt; cbn [poll_loop].
  - intros [].
  - pose proof (github_try_artifacts runId attempt maxAttempts a) as Htry.
    destruct (github_try b runId attempt maxAttempts) as [c tr]. cbn [snd] in Htry.
    assert (Hhere : In (ArtifactsQuery a) tr -> js_succeeded (gh_run b (Z.to_nat a))).
    { intros Hin. destruct (Htry Hin) as [-> Hs]. exact Hs. }
    specialize (IH (attempt + 1)).
    destruct (poll_loop (fun n => github_try b runId n maxAttempts) m maxAttempts n
                        (attempt + 1)) as [r tr'].
    cbn [snd] in IH.
    destruct c as [|v|msg]; cbn [snd].
    + intros Hin. apply in_app_or in Hin. destruct Hin; auto.
    + exact Hhere.
    + unfold catch_attempt. destruct (attempt =? maxAttempts); cbn [snd].
      * rewrite app_nil_r. exact Hhere.
      * intros Hin. apply in_app_or in Hin. destruct Hin as [Hin|Hin].
        -- apply in_app_or in Hin. destruct Hin as [Hin|Hin]; [auto|].
           cbn in Hin. intuition discriminate.
        -- auto.
Qed.

End JsArtifacts.

(** Two ways of taking a list apart at one element. *)
Lemma split_twice {A} (a : list A) : forall x b c y d,
  (a ++ x :: b = c ++ y :: d)%list -> In y a \/ (a = c /\ x = y) \/ In x c.
Proof.
  induction a as [|h a IH]; intros x b c y d E.
  - destruct c as [|h' c]; cbn [app] in E.
    + injection E as -> _. right. left. split; reflexivity.
    + injection E as -> _. right. right. left. reflexivity.
  - destruct c as [|h' c]; cbn [app] in E.
    + injection E as -> _. left. left. reflexivity.
    + injection E as -> E. destruct (IH x b c y d E) as [H|[[-> ->]|H]].
      * left. right. exact H.
      * right. left. split; reflexivity.
      * right. right. right. exact H.
Qed.




(** ** Exit codes *)

(** The exit code of [auto_install.sh] read off the summary of its run. *)
Lemma auto_install_exit_code h opts :
  AutoInstall.APK_FILE opts <> "" ->
  let tr := trace (snd (run (AutoInstall.main h opts))) in
  (AutoInstall.exit_code h opts = 0 ->
   AutoInstall.outcome tr = Some InstalledViaPrimary \/
   AutoInstall.outcome tr = Some InstalledViaSecondary) /\
  (AutoInstall.outcome tr = None -> AutoInstall.exit_code h opts = 1) /\
  (notifier_ok h = true ->
   (AutoInstall.outcome tr = Some InstalledViaPrimary \/
    AutoInstall.outcome tr = Some InstalledViaSecondary ->
    AutoInstall.exit_code h opts = 0) /\
   (AutoInstall.outcome tr = Some ManualRequired -> AutoInstall.exit_code h opts = 1)) /\
  (notifier_ok h = false ->
   AutoInstall.outcome tr = Some ManualRequired ->
   AutoInstall.exit_code h opts = AutoInstall.termux_notification h /\
   AutoInstall.exit_code h opts <> 0).
Proof.
  intros Hapk tr. pose proof (main_run h opts Hapk) as Hrun.
  assert (Hout : AutoInstall.outcome tr = List.last (map Some (conclusions tr)) None)
    by reflexivity.
  assert (Hn : notifier_ok h = false -> AutoInstall.termux_notification h <> 0).
  { unfold notifier_ok. intros Hn. apply orb_false_iff in Hn. destruct Hn as [_ Hn].
    apply Z.eqb_neq. exact Hn. }
  unfold AutoInstall.exit_code, AutoInstall.run_main.
  unfold main_summary, chain_summary, after_notice in Hrun.
  subst tr. destruct (run (AutoInstall.main h opts)) as [r st].
  cbn [fst snd] in *. rewrite Hout. clear Hout.
  destruct (apk_checked h opts);
    [|injection Hrun as -> _ ->; cbn; repeat split; intros; intuition congruence].
  destruct (notifier_ok h) eqn:En; [clear Hn|specialize (Hn eq_refl)];
    destruct (AutoInstall.FORCE_ADB opts), (termux_ok h opts), (adb_ok h opts);
    injection Hrun as -> _ ->; cbn;
    repeat split; intros; try discriminate; intuition congruence.
Qed.




(** ** poll_and_deliver.sh: what [main] takes for the path of the package *)

(** On a device with an ordinary disk, after a build that succeeded and a
    download that succeeded, [main] stops with 1 at [du -h]: the path it
    holds is everything [download_artifact] printed, log lines included, and
    no file has that name. Nothing is installed and no fatal error is
    logged. *)
Lemma main_stops_after_download_on_usual_disk :
  let r := run (PollAndDeliver.main Examples.usual_world Examples.auto_install) in
  fst r = Exit 1 /\
  existsb is_download (trace (snd r)) = true /\
  existsb is_install (trace (snd r)) = false /\
  existsb is_fatal (trace (snd r)) = false /\
  fst (run (capture (PollAndDeliver.download_artifact Examples.usual_world
                       Examples.auto_install "eas" "b7")))
  = Done (0, Examples.captured_text).
Proof. cbv zeta. repeat split; vm_compute; reflexivity. Qed.

(** ** auto_install.sh: every event of a run *)

Ltac run_simpl :=
  repeat (progress (autorewrite with run;
                    rewrite ?fst_run_log, ?trace_run_log, ?attempts_app, ?conclusions_app;
                    repeat match goal with
                           | H : _ = _ |- _ => rewrite H
                           | H : forall t c : string, _ = _ |- _ => rewrite H
                           end;
                    cbn [Z.eqb app andb negb])).

Section AutoInstallTraces.
Import AutoInstall.
Variable h : Host.
Variable opts : Options.

Lemma check_adb_status_events :
  trace (snd (run (check_adb_status h)))
  = if has_adb h then
      AdbVersion :: match adb_version h with
                    | Some _ => [AdbDevices]
                    | None => []
                    end
    else [].
Proof.
  unfold check_adb_status.
  destruct (has_adb h); [|reflexivity].
  destruct (adb_version h) as [v|]; [|reflexivity].
  destruct (adb_devices h) as [lines|]; [|reflexivity].
  cbn [negb].
  destruct (log_lines_summary h lines) as (Hf & Ht).
  run_simpl.
  destruct (existsb (fun l => Str.endsWith l "device") lines); [reflexivity|].
  destruct (existsb (fun l => Str.includes l "unauthorized") lines); reflexivity.
Qed.

Lemma install_via_adb_events apk :
  trace (snd (run (install_via_adb h apk))) = adb_events h apk.
Proof.
  unfold install_via_adb, adb_events. autorewrite with run.
  destruct (check_adb_status_run h) as (Hf & _). rewrite Hf, check_adb_status_events.
  unfold adb_ready.
  destruct (has_adb h); cbn [andb]; [|reflexivity].
  destruct (adb_version h) as [v|]; [|reflexivity].
  destruct (adb_devices h) as [lines|]; [|reflexivity].
  destruct (existsb (fun l => Str.endsWith l "device") lines); cbn; [|reflexivity].
  destruct (adb_install h apk); reflexivity.
Qed.

Lemma install_via_termux_open_events apk :
  trace (snd (run (install_via_termux_open h apk))) = termux_open_events h apk.
Proof.
  unfold install_via_termux_open, termux_open_events, run.
  destruct (has_termux_open h); cbn; [|reflexivity].
  destruct (termux_open h apk); reflexivity.
Qed.

Lemma notify_success_events t c :
  trace (snd (run (notify_success h t c))) = notice_events h t c.
Proof.
  unfold notify_success, notice_events, run.
  destruct (has_termux_notification h); cbn; [|reflexivity].
  unfold status_of, bind; cbn. destruct (termux_notification h =? 0); reflexivity.
Qed.

Lemma manual_fallback_events apk :
  trace (snd (run (manual_fallback h apk))) = manual_events h apk.
Proof.
  unfold manual_fallback, manual_events, notice_events, notifier_ok, run.
  destruct (has_termux_open h); cbn.
  - destruct (termux_open h (dirname h apk)); cbn;
      (destruct (has_termux_notification h); cbn; [|reflexivity]);
      unfold status_of, bind; cbn; destruct (termux_notification h =? 0); reflexivity.
  - destruct (has_termux_notification h); cbn; [|reflexivity].
    unfold status_of, bind; cbn. destruct (termux_notification h =? 0); reflexivity.
Qed.

Lemma check_apk_file_events apk :
  trace (snd (run (check_apk_file h apk)))
  = if is_regular_file (fs h) apk then
      if readable h apk then [] else [Fatal ("APK file not readable: " ++ apk)]
    else [Fatal ("APK file not found: " ++ apk)].
Proof.
  unfold check_apk_file, run.
  destruct (is_regular_file (fs h) apk); cbn; [|reflexivity].
  destruct (readable h apk); cbn; [|reflexivity].
  destruct (file_says_android h apk); reflexivity.
Qed.

Lemma set_permissions_events apk :
  trace (snd (run (set_permissions h opts apk)))
  = if NO_PERMISSIONS opts then [] else [Chmod644 apk].
Proof.
  unfold set_permissions, run.
  destruct (NO_PERMISSIONS opts); cbn; [reflexivity|].
  destruct (chmod_644 h apk); reflexivity.
Qed.

(** Every event of a run of [main], in order. *)
Lemma main_trace :
  APK_FILE opts <> "" ->
  trace (snd (run (main h opts))) = main_events h opts.
Proof.
  intros Hapk. apply String.eqb_neq in Hapk.
  unfold main, main_events, chain_events, termux_ok, adb_ok.
  rewrite Hapk. clear Hapk. cbv zeta.
  set (APK := APK_FILE opts).
  destruct (check_apk_file_run h APK) as (Hcf & _).
  destruct (set_permissions_run h opts APK) as (Hsf & _).
  destruct (install_via_termux_open_run h APK) as (Htf & _).
  destruct (install_via_adb_run h APK) as (Haf & _).
  destruct (manual_fallback_run h APK) as (Hmf & _).
  pose proof (fun t c => proj1 (notify_success_run h t c)) as Hnf.
  pose proof (check_apk_file_events APK) as Hce.
  pose proof (set_permissions_events APK) as Hse.
  pose proof (install_via_termux_open_events APK) as Hte.
  pose proof (install_via_adb_events APK) as Hae.
  pose proof (manual_fallback_events APK) as Hme.
  pose proof notify_success_events as Hne.
  destruct (is_regular_file (fs h) APK); cbn [andb] in *;
    [|run_simpl; rewrite ?app_nil_r; reflexivity].
  destruct (readable h APK); [|run_simpl; rewrite ?app_nil_r; reflexivity].
  destruct (FORCE_ADB opts); run_simpl.
  - destruct (adb_ready h && adb_install h APK)%bool; run_simpl;
      [rewrite ?app_nil_r; reflexivity|].
    destruct (has_termux_open h && termux_open h APK)%bool; run_simpl;
      [destruct (notifier_ok h); rewrite ?app_nil_r; reflexivity|].
    destruct (notifier_ok h); run_simpl; rewrite ?app_nil_r; reflexivity.
  - destruct (has_termux_open h && termux_open h APK)%bool; run_simpl;
      [destruct (notifier_ok h); rewrite ?app_nil_r; reflexivity|].
    destruct (adb_ready h && adb_install h APK)%bool; run_simpl;
      destruct (notifier_ok h); run_simpl; rewrite ?app_nil_r; reflexivity.
Qed.

End AutoInstallTraces.


Section AutoInstallGuards.
Import AutoInstall.
Variable h : Host.
Variable opts : Options.

Lemma adb_events_guarded apk : Forall (fun e => tool_present h e = true) (adb_events h apk).
Proof.
  unfold adb_events. constructor; [reflexivity|].
  destruct (has_adb h) eqn:Ha; [|constructor].
  constructor; [exact Ha|].
  destruct (adb_version h); [|constructor].
  constructor; [exact Ha|].
  destruct (adb_ready h); repeat constructor. exact Ha.
Qed.

Lemma termux_open_events_guarded apk :
  Forall (fun e => tool_present h e = true) (termux_open_events h apk).
Proof.
  unfold termux_open_events. constructor; [reflexivity|].
  destruct (has_termux_open h) eqn:Ho; repeat constructor. exact Ho.
Qed.

Lemma notice_events_guarded t c :
  Forall (fun e => tool_present h e = true) (notice_events h t c).
Proof.
  unfold notice_events. destruct (has_termux_notification h) eqn:Hn; repeat constructor.
  exact Hn.
Qed.

Lemma manual_events_guarded apk :
  Forall (fun e => tool_present h e = true) (manual_events h apk).
Proof.
  unfold manual_events. constructor; [reflexivity|].
  repeat (apply Forall_app; split).
  - destruct (has_termux_open h) eqn:Ho; repeat constructor. exact Ho.
  - apply notice_events_guarded.
  - destruct (notifier_ok h); repeat constructor.
Qed.

Lemma chain_events_guarded : Forall (fun e => tool_present h e = true) (chain_events h opts).
Proof.
  unfold chain_events. cbv zeta. apply Forall_app; split;
    [apply termux_open_events_guarded|].
  destruct (termux_ok h opts).
  - constructor; [reflexivity|apply notice_events_guarded].
  - apply Forall_app; split; [apply adb_events_guarded|].
    destruct (adb_ok h opts); (constructor; [reflexivity|]);
      [apply notice_events_guarded|apply manual_events_guarded].
Qed.

Lemma main_events_guarded : Forall (fun e => tool_present h e = true) (main_events h opts).
Proof.
  unfold main_events. cbv zeta.
  destruct (is_regular_file (fs h) (APK_FILE opts)); [|repeat constructor].
  destruct (readable h (APK_FILE opts)); [|repeat constructor].
  apply Forall_app; split; [destruct (NO_PERMISSIONS opts); repeat constructor|].
  destruct (FORCE_ADB opts); [|apply chain_events_guarded].
  apply Forall_app; split; [apply adb_events_guarded|].
  destruct (adb_ok h opts); [repeat constructor|apply chain_events_guarded].
Qed.

Lemma adb_events_installs apk p :
  In (AdbInstall p) (adb_events h apk) -> p = apk /\ adb_ready h = true.
Proof.
  unfold adb_events. intros [Hin|Hin]; [discriminate|].
  destruct (has_adb h); [|contradiction].
  destruct Hin as [Hin|Hin]; [discriminate|].
  destruct (adb_version h); [|contradiction].
  destruct Hin as [Hin|Hin]; [discriminate|].
  destruct (adb_ready h); [|contradiction].
  destruct Hin as [Hin|[]]. injection Hin as <-. split; reflexivity.
Qed.

Lemma notice_events_no_install t c p : ~ In (AdbInstall p) (notice_events h t c).
Proof.
  unfold notice_events. destruct (has_termux_notification h); cbn; intuition discriminate.
Qed.

Lemma chain_events_installs p :
  In (AdbInstall p) (chain_events h opts) -> p = APK_FILE opts /\ adb_ready h = true.
Proof.
  unfold chain_events, termux_open_events, manual_events. cbv zeta. intros Hin.
  apply in_app_or in Hin. destruct Hin as [Hin|Hin].
  { destruct (has_termux_open h); cbn in Hin; intuition discriminate. }
  destruct (termux_ok h opts).
  { destruct Hin as [Hin|Hin]; [discriminate|]. elim (notice_events_no_install _ _ _ Hin). }
  apply in_app_or in Hin. destruct Hin as [Hin|Hin]; [exact (adb_events_installs _ _ Hin)|].
  destruct (adb_ok h opts); (destruct Hin as [Hin|Hin]; [discriminate|]).
  { elim (notice_events_no_install _ _ _ Hin). }
  destruct Hin as [Hin|Hin]; [discriminate|].
  apply in_app_or in Hin. destruct Hin as [Hin|Hin].
  { destruct (has_termux_open h); cbn in Hin; intuition discriminate. }
  apply in_app_or in Hin. destruct Hin as [Hin|Hin].
  { elim (notice_events_no_install _ _ _ Hin). }
  destruct (notifier_ok h); cbn in Hin; intuition discriminate.
Qed.

Lemma main_events_installs p :
  In (AdbInstall p) (main_events h opts) -> p = APK_FILE opts /\ adb_ready h = true.
Proof.
  unfold main_events. cbv zeta.
  destruct (is_regular_file (fs h) (APK_FILE opts)); [|cbn; intuition discriminate].
  destruct (readable h (APK_FILE opts)); [|cbn; intuition discriminate].
  intros Hin. apply in_app_or in Hin. destruct Hin as [Hin|Hin].
  { destruct (NO_PERMISSIONS opts); cbn in Hin; intuition discriminate. }
  destruct (FORCE_ADB opts); [|exact (chain_events_installs _ Hin)].
  apply in_app_or in Hin. destruct Hin as [Hin|Hin]; [exact (adb_events_installs _ _ Hin)|].
  destruct (adb_ok h opts); [cbn in Hin; intuition discriminate|].
  exact (chain_events_installs _ Hin).
Qed.

Lemma filter_chain_events :
  filter is_chmod_or_attempt (chain_events h opts)
  = map Attempt (attempts (chain_events h opts)).
Proof.
  unfold chain_events, termux_open_events, adb_events, manual_events, notice_events.
  cbv zeta.
  destruct (has_termux_open h), (termux_ok h opts), (has_termux_notification h),
    (has_adb h), (adb_version h), (adb_ready h), (adb_ok h opts), (notifier_ok h);
    reflexivity.
Qed.

End AutoInstallGuards.



(** A file that is missing, is no regular file or cannot be read stops the
    script with 1 before anything is done to the host: the only event of the
    run is the fatal log line. *)
Theorem auto_install_refuses_unusable_file :
  forall (h : AutoInstall.Host) (opts : AutoInstall.Options),
    AutoInstall.APK_FILE opts <> "" ->
    apk_checked h opts = false ->
    AutoInstall.exit_code h opts = 1 /\
    exists msg, trace (snd (run (AutoInstall.main h opts))) = [Fatal msg].
Proof.
  intros h opts Hapk Hchecked. split.
  - pose proof (main_run h opts Hapk) as Hrun. unfold main_summary in Hrun.
    rewrite Hchecked in Hrun. unfold AutoInstall.exit_code, AutoInstall.run_main.
    destruct (run (AutoInstall.main h opts)) as [r st]. cbn [fst] in Hrun.
    injection Hrun as -> _ _. reflexivity.
  - rewrite (main_trace h opts Hapk). unfold main_events. cbv zeta.
    unfold apk_checked in Hchecked.
    destruct (is_regular_file (AutoInstall.fs h) (AutoInstall.APK_FILE opts));
      [|eauto].
    destruct (AutoInstall.readable h (AutoInstall.APK_FILE opts)); [discriminate|eauto].
Qed.

Lemma auto_install_refuses_unusable_file_witness :
  AutoInstall.exit_code (Examples.phone true) (AutoInstall.mkOptions "/sdcard/none.apk" false false)
  = 1.
Proof.
  apply (auto_install_refuses_unusable_file (Examples.phone true)
           (AutoInstall.mkOptions "/sdcard/none.apk" false false));
    [discriminate|reflexivity].
Defined.

(** No run calls a tool that [command -v] does not find: termux-open, adb
    and termux-notification are run only where they are installed. And
    [adb install -r] is run only on the file of the run and only after
    [adb devices] listed an authorized device (a line that ends in
    [device]): an unauthorized or absent device is never installed to. *)
Theorem auto_install_runs_only_present_tools :
  forall (h : AutoInstall.Host) (opts : AutoInstall.Options),
    AutoInstall.APK_FILE opts <> "" ->
    let tr := trace (snd (run (AutoInstall.main h opts))) in
    Forall (fun e => tool_present h e = true) tr /\
    (forall p, In (AdbInstall p) tr -> p = AutoInstall.APK_FILE opts /\ adb_ready h = true).
Proof.
  intros h opts Hapk tr. subst tr. rewrite (main_trace h opts Hapk). split.
  - apply main_events_guarded.
  - intros p. apply main_events_installs.
Qed.

Lemma auto_install_runs_only_present_tools_witness :
  Forall (fun e => tool_present (Examples.phone true) e = true)
         (trace (snd (run (AutoInstall.main (Examples.phone true) Examples.plain)))).
Proof.
  apply (auto_install_runs_only_present_tools (Examples.phone true) Examples.plain).
  discriminate.
Defined.


(** ** auto_install.sh: the argument loop *)

Section AutoInstallArgs.
Variable h : AutoInstall.Host.
Variable script : string.

Lemma echo_lines_run lines : forall st,
  AutoInstallCli.echo_lines lines st = (Done tt, mkSt (trace st) (out st ++ lines)).
Proof.
  induction lines as [|l lines IH]; intros st; cbn [AutoInstallCli.echo_lines].
  - unfold ret. rewrite app_nil_r. destruct st; reflexivity.
  - unfold bind, echo. rewrite IH. cbn [trace out]. rewrite <- app_assoc. reflexivity.
Qed.

(** Flags before the next word only set their variables. *)
Lemma parse_args_flags flags : forall rest opts st,
  Forall (fun a => is_flag a = true) flags ->
  AutoInstallCli.parse_args h script (flags ++ rest) opts st
  = AutoInstallCli.parse_args h script rest
      (AutoInstall.mkOptions
         (AutoInstall.APK_FILE opts)
         (AutoInstall.FORCE_ADB opts || existsb (String.eqb "--force-adb") flags)
         (AutoInstall.NO_PERMISSIONS opts || existsb (String.eqb "--no-permissions") flags))
      st.
Proof.
  induction flags as [|a flags IH]; intros rest opts st Hflags.
  - cbn. rewrite !orb_false_r. destruct opts; reflexivity.
  - inversion Hflags as [|? ? Ha Hrest]; subst.
    cbn [app AutoInstallCli.parse_args].
    unfold is_flag in Ha. apply orb_true_iff in Ha.
    destruct Ha as [Ha|Ha]; apply String.eqb_eq in Ha; subst a;
      cbn [String.eqb Ascii.eqb Bool.eqb andb]; rewrite (IH _ _ _ Hrest);
      cbn [AutoInstall.APK_FILE AutoInstall.FORCE_ADB AutoInstall.NO_PERMISSIONS existsb
           String.eqb Ascii.eqb Bool.eqb andb orb];
      rewrite ?orb_true_r, ?orb_assoc; reflexivity.
Qed.

Lemma file_word_not_option arg :
  is_file_word arg = true ->
  String.eqb arg "--force-adb" = false /\ String.eqb arg "--no-permissions" = false /\
  String.eqb arg "--help" = false /\ String.eqb arg "-h" = false /\
  Str.startsWith arg "-" = false /\ String.eqb arg "" = false.
Proof.
  unfold is_file_word. intros H. apply andb_true_iff in H. destruct H as (He & Hd).
  apply negb_true_iff in He, Hd.
  destruct arg as [|c arg]; [discriminate|].
  unfold Str.startsWith in *. cbn [String.prefix] in Hd |- *.
  destruct (ascii_dec "-"%char c) as [<-|Hc]; [destruct arg; discriminate|].
  assert (Hc' : Ascii.eqb c "-" = false).
  { apply Ascii.eqb_neq. congruence. }
  cbn [String.eqb]. rewrite Hc'. repeat split; reflexivity.
Qed.

End AutoInstallArgs.

(** One file name and the two flags, in any order and any number of
    times: the loop takes the word for the file and sets each flag that
    occurs; nothing is printed and nothing is done. *)
Theorem auto_install_flags_in_any_order :
  forall (h : AutoInstall.Host) (script : string) (before after_ : list string) (apk : string),
    is_file_word apk = true ->
    Forall (fun a => is_flag a = true) before ->
    Forall (fun a => is_flag a = true) after_ ->
    run (AutoInstallCli.parse_args h script (before ++ apk :: after_)
           (AutoInstall.mkOptions "" false false))
    = (Done (AutoInstall.mkOptions apk
               (existsb (String.eqb "--force-adb") (before ++ after_))
               (existsb (String.eqb "--no-permissions") (before ++ after_))),
       init).
Proof.
  intros h script before after_ apk Hword Hb Ha. unfold run.
  rewrite (parse_args_flags h script before _ _ _ Hb).
  cbn [AutoInstallCli.parse_args AutoInstall.APK_FILE AutoInstall.FORCE_ADB
       AutoInstall.NO_PERMISSIONS orb].
  destruct (file_word_not_option apk Hword) as (H1 & H2 & H3 & H4 & H5 & _).
  rewrite H1, H2, H3, H4, H5. cbn [orb String.eqb].
  rewrite <- (app_nil_r after_) at 1.
  rewrite (parse_args_flags h script after_ _ _ _ Ha).
  cbn [AutoInstallCli.parse_args AutoInstall.APK_FILE AutoInstall.FORCE_ADB
       AutoInstall.NO_PERMISSIONS].
  rewrite !existsb_app. reflexivity.
Qed.

Lemma auto_install_flags_in_any_order_witness :
  run (AutoInstallCli.parse_args (Examples.phone true) "auto_install.sh"
         ["--no-permissions"; "/sdcard/app.apk"; "--force-adb"; "--force-adb"]
         (AutoInstall.mkOptions "" false false))
  = (Done (AutoInstall.mkOptions "/sdcard/app.apk" true true), init).
Proof.
  apply (auto_install_flags_in_any_order (Examples.phone true) "auto_install.sh"
           ["--no-permissions"] ["--force-adb"; "--force-adb"] "/sdcard/app.apk");
    repeat constructor.
Defined.

(** With [--help] or [-h] among the arguments nothing is installed: the
    script ends inside the argument loop, with 0 at the help option or with
    1 at an unknown option or a second file name before it, and the only
    event a run can have is the fatal log line. *)
Theorem auto_install_help_installs_nothing :
  forall (h : AutoInstall.Host) (script : string) (args : list string),
    In "--help" args \/ In "-h" args ->
    let r := run (AutoInstallCli.main h script args) in
    (fst r = Exit 0 /\ trace (snd r) = []) \/
    (fst r = Exit 1 /\ exists msg, trace (snd r) = [Fatal msg]).
Proof.
  intros h script args Hhelp r. subst r. unfold AutoInstallCli.main, run, bind.
  assert (Hloop : forall opts st,
             exists st',
               (AutoInstallCli.parse_args h script args opts st = (Exit 0, st') /\
                trace st' = trace st) \/
               (AutoInstallCli.parse_args h script args opts st = (Exit 1, st') /\
                exists msg, trace st' = (trace st ++ [Fatal msg])%list)).
  { induction args as [|a args IH]; intros opts st; [destruct Hhelp as [[]|[]]|].
    cbn [AutoInstallCli.parse_args].
    destruct (String.eqb_spec a "--force-adb") as [->|Hf].
    { apply IH. destruct Hhelp as [[H|H]|[H|H]]; try discriminate; auto. }
    destruct (String.eqb_spec a "--no-permissions") as [->|Hn].
    { apply IH. destruct Hhelp as [[H|H]|[H|H]]; try discriminate; auto. }
    destruct (String.eqb a "--help" || String.eqb a "-h")%bool eqn:Hh.
    { unfold bind, AutoInstallCli.usage. rewrite echo_lines_run. cbn.
      eexists. left. split; reflexivity. }
    destruct (Str.startsWith a "-").
    { eexists. right. split; [reflexivity|]. cbn. eauto. }
    destruct (String.eqb (AutoInstall.APK_FILE opts) "").
    - apply IH. apply orb_false_iff in Hh. destruct Hh as (H1 & H2).
      apply String.eqb_neq in H1, H2.
      destruct Hhelp as [[H|H]|[H|H]]; try congruence; auto.
    - eexists. right. split; [reflexivity|]. cbn. eauto. }
  destruct (Hloop (AutoInstall.mkOptions "" false false) init)
    as (st' & [(E & Ht)|(E & msg & Ht)]); rewrite E; cbn [fst snd].
  - left. split; [reflexivity|exact Ht].
  - right. split; [reflexivity|]. exists msg. exact Ht.
Qed.

Lemma auto_install_help_installs_nothing_witness :
  fst (run (AutoInstallCli.main (Examples.phone true) "auto_install.sh"
              ["/sdcard/app.apk"; "--help"])) = Exit 0.
Proof.
  destruct (auto_install_help_installs_nothing (Examples.phone true) "auto_install.sh"
              ["/sdcard/app.apk"; "--help"]) as [(E & _)|(E & _)].
  - left. right. left. reflexivity.
  - exact E.
  - vm_compute in E. discriminate.
Defined.

(** A second file name is refused: the script dies with 1 at that word,
    whatever follows it, and does nothing else. *)
Theorem auto_install_refuses_second_file :
  forall (h : AutoInstall.Host) (script : string) (before between rest : list string)
         (apk other : string),
    is_file_word apk = true -> is_file_word other = true ->
    Forall (fun a => is_flag a = true) before ->
    Forall (fun a => is_flag a = true) between ->
    let r := run (AutoInstallCli.main h script (before ++ apk :: between ++ other :: rest)) in
    fst r = Exit 1 /\ trace (snd r) = [Fatal "Multiple APK files specified"].
Proof.
  intros h script before between rest apk other Hapk Hother Hb Hm r. subst r.
  unfold AutoInstallCli.main, run, bind.
  rewrite (parse_args_flags h script before _ _ _ Hb).
  cbn [AutoInstallCli.parse_args AutoInstall.APK_FILE AutoInstall.FORCE_ADB
       AutoInstall.NO_PERMISSIONS orb].
  destruct (file_word_not_option apk Hapk) as (H1 & H2 & H3 & H4 & H5 & H6).
  rewrite H1, H2, H3, H4, H5. cbn [orb String.eqb].
  rewrite (parse_args_flags h script between _ _ _ Hm).
  cbn [AutoInstallCli.parse_args AutoInstall.APK_FILE AutoInstall.FORCE_ADB
       AutoInstall.NO_PERMISSIONS].
  destruct (file_word_not_option other Hother) as (G1 & G2 & G3 & G4 & G5 & _).
  rewrite G1, G2, G3, G4, G5, H6. cbn [orb]. split; reflexivity.
Qed.

Lemma auto_install_refuses_second_file_witness :
  fst (run (AutoInstallCli.main (Examples.phone true) "auto_install.sh"
              ["/sdcard/app.apk"; "--force-adb"; "/sdcard/b.apk"])) = Exit 1.
Proof.
  apply (auto_install_refuses_second_file (Examples.phone true) "auto_install.sh"
           [] ["--force-adb"] [] "/sdcard/app.apk" "/sdcard/b.apk");
    repeat constructor.
Defined.

(** ** Shell runs: a rule for each way of composing commands *)

Lemma out_run_bind {A B} (m : M A) (k : A -> M B) :
  (forall a, regular (k a)) ->
  out (snd (run (bind m k)))
  = (out (snd (run m))
     ++ match fst (run m) with
        | Done a => out (snd (run (k a)))
        | Exit c => []
        end)%list.
Proof.
  intros Hk. rewrite run_bind by exact Hk.
  destruct (run m) as [[a|c] s1]; cbn; [reflexivity|rewrite app_nil_r; reflexivity].
Qed.

Lemma run_spec_bind {A B} P (V : A -> Prop) (V' : B -> Prop) X (m : M A) (k : A -> M B) :
  run_spec P V X m ->
  (forall a, regular (k a)) ->
  (forall a, V a -> run_spec P V' X (k a)) ->
  run_spec P V' X (bind m k).
Proof.
  unfold run_spec. intros (Ht & Hv) Hreg Hk.
  rewrite trace_run_bind, fst_run_bind by exact Hreg.
  destruct (fst (run m)) as [a|c].
  - destruct (Hk a Hv) as (Hkt & Hkv). split; [apply Forall_app; split; assumption|exact Hkv].
  - rewrite app_nil_r. split; assumption.
Qed.

Lemma run_spec_weaken {A} (P P' : Event -> Prop) (V V' : A -> Prop) (X X' : Z -> Prop) m :
  run_spec P V X m ->
  (forall e, P e -> P' e) -> (forall a, V a -> V' a) -> (forall c, X c -> X' c) ->
  run_spec P' V' X' m.
Proof.
  unfold run_spec. intros (Ht & Hv) HP HV HX. split.
  - eapply Forall_impl; [exact HP|exact Ht].
  - destruct (fst (run m)); auto.
Qed.

Lemma run_spec_ret {A} P (V : A -> Prop) X a : V a -> run_spec P V X (ret a).
Proof. intros Hv. split; [constructor|exact Hv]. Qed.

Lemma run_spec_exit {A} P (V : A -> Prop) (X : Z -> Prop) c : X c -> run_spec P V X (@exit A c).
Proof. intros Hx. split; [constructor|exact Hx]. Qed.

Lemma run_spec_emit (P : Event -> Prop) (V : unit -> Prop) X e :
  P e -> V tt -> run_spec P V X (emit e).
Proof. intros Hp Hv. split; [repeat constructor; exact Hp|exact Hv]. Qed.

Lemma run_spec_echo P (V : unit -> Prop) X l : V tt -> run_spec P V X (echo l).
Proof. intros Hv. split; [constructor|exact Hv]. Qed.

Lemma run_spec_status_of P X errexit status :
  (errexit = true -> status <> 0 -> X status) ->
  run_spec P (fun s => s = status /\ (errexit = true -> s = 0)) X (status_of errexit status).
Proof.
  intros Hx. unfold run_spec. rewrite fst_run_status_of, trace_run_status_of.
  split; [constructor|].
  destruct errexit; cbn [andb].
  - destruct (Z.eqb_spec status 0) as [->|Hs]; cbn [negb]; [auto|auto].
  - split; [reflexivity|discriminate].
Qed.

(** [$(m)]: the events of [m]; the value is the status of [m] and its text. *)
Lemma run_spec_capture P (V : Z -> Prop) (X : Z -> Prop) (X' : Z -> Prop) (m : M Z) :
  run_spec P V X m ->
  run_spec P (fun st => (V (fst st) \/ X (fst st)) /\
                        snd st = text_of (out (snd (run m)))) X' (capture m).
Proof.
  unfold run_spec. rewrite fst_run_capture, trace_run_capture. intros (Ht & Hv).
  split; [exact Ht|]. cbn [fst snd]. split; [|reflexivity].
  destruct (fst (run m)); auto.
Qed.

Lemma run_spec_bind_any {A B} P (V' : B -> Prop) X (m : M A) (k : A -> M B) :
  run_spec P anything X m ->
  (forall a, regular (k a)) ->
  (forall a, run_spec P V' X (k a)) ->
  run_spec P V' X (bind m k).
Proof. intros Hm Hreg Hk. eapply run_spec_bind; [exact Hm|exact Hreg|auto]. Qed.

Lemma run_spec_ret_any {A} P X (a : A) : run_spec P anything X (ret a).
Proof. apply run_spec_ret. exact I. Qed.

Lemma run_spec_echo_any P X l : run_spec P anything X (echo l).
Proof. apply run_spec_echo. exact I. Qed.

Lemma run_spec_status_of_any P X errexit status :
  (status <> 0 -> X status) -> run_spec P anything X (status_of errexit status).
Proof.
  intros Hx. eapply run_spec_weaken; [apply (run_spec_status_of P X); auto| | |]; auto.
  intros a _. exact I.
Qed.

Create HintDb spec.
#[local] Hint Resolve run_spec_ret_any run_spec_echo_any : spec.
#[local] Hint Extern 2 (run_spec _ _ _ (ret _)) =>
  apply run_spec_ret; first [exact I | reflexivity] : spec.
#[local] Hint Extern 1 (run_spec _ _ _ (exit _)) =>
  apply run_spec_exit; first [exact I | discriminate | solve [auto]] : spec.
#[local] Hint Extern 1 (run_spec _ _ _ (emit _)) =>
  apply run_spec_emit;
    [first [exact I | reflexivity | split; reflexivity | solve [auto]] | exact I] : spec.
#[local] Hint Extern 1 (run_spec _ _ _ (status_of _ _)) =>
  apply run_spec_status_of_any; first [intros; exact I | solve [auto]] : spec.

Ltac spec_step :=
  match goal with
  | |- run_spec _ _ _ (bind _ _) => apply run_spec_bind_any; [ | regular_tac | intro; cbv beta ]
  | |- run_spec _ _ _ (if ?c then _ else _) => destruct c
  | |- run_spec _ _ _ (match ?x with _ => _ end) => destruct x
  | |- run_spec _ _ _ _ => solve [auto with spec]
  end.

Ltac spec_tac := intros; repeat spec_step.

(** ** Strings: where a piece of text is found *)

Lemma prefix_includes sub s : String.prefix sub s = true -> Str.includes s sub = true.
Proof. intros H. destruct s; cbn [Str.includes]; rewrite H; reflexivity. Qed.

Lemma includes_app_r a b sub : Str.includes b sub = true -> Str.includes (a ++ b) sub = true.
Proof.
  intros H. induction a as [|c a IH]; [exact H|].
  cbn [append Str.includes]. rewrite IH. destruct (String.prefix sub (String c (a ++ b))); reflexivity.
Qed.

Lemma includes_nl_app a b : Str.includes (a ++ nl ++ b) nl = true.
Proof.
  apply includes_app_r. apply prefix_includes. cbn.
  destruct (ascii_dec "010" "010"); [destruct b; reflexivity|congruence].
Qed.

Lemma strip_trailing_empty_keeps l rest :
  l <> "" -> exists rest', strip_trailing_empty (l :: rest) = l :: rest'.
Proof.
  intros Hl. cbn [strip_trailing_empty].
  destruct (strip_trailing_empty rest).
  - apply String.eqb_neq in Hl. rewrite Hl. eauto.
  - eauto.
Qed.

(** Two lines, the second not empty: the text holds a line feed. *)
Lemma text_of_two_lines l1 l2 rest :
  l2 <> "" -> Str.includes (text_of (l1 :: l2 :: rest)) nl = true.
Proof.
  intros H2. unfold text_of.
  destruct (strip_trailing_empty_keeps l2 rest H2) as (rest' & E).
  change (strip_trailing_empty (l1 :: l2 :: rest))
    with (match strip_trailing_empty (l2 :: rest) with
          | [] => if String.eqb l1 "" then [] else [l1]
          | r => l1 :: r
          end).
  rewrite E. cbn [String.concat]. apply includes_nl_app.
Qed.

Lemma includes_slash_app a b : Str.includes (a ++ "/" ++ b) "/" = true.
Proof.
  apply includes_app_r. apply prefix_includes. cbn.
  destruct (ascii_dec "/" "/"); [destruct b; reflexivity|congruence].
Qed.

Lemma includes_slash_cons c s :
  Str.includes (String c s) "/" = false -> Ascii.eqb c "/" = false /\ Str.includes s "/" = false.
Proof.
  cbn [Str.includes String.prefix]. destruct (ascii_dec "/" c) as [<-|Hc].
  - destruct s; discriminate.
  - intros H. split; [apply Ascii.eqb_neq; congruence|exact H].
Qed.

(** [${identifier#*/}] on [owner/rest]: what follows the first slash. *)
Lemma after_first_slash owner rest :
  Str.includes owner "/" = false -> Str.after_first "/" (owner ++ "/" ++ rest) = rest.
Proof.
  induction owner as [|c owner IH]; intros H.
  - reflexivity.
  - destruct (includes_slash_cons c owner H) as (Hc & Ho).
    cbn [append Str.after_first]. rewrite Hc.
    change (Str.includes (owner ++ String "/" rest) (String "/" ""))
      with (Str.includes (owner ++ "/" ++ rest) "/").
    rewrite includes_slash_app. apply IH. exact Ho.
Qed.

(** [${identifier%/*}] on [repo/run]: what stands before the last slash. *)
Lemma before_last_slash repo run_id :
  Str.includes run_id "/" = false -> Str.before_last "/" (repo ++ "/" ++ run_id) = repo.
Proof.
  intros H. induction repo as [|c repo IH].
  - cbn [append Str.before_last].
    change (Str.includes run_id (String "/" "")) with (Str.includes run_id "/").
    rewrite H. reflexivity.
  - cbn [append Str.before_last].
    change (Str.includes (repo ++ String "/" run_id) (String "/" ""))
      with (Str.includes (repo ++ "/" ++ run_id) "/").
    rewrite includes_slash_app. f_equal. exact IH.
Qed.

(** ** poll_and_deliver.sh: what every run keeps to *)

Lemma regular_sleep_interval cfg : regular (PollAndDeliver.sleep_interval cfg).
Proof. apply regular_emit. Qed.

Lemma regular_log_attempt w cfg attempts : regular (PollAndDeliver.log_attempt w cfg attempts).
Proof. apply regular_echo. Qed.

#[local] Hint Resolve regular_sleep_interval regular_log_attempt : regular.

Section DeliverSpecs.
Import PollAndDeliver.
Variable w : World.
Variable cfg : Config.
Variable P : Event -> Prop.
Variable X : Z -> Prop.

Lemma run_spec_log msg : run_spec P anything X (log w msg).
Proof. apply run_spec_echo_any. Qed.

Lemma run_spec_die {A} (V : A -> Prop) msg :
  P (Fatal msg) -> X 1 -> run_spec P V X (@die w A msg).
Proof. intros Hp Hx. split; [repeat constructor; exact Hp|exact Hx]. Qed.

Hint Resolve run_spec_log : spec.

Hypothesis X_die : X 1.
Hypothesis X_notifier : termux_notification w <> 0 -> X (termux_notification w).
Hypothesis P_fatal : forall msg, P (Fatal msg).

Hint Extern 1 (run_spec _ _ _ (die _ _)) => apply run_spec_die; [apply P_fatal|exact X_die] : spec.
Hint Extern 1 (run_spec _ _ _ (timed_out _ _)) => apply run_spec_die; [apply P_fatal|exact X_die]
  : spec.

Lemma notify_spec errexit title message :
  NO_NOTIFY cfg = true \/ P (Notification title message) ->
  run_spec P anything X (notify w cfg errexit title message).
Proof.
  intros Hn. unfold notify, check_termux_api.
  destruct (NO_NOTIFY cfg); [spec_tac|].
  destruct Hn as [Hn|Hn]; [discriminate|].
  destruct (has_termux_notification w); [|spec_tac].
  apply run_spec_bind_any; [spec_tac|regular_tac|intros available; cbv beta].
  destruct available; [|spec_tac].
  apply run_spec_bind_any; [apply run_spec_emit; [exact Hn|exact I]|regular_tac|intros _; cbv beta].
  apply run_spec_bind_any; [apply run_spec_status_of_any; exact X_notifier|regular_tac|intros _; cbv beta].
  spec_tac.
Qed.

Hypothesis P_read : forall k, P (Query k).
Hypothesis P_sleep : forall s, P (Sleep s).

Hint Extern 1 (run_spec _ _ _ (emit (Query _))) =>
  apply run_spec_emit; [apply P_read|exact I] : spec.
Hint Extern 1 (run_spec _ _ _ (sleep_interval _)) =>
  apply run_spec_emit; [apply P_sleep|exact I] : spec.
Hint Extern 1 (run_spec _ _ _ (log_attempt _ _ _)) => apply run_spec_log : spec.

Lemma poll_github_loop_spec remaining : forall attempts,
  run_spec P (fun status => status = 0) X (poll_github_loop w cfg remaining attempts).
Proof.
  induction remaining as [|n IH]; intros attempts; cbn [poll_github_loop]; spec_tac.
Qed.

Lemma poll_codemagic_loop_spec remaining : forall attempts,
  run_spec P (fun status => status = 0) X (poll_codemagic_loop w cfg remaining attempts).
Proof.
  induction remaining as [|n IH]; intros attempts; cbn [poll_codemagic_loop]; spec_tac.
Qed.

Lemma poll_eas_loop_spec remaining : forall attempts,
  run_spec P (fun status => status = 0) X (poll_eas_loop w cfg remaining attempts).
Proof.
  induction remaining as [|n IH]; intros attempts; cbn [poll_eas_loop]; spec_tac.
Qed.

Hint Resolve poll_github_loop_spec poll_codemagic_loop_spec poll_eas_loop_spec : spec.

(** The poll of [main]: when it returns, it returns [IDENTIFIER]. *)
Lemma poll_then_identifier (m : M Z) (id : string) (V : string -> Prop) :
  run_spec P (fun status => status = 0) X m -> V id ->
  run_spec P V X (status <- m ;; status_of true status ;; ret id)%sh.
Proof.
  intros Hm Hv. eapply run_spec_bind; [exact Hm|regular_tac|intros status ->; cbv beta].
  apply run_spec_bind_any; [|regular_tac|intros _; cbv beta].
  - apply run_spec_status_of_any. intros H. elim H. reflexivity.
  - apply run_spec_ret. exact Hv.
Qed.

(** The poll of [main]: when it returns, it returns [IDENTIFIER]. *)
Lemma poll_for_completion_spec :
  run_spec P (fun id => id = if String.eqb (CI_PROVIDER cfg) "github"
                             then REPO cfg ++ "/" ++ RUN_ID cfg else BUILD_ID cfg)
           X (poll_for_completion w cfg).
Proof.
  unfold poll_for_completion, poll_github, poll_codemagic, poll_eas.
  destruct (String.eqb (CI_PROVIDER cfg) "github").
  { destruct (String.eqb (REPO cfg) "" || String.eqb (RUN_ID cfg) "")%bool; [spec_tac|].
    apply poll_then_identifier; [spec_tac|reflexivity]. }
  destruct (String.eqb (CI_PROVIDER cfg) "codemagic").
  { destruct (String.eqb (BUILD_ID cfg) ""); [spec_tac|].
    apply poll_then_identifier; [spec_tac|reflexivity]. }
  destruct (String.eqb (CI_PROVIDER cfg) "eas"); [|spec_tac].
  destruct (String.eqb (BUILD_ID cfg) ""); [spec_tac|].
  apply poll_then_identifier; [spec_tac|reflexivity].
Qed.

(** [download_artifact]: its events; for GitHub the command line is the one
    built from the two ends of [identifier]. *)
Lemma download_artifact_spec ci identifier :
  (forall cmd,
      (ci = "github" ->
       exists script,
         cmd = github_download_command script (OUTPUT_DIR cfg)
                 (Str.before_last "/" identifier) (Str.after_first "/" identifier)) ->
      P (NodeDownload cmd)) ->
  run_spec P (fun status => status = 0) X (download_artifact w cfg ci identifier).
Proof.
  intros P_download. unfold download_artifact. cbv zeta.
  match goal with
  | |- context [is_regular_file (fs w) (if ?c then ?a else ?b)] =>
      set (script := if c then a else b)
  end.
  clearbody script.
  apply run_spec_bind_any; [spec_tac|regular_tac|intros _; cbv beta].
  destruct (negb (is_regular_file (fs w) script)); [spec_tac|].
  eapply (run_spec_bind P
            (fun cmd => ci = "github" ->
                        cmd = github_download_command script (OUTPUT_DIR cfg)
                                (Str.before_last "/" identifier)
                                (Str.after_first "/" identifier)));
    [|regular_tac|intros download_cmd Hcmd; cbv beta].
  { destruct (String.eqb_spec ci "github") as [->|Hci].
    - apply run_spec_ret. intros _. unfold github_download_command.
      rewrite !string_append_assoc. reflexivity.
    - destruct (String.eqb ci "codemagic" || String.eqb ci "eas")%bool; [|spec_tac].
      apply run_spec_ret. intros Hg. elim Hci. exact Hg. }
  apply run_spec_bind_any; [spec_tac|regular_tac|intros _; cbv beta].
  apply run_spec_bind_any;
    [apply run_spec_emit; [apply P_download; eauto|exact I]|regular_tac|intros _; cbv beta].
  destruct (node w download_cmd) as [status result].
  destruct (negb (status =? 0)); [spec_tac|].
  apply run_spec_bind_any; [spec_tac|regular_tac|intros downloaded_file; cbv beta].
  destruct (negb (is_regular_file (fs w) downloaded_file)); spec_tac.
Qed.

(** On success [download_artifact] has printed its log lines before the
    path: the text [main] receives holds a line feed. *)
Lemma download_artifact_text ci identifier status :
  fst (run (download_artifact w cfg ci identifier)) = Done status ->
  Str.includes (text_of (out (snd (run (download_artifact w cfg ci identifier))))) nl = true.
Proof.
  unfold download_artifact. cbv zeta.
  match goal with
  | |- context [is_regular_file (fs w) (if ?c then ?a else ?b)] =>
      set (script := if c then a else b)
  end.
  clearbody script.
  rewrite out_run_bind, fst_run_bind by regular_tac.
  change (fst (run (log w ("Downloading artifact from " ++ ci)))) with (@Done unit tt).
  change (out (snd (run (log w ("Downloading artifact from " ++ ci)))))
    with ["[" ++ date w ++ "] " ++ ("Downloading artifact from " ++ ci)].
  destruct (negb (is_regular_file (fs w) script)); [discriminate|].
  rewrite out_run_bind, fst_run_bind by regular_tac.
  match goal with
  | |- context [fst (run ?m)] =>
      match m with
      | (if String.eqb ci "github" then _ else _) => set (command := m)
      end
  end.
  assert (Hcommand : out (snd (run command)) = [] \/ exists c, fst (run command) = Exit c).
  { subst command. destruct (String.eqb ci "github"); [left; reflexivity|].
    destruct (String.eqb ci "codemagic" || String.eqb ci "eas")%bool;
      [left; reflexivity|right; eexists; reflexivity]. }
  destruct (fst (run command)) as [download_cmd|c] eqn:Ec; [|discriminate].
  destruct Hcommand as [->|(c & Hc)]; [|discriminate].
  rewrite out_run_bind by regular_tac.
  change (out (snd (run (log w ("Running: " ++ download_cmd)))))
    with ["[" ++ date w ++ "] " ++ ("Running: " ++ download_cmd)].
  intros _. cbn [app]. apply text_of_two_lines. discriminate.
Qed.

Lemma install_apk_spec apk :
  (forall e, is_install e = true -> P e) ->
  NO_NOTIFY cfg = true \/ (forall title message, P (Notification title message)) ->
  run_spec P anything X (install_apk w cfg apk).
Proof.
  intros P_install P_notice. unfold install_apk.
  assert (Hnotify : forall errexit title message,
             run_spec P anything X (notify w cfg errexit title message)).
  { intros. apply notify_spec. destruct P_notice; auto. }
  assert (Hemit : forall e, is_install e = true -> run_spec P anything X (emit e)).
  { intros e He. apply run_spec_emit; [apply P_install; exact He|exact I]. }
  apply run_spec_bind_any; [spec_tac|regular_tac|intros _; cbv beta].
  apply run_spec_bind_any; [apply Hemit; reflexivity|regular_tac|intros _; cbv beta].
  apply run_spec_bind_any; [|regular_tac|intros opened; cbv beta].
  { destruct (has_termux_open w); [|spec_tac].
    apply run_spec_bind_any; [spec_tac|regular_tac|intros _; cbv beta].
    apply run_spec_bind_any; [apply Hemit; reflexivity|regular_tac|intros _; cbv beta].
    spec_tac. }
  destruct opened; [spec_tac|].
  apply run_spec_bind_any; [|regular_tac|intros installed; cbv beta].
  { destruct (has_adb w); [|spec_tac].
    apply run_spec_bind_any; [apply Hemit; reflexivity|regular_tac|intros _; cbv beta].
    match goal with |- run_spec _ _ _ (if ?c then _ else _) => destruct c end; [|spec_tac].
    apply run_spec_bind_any; [spec_tac|regular_tac|intros _; cbv beta].
    apply run_spec_bind_any; [apply Hemit; reflexivity|regular_tac|intros _; cbv beta].
    spec_tac. }
  destruct installed; [spec_tac|].
  apply run_spec_bind_any; [spec_tac|regular_tac|intros _; cbv beta].
  apply run_spec_bind_any; [apply Hnotify|regular_tac|intros _; cbv beta].
  spec_tac.
Qed.

Lemma deliver_downloaded_spec apk :
  (forall e, is_install e = true -> P e) ->
  NO_NOTIFY cfg = true \/ (forall title message, P (Notification title message)) ->
  run_spec P anything X (deliver_downloaded w cfg apk).
Proof.
  intros P_install P_notice. unfold deliver_downloaded.
  assert (Hnotify : forall errexit title message,
             run_spec P anything X (notify w cfg errexit title message)).
  { intros. apply notify_spec. destruct P_notice; auto. }
  pose proof (install_apk_spec apk P_install P_notice) as Hinstall.
  apply run_spec_bind_any; [spec_tac|regular_tac|intros file_size; cbv beta].
  apply run_spec_bind_any; [spec_tac|regular_tac|intros _; cbv beta].
  apply run_spec_bind_any; [|regular_tac|intros _; cbv beta; spec_tac].
  destruct (AUTO_INSTALL cfg).
  - apply run_spec_bind_any; [apply Hnotify|regular_tac|intros _; cbv beta].
    apply run_spec_bind_any; [exact Hinstall|regular_tac|intros installed; cbv beta].
    destruct (installed =? 0);
      (apply run_spec_bind_any; [apply Hnotify|regular_tac|intros _; cbv beta; spec_tac]).
  - apply run_spec_bind_any; [apply Hnotify|regular_tac|intros _; cbv beta; spec_tac].
Qed.

(** [main] is the poll, the download in [$(...)] and the delivery, with
    the notifications in between. *)
Lemma main_spec (Vid : string -> Prop) (Vcap : Z * string -> Prop) (V : Z -> Prop) :
  NO_NOTIFY cfg = true \/ (forall title message, P (Notification title message)) ->
  run_spec P Vid X (poll_for_completion w cfg) ->
  (forall id, Vid id ->
     run_spec P Vcap X (capture (download_artifact w cfg (CI_PROVIDER cfg) id))) ->
  (forall status, status <> 0 -> X status) ->
  (forall apk, Vcap (0, apk) -> run_spec P V X (deliver_downloaded w cfg apk)) ->
  run_spec P V X (main w cfg).
Proof.
  intros P_notice Hpoll Hcapture X_status Hdeliver. unfold main.
  assert (Hnotify : forall errexit title message,
             run_spec P anything X (notify w cfg errexit title message)).
  { intros. apply notify_spec. destruct P_notice; auto. }
  destruct (String.eqb (CI_PROVIDER cfg) ""); [spec_tac|].
  do 4 (apply run_spec_bind_any; [spec_tac|regular_tac|intros _; cbv beta]).
  apply run_spec_bind_any; [apply Hnotify|regular_tac|intros _; cbv beta].
  eapply run_spec_bind; [exact Hpoll|regular_tac|intros id Hid; cbv beta].
  apply run_spec_bind_any; [apply Hnotify|regular_tac|intros _; cbv beta].
  eapply run_spec_bind; [exact (Hcapture id Hid)|regular_tac|intros [status apk] Hcap; cbv beta].
  eapply run_spec_bind; [apply (run_spec_status_of P X true status)|regular_tac|].
  - intros _. apply X_status.
  - intros s (-> & Hs). specialize (Hs eq_refl). subst status. apply Hdeliver. exact Hcap.
Qed.

End DeliverSpecs.

(** The text of [$(download_artifact ...)] when its status is 0. *)
Lemma capture_download_spec w cfg (P : Event -> Prop) (X : Z -> Prop) ci identifier :
  run_spec P (fun status => status = 0) nonzero
           (PollAndDeliver.download_artifact w cfg ci identifier) ->
  run_spec P (fun st => fst st = 0 -> Str.includes (snd st) nl = true) X
           (capture (PollAndDeliver.download_artifact w cfg ci identifier)).
Proof.
  unfold run_spec. rewrite fst_run_capture, trace_run_capture. intros (Ht & Hv).
  split; [exact Ht|]. cbn [fst snd].
  pose proof (download_artifact_text w cfg ci identifier) as Htext.
  destruct (fst (run (PollAndDeliver.download_artifact w cfg ci identifier))) as [s|c].
  - intros _. apply (Htext s). reflexivity.
  - intros Hc. elim Hv. exact Hc.
Qed.

(** With [--no-notify] no run sends a notification, whatever happens to
    the build, the download and the installation. *)
Theorem poll_and_deliver_no_notify_is_silent :
  forall (w : PollAndDeliver.World) (cfg : PollAndDeliver.Config),
    PollAndDeliver.NO_NOTIFY cfg = true ->
    Forall (fun e => is_notification e = false)
           (trace (snd (run (PollAndDeliver.main w cfg)))).
Proof.
  intros w cfg Hquiet.
  assert (Hspec : run_spec no_notification anything anything (PollAndDeliver.main w cfg)).
  { apply (main_spec w cfg no_notification anything I (fun _ => I) (fun _ => eq_refl)
             anything anything anything).
    - left. exact Hquiet.
    - eapply run_spec_weaken;
        [apply (poll_for_completion_spec w cfg no_notification anything I);
         intros; reflexivity| | |]; auto.
      intros id _. exact I.
    - intros id _. eapply run_spec_weaken;
        [apply (run_spec_capture no_notification (fun s => s = 0) anything anything);
         apply (download_artifact_spec w cfg no_notification anything I);
         intros; reflexivity| | |]; auto.
      intros st _. exact I.
    - intros; exact I.
    - intros apk _. apply (deliver_downloaded_spec w cfg no_notification anything I (fun _ => I)).
      + intros e He. destruct e; try discriminate; reflexivity.
      + left. exact Hquiet. }
  exact (proj1 Hspec).
Qed.

Lemma poll_and_deliver_no_notify_is_silent_witness :
  Forall (fun e => is_notification e = false)
         (trace (snd (run (PollAndDeliver.main (Examples.bare_world Examples.never_done)
                             Examples.one_minute)))).
Proof.
  apply (poll_and_deliver_no_notify_is_silent (Examples.bare_world Examples.never_done)
           Examples.one_minute).
  reflexivity.
Defined.

(** [main] takes for the path of the package everything that
    [download_artifact] printed, its log lines included. So on a device where
    no path that exists holds a line feed, no run attempts an installation
    and no run ends with status 0: after a download that succeeded the
    script stops at [du -h]. *)
Theorem poll_and_deliver_needs_a_path_with_line_feed :
  forall (w : PollAndDeliver.World) (cfg : PollAndDeliver.Config),
    (forall p, PollAndDeliver.fs w p <> None -> Str.includes p nl = false) ->
    existsb is_install (trace (snd (run (PollAndDeliver.main w cfg)))) = false /\
    PollAndDeliver.exit_code w cfg <> 0.
Proof.
  intros w cfg Hdisk.
  assert (Hspec : run_spec no_install never nonzero (PollAndDeliver.main w cfg)).
  { apply (main_spec w cfg no_install nonzero ltac:(discriminate) (fun H => H)
             (fun _ => eq_refl) anything
             (fun st => fst st = 0 -> Str.includes (snd st) nl = true) never).
    - right. reflexivity.
    - eapply run_spec_weaken;
        [apply (poll_for_completion_spec w cfg no_install nonzero ltac:(discriminate));
         intros; reflexivity| | |]; auto.
      intros id _. exact I.
    - intros id _. apply capture_download_spec.
      apply (download_artifact_spec w cfg no_install nonzero ltac:(discriminate));
        intros; reflexivity.
    - intros status Hs. exact Hs.
    - intros apk Hcap. specialize (Hcap eq_refl). cbn [snd] in Hcap.
      assert (Hnone : PollAndDeliver.fs w apk = None).
      { destruct (PollAndDeliver.fs w apk) as [node|] eqn:E; [|reflexivity].
        rewrite (Hdisk apk) in Hcap; [discriminate|congruence]. }
      destruct (deliver_downloaded_run w cfg apk) as (_ & _ & _ & _ & _ & _ & Hstop).
      destruct (Hstop Hnone) as (Hf & Ht).
      unfold run_spec. rewrite Hf, Ht. split; [constructor|discriminate]. }
  destruct Hspec as (Ht & Hv). split.
  - apply (existsb_none (fun e => negb (is_install e))).
    + intros e He. apply negb_true_iff in He. exact He.
    + eapply Forall_impl; [|exact Ht]. intros e He. unfold no_install in He.
      rewrite He. reflexivity.
  - unfold PollAndDeliver.exit_code.
    destruct (run (PollAndDeliver.main w cfg)) as [[v|c] st]; cbn [fst] in Hv;
      [destruct Hv|exact Hv].
Qed.

Lemma poll_and_deliver_needs_a_path_with_line_feed_witness :
  PollAndDeliver.exit_code Examples.usual_world Examples.auto_install <> 0.
Proof.
  apply (poll_and_deliver_needs_a_path_with_line_feed Examples.usual_world
           Examples.auto_install).
  intros p. unfold Examples.usual_world, Examples.device, Examples.usual_disk.
  cbn [PollAndDeliver.fs].
  destruct (String.eqb_spec p "/opt/delivery/../ci/download_artifact.js") as [->|_];
    [reflexivity|].
  destruct (String.eqb_spec p Examples.downloaded_apk) as [->|_]; [reflexivity|].
  intros H. elim H. reflexivity.
Defined.

(** For GitHub [main] hands [download_artifact] the text [REPO/RUN_ID], and
    [download_artifact] takes the run id to be what follows the first slash:
    with a repository [owner/name] the download script is started with
    [--run-id "name/RUN_ID"], never with the run id itself. *)
Theorem poll_and_deliver_run_id_keeps_repo_name :
  forall (w : PollAndDeliver.World) (cfg : PollAndDeliver.Config) (owner name : string),
    PollAndDeliver.CI_PROVIDER cfg = "github" ->
    PollAndDeliver.REPO cfg = owner ++ "/" ++ name ->
    Str.includes owner "/" = false ->
    Str.includes (PollAndDeliver.RUN_ID cfg) "/" = false ->
    forall cmd,
      In (NodeDownload cmd) (trace (snd (run (PollAndDeliver.main w cfg)))) ->
      exists script,
        cmd = github_download_command script (PollAndDeliver.OUTPUT_DIR cfg)
                (owner ++ "/" ++ name) (name ++ "/" ++ PollAndDeliver.RUN_ID cfg).
Proof.
  intros w cfg owner name Hci Hrepo Howner Hrun cmd Hin.
  set (Q := fun e => match e with
                     | NodeDownload c =>
                         exists script,
                           c = github_download_command script (PollAndDeliver.OUTPUT_DIR cfg)
                                 (owner ++ "/" ++ name)
                                 (name ++ "/" ++ PollAndDeliver.RUN_ID cfg)
                     | _ => True
                     end).
  assert (Hspec : run_spec Q anything anything (PollAndDeliver.main w cfg)).
  { apply (main_spec w cfg Q anything I (fun _ => I) (fun _ => I)
             (fun id => id = (owner ++ "/" ++ name) ++ "/" ++ PollAndDeliver.RUN_ID cfg)
             anything anything).
    - right. intros; exact I.
    - eapply run_spec_weaken;
        [apply (poll_for_completion_spec w cfg Q anything I); intros; exact I| | |]; auto.
      intros id ->. rewrite Hci, Hrepo. reflexivity.
    - intros id ->. eapply run_spec_weaken;
        [apply (run_spec_capture Q (fun s => s = 0) anything anything);
         apply (download_artifact_spec w cfg Q anything I (fun _ => I))| | |]; auto.
      + intros c Hc. destruct (Hc Hci) as (script & ->). exists script.
        rewrite before_last_slash by exact Hrun.
        rewrite !string_append_assoc, after_first_slash by exact Howner. reflexivity.
      + intros st _. exact I.
    - intros; exact I.
    - intros apk _. apply (deliver_downloaded_spec w cfg Q anything I (fun _ => I)).
      + intros e He. destruct e; try discriminate; exact I.
      + right. intros; exact I. }
  destruct Hspec as (Ht & _). rewrite Forall_forall in Ht. exact (Ht _ Hin).
Qed.

Lemma poll_and_deliver_run_id_keeps_repo_name_witness :
  exists script,
    "node " ++ dq ++ "/opt/delivery/../ci/download_artifact.js" ++ dq ++ " --provider " ++ dq
    ++ "github" ++ dq ++ " --out " ++ dq ++ "/sdcard/out" ++ dq ++ " --repo " ++ dq ++ "u/r"
    ++ dq ++ " --run-id " ++ dq ++ "r/42" ++ dq
    = github_download_command script "/sdcard/out" "u/r" "r/42".
Proof.
  apply (poll_and_deliver_run_id_keeps_repo_name
           (Examples.bare_world (fun _ => Some "completed:success")) Examples.one_minute
           "u" "r" eq_refl eq_refl eq_refl eq_refl).
  vm_compute. auto 10.
Defined.

(** ** poll_and_deliver.sh: runs that end at the poll *)

Lemma queries_none tr : Forall no_read_no_download tr -> queries tr = 0%nat.
Proof.
  unfold queries. induction 1 as [|e tr (Hq & _) _ IH]; [reflexivity|].
  cbn [filter]. rewrite Hq. exact IH.
Qed.

Lemma downloads_none tr : Forall no_read_no_download tr -> existsb is_download tr = false.
Proof.
  induction 1 as [|e tr (_ & Hd) _ IH]; [reflexivity|].
  cbn [existsb]. rewrite Hd, IH. reflexivity.
Qed.

(** When the poll cannot return, [main] ends there. *)
Lemma main_stops_at_poll w cfg :
  run_spec no_read_no_download never nonzero (PollAndDeliver.poll_for_completion w cfg) ->
  let tr := trace (snd (run (PollAndDeliver.main w cfg))) in
  queries tr = 0%nat /\ existsb is_download tr = false /\
  PollAndDeliver.exit_code w cfg <> 0.
Proof.
  intros Hpoll tr.
  assert (Hspec : run_spec no_read_no_download never nonzero (PollAndDeliver.main w cfg)).
  { apply (main_spec w cfg no_read_no_download nonzero ltac:(discriminate) (fun H => H)
             (fun _ => conj eq_refl eq_refl) never never never).
    - right. intros; split; reflexivity.
    - exact Hpoll.
    - intros id [].
    - intros status Hs. exact Hs.
    - intros apk []. }
  destruct Hspec as (Ht & Hv). fold tr in Ht.
  split; [apply queries_none; exact Ht|]. split; [apply downloads_none; exact Ht|].
  unfold PollAndDeliver.exit_code.
  destruct (run (PollAndDeliver.main w cfg)) as [[v|c] st]; cbn [fst] in Hv;
    [destruct Hv|exact Hv].
Qed.

Section PollStops.
Import PollAndDeliver.
Variable w : World.
Variable cfg : Config.

Lemma die_stops {A} msg : run_spec no_read_no_download never nonzero (@die w A msg).
Proof. split; [repeat constructor|discriminate]. Qed.

Lemma stops_bind {A B} (m : M A) (k : A -> M B) :
  run_spec no_read_no_download never nonzero m ->
  (forall a, regular (k a)) ->
  run_spec no_read_no_download (@never B) nonzero (bind m k).
Proof. intros Hm Hk. eapply run_spec_bind; [exact Hm|exact Hk|intros a []]. Qed.

Lemma log_then_stops {A} msg (m : M A) :
  regular m ->
  run_spec no_read_no_download never nonzero m ->
  run_spec no_read_no_download never nonzero (log w msg ;; m)%sh.
Proof.
  intros Hreg Hm. apply run_spec_bind_any; [apply run_spec_echo_any|intros _; exact Hreg|].
  intros _. exact Hm.
Qed.

Lemma poll_stops_without_tool :
  (CI_PROVIDER cfg = "github" /\ has_gh w = false) \/
  (CI_PROVIDER cfg = "codemagic" /\ CODEMAGIC_ACCESS_TOKEN w = "") \/
  (CI_PROVIDER cfg = "eas" /\ has_eas w = false) ->
  run_spec no_read_no_download never nonzero (poll_for_completion w cfg).
Proof.
  unfold poll_for_completion, poll_github, poll_codemagic, poll_eas.
  intros [(-> & Htool)|[(-> & Htool)|(-> & Htool)]]; rewrite Htool;
    cbn [String.eqb Ascii.eqb Bool.eqb negb andb];
    match goal with |- run_spec _ _ _ (if ?c then _ else _) => destruct c end;
    try apply die_stops;
    (apply stops_bind; [|regular_tac]);
    (apply log_then_stops; [regular_tac|apply die_stops]).
Qed.

(** The attempts a budget leaves: none when bash holds it as less than the
    poll interval. *)
Lemma no_attempt_on_short_budget :
  int64 (TIMEOUT_SECONDS cfg) < Zpos (POLL_INTERVAL cfg) < 2 ^ 63 ->
  Z.to_nat (max_attempts cfg) = 0%nat.
Proof.
  intros [Hshort HI]. unfold max_attempts.
  rewrite (int64_small (Zpos _)) by lia.
  pose proof (int64_range (TIMEOUT_SECONDS cfg)) as Hr.
  pose proof (quot_between (int64 (TIMEOUT_SECONDS cfg)) (Zpos (POLL_INTERVAL cfg))
                ltac:(lia)) as Hq.
  rewrite int64_small by lia.
  destruct (Z_lt_le_dec (int64 (TIMEOUT_SECONDS cfg)) 0) as [Hneg|Hpos]; [lia|].
  rewrite Z.quot_small by lia. reflexivity.
Qed.

Lemma poll_stops_on_short_budget :
  int64 (TIMEOUT_SECONDS cfg) < Zpos (POLL_INTERVAL cfg) < 2 ^ 63 ->
  run_spec no_read_no_download never nonzero (poll_for_completion w cfg).
Proof.
  intros Hshort.
  unfold poll_for_completion, poll_github, poll_codemagic, poll_eas.
  rewrite (no_attempt_on_short_budget Hshort).
  cbn [poll_github_loop poll_codemagic_loop poll_eas_loop]. unfold timed_out.
  repeat match goal with
         | |- run_spec _ _ _ (if ?c then _ else _) => destruct c
         | |- run_spec _ _ _ (die _ _) => apply die_stops
         | |- run_spec _ _ _ (bind (log _ _) _) => apply log_then_stops; [regular_tac|]
         | |- run_spec _ _ _ (bind _ _) => apply stops_bind; [|regular_tac]
         end.
Qed.

End PollStops.

(** A tool the provider needs is missing (gh for GitHub, the access token
    for Codemagic, eas for EAS): the script ends with a non-zero status
    without a single status read and without starting the download. *)
Theorem poll_and_deliver_missing_tool_is_fatal :
  forall (w : PollAndDeliver.World) (cfg : PollAndDeliver.Config),
    (PollAndDeliver.CI_PROVIDER cfg = "github" /\ PollAndDeliver.has_gh w = false) \/
    (PollAndDeliver.CI_PROVIDER cfg = "codemagic" /\
     PollAndDeliver.CODEMAGIC_ACCESS_TOKEN w = "") \/
    (PollAndDeliver.CI_PROVIDER cfg = "eas" /\ PollAndDeliver.has_eas w = false) ->
    let tr := trace (snd (run (PollAndDeliver.main w cfg))) in
    queries tr = 0%nat /\ existsb is_download tr = false /\
    PollAndDeliver.exit_code w cfg <> 0.
Proof.
  intros w cfg Htool. apply main_stops_at_poll. apply poll_stops_without_tool. exact Htool.
Qed.

Lemma poll_and_deliver_missing_tool_is_fatal_witness :
  PollAndDeliver.exit_code (Examples.bare_world Examples.never_done)
    (PollAndDeliver.mkConfig "eas" "" "" "b7" "/sdcard/out" false true 1800 30) <> 0.
Proof.
  apply (poll_and_deliver_missing_tool_is_fatal (Examples.bare_world Examples.never_done)
           (PollAndDeliver.mkConfig "eas" "" "" "b7" "/sdcard/out" false true 1800 30)).
  right. right. split; reflexivity.
Defined.

(** A time budget that bash holds as less than the poll interval leaves no
    attempt: the script dies with the timeout message without reading the
    build status once, also when the build has long succeeded. bash holds
    the budget in 64 bits: as it is written when it lies between [- 2 ^ 63]
    and [2 ^ 63 - 1], wrapped around otherwise. *)
Theorem poll_and_deliver_short_budget_never_reads :
  forall (w : PollAndDeliver.World) (cfg : PollAndDeliver.Config),
    int64 (PollAndDeliver.TIMEOUT_SECONDS cfg) < Zpos (PollAndDeliver.POLL_INTERVAL cfg) ->
    Zpos (PollAndDeliver.POLL_INTERVAL cfg) < 2 ^ 63 ->
    let tr := trace (snd (run (PollAndDeliver.main w cfg))) in
    queries tr = 0%nat /\ existsb is_download tr = false /\
    PollAndDeliver.exit_code w cfg <> 0.
Proof.
  intros w cfg Hshort HI. apply main_stops_at_poll. apply poll_stops_on_short_budget.
  split; assumption.
Qed.

(** 29 seconds at 30 seconds, and [2 ^ 63 + 60] seconds, which bash holds
    as a negative number. *)
Lemma poll_and_deliver_short_budget_never_reads_witness :
  queries (trace (snd (run (PollAndDeliver.main
                              (Examples.bare_world (fun _ => Some "completed:success"))
                              (PollAndDeliver.mkConfig "github" "u/r" "42" "" "/sdcard/out"
                                 false true 29 30))))) = 0%nat /\
  queries (trace (snd (run (PollAndDeliver.main
                              (Examples.bare_world (fun _ => Some "completed:success"))
                              (PollAndDeliver.mkConfig "github" "u/r" "42" "" "/sdcard/out"
                                 false true (2 ^ 63 + 60) 30))))) = 0%nat.
Proof.
  split.
  - apply (poll_and_deliver_short_budget_never_reads
             (Examples.bare_world (fun _ => Some "completed:success"))
             (PollAndDeliver.mkConfig "github" "u/r" "42" "" "/sdcard/out" false true 29 30));
      reflexivity.
  - apply (poll_and_deliver_short_budget_never_reads
             (Examples.bare_world (fun _ => Some "completed:success"))
             (PollAndDeliver.mkConfig "github" "u/r" "42" "" "/sdcard/out" false true
                (2 ^ 63 + 60) 30));
      reflexivity.
Defined.

(** ** poll_and_deliver.sh: how long a poll reads *)

Lemma queries_pending_reads interval n : forall attempt,
  queries (pending_reads interval n attempt) = n.
Proof.
  induction n as [|n IH]; intros attempt; [reflexivity|].
  cbn [pending_reads]. unfold queries in *. cbn [filter is_query List.length].
  rewrite IH. reflexivity.
Qed.

Section PollCounts.
Import PollAndDeliver.
Variable w : World.
Variable cfg : Config.

Let interval : Z := Zpos (POLL_INTERVAL cfg).

Hint Rewrite (fst_run_pd_log w) (trace_run_pd_log w) : run.
Hint Rewrite (@fst_run_pd_die w) (@trace_run_pd_die w) : run.

Ltac poll_run :=
  unfold log_attempt, sleep_interval, timed_out; autorewrite with run; cbn [app].

(** [n] reads that are not terminal: each costs one read and one sleep,
    and the loop goes on as if it had started after them. *)
Lemma poll_github_loop_pending n : forall attempts remaining,
  0 <= attempts ->
  (forall j, (Z.to_nat attempts < j <= Z.to_nat attempts + n)%nat ->
             gh_non_terminal (gh_run_status w j)) ->
  fst (run (poll_github_loop w cfg (n + remaining) attempts))
  = fst (run (poll_github_loop w cfg remaining (attempts + Z.of_nat n))) /\
  trace (snd (run (poll_github_loop w cfg (n + remaining) attempts)))
  = (pending_reads interval n attempts
     ++ trace (snd (run (poll_github_loop w cfg remaining (attempts + Z.of_nat n)))))%list.
Proof.
  induction n as [|n IH]; intros attempts remaining Hpos Hnt.
  - cbn [plus Nat.add pending_reads app Z.of_nat]. rewrite Z.add_0_r. split; reflexivity.
  - assert (Hnext : gh_non_terminal (gh_run_status w (Z.to_nat (attempts + 1)))).
    { apply Hnt. lia. }
    destruct (IH (attempts + 1) remaining ltac:(lia)) as (IHf & IHt).
    { intros j Hj. apply Hnt. lia. }
    replace (attempts + 1 + Z.of_nat n) with (attempts + Z.of_nat (S n)) in IHf, IHt by lia.
    cbn [plus Nat.add poll_github_loop pending_reads].
    destruct (gh_run_status w (Z.to_nat (attempts + 1))) as [info|].
    + cbn in Hnext. apply String.eqb_neq in Hnext. rewrite Hnext.
      destruct (String.eqb (Str.before_first ":" info) "in_progress"
                || String.eqb (Str.before_first ":" info) "queued")%bool;
        poll_run; rewrite IHf, IHt; split; reflexivity.
    + poll_run. rewrite IHf, IHt. split; reflexivity.
Qed.

Lemma poll_eas_loop_pending n : forall attempts remaining,
  0 <= attempts ->
  (forall j, (Z.to_nat attempts < j <= Z.to_nat attempts + n)%nat ->
             eas_non_terminal (eas_build_status w j)) ->
  fst (run (poll_eas_loop w cfg (n + remaining) attempts))
  = fst (run (poll_eas_loop w cfg remaining (attempts + Z.of_nat n))) /\
  trace (snd (run (poll_eas_loop w cfg (n + remaining) attempts)))
  = (pending_reads interval n attempts
     ++ trace (snd (run (poll_eas_loop w cfg remaining (attempts + Z.of_nat n)))))%list.
Proof.
  induction n as [|n IH]; intros attempts remaining Hpos Hnt.
  - cbn [plus Nat.add pending_reads app Z.of_nat]. rewrite Z.add_0_r. split; reflexivity.
  - assert (Hnext : eas_non_terminal (eas_build_status w (Z.to_nat (attempts + 1)))).
    { apply Hnt. lia. }
    destruct (IH (attempts + 1) remaining ltac:(lia)) as (IHf & IHt).
    { intros j Hj. apply Hnt. lia. }
    replace (attempts + 1 + Z.of_nat n) with (attempts + Z.of_nat (S n)) in IHf, IHt by lia.
    cbn [plus Nat.add poll_eas_loop pending_reads].
    destruct (eas_build_status w (Z.to_nat (attempts + 1))) as [status|].
    + destruct Hnext as (H1 & H2 & H3). apply String.eqb_neq in H1, H2, H3.
      rewrite H1, H2, H3. cbn [orb].
      destruct (String.eqb status "in-queue" || String.eqb status "in-progress")%bool;
        poll_run; rewrite IHf, IHt; split; reflexivity.
    + poll_run. rewrite IHf, IHt. split; reflexivity.
Qed.

Lemma poll_codemagic_loop_pending n : forall attempts remaining,
  0 <= attempts ->
  (forall j, (Z.to_nat attempts < j <= Z.to_nat attempts + n)%nat ->
             codemagic_non_terminal w (codemagic_build w j)) ->
  fst (run (poll_codemagic_loop w cfg (n + remaining) attempts))
  = fst (run (poll_codemagic_loop w cfg remaining (attempts + Z.of_nat n))) /\
  trace (snd (run (poll_codemagic_loop w cfg (n + remaining) attempts)))
  = (pending_reads interval n attempts
     ++ trace (snd (run (poll_codemagic_loop w cfg remaining (attempts + Z.of_nat n)))))%list.
Proof.
  induction n as [|n IH]; intros attempts remaining Hpos Hnt.
  - cbn [plus Nat.add pending_reads app Z.of_nat]. rewrite Z.add_0_r. split; reflexivity.
  - assert (Hnext : codemagic_non_terminal w (codemagic_build w (Z.to_nat (attempts + 1)))).
    { apply Hnt. lia. }
    destruct (IH (attempts + 1) remaining ltac:(lia)) as (IHf & IHt).
    { intros j Hj. apply Hnt. lia. }
    replace (attempts + 1 + Z.of_nat n) with (attempts + Z.of_nat (S n)) in IHf, IHt by lia.
    cbn [plus Nat.add poll_codemagic_loop pending_reads].
    destruct (codemagic_build w (Z.to_nat (attempts + 1))) as [response|];
      [|poll_run; rewrite IHf, IHt; split; reflexivity].
    cbn [codemagic_non_terminal] in Hnext.
    destruct (jq w ".status" response) as [status|];
      [|poll_run; rewrite IHf, IHt; split; reflexivity].
    destruct Hnext as (H1 & H2). apply String.eqb_neq in H1, H2. rewrite H1, H2.
    destruct (String.eqb status "building" || String.eqb status "preparing"
              || String.eqb status "provisioning")%bool;
      poll_run; rewrite IHf, IHt; split; reflexivity.
Qed.

End PollCounts.







(** ** poll_and_deliver.sh: the argument loop *)

(** Every variable can be set from the command line, to any word: the
    word after an option is its value and is never read as an option
    itself, so [--ci --help] sets the provider to [--help]. Nothing is
    printed. *)
Theorem poll_and_deliver_arguments_round_trip :
  forall (w : PollAndDeliver.World) (script DOWNLOAD_DIR : string) (unbound_status : Z)
         (v : PollAndDeliverCli.Variables),
    run (PollAndDeliverCli.parse_args w script DOWNLOAD_DIR unbound_status
           (delivery_command_line v))
    = (Done v, init).
Proof.
  intros w script DOWNLOAD_DIR unbound_status [ci repo run_id build_id out_dir auto quiet t].
  destruct auto, quiet; reflexivity.
Qed.

(** The later of two occurrences of an option wins. *)
Theorem poll_and_deliver_last_option_wins :
  forall (w : PollAndDeliver.World) (script DOWNLOAD_DIR : string) (unbound_status : Z)
         (v v' : PollAndDeliverCli.Variables),
    run (PollAndDeliverCli.parse_args w script DOWNLOAD_DIR unbound_status
           (delivery_command_line v ++ delivery_command_line v'))
    = (Done (PollAndDeliverCli.mkVariables
               (PollAndDeliverCli.CI_PROVIDER v') (PollAndDeliverCli.REPO v')
               (PollAndDeliverCli.RUN_ID v') (PollAndDeliverCli.BUILD_ID v')
               (PollAndDeliverCli.OUTPUT_DIR v')
               (PollAndDeliverCli.AUTO_INSTALL v || PollAndDeliverCli.AUTO_INSTALL v')
               (PollAndDeliverCli.NO_NOTIFY v || PollAndDeliverCli.NO_NOTIFY v')
               (PollAndDeliverCli.TIMEOUT_SECONDS v')),
       init).
Proof.
  intros w script DOWNLOAD_DIR unbound_status
         [ci repo run_id build_id out_dir auto quiet t]
         [ci' repo' run_id' build_id' out_dir' auto' quiet' t'].
  destruct auto, quiet, auto', quiet'; reflexivity.
Qed.

(** ** downloadFile: chains of redirects, and what is not a 200 *)

Lemma last_cons_default {A} (l : list A) : forall x d d', List.last (x :: l) d = List.last (x :: l) d'.
Proof.
  induction l as [|y l IH]; intros x d d'; [reflexivity|].
  change (List.last (y :: l) d = List.last (y :: l) d'). apply IH.
Qed.

Lemma last_hop {A} (l : list A) x d : List.last (x :: l) d = List.last l x.
Proof.
  destruct l as [|y l]; [reflexivity|].
  change (List.last (y :: l) d = List.last (y :: l) x). apply last_cons_default.
Qed.







(** ** download_artifact.js (https): findFiles and the extraction *)

Section FindFiles.
Context {P : NodePath}.

(** [searchDir] returns one path for each file, at any depth, whose name
    ends in the extension. *)
Lemma length_search_entry extension : forall (t : Tree) (dir : string),
  List.length (Downloader.search_entry extension dir t) = count_files extension t.
Proof.
  fix IH 1. intros [name|name entries] dir; cbn [Downloader.search_entry count_files entry_name].
  - destruct (Str.endsWith name extension); reflexivity.
  - induction entries as [|e es IHes]; [reflexivity|].
    cbn [flat_map map list_sum]. rewrite length_app, IH, IHes. reflexivity.
Qed.

Lemma length_search_entries extension dir entries :
  List.length (flat_map (Downloader.search_entry extension dir) entries)
  = list_sum (map (count_files extension) entries).
Proof.
  induction entries as [|e es IH]; [reflexivity|].
  cbn [flat_map map list_sum]. rewrite length_app, length_search_entry, IH. reflexivity.
Qed.

Lemma search_entries_none extension dir entries :
  list_sum (map (count_files extension) entries) = 0%nat ->
  flat_map (Downloader.search_entry extension dir) entries = [].
Proof.
  intros H. apply length_zero_iff_nil. rewrite length_search_entries. exact H.
Qed.

(** The first path [searchDir] returns is that of the first file of the
    listing, directories entered in order, whose name ends in the
    extension. *)
Lemma hd_search_entry extension : forall (t : Tree) (dir : string),
  List.hd_error (Downloader.search_entry extension dir t) = first_file extension dir t.
Proof.
  fix IH 1. intros [name|name entries] dir; cbn [Downloader.search_entry first_file entry_name].
  - destruct (Str.endsWith name extension); reflexivity.
  - induction entries as [|e es IHes]; [reflexivity|].
    cbn [flat_map fold_right]. rewrite <- IH, <- IHes.
    destruct (Downloader.search_entry extension (path_join dir name) e); reflexivity.
Qed.

Lemma hd_search_entries extension dir entries :
  List.hd_error (flat_map (Downloader.search_entry extension dir) entries)
  = first_file_in extension dir entries.
Proof.
  unfold first_file_in. induction entries as [|e es IH]; [reflexivity|].
  cbn [flat_map fold_right]. rewrite <- hd_search_entry, <- IH.
  destruct (Downloader.search_entry extension dir e); reflexivity.
Qed.

(** What [downloadGitHubArtifact] returns once the archive is unpacked and
    listed. *)
Lemma extract_downloaded_found (h : Downloader.Host) outputDir name outputPath entries :
  Str.endsWith outputPath ".zip" = true ->
  Downloader.mkdirSync h (path_join outputDir name) = Output tt ->
  Downloader.unzip h outputPath (path_join outputDir name) = Output tt ->
  Downloader.readdirSync h (path_join outputDir name) = Output entries ->
  fst (Downloader.extract_downloaded h outputDir name outputPath)
  = Output (match List.hd_error (flat_map (Downloader.search_entry ".apk"
                                             (path_join outputDir name)) entries) with
            | Some apk => apk
            | None => outputPath
            end).
Proof.
  intros Hzip Hmk Hunzip Hread. unfold Downloader.extract_downloaded.
  rewrite Hzip, Hmk, Hunzip.
  unfold Downloader.findFiles, Js.perform, Js.bind, Js.try_catch, Js.log, Js.ret.
  rewrite Hread. destruct (flat_map _ entries); reflexivity.
Qed.

End FindFiles.

(** [findFiles] searches the directory recursively: it returns as many
    paths as there are files, at any depth, whose name ends in the
    extension (directories are entered, never returned); the first path is
    the first such file of the listing; and an error of [readdirSync] is
    passed on. *)
Theorem findFiles_finds_files_at_any_depth :
  forall (P : NodePath) (h : Downloader.Host) (directory extension : string),
    (forall entries,
        Downloader.readdirSync h directory = Output entries ->
        exists files,
          fst (Downloader.findFiles h directory extension) = Output files /\
          List.length files = list_sum (map (count_files extension) entries) /\
          (forall before name later,
              entries = (before ++ File name :: later)%list ->
              list_sum (map (count_files extension) before) = 0%nat ->
              Str.endsWith name extension = true ->
              List.hd_error files = Some (path_join directory name))) /\
    (forall message,
        Downloader.readdirSync h directory = Throws message ->
        fst (Downloader.findFiles h directory extension) = Throws message).
Proof.
  intros P h directory extension. unfold Downloader.findFiles, Js.perform, Js.bind. split.
  - intros entries ->. cbn [fst Js.ret]. eexists. split; [reflexivity|]. split.
    + apply length_search_entries.
    + intros before name later -> Hnone Hname.
      rewrite flat_map_app, (search_entries_none extension directory before Hnone).
      cbn [app flat_map Downloader.search_entry entry_name]. rewrite Hname. reflexivity.
  - intros message ->. reflexivity.
Qed.

Lemma findFiles_finds_files_at_any_depth_witness :
  exists files,
    fst (Downloader.findFiles
           (Downloader.mkHost (Throws "gh") (Throws "gh") (fun _ _ => [])
              (fun _ => Output tt) (fun _ _ => Output tt)
              (fun _ => Output Examples.nested_apk))
           "/dl/app" ".apk") = Output files /\
    List.length files = 1%nat.
Proof.
  destruct (proj1 (findFiles_finds_files_at_any_depth posix_path
                     (Downloader.mkHost (Throws "gh") (Throws "gh") (fun _ _ => [])
                        (fun _ => Output tt) (fun _ _ => Output tt)
                        (fun _ => Output Examples.nested_apk))
                     "/dl/app" ".apk") Examples.nested_apk eq_refl)
    as (files & E & Hlen & _).
  exists files. split; [exact E|exact Hlen].
Defined.



(** ** trigger_ci.js: what a poll costs *)

Lemma waited_app tr1 tr2 : waited (tr1 ++ tr2) = waited tr1 + waited tr2.
Proof.
  induction tr1 as [|e tr1 IH]; [reflexivity|].
  cbn [app waited fold_right]. fold (waited (tr1 ++ tr2)). fold (waited tr1).
  rewrite IH. destruct e; lia.
Qed.

Section JsPollCosts.
Import CITrigger.
Variable try_body : Z -> Completion PollResult * list JsEvent.
Variable maxWaitMinutes maxAttempts : Z.

(** Each attempt asks once, and waits in the [try] block only when it
    completes normally. *)
Hypothesis one_query : forall attempt, status_queries (snd (try_body attempt)) = 1%nat.
Hypothesis wait_if_normal : forall attempt,
  waited (snd (try_body attempt))
  = match fst (try_body attempt) with
    | Normal => 30000
    | _ => 0
    end.

Lemma poll_loop_costs remaining : forall attempt,
  let tr := snd (poll_loop try_body maxWaitMinutes maxAttempts remaining attempt) in
  (status_queries tr <= remaining)%nat /\
  0 <= waited tr <= 30000 * Z.of_nat (status_queries tr).
Proof.
  induction remaining as [|n IH]; intros attempt; cbn [poll_loop].
  - cbn. split; lia.
  - pose proof (one_query attempt) as Hq. pose proof (wait_if_normal attempt) as Hw.
    destruct (try_body attempt) as [c tr0]. cbn [fst snd] in Hq, Hw.
    specialize (IH (attempt + 1)).
    destruct (poll_loop try_body maxWaitMinutes maxAttempts n (attempt + 1)) as [r tr'].
    cbn [snd] in IH.
    destruct c as [|v|msg]; cbn [snd].
    + rewrite status_queries_app, waited_app, Hq, Hw. split; lia.
    + rewrite Hq, Hw. split; lia.
    + unfold catch_attempt. destruct (attempt =? maxAttempts); cbn [snd].
      * rewrite app_nil_r, Hq, Hw. split; lia.
      * rewrite !status_queries_app, !waited_app, Hq, Hw.
        match goal with
        | |- context [status_queries [?l; ?x]] =>
            change (status_queries [l; x]) with 0%nat; change (waited [l; x]) with 30000
        end.
        split; lia.
Qed.

Lemma poll_loop_step remaining attempt :
  poll_loop try_body maxWaitMinutes maxAttempts (S remaining) attempt
  = let (c, tr) := try_body attempt in
    let (c, tr) :=
      match c with
      | Throw m => let (c', tr') := catch_attempt attempt maxAttempts m in (c', (tr ++ tr')%list)
      | _ => (c, tr)
      end in
    match c with
    | Return v => (Fulfilled v, tr)
    | Throw m => (Rejected m, tr)
    | Normal =>
        let (r, tr') :=
          poll_loop try_body maxWaitMinutes maxAttempts remaining (attempt + 1) in
        (r, (tr ++ tr')%list)
    end.
Proof. reflexivity. Qed.

(** When every attempt throws, the loop goes through all of them: each
    but the last is followed by a wait, and the last one passes its error on. *)
Lemma poll_loop_all_throw (message : Z -> string) :
  (forall attempt, fst (try_body attempt) = Throw (message attempt)) ->
  forall n attempt,
    attempt + Z.of_nat n = maxAttempts ->
    let r := poll_loop try_body maxWaitMinutes maxAttempts (S n) attempt in
    fst r = Rejected (message maxAttempts) /\
    status_queries (snd r) = S n /\
    waited (snd r) = 30000 * Z.of_nat n.
Proof.
  intros Hthrow. induction n as [|n IH]; intros attempt Hlast; cbv zeta;
    rewrite poll_loop_step.
  - pose proof (one_query attempt) as Hq. pose proof (wait_if_normal attempt) as Hw.
    pose proof (Hthrow attempt) as Ht.
    destruct (try_body attempt) as [c tr0]. cbn [fst snd] in Hq, Hw, Ht. subst c.
    unfold catch_attempt. replace (attempt =? maxAttempts) with true
      by (symmetry; apply Z.eqb_eq; lia).
    cbn [fst snd]. rewrite app_nil_r, Hq, Hw.
    replace attempt with maxAttempts by lia. repeat split; reflexivity.
  - pose proof (one_query attempt) as Hq. pose proof (wait_if_normal attempt) as Hw.
    pose proof (Hthrow attempt) as Ht.
    destruct (try_body attempt) as [c tr0]. cbn [fst snd] in Hq, Hw, Ht. subst c.
    unfold catch_attempt. replace (attempt =? maxAttempts) with false
      by (symmetry; apply Z.eqb_neq; lia).
    destruct (IH (attempt + 1) ltac:(lia)) as (Hr & Hqs & Hws).
    destruct (poll_loop try_body maxWaitMinutes maxAttempts (S n) (attempt + 1)) as [r tr'].
    cbn [fst snd] in *. rewrite !status_queries_app, !waited_app, Hq, Hw, Hqs, Hws.
    match goal with
    | |- context [status_queries [?l; ?x]] =>
        change (status_queries [l; x]) with 0%nat; change (waited [l; x]) with 30000
    end.
    split; [exact Hr|]. split; lia.
Qed.

(** Attempts that complete normally: one query and one wait each. *)
Lemma poll_loop_normal n : forall attempt remaining,
  (forall a, attempt <= a < attempt + Z.of_nat n -> fst (try_body a) = Normal) ->
  let r := poll_loop try_body maxWaitMinutes maxAttempts (n + remaining) attempt in
  let r' := poll_loop try_body maxWaitMinutes maxAttempts remaining (attempt + Z.of_nat n) in
  fst r = fst r' /\
  status_queries (snd r) = (n + status_queries (snd r'))%nat /\
  waited (snd r) = 30000 * Z.of_nat n + waited (snd r').
Proof.
  induction n as [|n IH]; intros attempt remaining Hnormal; cbv zeta.
  - cbn [plus Nat.add Z.of_nat]. rewrite Z.add_0_r. repeat split; lia.
  - cbn [plus Nat.add]. rewrite poll_loop_step.
    pose proof (one_query attempt) as Hq. pose proof (wait_if_normal attempt) as Hw.
    pose proof (Hnormal attempt ltac:(lia)) as Hn.
    destruct (try_body attempt) as [c tr0]. cbn [fst snd] in Hq, Hw, Hn. subst c.
    destruct (IH (attempt + 1) remaining) as (Hr & Hqs & Hws).
    { intros a Ha. apply Hnormal. lia. }
    replace (attempt + 1 + Z.of_nat n) with (attempt + Z.of_nat (S n)) in Hr, Hqs, Hws by lia.
    destruct (poll_loop try_body maxWaitMinutes maxAttempts (n + remaining) (attempt + 1))
      as [r tr'].
    cbn [fst snd] in *. rewrite status_queries_app, waited_app, Hq, Hw, Hqs, Hws.
    split; [exact Hr|]. split; lia.
Qed.

End JsPollCosts.

Section JsTries.
Import CITrigger.
Variable b : Backend.

Lemma github_try_costs runId maxAttempts attempt :
  status_queries (snd (github_try b runId attempt maxAttempts)) = 1%nat /\
  waited (snd (github_try b runId attempt maxAttempts))
  = match fst (github_try b runId attempt maxAttempts) with
    | Normal => 30000
    | _ => 0
    end.
Proof.
  unfold github_try.
  destruct (gh_run b (Z.to_nat attempt)) as [m|out]; [split; reflexivity|].
  destruct (String.eqb (template (nth_error (Str.split_colon (Str.trim out)) 0)) "completed");
    [|split; reflexivity].
  destruct (nth_error (Str.split_colon (Str.trim out)) 1) as [c|]; [|split; reflexivity].
  destruct (String.eqb c "success"); [|split; reflexivity].
  destruct (gh_artifacts b (Z.to_nat attempt)); split; reflexivity.
Qed.

Lemma eas_try_costs buildId maxAttempts attempt :
  status_queries (snd (eas_try b buildId attempt maxAttempts)) = 1%nat /\
  waited (snd (eas_try b buildId attempt maxAttempts))
  = match fst (eas_try b buildId attempt maxAttempts) with
    | Normal => 30000
    | _ => 0
    end.
Proof.
  unfold eas_try.
  destruct (eas_view b (Z.to_nat attempt)) as [m|result]; [split; reflexivity|].
  destruct (String.eqb (eas_status result) "finished").
  - destruct (truthy (buildUrl result)); split; reflexivity.
  - destruct (String.eqb (eas_status result) "errored"
              || String.eqb (eas_status result) "canceled")%bool; split; reflexivity.
Qed.

Lemma github_try_failed runId maxAttempts attempt conclusion :
  js_failed_read (gh_run b (Z.to_nat attempt)) conclusion ->
  fst (github_try b runId attempt maxAttempts)
  = Throw ("Build failed with conclusion: " ++ template conclusion).
Proof.
  intros (out & E & H0 & H1 & Hc). unfold github_try. rewrite E, H0, H1.
  cbn [template String.eqb Ascii.eqb Bool.eqb andb].
  destruct conclusion as [c|]; [|reflexivity].
  destruct (String.eqb_spec c "success") as [->|Hne]; [elim Hc; reflexivity|reflexivity].
Qed.

End JsTries.

(** Whatever the backend answers, [pollGitHubActions] and [pollEAS] ask for
    the status at most [2 * maxWaitMinutes] times and wait at most 30
    seconds per query: never longer than [maxWaitMinutes] in all. *)
Theorem js_poll_never_exceeds_its_budget :
  forall (b : CITrigger.Backend) (repo id : string) (maxWaitMinutes : Z),
    let bounded tr :=
      (CITrigger.status_queries tr <= Z.to_nat (maxWaitMinutes * 2))%nat /\
      0 <= waited tr <= 30000 * Z.of_nat (CITrigger.status_queries tr) /\
      (0 <= maxWaitMinutes -> waited tr <= 60000 * maxWaitMinutes) in
    bounded (snd (CITrigger.pollGitHubActions b repo id maxWaitMinutes)) /\
    bounded (snd (CITrigger.pollEAS b id maxWaitMinutes)).
Proof.
  intros b repo id m bounded. subst bounded. cbv beta.
  unfold CITrigger.pollGitHubActions, CITrigger.pollEAS. split.
  - destruct (poll_loop_costs (fun a => CITrigger.github_try b id a (m * 2)) m (m * 2)
                (fun a => proj1 (github_try_costs b id (m * 2) a))
                (fun a => proj2 (github_try_costs b id (m * 2) a))
                (Z.to_nat (m * 2)) 1) as (Hq & Hw).
    destruct (CITrigger.poll_loop (fun a => CITrigger.github_try b id a (m * 2)) m (m * 2)
                (Z.to_nat (m * 2)) 1) as [r tr].
    cbn [snd] in *.
    match goal with
    | |- context [waited (?l :: tr)] => change (waited (l :: tr)) with (waited tr)
    end.
    match goal with
    | |- context [CITrigger.status_queries (?l :: tr)] =>
        change (CITrigger.status_queries (l :: tr)) with (CITrigger.status_queries tr)
    end.
    repeat split; lia.
  - destruct (poll_loop_costs (fun a => CITrigger.eas_try b id a (m * 2)) m (m * 2)
                (fun a => proj1 (eas_try_costs b id (m * 2) a))
                (fun a => proj2 (eas_try_costs b id (m * 2) a))
                (Z.to_nat (m * 2)) 1) as (Hq & Hw).
    destruct (CITrigger.poll_loop (fun a => CITrigger.eas_try b id a (m * 2)) m (m * 2)
                (Z.to_nat (m * 2)) 1) as [r tr].
    cbn [snd] in *.
    match goal with
    | |- context [waited (?l :: tr)] => change (waited (l :: tr)) with (waited tr)
    end.
    match goal with
    | |- context [CITrigger.status_queries (?l :: tr)] =>
        change (CITrigger.status_queries (l :: tr)) with (CITrigger.status_queries tr)
    end.
    repeat split; lia.
Qed.





(** ** download_artifact.js (https): the command line *)

Section DownloadCli.
Import DownloaderCli.

Lemma includes_absent args word : ~ In word args -> includes args word = false.
Proof.
  unfold includes. induction args as [|a args IH]; intros Hno; [reflexivity|].
  cbn [existsb]. rewrite IH by (intros Hin; apply Hno; right; exact Hin).
  destruct (String.eqb_spec word a) as [->|_]; [|reflexivity].
  exfalso. apply Hno. left. reflexivity.
Qed.

Lemma indexOf_from_absent args word : forall i,
  ~ In word args -> indexOf_from i args word = -1.
Proof.
  induction args as [|a args IH]; intros i Hno; [reflexivity|].
  cbn [indexOf_from].
  destruct (String.eqb_spec a word) as [->|_]; [exfalso; apply Hno; left; reflexivity|].
  apply IH. intros Hin. apply Hno. right. exact Hin.
Qed.

(** The word after an option that does not occur is the first word. *)
Lemma word_after_absent args word :
  ~ In word args -> word_after args word = List.hd_error args.
Proof.
  intros Hno. unfold word_after, indexOf. rewrite (indexOf_from_absent args word 0 Hno).
  destruct args; reflexivity.
Qed.

End DownloadCli.

(** Without [--provider] the first word of the command line is the
    provider, whatever it is: [indexOf] gives -1 and the word read is
    [args[0]]. A command line that starts with another option therefore ends
    in [Invalid provider], after the output directory has been created, and
    the default [github] is not used. *)
Theorem download_cli_without_provider_reads_first_word :
  forall (P : NodePath) (p : DownloaderCli.Platform) (fuel : nat)
         (first : string) (rest : list string) (outputDir : string),
    let args := first :: rest in
    ~ In "--provider" args -> ~ In "--help" args -> ~ In "-h" args ->
    first <> "" ->
    DownloaderCli.outputDir_of args = Some outputDir ->
    Downloader.mkdirSync (DownloaderCli.host p) outputDir = Output tt ->
    DownloaderCli.construct p = Output tt ->
    DownloaderCli.provider_of args = first /\
    (~ In first download_providers ->
     DownloaderCli.main p fuel args
     = Some (DownloaderCli.ProcessExit 1,
             [DownloaderCli.Did (Js.Mkdir outputDir);
              DownloaderCli.ConsoleError ("Download failed: " ++ DownloaderCli.invalid_provider);
              DownloaderCli.Failed DownloaderCli.invalid_provider first])).
Proof.
  intros P p fuel first rest outputDir args Hprovider Hhelp Hh Hfirst Hout Hmkdir Hnew.
  assert (Hp : DownloaderCli.provider_of args = first).
  { unfold DownloaderCli.provider_of. rewrite (word_after_absent args _ Hprovider).
    subst args. cbn [hd_error truthy template].
    apply String.eqb_neq in Hfirst. rewrite Hfirst. reflexivity. }
  split; [exact Hp|]. intros Hother.
  unfold DownloaderCli.main.
  rewrite (includes_absent args _ Hhelp), (includes_absent args _ Hh). cbn [orb].
  rewrite Hout, Hmkdir, Hnew.
  unfold DownloaderCli.download, DownloaderCli.download_failed. rewrite Hp.
  assert (Hneq : forall w, In w download_providers -> String.eqb first w = false).
  { intros w Hw. apply String.eqb_neq. intros ->. exact (Hother Hw). }
  rewrite (Hneq "github") by (cbn; auto).
  rewrite (Hneq "codemagic") by (cbn; auto).
  rewrite (Hneq "eas") by (cbn; auto).
  rewrite (Hneq "url") by (cbn; auto 6).
  reflexivity.
Qed.

Lemma download_cli_without_provider_reads_first_word_witness :
  DownloaderCli.provider_of ["--repo"; "user/app"; "--run-id"; "123456"] = "--repo" /\
  DownloaderCli.main
    Examples.download_platform
    1 ["--repo"; "user/app"; "--run-id"; "123456"]
  = Some (DownloaderCli.ProcessExit 1,
          [DownloaderCli.Did (Js.Mkdir "./artifacts");
           DownloaderCli.ConsoleError ("Download failed: " ++ DownloaderCli.invalid_provider);
           DownloaderCli.Failed DownloaderCli.invalid_provider "--repo"]).
Proof.
  pose proof (download_cli_without_provider_reads_first_word posix_path
    Examples.download_platform
    1 "--repo" ["user/app"; "--run-id"; "123456"] "./artifacts") as H.
  cbv zeta in H.
  destruct H as [Hp Hmain].
  - intros [E|[E|[E|[E|[]]]]]; discriminate.
  - intros [E|[E|[E|[E|[]]]]]; discriminate.
  - intros [E|[E|[E|[E|[]]]]]; discriminate.
  - discriminate.
  - reflexivity.
  - reflexivity.
  - reflexivity.
  - split; [exact Hp|]. apply Hmain.
    intros [E|[E|[E|[E|[]]]]]; discriminate.
Defined.

(** ** download_artifact.js (https): what a reported success stands for *)

Section Completed.
Import Downloader.

Lemma settle_fulfilled p s x :
  settle p s = Settle (Fulfilled x) -> p = Settle (Fulfilled x) \/ (p = Pending /\ s = Fulfilled x).
Proof.
  destruct p as [|s0]; cbn [settle]; intros E; [right|left; exact E].
  split; [reflexivity|]. congruence.
Qed.

(** What a download has done stays done. *)
Lemma on_event_keeps follow outputPath d e d' x :
  on_event follow outputPath d e = Some d' -> In x (effects d) -> In x (effects d').
Proof.
  unfold on_event. intros E Hx.
  destruct (destroyed d); [injection E as <-; exact Hx|].
  destruct e as [sc msg loc cl|chunk| |m| |m].
  - destruct (answered d); [injection E as <-; exact Hx|].
    destruct ((sc =? 302) || (sc =? 301))%bool.
    + destruct (follow loc) as [inner|]; [|discriminate].
      injection E as <-. cbn [effects with_effects].
      apply in_or_app. left. apply in_or_app. left. exact Hx.
    + destruct (negb (sc =? 200)); injection E as <-; exact Hx.
  - destruct (piping d); injection E as <-; [|exact Hx].
    cbn [effects]. apply in_or_app. left. exact Hx.
  - destruct (piping d); injection E as <-; [|exact Hx].
    cbn [effects]. apply in_or_app. left. exact Hx.
  - injection E as <-. exact Hx.
  - injection E as <-. exact Hx.
  - destruct (piping d); injection E as <-; exact Hx.
Qed.

Lemma adopt_effects inner d : effects (adopt inner d) = effects d.
Proof. unfold adopt. destruct (promise inner); reflexivity. Qed.

Lemma on_events_keeps follow outputPath es x : forall d d',
  on_events follow outputPath d es = Some d' -> In x (effects d) -> In x (effects d').
Proof.
  induction es as [|e es IH]; intros d d'; cbn [on_events].
  - intros [= <-] Hx. exact Hx.
  - destruct (on_event follow outputPath d e) as [d1|] eqn:E1; [|discriminate].
    destruct (on_events follow outputPath d1 es) as [d2|] eqn:E2; [|discriminate].
    intros E Hx.
    assert (H2 : In x (effects d2)).
    { eapply IH; [exact E2|]. eapply on_event_keeps; eassumption. }
    destruct (redirect_of d e) as [location|]; [|injection E as <-; exact H2].
    destruct (follow location) as [inner|]; [|discriminate].
    injection E as <-. rewrite adopt_effects. exact H2.
Qed.

(** What the redirected download does is done by the download that
    started it. *)
Lemma on_event_redirect_effects follow outputPath d e d' location inner x :
  redirect_of d e = Some location -> follow location = Some inner ->
  on_event follow outputPath d e = Some d' ->
  In x (effects inner) -> In x (effects d').
Proof.
  unfold redirect_of, on_event.
  destruct e as [sc msg loc cl|chunk| |m| |m]; try discriminate.
  destruct (destroyed d); [discriminate|].
  destruct (answered d); [discriminate|]. cbn [negb andb].
  destruct ((sc =? 302) || (sc =? 301))%bool; [|discriminate].
  intros [= ->] Hinner. rewrite Hinner. intros [= <-] Hx.
  cbn [effects]. apply in_or_app. right. exact Hx.
Qed.

Lemma on_event_completed follow outputPath d e d' :
  (forall x, promise d = Settle (Fulfilled x) -> In completed_line (effects d)) ->
  on_event follow outputPath d e = Some d' ->
  forall x, promise d' = Settle (Fulfilled x) -> In completed_line (effects d').
Proof.
  intros Hd. unfold on_event.
  destruct (destroyed d); [intros E; inversion E; subst d'; exact Hd|].
  destruct e as [sc msg loc cl|chunk| |m| |m].
  - destruct (answered d); [intros E; inversion E; subst d'; exact Hd|].
    destruct ((sc =? 302) || (sc =? 301))%bool.
    + destruct (follow loc) as [inner|] eqn:Einner; [|discriminate].
      intros E x. inversion E; subst d'; clear E. cbn [promise effects with_effects].
      intros Hx. apply in_or_app. left. apply in_or_app. left. eapply Hd. exact Hx.
    + destruct (negb (sc =? 200)); intros E x; inversion E; subst d'; clear E;
        cbn [promise effects with_promise]; intros Hx.
      * apply settle_fulfilled in Hx. destruct Hx as [Hx|[_ Hx]]; [|discriminate].
        eapply Hd. exact Hx.
      * eapply Hd. exact Hx.
  - destruct (piping d); intros E x; inversion E; subst d'; clear E; [|apply Hd].
    cbn [promise effects]. intros Hx. apply in_or_app. left. eapply Hd. exact Hx.
  - destruct (piping d); intros E x; inversion E; subst d'; clear E; [|apply Hd].
    cbn [promise effects]. intros _. apply in_or_app. right. left. reflexivity.
  - intros E x; inversion E; subst d'; clear E. cbn [promise effects with_promise]. intros Hx.
    apply settle_fulfilled in Hx. destruct Hx as [Hx|[_ Hx]]; [|discriminate].
    eapply Hd. exact Hx.
  - intros E x; inversion E; subst d'; clear E. cbn [promise effects]. intros Hx.
    apply settle_fulfilled in Hx. destruct Hx as [Hx|[_ Hx]]; [|discriminate].
    eapply Hd. exact Hx.
  - destruct (piping d); intros E x; inversion E; subst d'; clear E; [|apply Hd].
    cbn [promise effects with_promise]. intros Hx.
    apply settle_fulfilled in Hx. destruct Hx as [Hx|[_ Hx]]; [|discriminate].
    eapply Hd. exact Hx.
Qed.

Lemma on_events_completed follow outputPath es : forall d d',
  (forall location inner x,
      follow location = Some inner -> promise inner = Settle (Fulfilled x) ->
      In completed_line (effects inner)) ->
  (forall x, promise d = Settle (Fulfilled x) -> In completed_line (effects d)) ->
  on_events follow outputPath d es = Some d' ->
  forall x, promise d' = Settle (Fulfilled x) -> In completed_line (effects d').
Proof.
  induction es as [|e es IH]; intros d d' Hfollow Hd; cbn [on_events].
  - intros E; inversion E; subst d'; exact Hd.
  - destruct (on_event follow outputPath d e) as [d1|] eqn:E1; [|discriminate].
    destruct (on_events follow outputPath d1 es) as [d2|] eqn:E2; [|discriminate].
    assert (H2 : forall x, promise d2 = Settle (Fulfilled x) -> In completed_line (effects d2)).
    { eapply IH; [exact Hfollow| |exact E2].
      eapply on_event_completed; eassumption. }
    destruct (redirect_of d e) as [location|] eqn:Er; [|intros [= <-]; exact H2].
    destruct (follow location) as [inner|] eqn:Einner; [|discriminate].
    intros [= <-] x. rewrite adopt_effects. unfold adopt.
    destruct (promise inner) as [|s] eqn:Epi; [apply H2|].
    cbn [promise with_promise]. intros Hx.
    apply settle_fulfilled in Hx. destruct Hx as [Hx|[_ ->]]; [eapply H2; exact Hx|].
    eapply on_events_keeps; [exact E2|].
    eapply on_event_redirect_effects; [exact Er|exact Einner|exact E1|].
    eapply Hfollow; eassumption.
Qed.

(** A download is fulfilled only by a response with status 200 that ended. *)
Lemma downloadFile_completed net outputPath headers fuel : forall url d x,
  downloadFile fuel net url outputPath headers = Some d ->
  promise d = Settle (Fulfilled x) ->
  In completed_line (effects d).
Proof.
  induction fuel as [|fuel IH]; intros url d x; cbn [downloadFile]; [discriminate|].
  destruct url as [u|].
  - intros E. eapply on_events_completed; [| |exact E].
    + intros location inner y. apply IH.
    + intros y. cbn [start promise]. discriminate.
  - intros E; inversion E; subst d. cbn [promise]. discriminate.
Qed.

End Completed.

Section CliRuns.
Import DownloaderCli.
Context {P : NodePath}.
Variable p : Platform.

Lemma plain_did es : Forall plain (did es).
Proof. unfold did. apply Forall_forall. intros e He. apply in_map_iff in He.
  destruct He as (x & <- & _). exact I. Qed.

Lemma awaited_run failed before fuel net url headers outputPath promise tr :
  Forall plain before ->
  awaited failed before (Downloader.downloadFile fuel net url outputPath headers) outputPath
  = Some (promise, tr) ->
  Forall plain tr /\
  (forall file, promise = Downloader.Settle (Fulfilled file) ->
                In response_completed tr).
Proof.
  intros Hbefore. unfold awaited.
  destruct (Downloader.downloadFile fuel net url outputPath headers) as [d|] eqn:Ed;
    [|discriminate].
  destruct (Downloader.promise d) as [|[x|m]] eqn:Ep; unfold rejected;
    intros [= <- <-];
    (split; [apply Forall_app; split; [exact Hbefore|apply plain_did]|]);
    intros file Hfile; try discriminate.
  apply in_or_app. right. unfold did, response_completed. apply in_map.
  eapply downloadFile_completed; eassumption.
Qed.

Ltac plain_list := repeat (constructor; try exact I).

Lemma downloadCodemagicArtifact_run fuel buildId outputDir promise tr :
  downloadCodemagicArtifact p fuel buildId outputDir = Some (promise, tr) ->
  Forall plain tr /\
  (forall file, promise = Downloader.Settle (Fulfilled file) -> In response_completed tr).
Proof.
  unfold downloadCodemagicArtifact, rejected.
  destruct (negb (truthy (CODEMAGIC_ACCESS_TOKEN p))).
  { intros [= <- <-]. split; [plain_list|discriminate]. }
  destruct (codemagic_artefacts p _) as [m|[|artifact others]].
  - intros [= <- <-]. split; [plain_list|discriminate].
  - intros [= <- <-]. split; [plain_list|discriminate].
  - apply awaited_run. plain_list.
Qed.

Lemma downloadEASArtifact_run fuel buildId outputDir promise tr :
  downloadEASArtifact p fuel buildId outputDir = Some (promise, tr) ->
  Forall plain tr /\
  (forall file, promise = Downloader.Settle (Fulfilled file) -> In response_completed tr).
Proof.
  unfold downloadEASArtifact, rejected.
  destruct (eas_buildUrl p _) as [m|buildUrl].
  - intros [= <- <-]. split; [plain_list|discriminate].
  - destruct (negb (truthy buildUrl)).
    + intros [= <- <-]. split; [plain_list|discriminate].
    + apply awaited_run. plain_list.
Qed.

Lemma downloadFromUrl_run fuel url outputDir fileName promise tr :
  downloadFromUrl p fuel url outputDir fileName = Some (promise, tr) ->
  Forall plain tr /\
  (forall file, promise = Downloader.Settle (Fulfilled file) -> In response_completed tr).
Proof. unfold downloadFromUrl. apply awaited_run. plain_list. Qed.

Lemma downloadGitHubArtifact_run fuel repo runId outputDir promise tr :
  Downloader.downloadGitHubArtifact (host p) fuel repo runId outputDir = Some (promise, tr) ->
  forall file, promise = Downloader.Settle (Fulfilled file) ->
               In completed_line tr.
Proof.
  unfold Downloader.downloadGitHubArtifact. cbv zeta.
  match goal with
  | |- context [Js.bind ?m ?k] =>
      destruct (Js.bind m k) as [[m0|[[[info downloadUrl] token] outputPath]] tr0]
  end.
  { intros [= <- <-]. discriminate. }
  destruct (Downloader.downloadFile fuel _ _ outputPath _) as [d|] eqn:Ed; [|discriminate].
  destruct (Downloader.promise d) as [|[x|m]] eqn:Ep.
  - intros [= <- <-]. discriminate.
  - destruct (Downloader.extract_downloaded _ _ _ _) as [[m|file'] tr'];
      intros [= <- <-]; intros file Hfile; try discriminate.
    right. apply in_or_app. left. apply in_or_app. right.
    eapply downloadFile_completed; eassumption.
  - intros [= <- <-]. discriminate.
Qed.

Lemma download_run fuel args outputDir promise tr :
  download p fuel args outputDir = Some (promise, tr) ->
  Forall plain tr /\
  (forall file, promise = Downloader.Settle (Fulfilled file) -> In response_completed tr).
Proof.
  unfold download, rejected.
  destruct (String.eqb (provider_of args) "github").
  { destruct (negb (truthy (option_value args "--repo"))
              || negb (truthy (option_value args "--run-id")))%bool.
    - intros [= <- <-]. split; [constructor|discriminate].
    - destruct (Downloader.downloadGitHubArtifact _ _ _ _ _) as [[pr tr0]|] eqn:Egh;
        [|discriminate].
      intros [= <- <-]. split; [apply plain_did|].
      intros file Hfile. unfold response_completed, did. apply in_map.
      eapply downloadGitHubArtifact_run; eassumption. }
  destruct (String.eqb (provider_of args) "codemagic").
  { destruct (negb (truthy (option_value args "--build-id"))).
    - intros [= <- <-]. split; [constructor|discriminate].
    - apply downloadCodemagicArtifact_run. }
  destruct (String.eqb (provider_of args) "eas").
  { destruct (negb (truthy (option_value args "--build-id"))).
    - intros [= <- <-]. split; [constructor|discriminate].
    - apply downloadEASArtifact_run. }
  destruct (String.eqb (provider_of args) "url").
  { destruct (negb (truthy (option_value args "--url"))).
    - intros [= <- <-]. split; [constructor|discriminate].
    - apply downloadFromUrl_run. }
  intros [= <- <-]. split; [constructor|discriminate].
Qed.

End CliRuns.

(** The command line reports a success ([success: true] on the last
    line, and a normal end) only for a download that a response with status
    200 fulfilled and ended, after [chmod] was tried on the file and with the
    size [statSync] gives; a run ends with [process.exit(1)] exactly when it
    prints a result with [success: false]. *)
Theorem download_cli_success_needs_a_complete_response :
  forall (P : NodePath) (p : DownloaderCli.Platform) (fuel : nat) (args : list string)
         (ending : DownloaderCli.Ending) (tr : list DownloaderCli.Event),
    DownloaderCli.main p fuel args = Some (ending, tr) ->
    (ending = DownloaderCli.Returned <->
     exists file size,
       In (DownloaderCli.Succeeded file (DownloaderCli.provider_of args) size) tr) /\
    (ending = DownloaderCli.ProcessExit 1 <->
     exists error, In (DownloaderCli.Failed error (DownloaderCli.provider_of args)) tr) /\
    (forall file provider size,
        In (DownloaderCli.Succeeded file provider size) tr ->
        In response_completed tr /\ In (DownloaderCli.Chmod file) tr /\
        DownloaderCli.statSync_size p file = Output size).
Proof.
  intros P p fuel args ending tr. unfold DownloaderCli.main.
  assert (Hplain : forall es e, Forall plain es -> In e es -> plain e).
  { intros es e Hes He. exact (proj1 (Forall_forall plain es) Hes e He). }
  assert (Hperm : forall file e, In e (DownloaderCli.setFilePermissions p file) ->
                                 e = DownloaderCli.Chmod file \/ plain e).
  { intros file e. unfold DownloaderCli.setFilePermissions.
    destruct (DownloaderCli.chmodSync p file); cbn [In];
      intros [<-|[<-|[]]]; auto; right; exact I. }
  assert (Hchmod : forall file, In (DownloaderCli.Chmod file)
                                   (DownloaderCli.setFilePermissions p file)).
  { intros file. unfold DownloaderCli.setFilePermissions.
    destruct (DownloaderCli.chmodSync p file); left; reflexivity. }
  destruct (DownloaderCli.includes args "--help" || DownloaderCli.includes args "-h")%bool.
  { intros [= <- <-]. cbn [In]. repeat split; try discriminate.
    - intros (file & size & [E|[]]). discriminate.
    - intros (error & [E|[]]). discriminate.
    - destruct H as [E|[]]. discriminate.
    - destruct H as [E|[]]. discriminate.
    - destruct H as [E|[]]. discriminate. }
  destruct (DownloaderCli.outputDir_of args) as [outputDir|].
  2:{ intros [= <- <-]. cbn [In]. repeat split; try discriminate;
        try (intros (? & ? & [])); try (intros (? & [])); try contradiction. }
  destruct (Downloader.mkdirSync (DownloaderCli.host p) outputDir) as [m|[]].
  { intros [= <- <-]. cbn [In]. repeat split; try discriminate.
    - intros (file & size & [E|[]]). discriminate.
    - intros (error & [E|[]]). discriminate.
    - destruct H as [E|[]]. discriminate.
    - destruct H as [E|[]]. discriminate.
    - destruct H as [E|[]]. discriminate. }
  destruct (DownloaderCli.construct p) as [m|[]].
  { intros [= <- <-]. cbn [In]. repeat split; try discriminate.
    - intros (file & size & [E|[]]). discriminate.
    - intros (error & [E|[]]). discriminate.
    - destruct H as [E|[]]. discriminate.
    - destruct H as [E|[]]. discriminate.
    - destruct H as [E|[]]. discriminate. }
  destruct (DownloaderCli.download p fuel args outputDir) as [[promise tr0]|] eqn:Edl;
    [|discriminate].
  destruct (download_run p fuel args outputDir promise tr0 Edl) as [Hplain0 Hdone].
  destruct promise as [|[downloadedFile|message]].
  - (* the download never settles *)
    intros [= <- <-]. repeat split; try discriminate.
    + intros (file & size & [E|Hin]); [discriminate|]. destruct (Hplain _ _ Hplain0 Hin).
    + intros (error & [E|Hin]); [discriminate|]. destruct (Hplain _ _ Hplain0 Hin).
    + destruct H as [E|Hin]; [discriminate|]. destruct (Hplain _ _ Hplain0 Hin).
    + destruct H as [E|Hin]; [discriminate|]. destruct (Hplain _ _ Hplain0 Hin).
    + destruct H as [E|Hin]; [discriminate|]. destruct (Hplain _ _ Hplain0 Hin).
  - (* the download is fulfilled *)
    specialize (Hdone downloadedFile eq_refl).
    destruct (DownloaderCli.statSync_size p downloadedFile) as [m|size] eqn:Estat;
      intros [= <- <-].
    + assert (Hno : forall file provider size,
                 ~ In (DownloaderCli.Succeeded file provider size)
                      (DownloaderCli.Did (Js.Mkdir outputDir)
                       :: (tr0 ++ DownloaderCli.setFilePermissions p downloadedFile
                           ++ [DownloaderCli.completed_successfully;
                               DownloaderCli.Did (Js.Console ("File: " ++ downloadedFile))])
                       ++ DownloaderCli.download_failed args m)%list).
      { intros file provider size [E|Hin]; [discriminate|].
        rewrite !in_app_iff in Hin. cbn [In DownloaderCli.download_failed] in Hin.
        destruct Hin as [[Hin|[Hin|[E|[E|[]]]]]|[E|[E|[]]]]; try discriminate.
        - destruct (Hplain _ _ Hplain0 Hin).
        - destruct (Hperm _ _ Hin) as [E|Hp]; [discriminate|destruct Hp]. }
      repeat split; try discriminate.
      * intros (file & size & Hin). destruct (Hno _ _ _ Hin).
      * intros _. exists m. right. rewrite !in_app_iff. right.
        right. left. reflexivity.
      * destruct (Hno _ _ _ H).
      * destruct (Hno _ _ _ H).
      * destruct (Hno _ _ _ H).
    + assert (Hin : forall file provider size',
                 In (DownloaderCli.Succeeded file provider size')
                    (DownloaderCli.Did (Js.Mkdir outputDir)
                     :: (tr0 ++ DownloaderCli.setFilePermissions p downloadedFile
                         ++ [DownloaderCli.completed_successfully;
                             DownloaderCli.Did (Js.Console ("File: " ++ downloadedFile))])
                     ++ [DownloaderCli.Succeeded downloadedFile
                           (DownloaderCli.provider_of args) size])%list ->
                 file = downloadedFile /\ size' = size).
      { intros file provider size' [E|Hin]; [discriminate|].
        rewrite !in_app_iff in Hin. cbn [In] in Hin.
        destruct Hin as [[Hin|[Hin|[E|[E|[]]]]]|[E|[]]]; try discriminate.
        - destruct (Hplain _ _ Hplain0 Hin).
        - destruct (Hperm _ _ Hin) as [E|Hp]; [discriminate|destruct Hp].
        - inversion E. auto. }
      repeat split; try discriminate.
      * intros _. exists downloadedFile, size. right. rewrite !in_app_iff.
        right. left. reflexivity.
      * intros (error & [E|Hf]); [discriminate|].
        rewrite !in_app_iff in Hf. cbn [In] in Hf.
        destruct Hf as [[Hf|[Hf|[E|[E|[]]]]]|[E|[]]]; try discriminate.
        -- destruct (Hplain _ _ Hplain0 Hf).
        -- destruct (Hperm _ _ Hf) as [E|Hp]; [discriminate|destruct Hp].
      * right. rewrite !in_app_iff. left. left. exact Hdone.
      * destruct (Hin _ _ _ H) as [-> _]. right. rewrite !in_app_iff.
        left. right. left. apply Hchmod.
      * destruct (Hin _ _ _ H) as [-> ->]. exact Estat.
  - (* the download is rejected, or the switch throws *)
    intros [= <- <-].
    assert (Hno : forall file provider size,
               ~ In (DownloaderCli.Succeeded file provider size)
                    (DownloaderCli.Did (Js.Mkdir outputDir)
                     :: tr0 ++ DownloaderCli.download_failed args message)%list).
    { intros file provider size [E|Hin]; [discriminate|].
      rewrite !in_app_iff in Hin. cbn [In DownloaderCli.download_failed] in Hin.
      destruct Hin as [Hin|[E|[E|[]]]]; try discriminate.
      destruct (Hplain _ _ Hplain0 Hin). }
    repeat split; try discriminate.
    + intros (file & size & Hin). destruct (Hno _ _ _ Hin).
    + intros _. exists message. right. rewrite !in_app_iff. right. right. left. reflexivity.
    + destruct (Hno _ _ _ H).
    + destruct (Hno _ _ _ H).
    + destruct (Hno _ _ _ H).
Qed.

Lemma download_cli_success_needs_a_complete_response_witness :
  exists tr,
    DownloaderCli.main Examples.download_platform 2
      ["--provider"; "url"; "--url"; "https://api.github.com/artifacts/7/zip";
       "--filename"; "app.apk"; "--out"; "/sdcard/artifacts"]
    = Some (DownloaderCli.Returned, tr) /\
    In response_completed tr /\ In (DownloaderCli.Chmod "/sdcard/artifacts/app.apk") tr.
Proof.
  eexists. split; [vm_compute; reflexivity|].
  match goal with
  | |- In _ ?tr /\ _ =>
      destruct (proj2 (proj2 (download_cli_success_needs_a_complete_response posix_path
                  Examples.download_platform 2
                  ["--provider"; "url"; "--url"; "https://api.github.com/artifacts/7/zip";
                   "--filename"; "app.apk"; "--out"; "/sdcard/artifacts"]
                  DownloaderCli.Returned tr ltac:(vm_compute; reflexivity)))
                "/sdcard/artifacts/app.apk" "url" 12%N) as (Hdone & Hchmod & _)
  end.
  - repeat (first [left; reflexivity | right]).
  - split; assumption.
Defined.

(** ** download_artifact.js (gh, curl): the command line *)

Section ArtifactCli.
Import ArtifactDownloaderCli ArtifactDownloaderMain.
Local Open Scope cli_scope.
Context {P : NodePath}.
Variable p : Platform.

Lemma silent_ret {A} (a : A) : Forall silent (snd (ret a)).
Proof. constructor. Qed.

Lemma silent_throw {A} message : Forall silent (snd (@throw A message)).
Proof. constructor. Qed.

Lemma silent_log msg : Forall silent (snd (log msg)).
Proof. repeat constructor. Qed.

Lemma silent_execSync {A} cmd (answer : Exec A) : Forall silent (snd (execSync cmd answer)).
Proof. repeat constructor. Qed.

Lemma silent_lift {A} (m : Js.M A) : Forall silent (snd (lift m)).
Proof.
  unfold lift. cbn [snd]. apply Forall_forall. intros e He.
  apply in_map_iff in He. destruct He as (x & <- & _). exact I.
Qed.

Lemma silent_bind {A B} (m : M A) (k : A -> M B) :
  Forall silent (snd m) -> (forall a, Forall silent (snd (k a))) ->
  Forall silent (snd (bind m k)).
Proof.
  intros Hm Hk. destruct m as [[e|a] tr]; cbn [bind snd] in *; [exact Hm|].
  specialize (Hk a). destruct (k a) as [r tr']. cbn [snd] in *.
  apply Forall_app. split; assumption.
Qed.

Lemma silent_try_catch {A} (m : M A) (handler : string -> M A) :
  Forall silent (snd m) -> (forall e, Forall silent (snd (handler e))) ->
  Forall silent (snd (try_catch m handler)).
Proof.
  intros Hm Hk. destruct m as [[e|a] tr]; cbn [try_catch snd] in *; [|exact Hm].
  specialize (Hk e). destruct (handler e) as [r tr']. cbn [snd] in *.
  apply Forall_app. split; assumption.
Qed.

Ltac silent_tac :=
  repeat first
    [ apply silent_ret | apply silent_throw | apply silent_log | apply silent_execSync
    | apply silent_lift
    | apply silent_bind; [|intro]
    | apply silent_try_catch; [|intro]
    | match goal with
      | |- Forall silent (snd (if ?c then _ else _)) => destruct c
      | |- Forall silent (snd (match ?x with _ => _ end)) => destruct x
      | |- Forall silent (snd (_, _)) => cbn [snd]; repeat constructor
      end ].

Lemma silent_ensureDownloadDir downloadDir : Forall silent (snd (ensureDownloadDir p downloadDir)).
Proof. unfold ensureDownloadDir. silent_tac. Qed.

Lemma silent_downloadFromGitHub downloadDir repo runId artifactName :
  Forall silent (snd (downloadFromGitHub p downloadDir repo runId artifactName)).
Proof. unfold downloadFromGitHub. silent_tac. Qed.

Lemma silent_downloadFromCodemagic downloadDir buildId :
  Forall silent (snd (downloadFromCodemagic p downloadDir buildId)).
Proof. unfold downloadFromCodemagic. silent_tac. Qed.

Lemma silent_downloadFromEAS downloadDir buildId :
  Forall silent (snd (downloadFromEAS p downloadDir buildId)).
Proof. unfold downloadFromEAS. silent_tac. Qed.

Lemma silent_clean downloadDir files : forall cleaned,
  Forall silent (snd (clean p downloadDir files cleaned)).
Proof.
  induction files as [|file files IH]; intros cleaned; cbn [clean]; [apply silent_ret|].
  apply silent_bind; [cbn [snd]; constructor|intro stats].
  apply silent_bind; [silent_tac|intro n]. apply IH.
Qed.

Lemma silent_cleanupOldDownloads downloadDir :
  Forall silent (snd (cleanupOldDownloads p downloadDir)).
Proof.
  unfold cleanupOldDownloads.
  apply silent_bind; [apply silent_log|intros _].
  apply silent_try_catch; [|intro; apply silent_log].
  apply silent_bind; [apply silent_lift|intro entries].
  apply silent_bind; [apply silent_clean|intro n]. apply silent_log.
Qed.

Lemma bind_reported {A B} (m : M A) (k : A -> M B) (V : list Event -> Prop) :
  (forall tr pre, Forall silent pre -> V tr -> V (pre ++ tr)%list) ->
  Forall silent (snd m) ->
  (forall a, match fst (k a) with
             | Throws _ => Forall silent (snd (k a))
             | Output _ => V (snd (k a))
             end) ->
  match fst (bind m k) with
  | Throws _ => Forall silent (snd (bind m k))
  | Output _ => V (snd (bind m k))
  end.
Proof.
  intros Hpre Hm Hk. destruct m as [[e|a] tr]; cbn [bind fst snd] in *; [exact Hm|].
  specialize (Hk a). destruct (k a) as [[e|b] tr']; cbn [fst snd] in *.
  - apply Forall_app. split; assumption.
  - apply Hpre; assumption.
Qed.

Lemma validateArtifact_passes h filePath b :
  fst (ArtifactDownloader.validateArtifact h filePath) = Output b ->
  exists node, ArtifactDownloader.fs h filePath = Some node /\ node_size node <> 0%N.
Proof.
  unfold ArtifactDownloader.validateArtifact, ArtifactDownloader.existsSync,
    ArtifactDownloader.statSync_size.
  destruct (ArtifactDownloader.fs h filePath) as [node|]; cbn [negb]; [|discriminate].
  intros Hrun. exists node. split; [reflexivity|]. intros Hzero.
  assert (Hsize : (if N.eqb (node_size node) 0 then true else false) = true)
    by (rewrite Hzero; reflexivity).
  destruct node as [size|size]; cbn [node_size] in *;
    cbn [Js.bind Js.throw] in Hrun; subst size; cbn in Hrun; discriminate.
Qed.

Lemma reported_after args tr pre :
  Forall silent pre -> reported p args tr -> reported p args (pre ++ tr)%list.
Proof.
  intros Hpre (pre' & path & node & Hsilent & -> & Hfs & Hsize).
  exists (pre ++ pre')%list, path, node. split; [apply Forall_app; split; assumption|].
  split; [rewrite app_assoc; reflexivity|]. split; assumption.
Qed.

Lemma main_body_run args :
  match fst (main_body p args) with
  | Throws _ => Forall silent (snd (main_body p args))
  | Output _ => reported p args (snd (main_body p args))
  end.
Proof.
  unfold main_body.
  apply bind_reported; [apply reported_after| |intros _].
  { destruct (DownloaderCli.includes args "--cleanup");
      [apply silent_cleanupOldDownloads|apply silent_ret]. }
  apply bind_reported; [apply reported_after| |intros downloadDir].
  { match goal with |- Forall silent (snd (if ?c then _ else _)) => destruct c end;
      [|apply silent_ret].
    apply silent_bind; [apply silent_ensureDownloadDir|intro; apply silent_ret]. }
  apply bind_reported; [apply reported_after| |intros artifactPath].
  { repeat match goal with
           | |- Forall silent (snd (if ?c then _ else _)) => destruct c
           end;
      first [ apply silent_throw | apply silent_downloadFromGitHub
            | apply silent_downloadFromCodemagic | apply silent_downloadFromEAS ]. }
  pose proof (silent_lift (ArtifactDownloader.validateArtifact (at_validate p) artifactPath))
    as Hsilent.
  pose proof (validateArtifact_passes (at_validate p) artifactPath) as Hpass.
  unfold lift in *.
  destruct (ArtifactDownloader.validateArtifact (at_validate p) artifactPath)
    as [[message|b] trv].
  { cbn [bind fst snd] in *. exact Hsilent. }
  destruct (Hpass b eq_refl) as (node & Hfs & Hsize).
  cbn [bind fst snd] in *.
  destruct (DownloaderCli.includes args "--json") eqn:Ejson; cbn [ret fst snd app].
  - exists (map Did trv), artifactPath, node. rewrite Ejson. auto.
  - exists (map Did trv), artifactPath, node. rewrite Ejson. auto.
Qed.

End ArtifactCli.

(** The command line reports a success, and ends normally, only for an
    artifact that [validateArtifact] has passed: the path exists when the
    download is over and its size is not zero. Whatever goes wrong in the
    [try] block ends in [process.exit(1)]. *)
Theorem artifact_cli_reports_only_validated_artifacts :
  forall (P : NodePath) (p : ArtifactDownloaderMain.Platform) (args : list string)
         (ending : ArtifactDownloaderMain.Ending) (tr : list ArtifactDownloaderCli.Event),
    ArtifactDownloaderMain.main p args = (ending, tr) ->
    (forall artifactPath provider,
        In (ArtifactDownloaderCli.Completed artifactPath provider) tr ->
        ending = ArtifactDownloaderMain.Returned /\
        provider = template (nth_error args 0) /\
        exists node,
          ArtifactDownloader.fs (ArtifactDownloaderMain.at_validate p) artifactPath = Some node /\
          node_size node <> 0%N) /\
    (ending = ArtifactDownloaderMain.Returned ->
     exists artifactPath,
       In (ArtifactDownloaderCli.Completed artifactPath (template (nth_error args 0))) tr) /\
    ((exists message, In (ArtifactDownloaderCli.Failed message) tr) ->
     ending = ArtifactDownloaderMain.ProcessExit 1).
Proof.
  intros P p args ending tr. unfold ArtifactDownloaderMain.main.
  assert (Hsilent : forall es e, Forall silent es -> In e es -> silent e).
  { intros es e Hes He. exact (proj1 (Forall_forall silent es) Hes e He). }
  destruct (Z.of_nat (List.length args) <? 2).
  { intros [= <- <-]. split; [|split].
    - intros path provider [E|[]]. discriminate.
    - discriminate.
    - reflexivity. }
  destruct (ArtifactDownloaderMain.construct p) as [message|[]].
  { intros [= <- <-]. split; [|split].
    - intros path provider [].
    - discriminate.
    - intros (message' & []). }
  pose proof (main_body_run p args) as Hrun.
  destruct (ArtifactDownloaderMain.main_body p args) as [[message|[]] tr0].
  - cbn [fst snd] in Hrun. intros [= <- <-]. split; [|split].
    + intros path provider Hin. apply in_app_iff in Hin.
      destruct Hin as [Hin|[E|[]]]; [|discriminate].
      destruct (Hsilent _ _ Hrun Hin).
    + discriminate.
    + reflexivity.
  - cbn [fst snd] in Hrun.
    destruct Hrun as (pre & path & node & Hpre & -> & Hfs & Hsize).
    intros [= <- <-]. split; [|split].
    + intros path' provider Hin. apply in_app_iff in Hin.
      destruct Hin as [Hin|[E|Hin]].
      * destruct (Hsilent _ _ Hpre Hin).
      * injection E as <- <-. split; [reflexivity|]. split; [reflexivity|].
        exists node. split; assumption.
      * destruct (DownloaderCli.includes args "--json"); [|destruct Hin].
        destruct Hin as [E|[]]. discriminate.
    + intros _. exists path. apply in_or_app. right. left. reflexivity.
    + intros (message & Hin). apply in_app_iff in Hin.
      destruct Hin as [Hin|[E|Hin]].
      * destruct (Hsilent _ _ Hpre Hin).
      * discriminate.
      * destruct (DownloaderCli.includes args "--json"); [|destruct Hin].
        destruct Hin as [E|[]]. discriminate.
Qed.

Section ArtifactCliRuns.
Import ArtifactDownloaderCli ArtifactDownloaderMain.
Local Open Scope cli_scope.
Context {P : NodePath}.
Variable p : Platform.

(** [cleanupOldDownloads] never throws. *)
Lemma cleanupOldDownloads_returns downloadDir :
  fst (cleanupOldDownloads p downloadDir) = Output tt.
Proof.
  unfold cleanupOldDownloads, log. cbn [bind].
  match goal with |- context [try_catch ?m ?h] => destruct m as [[message|[]] tr] end;
    reflexivity.
Qed.

Lemma ensureDownloadDir_returns downloadDir :
  (forall d, ArtifactDownloader.mkdirSync (at_start p) d = Output tt) ->
  fst (ensureDownloadDir p downloadDir) = Output tt.
Proof.
  intros Hmk. unfold ensureDownloadDir, lift, Js.perform.
  destruct (negb _); [rewrite Hmk|]; reflexivity.
Qed.

Lemma fst_bind {A B} (m : M A) (k : A -> M B) a :
  fst m = Output a -> fst (bind m k) = fst (k a).
Proof.
  destruct m as [[e|a'] tr]; cbn [fst bind]; [discriminate|]. intros [= ->].
  destruct (k a). reflexivity.
Qed.

Lemma find_named_none artifacts word :
  Forall (fun a => name a <> word) artifacts -> find (named word) artifacts = None.
Proof.
  intros Hall. apply find_no_match. eapply Forall_impl; [|exact Hall].
  intros a Ha. unfold named. apply String.eqb_neq. exact Ha.
Qed.

End ArtifactCliRuns.


Section ArtifactCliDirectory.
Import ArtifactDownloaderCli ArtifactDownloaderMain.
Local Open Scope cli_scope.
Context {P : NodePath}.
Variable p : Platform.

Lemma validateArtifact_returns h filePath node :
  ArtifactDownloader.fs h filePath = Some node -> node_size node <> 0%N ->
  fst (ArtifactDownloader.validateArtifact h filePath) = Output true.
Proof.
  intros Hfs Hsize.
  unfold ArtifactDownloader.validateArtifact, ArtifactDownloader.existsSync,
    ArtifactDownloader.statSync_size.
  rewrite Hfs. cbn [negb].
  assert (Esize : match node with
                  | RegularFile size => Output size
                  | Directory size => Output size
                  end = Output (node_size node)) by (destruct node; reflexivity).
  rewrite Esize. cbn [Js.bind].
  apply N.eqb_neq in Hsize. rewrite Hsize.
  destruct (negb _); reflexivity.
Qed.

Lemma extractArtifact_gives_directory h zipPath entries :
  let extractDir := path_join (path_dirname zipPath) (path_basename zipPath ".zip") in
  Str.endsWith zipPath ".zip" = true ->
  (ArtifactDownloader.existsSync h extractDir = true \/
   ArtifactDownloader.mkdirSync h extractDir = Output tt) ->
  ArtifactDownloader.unzip h extractDir zipPath = Output tt ->
  ArtifactDownloader.readdirSync h extractDir = Output entries ->
  Forall (fun e => ArtifactDownloader.is_mobile_artifact (entry_name e) = false) entries ->
  fst (ArtifactDownloader.extractArtifact h zipPath) = Output extractDir.
Proof.
  intros extractDir Hzip Hdir Hunzip Hread Hnone.
  pose proof (extract_body_succeeds h zipPath entries Hdir Hunzip Hread) as Hbody.
  rewrite find_no_match in Hbody by (apply Forall_map; exact Hnone).
  unfold ArtifactDownloader.extractArtifact. rewrite Hzip. cbn [negb].
  destruct (ArtifactDownloader.extract_body h zipPath) as [r tr]. cbn [fst] in Hbody.
  subst r. reflexivity.
Qed.

Lemma includes_options args word :
  In word artifact_cli_options ->
  Forall (fun a => ~ In a artifact_cli_options) args ->
  DownloaderCli.includes args word = false.
Proof.
  intros Hword Hall. apply includes_absent. intros Hin.
  exact (proj1 (Forall_forall _ args) Hall word Hin Hword).
Qed.

End ArtifactCliDirectory.


Section LoggedCleanup.
Import ArtifactDownloaderCli ArtifactDownloaderMain.
Local Open Scope cli_scope.
Context {P : NodePath}.
Variable l : LogFile.
Variable p : Platform.

Lemma logged_clean_removes downloadDir files : forall cleaned filePath recursive,
  In (Remove filePath recursive) (snd (ArtifactDownloaderLog.clean l p downloadDir files cleaned)) ->
  exists file stats,
    In file files /\ filePath = path_join downloadDir file /\
    statSync p filePath = Output stats /\
    now p - mtime stats > maxAge /\ recursive = isDirectory stats.
Proof.
  induction files as [|file files IH]; intros cleaned filePath recursive;
    cbn [ArtifactDownloaderLog.clean].
  - intros [].
  - destruct (statSync p (path_join downloadDir file)) as [message|stats] eqn:Estat;
      cbn [bind snd]; [intros []|].
    destruct (now p - mtime stats >? maxAge) eqn:Eold.
    + assert (Hold : now p - mtime stats > maxAge) by (apply Z.gtb_lt in Eold; lia).
      assert (Hhere : forall (removal : Exec unit),
                In (Remove filePath recursive)
                   (snd (let (r, tr') :=
                           bind (bind (removal, [Remove (path_join downloadDir file)
                                                   (isDirectory stats)])
                                   (fun _ =>
                                      bind (ArtifactDownloaderLog.cli_log l
                                              ("Removed old file: " ++ file))
                                        (fun _ => ret (cleaned + 1))))
                             (fun cleaned' =>
                                ArtifactDownloaderLog.clean l p downloadDir files cleaned') in
                         (r, ([] ++ tr')%list))) ->
                exists file' stats',
                  In file' (file :: files) /\ filePath = path_join downloadDir file' /\
                  statSync p filePath = Output stats' /\
                  now p - mtime stats' > maxAge /\ recursive = isDirectory stats').
      { intros removal. unfold ArtifactDownloaderLog.cli_log.
        destruct removal as [message|[]]; cbn [bind ret snd app].
        - intros [[= <- <-]|[]]. exists file, stats. rewrite Estat. auto 6 using in_eq.
        - destruct (appendFileSync l ("Removed old file: " ++ file)) as [message|[]];
            cbn [bind ret snd app].
          + intros [[= <- <-]|[E|[]]]; [|discriminate].
            exists file, stats. rewrite Estat. auto 6 using in_eq.
          + specialize (IH (cleaned + 1) filePath recursive).
            destruct (ArtifactDownloaderLog.clean l p downloadDir files (cleaned + 1))
              as [r tr]. cbn [snd] in *.
            intros [[= <- <-]|[E|Hin]]; [|discriminate|].
            * exists file, stats. rewrite Estat. auto 6 using in_eq.
            * destruct (IH Hin) as (file' & stats' & Hin' & Hrest).
              exists file', stats'. split; [right; exact Hin'|exact Hrest]. }
      destruct (isDirectory stats) eqn:Edir; apply Hhere.
    + cbn [bind ret snd app].
      specialize (IH cleaned filePath recursive).
      destruct (ArtifactDownloaderLog.clean l p downloadDir files cleaned) as [r tr].
      cbn [snd] in *.
      intros Hin. destruct (IH Hin) as (file' & stats' & Hin' & Hrest).
      exists file', stats'. split; [right; exact Hin'|exact Hrest].
Qed.

End LoggedCleanup.

(** Where in a trace a removal can be: not among the log lines. *)
Ltac find_removal Hin :=
  repeat match type of Hin with
         | In _ (_ ++ _)%list => apply in_app_or in Hin; destruct Hin as [Hin|Hin]
         | In _ (_ :: _) => destruct Hin as [Hin|Hin]; [discriminate Hin|]
         | In _ [] => destruct Hin
         end.

(** What [cleanupOldDownloads] removes are entries of the directory it was
    given whose modification time lies more than seven days back: a younger
    entry, or one [statSync] cannot read, is never removed; a directory is
    removed with its contents. An error of the listing, of [statSync] or of
    a removal is caught and logged. So the only error [cleanupOldDownloads]
    throws is that of [fs.appendFileSync], on the first log entry or in the
    [catch] block: with a log file that can be written it returns. *)
Theorem cleanupOldDownloads_removes_only_old_entries :
  forall (P : NodePath) (l : LogFile) (p : ArtifactDownloaderMain.Platform)
         (downloadDir : string),
    let r := ArtifactDownloaderLog.cleanupOldDownloads l p downloadDir in
    (writable l -> fst r = Output tt) /\
    (forall message, fst r = Throws message ->
       appendFileSync l "Cleaning up old downloads..." = Throws message \/
       exists cause, appendFileSync l ("Cleanup failed: " ++ cause) = Throws message) /\
    (forall filePath recursive,
       In (ArtifactDownloaderCli.Remove filePath recursive) (snd r) ->
       exists entries file stats,
         ArtifactDownloader.readdirSync (ArtifactDownloaderMain.at_start p) downloadDir
         = Output entries /\
         In file (map entry_name entries) /\
         filePath = path_join downloadDir file /\
         ArtifactDownloaderMain.statSync p filePath = Output stats /\
         ArtifactDownloaderMain.now p - ArtifactDownloaderMain.mtime stats
         > 7 * 24 * 60 * 60 * 1000 /\
         recursive = ArtifactDownloaderMain.isDirectory stats).
Proof.
  intros P l p downloadDir r. subst r.
  unfold ArtifactDownloaderLog.cleanupOldDownloads, ArtifactDownloaderLog.cli_log.
  split; [|split].
  - intros Hl. rewrite Hl. cbn [ArtifactDownloaderCli.bind].
    match goal with |- context [ArtifactDownloaderCli.try_catch ?m ?h] =>
      destruct m as [[message|[]] tr] end;
      cbn [ArtifactDownloaderCli.try_catch]; rewrite ?Hl; reflexivity.
  - intros message.
    destruct (appendFileSync l "Cleaning up old downloads...") as [m|[]] eqn:Efirst;
      cbn [ArtifactDownloaderCli.bind fst]; [intros [= ->]; left; reflexivity|].
    match goal with |- context [ArtifactDownloaderCli.try_catch ?m ?h] =>
      destruct m as [[cause|[]] tr] end;
      cbn [ArtifactDownloaderCli.try_catch fst]; [|discriminate].
    destruct (appendFileSync l ("Cleanup failed: " ++ cause)) as [m|[]] eqn:Ecatch;
      cbn [fst]; [|discriminate].
    intros [= ->]. right. exists cause. exact Ecatch.
  - intros filePath recursive.
    destruct (appendFileSync l "Cleaning up old downloads...") as [m|[]];
      cbn [ArtifactDownloaderCli.bind snd];
      [intros [E|[]]; discriminate|].
    unfold ArtifactDownloaderCli.lift, Js.perform. cbn [fst snd map].
    destruct (ArtifactDownloader.readdirSync (ArtifactDownloaderMain.at_start p) downloadDir)
      as [message|entries] eqn:Eread.
    { cbn [ArtifactDownloaderCli.bind ArtifactDownloaderCli.try_catch].
      destruct (appendFileSync l ("Cleanup failed: " ++ message));
        cbn; intros [E|[E|[E|[]]]]; discriminate. }
    cbn [ArtifactDownloaderCli.bind].
    pose proof (logged_clean_removes l p downloadDir (map entry_name entries) 0
                  filePath recursive) as Hclean.
    destruct (ArtifactDownloaderLog.clean l p downloadDir (map entry_name entries) 0)
      as [[message|cleaned] tr]; cbn [snd] in Hclean;
      cbn [ArtifactDownloaderCli.try_catch ArtifactDownloaderCli.bind snd app].
    + destruct (appendFileSync l ("Cleanup failed: " ++ message)); cbn [snd app];
        intros Hin; find_removal Hin;
        destruct (Hclean Hin) as (file & stats & H1 & H2 & H3 & H4 & H5);
        exists entries, file, stats; unfold ArtifactDownloaderMain.maxAge in H4; auto 7.
    + destruct (appendFileSync l _) as [message|[]];
        cbn [ArtifactDownloaderCli.try_catch snd app];
        try destruct (appendFileSync l _); cbn [snd app];
        intros Hin; find_removal Hin;
        destruct (Hclean Hin) as (file & stats & H1 & H2 & H3 & H4 & H5);
        exists entries, file, stats; unfold ArtifactDownloaderMain.maxAge in H4; auto 7.
Qed.

(** On a log file that can be written, and on one that cannot. *)
Lemma cleanupOldDownloads_removes_only_old_entries_witness :
  fst (ArtifactDownloaderLog.cleanupOldDownloads Examples.working_log
         Examples.release_platform "/home/Downloads/orchestrator") = Output tt /\
  appendFileSync Examples.full_disk_log "Cleaning up old downloads..."
  = Throws "ENOSPC: no space left on device, write".
Proof.
  split.
  - apply (proj1 (cleanupOldDownloads_removes_only_old_entries posix_path
                    Examples.working_log Examples.release_platform
                    "/home/Downloads/orchestrator")).
    intros msg. reflexivity.
  - destruct (proj1 (proj2 (cleanupOldDownloads_removes_only_old_entries posix_path
                    Examples.full_disk_log Examples.release_platform
                    "/home/Downloads/orchestrator"))
                "ENOSPC: no space left on device, write" eq_refl) as [H|(cause & H)];
      [exact H|reflexivity].
Defined.

Lemma artifact_cli_reports_only_validated_artifacts_witness :
  exists node,
    ArtifactDownloader.fs (ArtifactDownloaderMain.at_validate Examples.release_platform)
      "/home/Downloads/orchestrator/app-release" = Some node /\
    node_size node <> 0%N.
Proof.
  apply (proj1 (artifact_cli_reports_only_validated_artifacts posix_path
                  Examples.release_platform ["github"; "u/r"; "42"; "app-release"; "--json"]
                  _ _ (surjective_pairing _))
           "/home/Downloads/orchestrator/app-release" "github").
  vm_compute. repeat (first [left; reflexivity | right]).
Defined.


